(** * markdown-to-notion: the conversion service, modelled and verified

    The development follows [src/services/htmlToNotionService.ts]:

    - [JsString]: the JavaScript string primitives the service calls
      ([trim], [toLowerCase], [indexOf], [substring], [split], ...);
    - [Regex]: a backtracking matcher for the regular-expression literals of
      the service, with the priority order of ECMAScript (leftmost start,
      greedy or lazy quantifiers, capture groups, [^] and [$]);
    - [Service]: the methods of [HtmlToNotionService], in the order of the
      source file, the network and the clock being an explicit world;
    - [Routes]: the handlers of [src/routes/markdown.ts] that call the
      service.

    A JavaScript string is a [string] whose characters are the code units
    0..255 (ASCII and Latin-1).  White space, line terminators and case
    mapping are those of ECMAScript on that range.  The texts of messages
    are kept as the bytes of the source file.

    Where a regular expression is quoted in a comment, a space separates a
    star from a closing parenthesis that follows it, and Q stands for the
    double quote. *)

From Stdlib Require Import Strings.String Strings.Ascii Lists.List.
From Stdlib Require Import Arith.Arith Bool.Bool micromega.Lia.
Import ListNotations.

Local Open Scope list_scope.
Local Open Scope string_scope.

(* ================================================================== *)
(** ** JavaScript strings *)
(* ================================================================== *)

Module JsString.

(** Line feed and carriage return. *)
Definition LF : ascii := "010"%char.
Definition CR : ascii := "013"%char.
Definition nl : string := String LF "".

(** [WhiteSpace] and [LineTerminator] of ECMAScript below U+0100: TAB, LF,
    VT, FF, CR, SP and NBSP.  This is the class [\s] and what [trim]
    removes. *)
Definition isWhiteSpace (c : ascii) : bool :=
  let n := nat_of_ascii c in
  (((9 <=? n) && (n <=? 13)) || (n =? 32) || (n =? 160))%nat.

Definition isLineTerminator (c : ascii) : bool :=
  let n := nat_of_ascii c in ((n =? 10) || (n =? 13))%nat.

(** [\w] *)
Definition isWordChar (c : ascii) : bool :=
  let n := nat_of_ascii c in
  (((48 <=? n) && (n <=? 57)) || ((65 <=? n) && (n <=? 90))
   || ((97 <=? n) && (n <=? 122)) || (n =? 95))%nat.

(** [String.prototype.toLowerCase] on one code unit: A-Z, and the Latin-1
    capitals U+00C0..U+00DE without the multiplication sign U+00D7. *)
Definition toLowerChar (c : ascii) : ascii :=
  let n := nat_of_ascii c in
  if (((65 <=? n) && (n <=? 90))
      || ((192 <=? n) && (n <=? 222) && negb (n =? 215)))%nat
  then ascii_of_nat (n + 32) else c.

Fixpoint toLowerCase (s : string) : string :=
  match s with
  | "" => ""
  | String c s' => String (toLowerChar c) (toLowerCase s')
  end.

(** A string is truthy when it is not empty. *)
Definition truthy (s : string) : bool :=
  match s with "" => false | _ => true end.

Fixpoint trimStart (s : string) : string :=
  match s with
  | "" => ""
  | String c s' => if isWhiteSpace c then trimStart s' else s
  end.

Fixpoint trimEnd (s : string) : string :=
  match s with
  | "" => ""
  | String c s' =>
      match trimEnd s' with
      | "" => if isWhiteSpace c then "" else String c ""
      | t => String c t
      end
  end.

Definition trim (s : string) : string := trimEnd (trimStart s).

Fixpoint drop (n : nat) (s : string) : string :=
  match n, s with
  | 0, _ => s
  | S _, "" => ""
  | S n', String _ s' => drop n' s'
  end.

Fixpoint take (n : nat) (s : string) : string :=
  match n, s with
  | 0, _ => ""
  | S _, "" => ""
  | S n', String c s' => String c (take n' s')
  end.

(** [s.substring(a, b)]: the arguments are swapped when [a > b]; indices
    past the end stop at the end. *)
Definition substring (s : string) (a b : nat) : string :=
  let lo := Nat.min a b in
  let hi := Nat.max a b in
  take (hi - lo) (drop lo s).

(** [s[i]], [None] standing for [undefined]. *)
Definition charAt (s : string) (i : nat) : option ascii :=
  match drop i s with
  | String c _ => Some c
  | "" => None
  end.

Fixpoint startsWith (s pat : string) : bool :=
  match pat, s with
  | "", _ => true
  | String _ _, "" => false
  | String p pat', String c s' => Ascii.eqb c p && startsWith s' pat'
  end.

(** Index of the first occurrence of [pat] in [s], from the start. *)
Fixpoint find (pat s : string) : option nat :=
  if startsWith s pat then Some 0
  else match s with
       | "" => None
       | String _ s' => option_map S (find pat s')
       end.

(** [s.indexOf(pat, from)], [None] standing for -1. *)
Definition indexOf (s pat : string) (from : nat) : option nat :=
  let from' := Nat.min from (String.length s) in
  option_map (Nat.add from') (find pat (drop from' s)).

Definition includes (s pat : string) : bool :=
  match indexOf s pat 0 with Some _ => true | None => false end.

(** [s.split(sep)] for a separator of one character. *)
Fixpoint split (sep : ascii) (s : string) : list string :=
  match s with
  | "" => [""]
  | String c s' =>
      if Ascii.eqb c sep then "" :: split sep s'
      else match split sep s' with
           | [] => [String c ""]
           | l :: ls => String c l :: ls
           end
  end.

Definition endsWith (s pat : string) : bool :=
  (String.length pat <=? String.length s)%nat
  && (drop (String.length s - String.length pat) s =? pat)%string.

(** [xs.join(sep)] *)
Fixpoint join (sep : string) (xs : list string) : string :=
  match xs with
  | [] => ""
  | [x] => x
  | x :: xs' => x ++ sep ++ join sep xs'
  end.

End JsString.

(* ================================================================== *)
(** ** Regular expressions *)
(* ================================================================== *)

Module Regex.
Import JsString.

(** The regular expressions of the service quantify character classes
    only, so [Star] takes a class.  [Star p true] is the greedy [p*],
    [Star p false] the lazy [p*?]. *)
Inductive re : Type :=
| Eps
| Chr (c : ascii)
| Cls (p : ascii -> bool)
| Seq (r1 r2 : re)
| Alt (r1 r2 : re)
| Opt (r : re)
| Star (p : ascii -> bool) (greedy : bool)
| Grp (n : nat) (r : re)
| Bol (multiline : bool)
| Eol (multiline : bool).

(** A literal string. *)
Fixpoint lit (s : string) : re :=
  match s with
  | "" => Eps
  | String c s' => Seq (Chr c) (lit s')
  end.

Definition Plus (p : ascii -> bool) (greedy : bool) : re :=
  Seq (Cls p) (Star p greedy).

Fixpoint seq (rs : list re) : re :=
  match rs with
  | [] => Eps
  | [r] => r
  | r :: rs' => Seq r (seq rs')
  end.

(** Character classes. *)
Definition dot (c : ascii) : bool := negb (isLineTerminator c).
Definition any (_ : ascii) : bool := true.
Definition one (c : ascii) : ascii -> bool := Ascii.eqb c.
Definition non (c : ascii) (x : ascii) : bool := negb (Ascii.eqb c x).
Definition between (lo hi : ascii) (x : ascii) : bool :=
  ((nat_of_ascii lo <=? nat_of_ascii x)
   && (nat_of_ascii x <=? nat_of_ascii hi))%nat.

(** Where the matcher stands: the character before, the index, what is
    left of the input, and the captures so far (latest first). *)
Record cursor : Type := Cursor {
  prev : option ascii;
  pos : nat;
  rest : string;
  caps : list (nat * string)
}.

Definition step (c : ascii) (s' : string) (st : cursor) : cursor :=
  Cursor (Some c) (S (pos st)) s' (caps st).

Definition capture (n : nat) (from to : cursor) : cursor :=
  Cursor (prev to) (pos to) (rest to)
         ((n, take (pos to - pos from) (rest from)) :: caps to).

Definition at_bol (multiline : bool) (st : cursor) : bool :=
  match prev st with
  | None => true
  | Some c => multiline && isLineTerminator c
  end.

Definition at_eol (multiline : bool) (st : cursor) : bool :=
  match rest st with
  | "" => true
  | String c _ => multiline && isLineTerminator c
  end.

(** [p*] or [p*?] followed by the continuation [k]. *)
Fixpoint star (p : ascii -> bool) (greedy : bool)
         (k : cursor -> option cursor)
         (pv : option ascii) (i : nat) (cs : list (nat * string))
         (s : string) {struct s} : option cursor :=
  if greedy then
    match
      match s with
      | String c s' => if p c then star p greedy k (Some c) (S i) cs s' else None
      | "" => None
      end
    with
    | Some r => Some r
    | None => k (Cursor pv i s cs)
    end
  else
    match k (Cursor pv i s cs) with
    | Some r => Some r
    | None =>
        match s with
        | String c s' => if p c then star p greedy k (Some c) (S i) cs s' else None
        | "" => None
        end
    end.

(** The backtracking matcher, in continuation-passing style: [mt r k st]
    tries the ways [r] can match at [st] in priority order and returns the
    first one the continuation [k] accepts. *)
Fixpoint mt (r : re) (k : cursor -> option cursor) (st : cursor)
  : option cursor :=
  match r with
  | Eps => k st
  | Chr c =>
      match rest st with
      | String c' s' => if Ascii.eqb c c' then k (step c' s' st) else None
      | "" => None
      end
  | Cls p =>
      match rest st with
      | String c' s' => if p c' then k (step c' s' st) else None
      | "" => None
      end
  | Seq r1 r2 => mt r1 (mt r2 k) st
  | Alt r1 r2 =>
      match mt r1 k st with
      | Some x => Some x
      | None => mt r2 k st
      end
  | Opt r1 =>
      match mt r1 k st with
      | Some x => Some x
      | None => k st
      end
  | Star p greedy => star p greedy k (prev st) (pos st) (caps st) (rest st)
  | Grp n r1 => mt r1 (fun st' => k (capture n st st')) st
  | Bol m => if at_bol m st then k st else None
  | Eol m => if at_eol m st then k st else None
  end.

(** A successful match: [m.index], [m[0]] and the groups. *)
Record rmatch : Type := Match {
  m_index : nat;
  m_text : string;
  m_caps : list (nat * string)
}.

(** [m[n]]; a group that did not take part reads as the empty string, which
    is how the service uses it ([m[n] || default], ['$n']). *)
Fixpoint lookup (n : nat) (cs : list (nat * string)) : string :=
  match cs with
  | [] => ""
  | (k, v) :: cs' => if (k =? n)%nat then v else lookup n cs'
  end.

Definition group (n : nat) (m : rmatch) : string := lookup n (m_caps m).

(** One attempt at a given position. *)
Definition match_at (r : re) (pv : option ascii) (i : nat) (s : string)
  : option rmatch :=
  match mt r Some (Cursor pv i s []) with
  | Some c => Some (Match i (take (pos c - i) s) (caps c))
  | None => None
  end.

(** The leftmost match at or after the current position. *)
Fixpoint search (r : re) (pv : option ascii) (i : nat) (s : string)
  : option rmatch :=
  match match_at r pv i s with
  | Some m => Some m
  | None =>
      match s with
      | "" => None
      | String c s' => search r (Some c) (S i) s'
      end
  end.

(** [s.match(r)] and [r.exec(s)] for a regular expression without [g]. *)
Definition exec (r : re) (s : string) : option rmatch := search r None 0 s.

Definition test (r : re) (s : string) : bool :=
  match exec r s with Some _ => true | None => false end.

(** The successive matches of a global regular expression, with the
    characters in between.  After a match the next attempt is at its end
    (one character further after an empty match); [skip] counts the
    characters of the last match still to be passed. *)
Inductive piece : Type :=
| Keep (c : ascii)
| Hit (m : rmatch).

Fixpoint scan (r : re) (pv : option ascii) (i : nat) (skip : nat)
         (s : string) {struct s} : list piece :=
  match skip with
  | S k =>
      match s with
      | "" => []
      | String c s' => scan r (Some c) (S i) k s'
      end
  | 0 =>
      match match_at r pv i s with
      | Some m =>
          Hit m ::
          match s with
          | "" => []
          | String c s' =>
              match String.length (m_text m) with
              | 0 => Keep c :: scan r (Some c) (S i) 0 s'
              | S k => scan r (Some c) (S i) k s'
              end
          end
      | None =>
          match s with
          | "" => []
          | String c s' => Keep c :: scan r (Some c) (S i) 0 s'
          end
      end
  end.

Fixpoint render (f : rmatch -> string) (ps : list piece) : string :=
  match ps with
  | [] => ""
  | Keep c :: ps' => String c (render f ps')
  | Hit m :: ps' => f m ++ render f ps'
  end.

(** [s.replace(/r/g, f)] *)
Definition replace_all (r : re) (f : rmatch -> string) (s : string) : string :=
  render f (scan r None 0 0 s).

(** [s.replace(/r/, f)] *)
Definition replace (r : re) (f : rmatch -> string) (s : string) : string :=
  match exec r s with
  | Some m =>
      take (m_index m) s ++ f m
      ++ drop (m_index m + String.length (m_text m)) s
  | None => s
  end.

(** The matches of [while ((m = r.exec(s)) !== null)] for a global [r]
    that matches no empty string. *)
Fixpoint hits (ps : list piece) : list rmatch :=
  match ps with
  | [] => []
  | Keep _ :: ps' => hits ps'
  | Hit m :: ps' => m :: hits ps'
  end.

Definition exec_all (r : re) (s : string) : list rmatch :=
  hits (scan r None 0 0 s).

End Regex.

(* ================================================================== *)
(** ** The service *)
(* ================================================================== *)

Module Service.
Import JsString Regex.

(** The double quote, as a character and as a string. *)
Definition dq : ascii := "034"%char.
Definition DQ : string := String dq "".

Definition const (s : string) (_ : rmatch) : string := s.

(** *** Data *)

(** What a property read can give where the source expects a string: a
    string, or a member the object inherits from [Object.prototype]
    (a function or an object, never a string). *)
Inductive jsval : Type :=
| VStr (s : string)
| VInherited (key : string).

Definition js_truthy (v : jsval) : bool :=
  match v with
  | VStr s => truthy s
  | VInherited _ => true
  end.

Record annotations : Type := Annotations {
  bold : bool;
  italic : bool;
  strikethrough : bool;
  code : bool;
  color : option string
}.

Definition ann_bold : annotations := Annotations true false false false None.
Definition ann_italic : annotations := Annotations false true false false None.
Definition ann_strikethrough : annotations :=
  Annotations false false true false None.
Definition ann_code : annotations := Annotations false false false true None.
Definition ann_italic_gray : annotations :=
  Annotations false true false false (Some "gray").

(** One entry of a [rich_text] array: [{ type: 'text', text: { content },
    annotations? }]. *)
Record rich_text : Type := RichText {
  text_content : string;
  text_annotations : option annotations
}.

Definition plain (s : string) : rich_text := RichText s None.
Definition styled (a : annotations) (s : string) : rich_text :=
  RichText s (Some a).

(** The blocks the service builds, one constructor per [type]. *)
Inductive block : Type :=
| Heading1 (rich : list rich_text)
| Heading2 (rich : list rich_text)
| Heading3 (rich : list rich_text)
| Paragraph (rich : list rich_text)
| CodeBlock (rich : list rich_text) (language : jsval)
| Quote (rich : list rich_text)
| BulletedListItem (rich : list rich_text)
| Image (url : string) (caption : list rich_text)
| Callout (rich : list rich_text) (emoji : string) (background : string)
| Divider.

Definition block_type (b : block) : string :=
  match b with
  | Heading1 _ => "heading_1"
  | Heading2 _ => "heading_2"
  | Heading3 _ => "heading_3"
  | Paragraph _ => "paragraph"
  | CodeBlock _ _ => "code"
  | Quote _ => "quote"
  | BulletedListItem _ => "bulleted_list_item"
  | Image _ _ => "image"
  | Callout _ _ _ => "callout"
  | Divider => "divider"
  end.

(** The [rich_text] array of a block, for the block types that have one. *)
Definition block_rich_text (b : block) : option (list rich_text) :=
  match b with
  | Heading1 r | Heading2 r | Heading3 r | Paragraph r | CodeBlock r _
  | Quote r | BulletedListItem r | Callout r _ _ => Some r
  | Image _ _ | Divider => None
  end.

(** The [attributes] of a scanned element: the object [parseAttributes]
    fills (latest assignment first), [{ language }] or [{ cells }]. *)
Inductive attributes : Type :=
| ImgAttrs (attrs : list (string * string))
| PreAttrs (language : jsval)
| RowAttrs (cells : list string).

Record element : Type := Element {
  tag : string;
  content : string;
  attrs_of : option attributes
}.

Fixpoint assoc (key : string) (kvs : list (string * string)) : option string :=
  match kvs with
  | [] => None
  | (k, v) :: kvs' => if (k =? key)%string then Some v else assoc key kvs'
  end.

(** [element.attributes.src] and [element.attributes.alt]; the empty
    string stands for a falsy read. *)
Definition attr (key : string) (e : element) : string :=
  match attrs_of e with
  | Some (ImgAttrs kvs) =>
      match assoc key kvs with Some v => v | None => "" end
  | _ => ""
  end.

(** *** cleanupHtml *)

(** [/\n\s*\n/g] *)
Definition re_blank_lines : re :=
  seq [Chr LF; Star isWhiteSpace true; Chr LF].
(** [/<p>\s*<\/p>/g] *)
Definition re_empty_p : re :=
  seq [lit "<p>"; Star isWhiteSpace true; lit "</p>"].
(** [/<img([^>]*?)>/g] *)
Definition re_img_close : re :=
  seq [lit "<img"; Grp 1 (Star (non ">") false); Chr ">"].

Definition cleanupHtml (html : string) : string :=
  let html := replace_all re_blank_lines (const nl) html in
  let html := replace_all re_empty_p (const "") html in
  let html := replace_all re_img_close
                (fun m => "<img" ++ group 1 m ++ " />") html in
  trim html.

(** *** fallbackMarkdownToHtml *)

(** [/^### (.*$)/gim], [/^## (.*$)/gim], [/^# (.*$)/gim]; the patterns
    have no letters, so the flag [i] changes nothing. *)
Definition re_md_heading (marks : string) : re :=
  seq [Bol true; lit marks; Chr " "; Grp 1 (Seq (Star dot true) (Eol true))].
(** [/\*\*(.*?)\*\*/g], [/\*(.*?)\*/g], [/`(.*?)`/g] *)
Definition re_md_span (mark : string) : re :=
  seq [lit mark; Grp 1 (Star dot false); lit mark].
(** [/```([\s\S]*?)```/g] *)
Definition re_md_fence : re :=
  seq [lit "```"; Grp 1 (Star any false); lit "```"].
(** [/!\[([^\]]* )\]\(([^)]+)\)/g] *)
Definition re_md_image : re :=
  seq [lit "!["; Grp 1 (Star (non "]") true); lit "](";
       Grp 2 (Plus (non ")") true); Chr ")"].
(** [/\[([^\]]+)\]\(([^)]+)\)/g] *)
Definition re_md_link : re :=
  seq [Chr "["; Grp 1 (Plus (non "]") true); lit "](";
       Grp 2 (Plus (non ")") true); Chr ")"].

Definition wrap (open : string) (close : string) (m : rmatch) : string :=
  open ++ group 1 m ++ close.

Definition fallbackMarkdownToHtml (markdown : string) : string :=
  let html := markdown in
  let html := replace_all (re_md_heading "###") (wrap "<h3>" "</h3>") html in
  let html := replace_all (re_md_heading "##") (wrap "<h2>" "</h2>") html in
  let html := replace_all (re_md_heading "#") (wrap "<h1>" "</h1>") html in
  let html := replace_all (re_md_span "**") (wrap "<strong>" "</strong>") html in
  let html := replace_all (re_md_span "*") (wrap "<em>" "</em>") html in
  let html := replace_all re_md_fence (wrap "<pre><code>" "</code></pre>") html in
  let html := replace_all (re_md_span "`") (wrap "<code>" "</code>") html in
  let html := replace_all re_md_image
                (fun m => "<img src=" ++ DQ ++ group 2 m ++ DQ
                          ++ " alt=" ++ DQ ++ group 1 m ++ DQ ++ " />") html in
  let html := replace_all re_md_link
                (fun m => "<a href=" ++ DQ ++ group 2 m ++ DQ ++ ">"
                          ++ group 1 m ++ "</a>") html in
  let html := replace_all (lit (nl ++ nl)) (const "</p><p>") html in
  let html := replace_all (lit nl) (const "<br />") html in
  let html := "<p>" ++ html ++ "</p>" in
  let html := replace_all (lit "<p></p>") (const "") html in
  let html := replace_all (lit "<p><br /></p>") (const "") html in
  html.

(** *** markdownToHtml

    The showdown converter is a library: [makeHtml] is a parameter, [None]
    when it throws. *)
Definition markdownToHtml (makeHtml : string -> option string)
           (markdown : string) : string :=
  match makeHtml markdown with
  | Some html => cleanupHtml html
  | None => fallbackMarkdownToHtml markdown
  end.

(** *** stripHtmlTags *)

(** [/<[^>]*>/g] *)
Definition re_tag : re := seq [Chr "<"; Star (non ">") true; Chr ">"].

Definition stripHtmlTags (html : string) : string :=
  let text := html in
  let text := replace_all re_tag (const "") text in
  let text := replace_all (lit "&lt;") (const "<") text in
  let text := replace_all (lit "&gt;") (const ">") text in
  let text := replace_all (lit "&amp;") (const "&") text in
  let text := replace_all (lit "&quot;") (const DQ) text in
  let text := replace_all (lit "&#39;") (const "'") text in
  trim text.

(** *** parseAttributes *)

Definition quote_char (c : ascii) : bool :=
  Ascii.eqb c dq || Ascii.eqb c "'".

(** [/(\w+)=[Q']([^Q']* )[Q']/g], where Q is the double quote *)
Definition re_attr : re :=
  seq [Grp 1 (Plus isWordChar true); Chr "="; Cls quote_char;
       Grp 2 (Star (fun c => negb (quote_char c)) true); Cls quote_char].

(** [attrs[match[1]] = match[2]] for each match in turn; the latest
    assignment is at the head.  [attrs] is an object literal: the name
    [__proto__] is the accessor it inherits from [Object.prototype], whose
    setter takes the assignment and does nothing with a string, so that
    no property is made. *)
Definition parseAttributes (attrString : string) : list (string * string) :=
  fold_left (fun attrs m =>
               if (group 1 m =? "__proto__")%string then attrs
               else (group 1 m, group 2 m) :: attrs)
            (exec_all re_attr attrString) [].

(** *** normalizeLanguage *)

Definition languageMap : list (string * string) :=
  [ ("js", "javascript"); ("ts", "typescript"); ("py", "python");
    ("rb", "ruby"); ("sh", "shell"); ("bash", "shell"); ("zsh", "shell");
    ("yml", "yaml"); ("md", "markdown"); ("jsx", "javascript");
    ("tsx", "typescript") ].

Definition supportedLanguages : list string :=
  [ "javascript"; "typescript"; "python"; "java"; "c"; "c++"; "c#";
    "ruby"; "go"; "rust"; "php"; "swift"; "kotlin"; "scala";
    "html"; "css"; "scss"; "sass"; "less"; "json"; "xml"; "yaml";
    "markdown"; "sql"; "shell"; "bash"; "powershell";
    "dockerfile"; "docker"; "makefile"; "plain text" ].

(** The properties every object literal inherits from [Object.prototype]. *)
Definition Object_prototype : list string :=
  [ "constructor"; "__defineGetter__"; "__defineSetter__";
    "hasOwnProperty"; "__lookupGetter__"; "__lookupSetter__";
    "isPrototypeOf"; "propertyIsEnumerable"; "toString"; "valueOf";
    "__proto__"; "toLocaleString" ].

Definition mem (x : string) (xs : list string) : bool :=
  existsb (String.eqb x) xs.

(** [obj[key]] for an object literal [obj] with the own properties [own]:
    an own property, else an inherited one, else [undefined]. *)
Definition get_property (own : list (string * string)) (key : string)
  : option jsval :=
  match assoc key own with
  | Some v => Some (VStr v)
  | None => if mem key Object_prototype then Some (VInherited key) else None
  end.

Definition normalizeLanguage (language : string) : jsval :=
  if negb (truthy language) || (language =? "plain text")%string then
    VStr "plain text"
  else
    let language := trim (toLowerCase language) in
    match get_property languageMap language with
    | Some v =>
        if js_truthy v then v
        else if mem language supportedLanguages then VStr language
        else VStr "plain text"
    | None =>
        if mem language supportedLanguages then VStr language
        else VStr "plain text"
    end.

(** *** preprocessCodeBlocks *)

(** [/<pre><code([^>]* )>([\s\S]*?)<\/code><\/pre>/g] *)
Definition re_pre_span : re :=
  seq [lit "<pre><code"; Grp 1 (Star (non ">") true); Chr ">";
       Grp 2 (Star any false); lit "</code></pre>"].

(** [content.replace(/\n/g, '\\n')]: a line feed becomes a backslash and
    the letter n. *)
Definition escape_newlines (content : string) : string :=
  replace_all (lit nl) (const "\n") content.

Definition preprocessCodeBlocks (html : string) : string :=
  replace_all re_pre_span
    (fun m =>
       let attrs := group 1 m in
       let processedContent := escape_newlines (group 2 m) in
       "<pre><code" ++ attrs ++ ">" ++ processedContent ++ "</code></pre>")
    html.

(** *** parseHtmlElements *)

(** [/<img\s+([^>]* )\s*\/?>/] *)
Definition re_img : re :=
  seq [lit "<img"; Plus isWhiteSpace true; Grp 1 (Star (non ">") true);
       Star isWhiteSpace true; Opt (Chr "/"); Chr ">"].
(** [/<h([1-6])>(.*?)<\/h[1-6]>/] *)
Definition re_heading : re :=
  seq [lit "<h"; Grp 1 (Cls (between "1" "6")); Chr ">";
       Grp 2 (Star dot false); lit "</h"; Cls (between "1" "6"); Chr ">"].
(** [/<pre><code(?:\s+class=Q([^Q]* )Q)?>([\s\S]*?)<\/code><\/pre>/] *)
Definition re_code_block : re :=
  seq [lit "<pre><code";
       Opt (seq [Plus isWhiteSpace true; lit "class="; Chr dq;
                 Grp 1 (Star (non dq) true); Chr dq]);
       Chr ">"; Grp 2 (Star any false); lit "</code></pre>"].
(** [/.*language-([^\s]+).*/] *)
Definition re_language : re :=
  seq [Star dot true; lit "language-";
       Grp 1 (Plus (fun c => negb (isWhiteSpace c)) true); Star dot true].
(** [/<blockquote>(.*?)<\/blockquote>/], [/<li>(.*?)<\/li>/],
    [/<tr>(.*?)<\/tr>/], [/<p>(.*?)<\/p>/] *)
Definition re_element (name : string) : re :=
  seq [lit ("<" ++ name ++ ">"); Grp 1 (Star dot false);
       lit ("</" ++ name ++ ">")].
(** [/<t[hd]>(.*?)<\/t[hd]>/g] *)
Definition h_or_d (c : ascii) : bool := Ascii.eqb c "h" || Ascii.eqb c "d".
Definition re_cell : re :=
  seq [lit "<t"; Cls h_or_d; Chr ">"; Grp 1 (Star dot false);
       lit "</t"; Cls h_or_d; Chr ">"].
(** [/<\/?table>|<\/?thead>|<\/?tbody>/] *)
Definition re_table_structure : re :=
  Alt (seq [Chr "<"; Opt (Chr "/"); lit "table>"])
      (Alt (seq [Chr "<"; Opt (Chr "/"); lit "thead>"])
           (seq [Chr "<"; Opt (Chr "/"); lit "tbody>"])).

(** The body of the loop over the lines: the element the line gives, or
    none. *)
Definition scan_line (line : string) : option element :=
  let trimmedLine := trim line in
  if negb (truthy trimmedLine) then None else
  match exec re_img trimmedLine with
  | Some imgMatch =>
      let attrs := parseAttributes (group 1 imgMatch) in
      Some (Element "img" "" (Some (ImgAttrs attrs)))
  | None =>
  match exec re_heading trimmedLine with
  | Some headingMatch =>
      Some (Element ("h" ++ group 1 headingMatch) (group 2 headingMatch) None)
  | None =>
  match exec re_code_block trimmedLine with
  | Some codeBlockMatch =>
      let language :=
        if truthy (group 1 codeBlockMatch) then group 1 codeBlockMatch
        else "plain text" in
      let language :=
        if includes language "language-"
        then replace re_language (fun m => group 1 m) language
        else language in
      let language := normalizeLanguage language in
      Some (Element "pre" (group 2 codeBlockMatch) (Some (PreAttrs language)))
  | None =>
  match exec (re_element "blockquote") trimmedLine with
  | Some blockquoteMatch =>
      Some (Element "blockquote" (group 1 blockquoteMatch) None)
  | None =>
  match exec (re_element "li") trimmedLine with
  | Some listItemMatch => Some (Element "li" (group 1 listItemMatch) None)
  | None =>
  match exec (re_element "tr") trimmedLine with
  | Some tableRowMatch =>
      let cells :=
        map (fun cellMatch => stripHtmlTags (group 1 cellMatch))
            (exec_all re_cell (group 1 tableRowMatch)) in
      if (0 <? List.length cells)%nat
      then Some (Element "table-row" "" (Some (RowAttrs cells)))
      else None
  | None =>
  if test re_table_structure trimmedLine then None else
  match exec (re_element "p") trimmedLine with
  | Some paragraphMatch =>
      let content := group 1 paragraphMatch in
      if truthy (trim content) then Some (Element "p" content None) else None
  | None =>
      if truthy trimmedLine && negb (startsWith trimmedLine "<")
         && negb (endsWith trimmedLine ">")
      then Some (Element "p" trimmedLine None)
      else None
  end end end end end end end.

Fixpoint omap {A B : Type} (f : A -> option B) (xs : list A) : list B :=
  match xs with
  | [] => []
  | x :: xs' =>
      match f x with
      | Some y => y :: omap f xs'
      | None => omap f xs'
      end
  end.

Definition parseHtmlElements (html : string) : list element :=
  let html := preprocessCodeBlocks html in
  let lines := filter (fun line => truthy (trim line)) (split LF html) in
  omap scan_line lines.

(** *** htmlToRichText *)

Definition push {A : Type} (xs : list A) (x : A) : list A := (xs ++ [x])%list.

(** [html[i]] read as a string: ["undefined"] past the end. *)
Definition char_string (html : string) (i : nat) : string :=
  match charAt html i with
  | Some c => String c ""
  | None => "undefined"
  end.

(** One of the four branches for a styled span, once the opening tag is
    read and [i] stands after it: with the closing tag at [closeTag], push
    the run and go on [skip] characters after [closeTag]; without it, go
    on from [i]. *)
Definition span_branch (loop : nat -> list rich_text -> option (string * list rich_text))
           (html : string) (i : nat) (closeTag : option nat) (skip : nat)
           (style : annotations) (richText : list rich_text)
  : option (string * list rich_text) :=
  match closeTag with
  | Some closeTag =>
      let content := substring html i closeTag in
      loop (closeTag + skip)
           (push richText (styled style (stripHtmlTags content)))
  | None => loop i richText
  end.

(** The [while (i < html.length)] loop.  Each turn moves [i] forward or
    leaves the loop, so [S (length html)] turns are enough; [None] is a
    loop cut short by [fuel]. *)
Fixpoint tokenize (fuel : nat) (html : string) (i : nat)
         (currentText : string) (richText : list rich_text)
  : option (string * list rich_text) :=
  match fuel with
  | 0 => None
  | S fuel' =>
      if (i <? String.length html)%nat then
        if (char_string html i =? "<")%string then
          let richText :=
            if truthy currentText then push richText (plain currentText)
            else richText in
          let currentText := "" in
          match indexOf html ">" i with
          | None => Some (currentText, richText)
          | Some tagEnd =>
              let tag := substring html i (tagEnd + 1) in
              let i := tagEnd + 1 in
              let loop := fun i richText =>
                            tokenize fuel' html i currentText richText in
              if startsWith tag "<strong>" then
                span_branch loop html i (indexOf html "</strong>" i) 9
                            ann_bold richText
              else if startsWith tag "<em>" then
                span_branch loop html i (indexOf html "</em>" i) 5
                            ann_italic richText
              else if startsWith tag "<code>" then
                span_branch loop html i (indexOf html "</code>" i) 7
                            ann_code richText
              else if startsWith tag "<del>" || startsWith tag "<s>" then
                span_branch loop html i
                  (match indexOf html "</del>" i with
                   | Some k => Some k
                   | None => indexOf html "</s>" i
                   end)
                  (match indexOf html "</del>" i with
                   | Some _ => 6
                   | None => 4
                   end)
                  ann_strikethrough richText
              else loop i richText
          end
        else
          tokenize fuel' html (i + 1) (currentText ++ char_string html i)
                   richText
      else Some (currentText, richText)
  end.

Definition htmlToRichText (html : string) : list rich_text :=
  match tokenize (S (String.length html)) html 0 "" [] with
  | Some (currentText, richText) =>
      let richText :=
        if truthy currentText then push richText (plain currentText)
        else richText in
      if (0 <? List.length richText)%nat then richText else [plain html]
  | None => []
  end.

(** *** extractTitleFromContent *)

(** [/^#\s+(.+)$/m] and [/^##\s+(.+)$/m] *)
Definition re_title (marks : string) : re :=
  seq [Bol true; lit marks; Plus isWhiteSpace true;
       Grp 1 (Plus dot true); Eol true].
(** [/^#+\s*/] *)
Definition re_leading_marks : re :=
  seq [Bol false; Plus (one "#") true; Star isWhiteSpace true].

Definition untitled : string := "未命名文档".

Definition extractTitleFromContent (content : string) : string :=
  match exec (re_title "#") content with
  | Some h1Match => trim (group 1 h1Match)
  | None =>
      match exec (re_title "##") content with
      | Some h2Match => trim (group 1 h2Match)
      | None =>
          let firstLine := hd "" (split LF content) in
          if truthy firstLine
          then trim (replace re_leading_marks (const "") firstLine)
          else untitled
      end
  end.

(** *** The world: converter, network and clock *)

(** A thrown value: whether it is an [Error] instance, its message, and
    the HTTP status attached to it, if any. *)
Record thrown : Type := Thrown {
  is_Error : bool;
  message : string;
  statusCode : option nat
}.

(** What leaves the process, in order; a request is logged with its
    answer ([None] for a rejected [fetch]). *)
Inductive event : Type :=
| Fetch (url : string) (response : option bool)
| PagesCreate (parent title : string)
| BlocksAppend (block_id : string) (children : list block)
| Delay (ms : nat).

Record HtmlToNotionResult : Type := Result {
  success : bool;
  notionPageId : string;
  title : string;
  timestamp : string;
  blocksCreated : nat;
  imagesProcessed : nat;
  batches : nat
}.

Inductive outcome (A : Type) : Type :=
| Returned (a : A)
| Threw (e : thrown).
Arguments Returned {A} a.
Arguments Threw {A} e.

Section World.

(** The state of everything outside the service. *)
Variable W : Type.

(** - [makeHtml]: the showdown converter, [None] when it throws;
    - [url_parses]: whether [new URL(url)] succeeds;
    - [fetch_head]: the HEAD request, giving [response.ok], or [None]
      when [fetch] rejects;
    - [pages_create], [blocks_append]: the Notion client, each call
      resolving or rejecting;
    - [sleep]: what a pause does to the world;
    - [toISOString], [toLocaleString]: [new Date()] rendered;
    - [createError_is_Error]: whether the errors [createError] builds
      are instances of [Error]. *)
Record platform : Type := Platform {
  makeHtml : string -> option string;
  url_parses : string -> bool;
  fetch_head : string -> W -> option bool * W;
  pages_create : string -> string -> W -> (thrown + string) * W;
  blocks_append : string -> list block -> W -> option thrown * W;
  sleep : nat -> W -> W;
  toISOString : W -> string;
  toLocaleString : W -> string;
  createError_is_Error : bool
}.

Variable P : platform.

Record state : Type := State {
  world : W;
  trace : list event
}.

(** Computations that read and change the world, log events, and return
    or throw. *)
Definition M (A : Type) : Type := state -> outcome A * state.

Definition ret {A : Type} (a : A) : M A := fun st => (Returned a, st).

Definition throw {A : Type} (e : thrown) : M A := fun st => (Threw e, st).

Definition bind {A B : Type} (c : M A) (k : A -> M B) : M B :=
  fun st =>
    match c st with
    | (Returned a, st') => k a st'
    | (Threw e, st') => (Threw e, st')
    end.

Definition try_catch {A : Type} (c : M A) (handler : thrown -> M A) : M A :=
  fun st =>
    match c st with
    | (Returned a, st') => (Returned a, st')
    | (Threw e, st') => handler e st'
    end.

Definition emit (e : event) (st : state) : state :=
  State (world st) (push (trace st) e).

Local Notation "x <- c ;; k" := (bind c (fun x => k))
  (at level 61, c at next level, right associativity).
Local Notation "c ;;; k" := (bind c (fun _ => k))
  (at level 61, right associativity).

(** Modelled from the spec: [createError] of [middleware/errorHandler],
    which is not among the sources: an error that carries the message
    and the HTTP status it is reported with. *)
Definition createError (msg : string) (status : nat) : thrown :=
  Thrown (createError_is_Error P) msg (Some status).

(** *** verifyImageUrl

    The headers of the request hold [new URL(url).origin], so a URL
    that does not parse throws before anything is sent. *)
Definition verifyImageUrl (url : string) : M bool :=
  fun st =>
    if url_parses P url then
      let (response, w') := fetch_head P url (world st) in
      (Returned (match response with Some ok => ok | None => false end),
       emit (Fetch url response) (State w' (trace st)))
    else (Returned false, st).

(** *** elementToNotionBlock *)

(** [element.attributes?.language] *)
Definition language_of (e : element) : option jsval :=
  match attrs_of e with
  | Some (PreAttrs v) => Some v
  | Some (ImgAttrs kvs) => option_map VStr (assoc "language" kvs)
  | _ => None
  end.

Definition unreachable_text (alt src : string) : string :=
  "图片无法显示: " ++ (if truthy alt then alt else "图片") ++ nl
  ++ "链接: " ++ src ++ nl
  ++ "原因: 图片链接无法访问或有访问限制".

Definition elementToNotionBlock (e : element) : M (option block) :=
  if (tag e =? "h1")%string then
    ret (Some (Heading1 (htmlToRichText (content e))))
  else if (tag e =? "h2")%string then
    ret (Some (Heading2 (htmlToRichText (content e))))
  else if (tag e =? "h3")%string then
    ret (Some (Heading3 (htmlToRichText (content e))))
  else if (tag e =? "p")%string then
    if negb (truthy (trim (content e))) then ret None
    else ret (Some (Paragraph (htmlToRichText (content e))))
  else if (tag e =? "pre")%string then
    let codeContent := replace_all (lit "\n") (const nl) (content e) in
    ret (Some (CodeBlock [plain codeContent]
                 (match language_of e with
                  | Some v => if js_truthy v then v else VStr "plain text"
                  | None => VStr "plain text"
                  end)))
  else if (tag e =? "blockquote")%string then
    ret (Some (Quote (htmlToRichText (content e))))
  else if (tag e =? "li")%string then
    ret (Some (BulletedListItem (htmlToRichText (content e))))
  else if (tag e =? "table-row")%string then
    match attrs_of e with
    | Some (RowAttrs cells) =>
        let cellsText := join " | " cells in
        ret (Some (Paragraph [styled ann_code ("| " ++ cellsText ++ " |")]))
    | Some (ImgAttrs kvs) =>
        match assoc "cells" kvs with
        | Some v =>
            if truthy v
            then throw (Thrown true
                          "element.attributes.cells.join is not a function"
                          None)
            else ret None
        | None => ret None
        end
    | _ => ret None
    end
  else if (tag e =? "img")%string then
    if truthy (attr "src" e) then
      isAccessible <- verifyImageUrl (attr "src" e) ;;
      if isAccessible : bool then
        ret (Some (Image (attr "src" e)
                     (if truthy (attr "alt" e) then [plain (attr "alt" e)]
                      else [])))
      else
        ret (Some (Callout [plain (unreachable_text (attr "alt" e)
                                     (attr "src" e))]
                     "📷" "yellow_background"))
    else ret None
  else ret None.

(** *** htmlToNotionBlocks *)

Fixpoint build_blocks (elements : list element) (blocks : list block)
  : M (list block) :=
  match elements with
  | [] => ret blocks
  | element :: elements' =>
      block <- elementToNotionBlock element ;;
      build_blocks elements'
        (match block with
         | Some b => push blocks b
         | None => blocks
         end)
  end.

Definition htmlToNotionBlocks (html : string) : M (list block) :=
  build_blocks (parseHtmlElements html) [].

(** *** markdownToNotion *)

Definition BATCH_SIZE : nat := 100.

Definition slice {A : Type} (xs : list A) (from to : nat) : list A :=
  firstn (to - from) (skipn from xs).

Definition pagesCreate (parent title : string) : M string :=
  fun st =>
    let (r, w') := pages_create P parent title (world st) in
    let st' := emit (PagesCreate parent title) (State w' (trace st)) in
    match r with
    | inr id => (Returned id, st')
    | inl e => (Threw e, st')
    end.

Definition blocksAppend (block_id : string) (children : list block) : M unit :=
  fun st =>
    let (r, w') := blocks_append P block_id children (world st) in
    let st' := emit (BlocksAppend block_id children) (State w' (trace st)) in
    match r with
    | None => (Returned tt, st')
    | Some e => (Threw e, st')
    end.

Definition delay (ms : nat) : M unit :=
  fun st =>
    (Returned tt, emit (Delay ms) (State (sleep P ms (world st)) (trace st))).

(** [new Date().toLocaleString()] *)
Definition localeNow : M string :=
  fun st => (Returned (toLocaleString P (world st)), st).

(** The loop [for (let i = 0; i < allBlocks.length; i += BATCH_SIZE)].
    [i] grows by 100 each turn, so with [length allBlocks - i] turns of
    [fuel] or more the loop ends by its own test, whatever the fuel is. *)
Fixpoint submit (fuel : nat) (allBlocks : list block) (page : string)
         (i : nat) (totalBlocksCreated : nat) : M nat :=
  match fuel with
  | 0 => ret totalBlocksCreated
  | S fuel' =>
      if (i <? List.length allBlocks)%nat then
        let batch := slice allBlocks i (i + BATCH_SIZE) in
        blocksAppend page batch ;;;
        let totalBlocksCreated := totalBlocksCreated + List.length batch in
        (if (i + BATCH_SIZE <? List.length allBlocks)%nat
         then delay 200 else ret tt) ;;;
        submit fuel' allBlocks page (i + BATCH_SIZE) totalBlocksCreated
      else ret totalBlocksCreated
  end.

Definition timestampBlock (locale : string) : block :=
  Paragraph [styled ann_italic_gray ("创建时间: " ++ locale)].

Definition dividerBlock : block := Divider.

(** [Math.ceil(n / BATCH_SIZE)] *)
Definition ceil_div (n d : nat) : nat := (n + (d - 1)) / d.

Definition is_image (b : block) : bool := (block_type b =? "image")%string.

Definition markdownToNotion (content notionApiKey parentPageId : string)
           (title : option string) : M HtmlToNotionResult :=
  fun st0 =>
  let timestamp := toISOString P (world st0) in
  try_catch
    ((if negb (truthy notionApiKey)
      then throw (createError "缺少notion_api_key参数" 400) else ret tt) ;;;
     (if negb (truthy parentPageId)
      then throw (createError "缺少notion_page_id参数" 400) else ret tt) ;;;
     let htmlContent := markdownToHtml (makeHtml P) content in
     blocks <- htmlToNotionBlocks htmlContent ;;
     let pageTitle :=
       match title with
       | Some t => if truthy t then t else extractTitleFromContent content
       | None => extractTitleFromContent content
       end in
     newPage <- pagesCreate parentPageId pageTitle ;;
     locale <- localeNow ;;
     let allBlocks := timestampBlock locale :: dividerBlock :: blocks in
     totalBlocksCreated <-
       submit (List.length allBlocks) allBlocks newPage 0 0 ;;
     let imagesProcessed := List.length (filter is_image blocks) in
     ret (Result true newPage pageTitle timestamp totalBlocksCreated
            imagesProcessed (ceil_div (List.length allBlocks) BATCH_SIZE)))
    (fun error =>
       if is_Error error
       then throw (createError ("创建子页面失败: " ++ message error) 500)
       else throw (createError "创建子页面过程中发生未知错误" 500))
    st0.

Definition run {A : Type} (c : M A) (w : W) : outcome A * state :=
  c (State w []).

End World.

Arguments Platform {W}.
Arguments makeHtml {W}.
Arguments url_parses {W}.
Arguments fetch_head {W}.
Arguments pages_create {W}.
Arguments blocks_append {W}.
Arguments sleep {W}.
Arguments toISOString {W}.
Arguments toLocaleString {W}.
Arguments createError_is_Error {W}.
Arguments State {W}.
Arguments world {W}.
Arguments trace {W}.
Arguments ret {W A}.
Arguments throw {W A}.
Arguments bind {W A B}.
Arguments try_catch {W A}.
Arguments emit {W}.
Arguments run {W A}.
Arguments createError {W}.
Arguments verifyImageUrl {W}.
Arguments elementToNotionBlock {W}.
Arguments build_blocks {W}.
Arguments htmlToNotionBlocks {W}.
Arguments pagesCreate {W}.
Arguments blocksAppend {W}.
Arguments delay {W}.
Arguments localeNow {W}.
Arguments submit {W}.
Arguments markdownToNotion {W}.

End Service.

(* ================================================================== *)
(** ** The routes *)
(* ================================================================== *)

(** [src/routes/markdown.ts]: the two handlers that call the service.  The
    fields of a request body that the handlers read are strings or absent;
    [next(error)] and [res.json(...)] are the two ways a handler answers. *)
Module Routes.
Import JsString Regex Service.

(** [req.file], as multer leaves it: the name the client gave, the media
    type, and the bytes read as UTF-8. *)
Record MulterFile : Type := File {
  originalname : string;
  mimetype : string;
  buffer : string
}.

(** [req.body] *)
Record Body : Type := MakeBody {
  content : option string;
  title : option string;
  notion_api_key : option string;
  notion_page_id : option string
}.

Record Request : Type := MakeRequest {
  file : option MulterFile;
  body : Body
}.

Inductive Response : Type :=
| Json (success : bool) (message : string) (data : HtmlToNotionResult)
| Next (error : thrown).

(** A field that is there and not empty. *)
Definition present (field : option string) : bool :=
  match field with
  | Some s => truthy s
  | None => false
  end.

Definition value (field : option string) : string :=
  match field with
  | Some s => s
  | None => ""
  end.

(** The [fileFilter] of the upload: what it hands to [cb]. *)
Definition fileFilter (file : MulterFile) : bool :=
  (mimetype file =? "text/markdown")%string
  || endsWith (originalname file) ".md".

Section Handlers.

Variable W : Type.
Variable P : platform W.

Local Notation "x <- c ;; k" := (bind c (fun x => k))
  (at level 61, c at next level, right associativity).
Local Notation "c ;;; k" := (bind c (fun _ => k))
  (at level 61, right associativity).

(** [router.post('/sync', ...)] *)
Definition sync (req : Request) : M W Response :=
  try_catch
    ((if negb (present (content (body req)))
      then throw (createError P "缺少markdown内容" 400) else ret tt) ;;;
     (if negb (present (notion_api_key (body req)))
      then throw (createError P "缺少notion_api_key参数" 400) else ret tt) ;;;
     (if negb (present (notion_page_id (body req)))
      then throw (createError P "缺少notion_page_id参数" 400) else ret tt) ;;;
     result <- markdownToNotion P (value (content (body req)))
                 (value (notion_api_key (body req)))
                 (value (notion_page_id (body req)))
                 (title (body req)) ;;
     ret (Json true "notion 页面创建成功" result))
    (fun error => ret (Next error)).

(** [router.post('/upload', upload.single('file'), ...)]: the handler that
    runs after multer.  [originalname.replace('.md', '')] takes out the
    first [.md] of the name. *)
Definition upload (req : Request) : M W Response :=
  try_catch
    (match file req with
     | None => throw (createError P "未找到上传的文件" 400)
     | Some f =>
         (if negb (present (notion_api_key (body req)))
          then throw (createError P "缺少notion_api_key参数" 400)
          else ret tt) ;;;
         (if negb (present (notion_page_id (body req)))
          then throw (createError P "缺少notion_page_id参数" 400)
          else ret tt) ;;;
         let content := buffer f in
         let title :=
           if present (title (body req)) then value (title (body req))
           else replace (lit ".md") (const "") (originalname f) in
         result <- markdownToNotion P content
                     (value (notion_api_key (body req)))
                     (value (notion_page_id (body req)))
                     (Some title) ;;
         ret (Json true "文件上传并创建子页面成功" result)
     end)
    (fun error => ret (Next error)).

End Handlers.

Arguments sync {W}.
Arguments upload {W}.

End Routes.

(* ================================================================== *)
(** ** Properties *)
(* ================================================================== *)

Import JsString Regex Service.

(** A platform for closed examples: the converter hands its input back (the
    examples are written in HTML), every URL parses, [reachable] answers the
    HEAD requests, and the Notion client accepts every call. *)
Definition stub (reachable : string -> bool) : platform unit :=
  Platform (fun markdown => Some markdown)
           (fun _ => true)
           (fun url w => (Some (reachable url), w))
           (fun _ _ w => (inr "page-1", w))
           (fun _ _ w => (None, w))
           (fun _ w => w)
           (fun _ => "2024-01-01T00:00:00.000Z")
           (fun _ => "2024/1/1 00:00:00")
           true.

Definition img_line (src alt : string) : string :=
  "<p><img src=" ++ DQ ++ src ++ DQ ++ " alt=" ++ DQ ++ alt ++ DQ ++ " /></p>".

Definition three_images : string :=
  img_line "http://h/a.png" "a" ++ nl ++ img_line "http://h/b.png" "b" ++ nl
  ++ img_line "http://h/c.png" "c".

Definition all_but_b (url : string) : bool := negb (url =? "http://h/b.png").

(** 250 paragraphs, one per line. *)
Fixpoint paragraphs (n : nat) : string :=
  match n with
  | 0 => ""
  | S n' => "<p>x</p>" ++ nl ++ paragraphs n'
  end.

Definition code_line (interior : string) : string :=
  "<pre><code>" ++ interior ++ "</code></pre>".

(** A platform whose Notion client refuses to create pages, as with a key
    that is not valid. *)
Definition refusing (err : thrown) : platform unit :=
  Platform (fun markdown => Some markdown)
           (fun _ => true)
           (fun url w => (Some true, w))
           (fun _ _ w => (inl err, w))
           (fun _ _ w => (None, w))
           (fun _ w => w)
           (fun _ => "2024-01-01T00:00:00.000Z")
           (fun _ => "2024/1/1 00:00:00")
           true.

Definition unauthorized : thrown :=
  Thrown true "API token is invalid." (Some 401).

(** A platform whose converter throws. *)
Definition no_converter : platform unit :=
  Platform (fun markdown => None)
           (fun _ => true)
           (fun url w => (Some true, w))
           (fun _ _ w => (inr "page-1", w))
           (fun _ _ w => (None, w))
           (fun _ w => w)
           (fun _ => "2024-01-01T00:00:00.000Z")
           (fun _ => "2024/1/1 00:00:00")
           true.

(** An upload of a file called [notes.md], with a key and a page
    identifier and no title. *)
Definition notes_upload : Routes.Request :=
  Routes.MakeRequest
    (Some (Routes.File "notes.md" "application/octet-stream" "Some text."))
    (Routes.MakeBody None None (Some "secret") (Some "parent")).

(* ------------------------------------------------------------------ *)
(** *** Vocabulary of the statements *)

(** Strings. *)

(** A string that does not start with white space. *)
Definition starts_clean (s : string) : Prop :=
  match s with
  | "" => True
  | String c _ => isWhiteSpace c = false
  end.

(** The characters of a class at the start of a string: how many there are,
    and what follows them. *)
Fixpoint span (p : ascii -> bool) (s : string) : nat :=
  match s with
  | "" => 0
  | String c s' => if p c then S (span p s') else 0
  end.

Fixpoint drop_while (p : ascii -> bool) (s : string) : string :=
  match s with
  | "" => ""
  | String c s' => if p c then drop_while p s' else s
  end.

Fixpoint has_char (c : ascii) (s : string) : bool :=
  match s with
  | "" => false
  | String a s' => Ascii.eqb c a || has_char c s'
  end.

(** The last character of [s], or [pv] when [s] is empty. *)
Fixpoint last_char (pv : option ascii) (s : string) : option ascii :=
  match s with
  | "" => pv
  | String c s' => last_char (Some c) s'
  end.

Fixpoint all_chars (p : ascii -> bool) (s : string) : bool :=
  match s with
  | "" => true
  | String c s' => p c && all_chars p s'
  end.

(** Where a matcher stands after the characters of the class [p] at the
    start of [s]. *)
Fixpoint after (p : ascii -> bool) (pv : option ascii) (i : nat)
         (cs : list (nat * string)) (s : string) : cursor :=
  match s with
  | "" => Cursor pv i "" cs
  | String c s' => if p c then after p (Some c) (S i) cs s' else Cursor pv i s cs
  end.

(** The class stops where the text [b] starts. *)
Definition stops (p : ascii -> bool) (b : string) : bool :=
  match b with
  | "" => true
  | String c _ => negb (p c)
  end.

(** A line ends here: nothing is left, or a line terminator comes. *)
Definition line_ends (s : string) : bool :=
  match s with
  | "" => true
  | String c _ => isLineTerminator c
  end.

(** A line starts after [pre]: [pre] is empty or ends with a line
    terminator. *)
Definition line_starts (pre : string) : bool :=
  match last_char None pre with
  | None => true
  | Some c => isLineTerminator c
  end.

(** Whether the regular expression [r] has the capture group [n]. *)
Fixpoint binds (n : nat) (r : re) : bool :=
  match r with
  | Grp m r1 => (m =? n)%nat || binds n r1
  | Seq r1 r2 | Alt r1 r2 => binds n r1 || binds n r2
  | Opt r1 => binds n r1
  | _ => false
  end.

Definition count {A : Type} (f : A -> bool) (xs : list A) : nat :=
  List.length (filter f xs).

Definition opt_list {A : Type} (o : option A) : list A :=
  match o with Some a => [a] | None => [] end.

(** Runs. *)

(** An unstyled run holds a piece of the fragment as it stands; a styled run
    holds a piece of the fragment passed through [stripHtmlTags]. *)
Definition run_ok (html : string) (r : rich_text) : Prop :=
  match text_annotations r with
  | None => exists a b, text_content r = substring html a b
  | Some style =>
      In style [ann_bold; ann_italic; ann_code; ann_strikethrough]
      /\ exists a b, text_content r = stripHtmlTags (substring html a b)
  end.

(** Elements and blocks. *)

(** The tags of the data model. *)
Definition scanned_tags : list string :=
  ["h1"; "h2"; "h3"; "h4"; "h5"; "h6"; "p"; "pre"; "blockquote"; "li";
   "table-row"; "img"].

Definition is_heading (b : block) : bool :=
  match b with
  | Heading1 _ | Heading2 _ | Heading3 _ => true
  | _ => false
  end.

Definition is_callout (b : block) : bool :=
  match b with Callout _ _ _ => true | _ => false end.

(** A scanned image that has a source. *)
Definition img_with_src (e : element) : bool :=
  (tag e =? "img")%string && truthy (attr "src" e).

(** [built P es bs]: the blocks [bs] are what the elements [es] give, one
    element after the other, an element giving one block or none. *)
Inductive built {W : Type} (P : platform W)
  : list element -> list block -> Prop :=
| built_nil : built P [] []
| built_step (e : element) (ob : option block) (st st' : state W)
             (es : list element) (bs : list block) :
    elementToNotionBlock P e st = (Returned ob, st') ->
    built P es bs ->
    built P (e :: es) (opt_list ob ++ bs)%list.

(** Events. *)

Definition is_fetch (ev : event) : bool :=
  match ev with Fetch _ _ => true | _ => false end.

(** A request that was answered with a success status. *)
Definition fetch_ok (ev : event) : bool :=
  match ev with Fetch _ (Some true) => true | _ => false end.

(** A request that was not answered with a success status. *)
Definition fetch_failed (ev : event) : bool :=
  match ev with
  | Fetch _ (Some true) => false
  | Fetch _ _ => true
  | _ => false
  end.

Definition is_delay (ev : event) : bool :=
  match ev with Delay _ => true | _ => false end.

Definition is_append (ev : event) : bool :=
  match ev with BlocksAppend _ _ => true | _ => false end.

(** Batches. *)

(** The calls of a submission: the batches in order, with a pause after each
    one that is not the last. *)
Fixpoint submission (page : string) (bs : list (list block)) : list event :=
  match bs with
  | [] => []
  | [b] => [BlocksAppend page b]
  | b :: bs' => BlocksAppend page b :: Delay 200 :: submission page bs'
  end.

(** A list cut into consecutive pieces of 100, the last one shorter when the
    length is no multiple of 100; [length xs] is fuel enough. *)
Fixpoint chunks (fuel : nat) (xs : list block) : list (list block) :=
  match fuel with
  | 0 => []
  | S fuel' =>
      match xs with
      | [] => []
      | _ => firstn 100 xs :: chunks fuel' (skipn 100 xs)
      end
  end.

(** The sizes of the pieces of a list of [n] blocks. *)
Fixpoint sizes (fuel : nat) (n : nat) : list nat :=
  match fuel with
  | 0 => []
  | S fuel' =>
      match n with
      | 0 => []
      | _ => Nat.min 100 n :: sizes fuel' (n - 100)
      end
  end.

(** Every piece but the last has 100 blocks. *)
Fixpoint full_but_last (bs : list (list block)) : Prop :=
  match bs with
  | [] => True
  | [b] => True
  | b :: bs' => List.length b = 100 /\ full_but_last bs'
  end.

(** What a run that returned [r] in the state [st] did with the blocks:
    the requests of the reachability checks, the creation of the page, then
    the batches [bs]. *)
Definition submitted_in_batches {W : Type} (P : platform W)
           (content parent : string) (r : HtmlToNotionResult) (st : state W)
  : Prop :=
  exists (blocks : list block) (checks : list event) (locale : string)
         (bs : list (list block)),
    built P (parseHtmlElements (markdownToHtml (makeHtml P) content)) blocks
    /\ forallb is_fetch checks = true
    /\ trace st
       = (checks ++ PagesCreate parent (title r)
            :: submission (notionPageId r) bs)%list
    /\ concat bs = timestampBlock locale :: dividerBlock :: blocks
    /\ Forall (fun b => 1 <= List.length b <= 100) bs
    /\ full_but_last bs
    /\ count is_append (trace st) = List.length bs
    /\ count is_delay (trace st) = List.length bs - 1
    /\ blocksCreated r = List.length blocks + 2
    /\ batches r = List.length bs
    /\ (List.length blocks = 250 ->
        map (@List.length block) bs = [100; 100; 52]
        /\ count is_append (trace st) = 3
        /\ count is_delay (trace st) = 2).

(** The title. *)

(** The first line of the source: the text before the first line feed. *)
Definition first_line (content : string) : string := hd "" (split LF content).

(** Neither heading pattern matches anywhere in the source. *)
Definition no_atx_heading (content : string) : Prop :=
  exec (re_title "#") content = None /\ exec (re_title "##") content = None.

(** Follows the words of the specification: the first source line that is
    not empty. *)
Definition first_nonempty_line (content : string) : option string :=
  List.find truthy (split LF content).

(** Literal patterns. *)

(** [s.replace(/pat/g, rep)] for a pattern [pat] without special characters
    and a replacement [rep] without [$]: the occurrences of [pat] from left
    to right, not overlapping; [skip] counts the characters of the last
    occurrence still to be passed. *)
Fixpoint replace_lit (pat rep : string) (skip : nat) (s : string) : string :=
  match skip with
  | S k =>
      match s with
      | "" => ""
      | String _ s' => replace_lit pat rep k s'
      end
  | 0 =>
      if startsWith s pat then
        rep ++ match s with
               | "" => ""
               | String c s' =>
                   match String.length pat with
                   | 0 => String c (replace_lit pat rep 0 s')
                   | S k => replace_lit pat rep k s'
                   end
               end
      else
        match s with
        | "" => ""
        | String c s' => String c (replace_lit pat rep 0 s')
        end
  end.

(** Tags and entities. *)

(** A complete tag: a [<] with a [>] somewhere after it. *)
Fixpoint has_tag (s : string) : bool :=
  match s with
  | "" => false
  | String c s' => (Ascii.eqb c "<" && has_char ">" s') || has_tag s'
  end.

(** Follows the words of the specification: the tags are removed.  From a
    [<] that has a [>] after it, everything goes up to the first [>]; [skip]
    counts the characters of the tag still to be passed. *)
Fixpoint remove_tags (skip : nat) (s : string) : string :=
  match skip with
  | S k =>
      match s with
      | "" => ""
      | String _ s' => remove_tags k s'
      end
  | 0 =>
      match s with
      | "" => ""
      | String c s' =>
          if Ascii.eqb c "<" && has_char ">" s'
          then remove_tags (S (span (non ">") s')) s'
          else String c (remove_tags 0 s')
      end
  end.

(** Follows the words of the specification: the five entities are decoded,
    one after the other. *)
Definition decode_entities (s : string) : string :=
  replace_lit "&#39;" "'" 0
    (replace_lit "&quot;" DQ 0
       (replace_lit "&amp;" "&" 0
          (replace_lit "&gt;" ">" 0
             (replace_lit "&lt;" "<" 0 s)))).

(** The language normalizer. *)

(** Follows the words of the specification: lower-case and trim, the alias
    table, the supported languages, else plain text. *)
Definition normalize_spec (language : string) : string :=
  let l := trim (toLowerCase language) in
  if (l =? "js")%string || (l =? "jsx")%string then "javascript"
  else if (l =? "ts")%string || (l =? "tsx")%string then "typescript"
  else if (l =? "py")%string then "python"
  else if (l =? "rb")%string then "ruby"
  else if (l =? "sh")%string || (l =? "bash")%string || (l =? "zsh")%string
       then "shell"
  else if (l =? "yml")%string then "yaml"
  else if (l =? "md")%string then "markdown"
  else if mem l supportedLanguages then l
  else "plain text".

(** The escape of code blocks. *)

(** Follows the words of the specification: each line feed becomes a
    backslash and the letter n. *)
Fixpoint escape_spec (s : string) : string :=
  match s with
  | "" => ""
  | String c s' =>
      if Ascii.eqb c LF then String "\" (String "n" (escape_spec s'))
      else String c (escape_spec s')
  end.

(** The reverse: a backslash followed by the letter n becomes a line feed. *)
Fixpoint unescape_spec (s : string) : string :=
  match s with
  | "" => ""
  | String c s' =>
      match s' with
      | String "n" s'' =>
          if Ascii.eqb c "\" then String LF (unescape_spec s'')
          else String c (unescape_spec s')
      | _ => String c (unescape_spec s')
      end
  end.

(** A text with a backslash directly followed by the letter n. *)
Fixpoint has_backslash_n (s : string) : bool :=
  match s with
  | "" => false
  | String c s' =>
      (Ascii.eqb c "\" && startsWith s' "n") || has_backslash_n s'
  end.

(** The title of the page: the title of the caller when it is not empty,
    else the one extracted from the source. *)
Definition resolved_title (title : option string) (content : string) : string :=
  match title with
  | Some t => if truthy t then t else extractTitleFromContent content
  | None => extractTitleFromContent content
  end.

(** A Notion client that accepts every call. *)
Definition client_accepts {W : Type} (P : platform W) : Prop :=
  (forall parent title w,
      exists id w', pages_create P parent title w = (inr id, w'))
  /\ (forall id children w,
         exists w', blocks_append P id children w = (None, w')).

Definition is_append_or_delay (ev : event) : bool :=
  is_append ev || is_delay ev.

(** A request of the reachability check of one of the elements [es]: the
    URL is the source of an image element, it is not empty and it parses. *)
Definition checks_image {W : Type} (P : platform W) (es : list element)
           (ev : event) : Prop :=
  exists (e : element) (response : option bool),
    ev = Fetch (attr "src" e) response
    /\ In e es
    /\ tag e = "img"
    /\ truthy (attr "src" e) = true
    /\ url_parses P (attr "src" e) = true.

(** What can fail inside a conversion: one of the two guards, the call
    that creates the page, or a call that appends a batch. *)
Definition failure_cause {W : Type} (P : platform W)
           (content key parent : string) (title0 : option string)
           (cause : thrown) : Prop :=
  (truthy key = false
   /\ cause = createError P "缺少notion_api_key参数" 400)
  \/ (truthy key = true /\ truthy parent = false
      /\ cause = createError P "缺少notion_page_id参数" 400)
  \/ (truthy key = true /\ truthy parent = true
      /\ exists w,
          fst (pages_create P parent (resolved_title title0 content) w)
          = inl cause)
  \/ (truthy key = true /\ truthy parent = true
      /\ exists page batch w,
          fst (blocks_append P page batch w) = Some cause).

(** The tokenizer. *)

(** The loop of the tokenizer from the start of a string, with fuel enough
    for it. *)
Definition tok (s : string) (currentText : string) (richText : list rich_text)
  : option (string * list rich_text) :=
  tokenize (S (String.length s)) s 0 currentText richText.

(** The text read so far becomes a run, when there is some. *)
Definition flush (currentText : string) (richText : list rich_text)
  : list rich_text :=
  if truthy currentText then push richText (plain currentText) else richText.

(** The unstyled run for a text, when there is some. *)
Definition opt_plain (s : string) : list rich_text :=
  if truthy s then [plain s] else [].

(** After an opening tag of a styled span: with the closing tag [k]
    characters into what is left, the run of these [k] characters and the
    loop after the closing tag; without it, the loop on what is left. *)
Definition close_span (close : option nat) (skip : nat) (style : annotations)
           (left : string) (richText : list rich_text)
  : option (string * list rich_text) :=
  match close with
  | Some k =>
      tok (drop (k + skip) left) ""
          (push richText (styled style (stripHtmlTags (take k left))))
  | None => tok left "" richText
  end.

(** The tags of the styled spans, by the name of the opening tag: a
    closing tag that ends the span, and the style.  A span opened by
    [<del>] or [<s>] ends at the first [</del>], or at the first [</s>]
    when there is no [</del>]. *)
Definition span_tags : list (string * string * annotations) :=
  [ ("strong", "</strong>", ann_bold);
    ("em", "</em>", ann_italic);
    ("code", "</code>", ann_code);
    ("del", "</del>", ann_strikethrough);
    ("s", "</del>", ann_strikethrough);
    ("del", "</s>", ann_strikethrough);
    ("s", "</s>", ann_strikethrough) ].

(** A tag that opens a styled span. *)
Definition opens_span (tag : string) : bool :=
  startsWith tag "<strong>" || startsWith tag "<em>"
  || startsWith tag "<code>" || startsWith tag "<del>"
  || startsWith tag "<s>".

(** The runs, or the single run of the whole fragment when there is
    none. *)
Definition runs_or_whole (html : string) (runs : list rich_text)
  : list rich_text :=
  match runs with
  | [] => [plain html]
  | _ => runs
  end.

(** What [normalizeLanguage] can return: a supported language other than
    [bash], or a member inherited from [Object.prototype]. *)
Definition normalized (v : jsval) : Prop :=
  match v with
  | VStr s => mem s supportedLanguages = true /\ s <> "bash"
  | VInherited key => mem key Object_prototype = true
  end.

(** Entities. *)

(** The entity that stands for a character in HTML text, for the five
    characters that have one. *)
Definition entity_of (c : ascii) : option string :=
  if Ascii.eqb c "&" then Some "&amp;"
  else if Ascii.eqb c "<" then Some "&lt;"
  else if Ascii.eqb c ">" then Some "&gt;"
  else if Ascii.eqb c dq then Some "&quot;"
  else if Ascii.eqb c "'" then Some "&#39;"
  else None.

(** A text with the characters of the class [p] written as entities. *)
Fixpoint escape_with (p : ascii -> bool) (s : string) : string :=
  match s with
  | "" => ""
  | String c s' =>
      match (if p c then entity_of c else None) with
      | Some e => e ++ escape_with p s'
      | None => String c (escape_with p s')
      end
  end.

(** A text as HTML text: the five characters written as entities. *)
Definition escape_entities (s : string) : string :=
  escape_with (fun _ => true) s.

(** The classes of the characters still written as entities after each
    step of the decoding. *)
Definition after_lt (c : ascii) : bool := negb (Ascii.eqb c "<").
Definition after_gt (c : ascii) : bool := after_lt c && negb (Ascii.eqb c ">").
Definition after_amp (c : ascii) : bool := after_gt c && negb (Ascii.eqb c "&").
Definition after_quot (c : ascii) : bool :=
  after_amp c && negb (Ascii.eqb c dq).

(** The matcher. *)

(** A place of the matcher where what is left of the input and the texts
    of the groups hold characters of the class [q] only. *)
Definition within (q : ascii -> bool) (st : cursor) : Prop :=
  all_chars q (rest st) = true
  /\ Forall (fun kv => all_chars q (snd kv) = true) (caps st).

(** Every character but the line feed. *)
Definition not_LF (c : ascii) : bool := negb (Ascii.eqb c LF).

(** Lines. *)

(** The names of the elements that the scanner reads off a line
    [<name>content</name>]. *)
Definition line_tags : list string :=
  ["h1"; "h2"; "h3"; "h4"; "h5"; "h6"; "blockquote"; "li"; "p"].

(** The line of an element with a content. *)
Definition element_line (name content : string) : string :=
  "<" ++ name ++ ">" ++ content ++ "</" ++ name ++ ">".

(** The block of an element with the runs [rich], by the tag: the table
    of the block builder. *)
Definition block_of_tag (name : string) (rich : list rich_text)
  : option block :=
  if (name =? "h1")%string then Some (Heading1 rich)
  else if (name =? "h2")%string then Some (Heading2 rich)
  else if (name =? "h3")%string then Some (Heading3 rich)
  else if (name =? "p")%string then Some (Paragraph rich)
  else if (name =? "blockquote")%string then Some (Quote rich)
  else if (name =? "li")%string then Some (BulletedListItem rich)
  else None.

(** The line of an element whose opening tag holds attributes. *)
Definition element_line_with (name attrs content : string) : string :=
  "<" ++ name ++ " " ++ attrs ++ ">" ++ content ++ "</" ++ name ++ ">".

(** Attributes. *)

(** The characters of an attribute value that is read back as it was
    written: no quote, no angle bracket, no line feed. *)
Definition value_char (c : ascii) : bool :=
  negb (quote_char c) && negb (Ascii.eqb c "<") && negb (Ascii.eqb c ">")
  && not_LF c.

(** A name and a value that are read back: the name is made of word
    characters and is not empty, the value holds no quote. *)
Definition attr_ok (kv : string * string) : Prop :=
  fst kv <> "" /\ all_chars isWordChar (fst kv) = true
  /\ all_chars (fun c => negb (quote_char c)) (snd kv) = true.

(** The attributes that become properties of the object: all but those
    named [__proto__], whose assignment the inherited setter takes. *)
Definition own_attrs (kvs : list (string * string))
  : list (string * string) :=
  filter (fun kv => negb (fst kv =? "__proto__")%string) kvs.

(** Attributes as they are written in a tag, a space between two of
    them: [name=Qvalue Q], where Q is the double quote. *)
Fixpoint render_attrs (kvs : list (string * string)) : string :=
  match kvs with
  | [] => ""
  | (k, v) :: kvs' =>
      k ++ "=" ++ DQ ++ v ++ DQ
      ++ match kvs' with
         | [] => ""
         | _ => " " ++ render_attrs kvs'
         end
  end.

(** The name and the value of a match of the attribute pattern. *)
Definition attr_of_match (m : rmatch) : string * string :=
  (group 1 m, group 2 m).

(** The block of an image whose check gave [response]. *)
Definition image_block (src alt : string) (response : option bool) : block :=
  match response with
  | Some true => Image src (if truthy alt then [plain alt] else [])
  | _ => Callout [plain (unreachable_text alt src)] "📷" "yellow_background"
  end.

(** The line of an image after [cleanupHtml]: the tag is closed twice. *)
Definition img_line_cleaned (src alt : string) : string :=
  "<p><img src=" ++ DQ ++ src ++ DQ ++ " alt=" ++ DQ ++ alt ++ DQ
  ++ " / /></p>".

(** Code blocks. *)

(** The line of a code block with classes, as the converter writes it:
    [<pre><code class=Qclasses Q>interior</code></pre>], where Q is the
    double quote. *)
Definition code_line_with (classes interior : string) : string :=
  "<pre><code class=" ++ DQ ++ classes ++ DQ ++ ">" ++ interior
  ++ "</code></pre>".

(** The characters of the classes before the language: those of a value,
    without the line terminators. *)
Definition class_char (c : ascii) : bool := value_char c && dot c.

(** The characters of a language name in a class: those of a value,
    without white space. *)
Definition name_char (c : ascii) : bool :=
  value_char c && negb (isWhiteSpace c).

(** The text a code block is given: the content of the element with the
    escape of the pre-pass undone. *)
Definition code_text (interior : string) : string :=
  replace_all (lit "\n") (const nl) (escape_newlines interior).

(** Table rows. *)

(** A cell, [<th>text</th>] or [<td>text</td>]: [kind] is [h] or [d]. *)
Definition cell_text (kind : ascii) (text : string) : string :=
  "<t" ++ String kind (">" ++ text ++ "</t" ++ String kind ">").

Fixpoint cells_text (kind : ascii) (texts : list string) : string :=
  match texts with
  | [] => ""
  | text :: texts' => cell_text kind text ++ cells_text kind texts'
  end.

(** A row written on one line. *)
Definition row_line (kind : ascii) (texts : list string) : string :=
  "<tr>" ++ cells_text kind texts ++ "</tr>".

(** The text of a cell: no [<], no line terminator. *)
Definition cell_ok (text : string) : Prop :=
  has_char "<" text = false /\ all_chars dot text = true.

(** The paragraph that stands for a row. *)
Definition row_block (cells : list string) : block :=
  Paragraph [styled ann_code ("| " ++ join " | " cells ++ " |")].

(** The tags of the structure of a table, which the scanner passes
    over. *)
Definition structure_tags : list string :=
  ["<table>"; "</table>"; "<thead>"; "</thead>"; "<tbody>"; "</tbody>"].

(** Heading lines. *)

Definition heading_digits : list ascii := ["1"; "2"; "3"; "4"; "5"; "6"]%char.

(** A heading line: the opening tag of level [d], the content, and a
    closing tag of level [d']. *)
Definition heading_line (d d' : ascii) (content : string) : string :=
  "<h" ++ String d (">" ++ content ++ "</h" ++ String d' ">").

(** A content the heading pattern takes whole: one line, with no image
    tag, no code block and no closing tag of a heading in it. *)
Definition heading_content (t : string) : Prop :=
  all_chars dot t = true
  /\ find "<img" t = None
  /\ find "<pre><code" t = None
  /\ find "</h" t = None.

(* ------------------------------------------------------------------ *)
(** *** Tactics *)

(** The next turn of a loop with fuel, by the induction hypothesis. *)
Ltac next_turn IH :=
  apply IH; simpl in *; lia.

(** Splits a run of [elementToNotionBlock] in hypothesis [H] into the cases
    of its [switch]. *)
Ltac builder_cases H :=
  unfold elementToNotionBlock, bind, ret, throw, verifyImageUrl in H;
  repeat (match type of H with
          | context [if ?b then _ else _] =>
              match type of b with bool => destruct b eqn:? end
          | context [match attrs_of ?e with _ => _ end] =>
              destruct (attrs_of e) as [[?|?|?]|] eqn:?
          | context [match assoc ?k ?kvs with _ => _ end] =>
              destruct (assoc k kvs) eqn:?
          | context [fetch_head ?P ?u ?w] =>
              destruct (fetch_head P u w) as [[[|]|] ?] eqn:?
          end; cbv iota beta in H).

(** A pattern that starts with a literal text does not match the line:
    the text is found neither in the opening tag, nor in the content,
    which holds no [<], nor in the closing tag.  [skip] is the lemma that
    passes over the content, [none] the one that concludes. *)
Ltac no_match skip Ht :=
  cbn [append find startsWith Ascii.eqb Bool.eqb andb];
  rewrite skip by first [exact Ht | reflexivity];
  reflexivity.

Ltac regex_fails none skip r L Ht :=
  match goal with
  | |- context [exec r ?s] =>
      replace (exec r s) with (@None rmatch)
        by (symmetry; apply (none L); no_match skip Ht)
  end.

(** The same for a line without any [<]: [nochar] is the lemma that finds
    no pattern starting with a character the line does not hold. *)
Ltac regex_absent none nochar r L Hl :=
  match goal with
  | |- context [exec r ?s] =>
      replace (exec r s) with (@None rmatch)
        by (symmetry; apply (none L); apply nochar; exact Hl)
  end.

(** A pattern that starts with [<] is not found in a line made of an
    opening text, a text without [<], [>], another text without [<] and a
    closing text, when it is found neither at the [<] of the opening text
    nor in the closing text. *)
Ltac find_skips skip Ha Hc :=
  cbn [append find startsWith Ascii.eqb Bool.eqb andb];
  rewrite skip; [reflexivity | exact Ha |];
  cbn [append find startsWith Ascii.eqb Bool.eqb andb];
  rewrite skip by first [exact Hc | reflexivity];
  reflexivity.

(* ------------------------------------------------------------------ *)
(** *** Missing required fields *)

(** With a key and no page identifier, the error with status 400 is thrown
    inside the [try] block and caught there: the caller gets the error of
    the [catch] clause, with status 500, and nothing is sent. *)
Lemma markdownToNotion_missing_page_is_500 :
  forall (W : Type) (P : platform W) (w : W) (content : string)
         (c : ascii) (key : string) (title : option string),
  exists e,
    run (markdownToNotion P content (String c key) "" title) w
    = (Threw e, State w [])
    /\ statusCode e = Some 500.
Proof.
  intros W P w content c key title.
  unfold run, markdownToNotion, try_catch, bind, throw, ret. simpl.
  destruct (createError_is_Error P);
    (eexists; split; [reflexivity | reflexivity]).
Qed.

(* ------------------------------------------------------------------ *)
(** *** The language normalizer *)

(** The four values the specification lists. *)
Lemma normalizeLanguage_examples :
  normalizeLanguage "JS" = VStr "javascript"
  /\ normalizeLanguage "" = VStr "plain text"
  /\ normalizeLanguage "brainfuck" = VStr "plain text"
  /\ normalizeLanguage "Rust" = VStr "rust".
Proof. repeat split; vm_compute; reflexivity. Qed.

(* ------------------------------------------------------------------ *)
(** *** Strings: lengths, pieces and trimming *)

Section StringFacts.

Lemma length_drop (n : nat) (s : string) :
  String.length (drop n s) = String.length s - n.
Proof.
  revert s; induction n as [|n IH]; intros [|c s]; simpl; auto.
Qed.

Lemma length_take (n : nat) (s : string) :
  String.length (take n s) = Nat.min n (String.length s).
Proof.
  revert s; induction n as [|n IH]; intros [|c s]; simpl; auto.
Qed.

Lemma drop_drop (n m : nat) (s : string) :
  drop n (drop m s) = drop (m + n) s.
Proof.
  revert s; induction m as [|m IH]; intros s; simpl; [reflexivity|].
  destruct s as [|c s]; [destruct n; reflexivity | apply IH].
Qed.

Lemma take_0 (s : string) : take 0 s = "".
Proof. destruct s; reflexivity. Qed.

Lemma take_all (n : nat) (s : string) :
  String.length s <= n -> take n s = s.
Proof.
  revert s; induction n as [|n IH]; intros [|c s]; simpl; intros H;
    try reflexivity; try lia.
  f_equal; apply IH; lia.
Qed.

Lemma charAt_lt (s : string) (i : nat) :
  i < String.length s -> exists c, charAt s i = Some c.
Proof.
  unfold charAt. intros H.
  destruct (drop i s) as [|c t] eqn:E.
  - pose proof (length_drop i s) as L. rewrite E in L. simpl in L. lia.
  - eauto.
Qed.

(** Adding the next character to a piece that ends at [i]. *)
Lemma take_snoc (n : nat) (s : string) (c : ascii) :
  charAt s n = Some c -> take n s ++ String c "" = take (S n) s.
Proof.
  unfold charAt. revert s; induction n as [|n IH]; intros [|a s]; simpl;
    try discriminate.
  - intros [= ->]. destruct s; reflexivity.
  - intros H. f_equal. apply IH, H.
Qed.

Lemma substring_snoc (s : string) (j i : nat) :
  j <= i -> i < String.length s ->
  substring s j i ++ char_string s i = substring s j (i + 1).
Proof.
  intros Hji Hi. unfold substring, char_string.
  rewrite !Nat.min_l, !Nat.max_r by lia.
  destruct (charAt_lt s i Hi) as [c Hc]. rewrite Hc.
  replace (i + 1 - j) with (S (i - j)) by lia.
  apply take_snoc. unfold charAt in *. rewrite drop_drop.
  replace (j + (i - j)) with i by lia. exact Hc.
Qed.

Lemma substring_empty (s : string) (i : nat) : substring s i i = "".
Proof.
  unfold substring. rewrite Nat.min_id, Nat.max_id, Nat.sub_diag.
  apply take_0.
Qed.

Lemma substring_whole (s : string) : substring s 0 (String.length s) = s.
Proof.
  unfold substring. simpl.
  rewrite Nat.sub_0_r. apply take_all. reflexivity.
Qed.

(** An index [indexOf] finds is not before the place the search starts. *)
Lemma indexOf_ge (s pat : string) (from k : nat) :
  indexOf s pat from = Some k -> Nat.min from (String.length s) <= k.
Proof.
  unfold indexOf.
  destruct (find pat (drop (Nat.min from (String.length s)) s));
    simpl; [intros [= <-]; lia | discriminate].
Qed.

Lemma trimStart_clean (s : string) : starts_clean (trimStart s).
Proof.
  induction s as [|c s IH]; simpl; [exact I|].
  destruct (isWhiteSpace c) eqn:E; [exact IH | exact E].
Qed.

Lemma trimStart_of_clean (s : string) : starts_clean s -> trimStart s = s.
Proof.
  destruct s as [|c s]; simpl; [reflexivity|]. intros ->. reflexivity.
Qed.

Lemma trimEnd_clean (s : string) : starts_clean s -> starts_clean (trimEnd s).
Proof.
  destruct s as [|c s]; simpl; [auto|]. intros H.
  destruct (trimEnd s); [rewrite H|]; exact H.
Qed.

Lemma trimEnd_idem (s : string) : trimEnd (trimEnd s) = trimEnd s.
Proof.
  induction s as [|c s IH]; simpl; [reflexivity|].
  destruct (trimEnd s) as [|a t] eqn:E.
  - destruct (isWhiteSpace c) eqn:Ec; simpl; [reflexivity|].
    rewrite Ec. reflexivity.
  - change (trimEnd (String c (String a t))) with
      (match trimEnd (String a t) with
       | "" => if isWhiteSpace c then "" else String c ""
       | t' => String c t'
       end).
    rewrite IH. reflexivity.
Qed.

Lemma trim_idem (s : string) : trim (trim s) = trim s.
Proof.
  unfold trim.
  rewrite (trimStart_of_clean (trimEnd (trimStart s))).
  - apply trimEnd_idem.
  - apply trimEnd_clean, trimStart_clean.
Qed.

Lemma trimStart_trimStart (s : string) : trimStart (trimStart s) = trimStart s.
Proof. apply trimStart_of_clean, trimStart_clean. Qed.

End StringFacts.

(* ------------------------------------------------------------------ *)
(** *** The inline tokenizer: termination *)

Section TokenizerTermination.

(** After a tag that starts at [i] and ends at [tagEnd], a closing tag
    found from [tagEnd + 1] on lies after [i]. *)
Lemma close_after (html pat : string) (i tagEnd k : nat) :
  i < String.length html ->
  Nat.min i (String.length html) <= tagEnd ->
  indexOf html pat (tagEnd + 1) = Some k -> i < k.
Proof.
  intros Hi Ht Hk. apply indexOf_ge in Hk. lia.
Qed.

(** With more fuel than characters left, the loop ends by itself. *)
Lemma tokenize_total (fuel : nat) :
  forall (html : string) (i : nat) (cur : string) (rt : list rich_text),
    String.length html - i < fuel ->
    exists r, tokenize fuel html i cur rt = Some r.
Proof.
  induction fuel as [|fuel IH]; intros html i cur rt Hfuel; [lia|].
  simpl.
  destruct (i <? String.length html)%nat eqn:Hi; [|eauto].
  apply Nat.ltb_lt in Hi.
  destruct (char_string html i =? "<")%string; [|next_turn IH].
  destruct (indexOf html ">" i) as [tagEnd|] eqn:Ht; [|eauto].
  apply indexOf_ge in Ht.
  assert (Hclose : forall pat k,
             indexOf html pat (tagEnd + 1) = Some k -> i < k)
    by (intros pat k; apply close_after; assumption).
  unfold span_branch.
  repeat match goal with
         | |- context [if ?b then _ else _] =>
             match type of b with bool => destruct b end
         end;
    repeat match goal with
           | |- context [indexOf html ?pat (tagEnd + 1)] =>
               let E := fresh "E" in
               destruct (indexOf html pat (tagEnd + 1)) eqn:E;
               [apply Hclose in E|]
           end;
    next_turn IH.
Qed.

Corollary tokenize_terminates (html : string) :
  exists cur rt, tokenize (S (String.length html)) html 0 "" [] = Some (cur, rt).
Proof.
  destruct (tokenize_total (S (String.length html)) html 0 "" [])
    as [[cur rt] H]; [lia | eauto].
Qed.

Lemma push_not_nil {A : Type} (xs : list A) (x : A) : push xs x <> [].
Proof. unfold push. destruct xs; discriminate. Qed.

Lemma htmlToRichText_not_nil (html : string) : htmlToRichText html <> [].
Proof.
  unfold htmlToRichText.
  destruct (tokenize_terminates html) as (cur & rt & ->).
  destruct (truthy cur).
  - destruct (push rt (plain cur)) eqn:E;
      [exfalso; exact (push_not_nil _ _ E) | discriminate].
  - destruct rt; discriminate.
Qed.

End TokenizerTermination.

(* ------------------------------------------------------------------ *)
(** *** The inline tokenizer: where the text of a run comes from *)

Section TokenizerRuns.

Lemma Forall_push {A : Type} (Q : A -> Prop) (xs : list A) (x : A) :
  Forall Q xs -> Q x -> Forall Q (push xs x).
Proof.
  intros Hxs Hx. unfold push. apply Forall_app. split; [exact Hxs|].
  constructor; [exact Hx | constructor].
Qed.

Lemma run_ok_plain (html : string) (a b : nat) :
  run_ok html (plain (substring html a b)).
Proof. exists a, b. reflexivity. Qed.

Lemma run_ok_styled (html : string) (style : annotations) (a b : nat) :
  In style [ann_bold; ann_italic; ann_code; ann_strikethrough] ->
  run_ok html (styled style (stripHtmlTags (substring html a b))).
Proof. intros H. split; [exact H | exists a, b; reflexivity]. Qed.

Lemma flush_ok (html cur : string) (rt : list rich_text) :
  Forall (run_ok html) rt ->
  (exists a b, cur = substring html a b) ->
  Forall (run_ok html)
         (if truthy cur then push rt (plain cur) else rt).
Proof.
  intros Hrt (a & b & ->).
  destruct (truthy _); [|exact Hrt].
  apply Forall_push; [exact Hrt | apply run_ok_plain].
Qed.

Lemma tokenize_runs (fuel : nat) :
  forall (html : string) (i : nat) (cur : string) (rt : list rich_text)
         (cur' : string) (rt' : list rich_text),
    Forall (run_ok html) rt ->
    (exists j, j <= i /\ cur = substring html j i) ->
    tokenize fuel html i cur rt = Some (cur', rt') ->
    Forall (run_ok html) rt' /\ exists a b, cur' = substring html a b.
Proof.
  induction fuel as [|fuel IH]; intros html i cur rt cur' rt' Hrt Hcur;
    simpl; [discriminate|].
  destruct (i <? String.length html)%nat eqn:Hi.
  2:{ intros [= <- <-]. split; [exact Hrt|].
      destruct Hcur as (j & _ & ->). eauto. }
  apply Nat.ltb_lt in Hi.
  destruct (char_string html i =? "<")%string.
  2:{ apply IH; [exact Hrt|].
      destruct Hcur as (j & Hj & ->). exists j. split; [lia|].
      apply substring_snoc; assumption. }
  assert (Hflush : Forall (run_ok html)
                     (if truthy cur then push rt (plain cur) else rt)).
  { apply flush_ok; [exact Hrt|]. destruct Hcur as (j & _ & ->). eauto. }
  destruct (indexOf html ">" i) as [tagEnd|].
  2:{ intros [= <- <-]. split; [exact Hflush|].
      exists 0, 0. symmetry. apply substring_empty. }
  assert (Hempty : forall k, exists j, j <= k /\ "" = substring html j k)
    by (intros k; exists k; split;
        [lia | symmetry; apply substring_empty]).
  unfold span_branch.
  repeat match goal with
         | |- context [if ?b then _ else _] =>
             match type of b with bool => destruct b end
         end;
    repeat match goal with
           | |- context [match ?o with Some _ => _ | None => _ end] =>
               match type of o with option nat => destruct o end
           end;
    apply IH; auto;
    apply Forall_push; auto;
    apply run_ok_styled; simpl; auto.
Qed.

Lemma htmlToRichText_runs (html : string) :
  Forall (run_ok html) (htmlToRichText html).
Proof.
  unfold htmlToRichText.
  destruct (tokenize (S (String.length html)) html 0 "" [])
    as [[cur rt]|] eqn:E; [|constructor].
  apply tokenize_runs in E.
  - destruct E as [Hrt Hcur].
    pose proof (flush_ok html cur rt Hrt Hcur) as Hflush.
    destruct (0 <? _)%nat; [exact Hflush|].
    constructor; [|constructor].
    exists 0, (String.length html). simpl.
    symmetry. apply substring_whole.
  - constructor.
  - exists 0. split; [lia | symmetry; apply substring_empty].
Qed.

End TokenizerRuns.

(* ------------------------------------------------------------------ *)
(** *** The scanner: elements and table cells *)

Section ScannerCells.

Lemma In_omap {A B : Type} (f : A -> option B) (xs : list A) (y : B) :
  In y (omap f xs) -> exists x, In x xs /\ f x = Some y.
Proof.
  induction xs as [|x xs IH]; simpl; [contradiction|].
  destruct (f x) as [y'|] eqn:E.
  - intros [<- | H]; [eauto|]. destruct (IH H) as (x' & ? & ?). eauto.
  - intros H. destruct (IH H) as (x' & ? & ?). eauto.
Qed.

(** The cells of a table row are what [stripHtmlTags] returns. *)
Lemma scan_line_cells (line : string) (e : element) (cells : list string) :
  scan_line line = Some e ->
  attrs_of e = Some (RowAttrs cells) ->
  exists inner, cells = map stripHtmlTags inner.
Proof.
  unfold scan_line.
  repeat match goal with
         | |- context [match ?o with Some _ => _ | None => _ end] =>
             match type of o with option rmatch => destruct o end
         | |- context [if ?b then _ else _] =>
             match type of b with bool => destruct b end
         end;
    try discriminate; intros [= <-]; simpl; try discriminate.
  intros [= <-].
  eexists (map (group 1) _). rewrite map_map. reflexivity.
Qed.

Lemma parseHtmlElements_cells (html : string) (e : element)
      (cells : list string) :
  In e (parseHtmlElements html) ->
  attrs_of e = Some (RowAttrs cells) ->
  exists inner, cells = map stripHtmlTags inner.
Proof.
  unfold parseHtmlElements. intros Hin Hattrs.
  apply In_omap in Hin. destruct Hin as (line & _ & Hline).
  eapply scan_line_cells; eassumption.
Qed.

End ScannerCells.

(* ------------------------------------------------------------------ *)
(** *** The block builder, case by case *)

Section BuilderFacts.

Context {W : Type} (P : platform W).

(** A block that has a [rich_text] array has at least one run in it. *)
Lemma elementToNotionBlock_rich_text
      (e : element) (st st' : state W) (b : block) (r : list rich_text) :
  elementToNotionBlock P e st = (Returned (Some b), st') ->
  block_rich_text b = Some r ->
  r <> [].
Proof.
  intros H Hr. builder_cases H;
    try discriminate; injection H as <- <-; simpl in Hr;
    try discriminate; injection Hr as <-;
    solve [apply htmlToRichText_not_nil | discriminate].
Qed.

Lemma built_rich_text (es : list element) (bs : list block) :
  built P es bs ->
  forall (b : block) (r : list rich_text),
    In b bs -> block_rich_text b = Some r -> r <> [].
Proof.
  induction 1 as [|e ob st st' es bs He _ IH]; intros b r Hin Hr;
    [contradiction|].
  apply in_app_or in Hin. destruct Hin as [Hin|Hin]; [|eauto].
  destruct ob as [b'|]; [|contradiction].
  destruct Hin as [<-|[]].
  eapply elementToNotionBlock_rich_text; eassumption.
Qed.

End BuilderFacts.

(* ------------------------------------------------------------------ *)
(** *** Building the blocks: order, images and requests *)

Section Building.

Context {W : Type} (P : platform W).

Lemma count_app {A : Type} (f : A -> bool) (xs ys : list A) :
  count f (xs ++ ys)%list = count f xs + count f ys.
Proof. unfold count. rewrite filter_app, length_app. reflexivity. Qed.

(** One element: the requests it causes and the block it gives. *)
Lemma elementToNotionBlock_events
      (e : element) (st st' : state W) (ob : option block) :
  elementToNotionBlock P e st = (Returned ob, st') ->
  exists evs,
    trace st' = (trace st ++ evs)%list
    /\ forallb is_fetch evs = true
    /\ count fetch_ok evs = count is_image (opt_list ob)
    /\ count is_image (opt_list ob) + count is_callout (opt_list ob)
       = (if img_with_src e then 1 else 0).
Proof.
  intros H. unfold img_with_src.
  builder_cases H; try discriminate; injection H as <- <-;
    repeat match goal with
           | E : (tag e =? _)%string = true |- _ =>
               apply String.eqb_eq in E; rewrite E in *; clear E
           | E : truthy (attr _ e) = _ |- _ => rewrite E
           end;
    simpl;
    first
      [ exists []; rewrite app_nil_r; repeat split; reflexivity
      | eexists [_]; unfold emit, push; simpl; repeat split; reflexivity ].
Qed.

Lemma build_blocks_inv (es : list element) :
  forall (acc : list block) (st st' : state W) (bs : list block),
    build_blocks P es acc st = (Returned bs, st') ->
    exists new evs,
      bs = (acc ++ new)%list
      /\ trace st' = (trace st ++ evs)%list
      /\ forallb is_fetch evs = true
      /\ count fetch_ok evs = count is_image new
      /\ count is_image new + count is_callout new = count img_with_src es
      /\ built P es new.
Proof.
  induction es as [|e es IH]; intros acc st st' bs; simpl.
  - unfold ret. intros [= <- <-]. exists [], [].
    rewrite !app_nil_r. repeat split; constructor.
  - unfold bind.
    destruct (elementToNotionBlock P e st) as [[ob|err] st1] eqn:He;
      [|discriminate].
    intros Hrest.
    destruct (elementToNotionBlock_events e st st1 ob He)
      as (evs1 & Ht1 & Hf1 & Hok1 & Hc1).
    apply IH in Hrest.
    destruct Hrest as (new & evs & -> & Ht & Hf & Hok & Hc & Hb).
    exists (opt_list ob ++ new)%list, (evs1 ++ evs)%list.
    split; [destruct ob; unfold push; simpl;
            rewrite <- ?app_assoc; reflexivity|].
    split; [rewrite Ht, Ht1, app_assoc; reflexivity|].
    split; [rewrite forallb_app, Hf1, Hf; reflexivity|].
    rewrite !count_app.
    split; [lia|].
    split; [|econstructor; eassumption].
    change (count img_with_src (e :: es))
      with (List.length (filter img_with_src (e :: es))).
    simpl. fold (count img_with_src es).
    destruct (img_with_src e); simpl; fold (count img_with_src es); lia.
Qed.

End Building.

(* ------------------------------------------------------------------ *)
(** *** Submitting the blocks in batches *)

Section Submission.

Context {W : Type} (P : platform W).

Lemma chunks_S (fuel : nat) (x : block) (xs : list block) :
  chunks (S fuel) (x :: xs)
  = firstn 100 (x :: xs) :: chunks fuel (skipn 100 (x :: xs)).
Proof. reflexivity. Qed.

Lemma sizes_S (fuel n : nat) :
  sizes (S fuel) (S n) = Nat.min 100 (S n) :: sizes fuel (S n - 100).
Proof. reflexivity. Qed.

Lemma chunks_nil (fuel : nat) (xs : list block) :
  List.length xs <= fuel -> chunks fuel xs = [] -> xs = [].
Proof.
  destruct fuel as [|fuel]; destruct xs as [|x xs]; intros Hlen H;
    try reflexivity.
  - simpl in Hlen. lia.
  - rewrite chunks_S in H. discriminate.
Qed.

Lemma length_skipn_le (xs : list block) (fuel : nat) :
  List.length xs <= S fuel -> List.length (skipn 100 xs) <= fuel.
Proof. rewrite length_skipn. lia. Qed.

Lemma concat_chunks (fuel : nat) :
  forall xs, List.length xs <= fuel -> concat (chunks fuel xs) = xs.
Proof.
  induction fuel as [|fuel IH]; intros [|x xs] Hlen; try reflexivity.
  - simpl in Hlen. lia.
  - rewrite chunks_S. cbn [concat].
    rewrite IH by (apply length_skipn_le, Hlen).
    apply firstn_skipn.
Qed.

Lemma chunks_sizes (fuel : nat) :
  forall xs, List.length xs <= fuel ->
             map (@List.length block) (chunks fuel xs)
             = sizes fuel (List.length xs).
Proof.
  induction fuel as [|fuel IH]; intros [|x xs] Hlen; try reflexivity.
  rewrite chunks_S. cbn [map].
  rewrite IH by (apply length_skipn_le, Hlen).
  rewrite length_skipn, length_firstn.
  cbn [List.length]. rewrite sizes_S. reflexivity.
Qed.

Lemma chunks_bounded (fuel : nat) :
  forall xs,
    Forall (fun b => 1 <= List.length b <= 100) (chunks fuel xs).
Proof.
  induction fuel as [|fuel IH]; intros [|x xs]; try constructor.
  - rewrite length_firstn. cbn [List.length]. lia.
  - apply IH.
Qed.

Lemma chunks_full_but_last (fuel : nat) :
  forall xs, List.length xs <= fuel -> full_but_last (chunks fuel xs).
Proof.
  induction fuel as [|fuel IH]; intros xs Hlen; [exact I|].
  destruct xs as [|x xs]; [exact I|].
  rewrite chunks_S.
  pose proof (IH _ (length_skipn_le _ _ Hlen)) as Hfull.
  destruct (chunks fuel (skipn 100 (x :: xs))) as [|b bs] eqn:E;
    [exact I|].
  split; [|exact Hfull].
  rewrite length_firstn.
  destruct (Nat.le_gt_cases 100 (List.length (x :: xs))) as [Hge|Hlt];
    [lia|].
  rewrite skipn_all2 in E by lia.
  destruct fuel; discriminate.
Qed.

Lemma submission_delays (page : string) (bs : list (list block)) :
  count is_delay (submission page bs) = List.length bs - 1
  /\ count is_append (submission page bs) = List.length bs
  /\ count fetch_ok (submission page bs) = 0.
Proof.
  induction bs as [|b [|b' bs] IH]; [repeat split..|].
  destruct IH as (IH1 & IH2 & IH3).
  change (submission page (b :: b' :: bs))
    with (BlocksAppend page b :: Delay 200 :: submission page (b' :: bs)).
  unfold count in *. simpl filter. simpl List.length in *.
  rewrite IH1, IH2, IH3. repeat split; lia.
Qed.

(** Fuel beyond the turns of the loop changes nothing. *)
Lemma submit_fuel (fuel1 : nat) :
  forall (fuel2 : nat) (allBlocks : list block) (page : string)
         (i total : nat) (st : state W),
    List.length allBlocks - i <= fuel1 ->
    List.length allBlocks - i <= fuel2 ->
    submit P fuel1 allBlocks page i total st
    = submit P fuel2 allBlocks page i total st.
Proof.
  induction fuel1 as [|fuel1 IH]; intros [|fuel2] allBlocks page i total st
                                       H1 H2; cbn [submit];
    try reflexivity;
    destruct (i <? List.length allBlocks)%nat eqn:Hi; try reflexivity;
    try (apply Nat.ltb_lt in Hi; lia).
  apply Nat.ltb_lt in Hi. unfold bind.
  destruct (blocksAppend P page _ st) as [[[]|err] st1]; [|reflexivity].
  destruct ((if (i + BATCH_SIZE <? List.length allBlocks)%nat
             then delay P 200 else ret tt) st1) as [[[]|err] st2];
    [|reflexivity].
  apply IH; unfold BATCH_SIZE; lia.
Qed.

Lemma submit_inv (fuel : nat) :
  forall (allBlocks : list block) (page : string) (i total : nat)
         (st st' : state W) (t : nat),
    List.length allBlocks - i <= fuel ->
    submit P fuel allBlocks page i total st = (Returned t, st') ->
    trace st' = (trace st ++ submission page (chunks fuel (skipn i allBlocks)))%list
    /\ t = total + (List.length allBlocks - i).
Proof.
  induction fuel as [|fuel IH]; intros allBlocks page i total st st' t Hfuel;
    simpl submit.
  - unfold ret. intros [= <- <-]. simpl. rewrite app_nil_r. split; [auto|lia].
  - destruct (i <? List.length allBlocks)%nat eqn:Hi.
    2:{ apply Nat.ltb_ge in Hi. unfold ret. intros [= <- <-].
        rewrite skipn_all2 by exact Hi. simpl. rewrite app_nil_r.
        split; [auto|lia]. }
    apply Nat.ltb_lt in Hi.
    unfold bind at 1, blocksAppend.
    destruct (blocks_append P page _ (world st)) as [[err|] w1];
      [discriminate|].
    unfold slice, BATCH_SIZE.
    replace (i + 100 - i) with 100 by lia.
    assert (Hskip : skipn 100 (skipn i allBlocks) = skipn (i + 100) allBlocks)
      by (rewrite skipn_skipn; f_equal; lia).
    assert (Hcons : chunks (S fuel) (skipn i allBlocks)
                    = firstn 100 (skipn i allBlocks)
                      :: chunks fuel (skipn (i + 100) allBlocks)).
    { rewrite <- Hskip.
      destruct (skipn i allBlocks) eqn:E; [|apply chunks_S].
      pose proof (length_skipn i allBlocks) as L. rewrite E in L.
      simpl in L. lia. }
    rewrite Hcons. clear Hcons.
    unfold bind.
    destruct (i + 100 <? List.length allBlocks)%nat eqn:Hmore.
    + apply Nat.ltb_lt in Hmore. unfold delay. intros Hrec.
      apply IH in Hrec; [|lia]. destruct Hrec as [Ht ->].
      rewrite length_firstn, length_skipn.
      split; [|lia].
      rewrite Ht. unfold emit, push. simpl trace.
      destruct (chunks fuel (skipn (i + 100) allBlocks)) as [|b bs] eqn:E.
      * apply chunks_nil in E; [|rewrite length_skipn; lia].
        pose proof (length_skipn (i + 100) allBlocks) as L.
        rewrite E in L. simpl in L. lia.
      * simpl. rewrite <- !app_assoc. reflexivity.
    + apply Nat.ltb_ge in Hmore. unfold ret. intros Hrec.
      apply IH in Hrec; [|lia]. destruct Hrec as [Ht ->].
      rewrite length_firstn, length_skipn.
      split; [|lia].
      rewrite Ht. unfold emit, push. simpl trace.
      rewrite (@skipn_all2 _ (i + 100) allBlocks) by lia.
      destruct fuel; simpl; rewrite <- !app_assoc; reflexivity.
Qed.

End Submission.

(* ------------------------------------------------------------------ *)
(** *** A conversion that returns *)

Section Conversion.

Context {W : Type} (P : platform W).

Local Arguments submit : simpl never.

(** What a returned result says about the run: the blocks were built from
    the scanned elements in order, at the price of the requests [checks];
    the page was created; the two synthetic blocks and the built ones were
    submitted in pieces of 100. *)
Lemma markdownToNotion_returns
      (content key parent : string) (title0 : option string) (w : W)
      (r : HtmlToNotionResult) (st : state W) :
  run (markdownToNotion P content key parent title0) w = (Returned r, st) ->
  exists (blocks : list block) (checks : list event) (locale : string),
    let elements := parseHtmlElements (markdownToHtml (makeHtml P) content) in
    let allBlocks := timestampBlock locale :: dividerBlock :: blocks in
    built P elements blocks
    /\ forallb is_fetch checks = true
    /\ count fetch_ok checks = count is_image blocks
    /\ count is_image blocks + count is_callout blocks
       = count img_with_src elements
    /\ trace st
       = (checks ++ PagesCreate parent (title r)
            :: submission (notionPageId r)
                 (chunks (List.length allBlocks) allBlocks))%list
    /\ blocksCreated r = List.length allBlocks
    /\ imagesProcessed r = count is_image blocks
    /\ batches r = ceil_div (List.length allBlocks) BATCH_SIZE.
Proof.
  unfold run, markdownToNotion, try_catch. cbv beta zeta.
  destruct (bind _ _ _) as [[res|err] st1] eqn:Hrun.
  2:{ destruct (is_Error err); unfold throw; discriminate. }
  intros [= -> ->].
  unfold bind in Hrun.
  destruct (truthy key); simpl in Hrun; [|discriminate].
  destruct (truthy parent); simpl in Hrun; [|discriminate].
  unfold htmlToNotionBlocks in Hrun.
  destruct (build_blocks P _ [] _) as [[blocks|err] st2] eqn:Hbuild;
    [|discriminate].
  apply build_blocks_inv in Hbuild.
  destruct Hbuild as (new & checks & Hnew & Htrace & Hfetch & Hok & Himg & Hbuilt).
  simpl in Hnew, Htrace. subst blocks.
  unfold pagesCreate in Hrun.
  destruct (pages_create P parent _ (world st2)) as [[err|page] w3];
    [discriminate|].
  match type of Hrun with
  | context [submit P ?n ?all ?pg 0 0 ?s] =>
      destruct (submit P n all pg 0 0 s) as [[total|err] st4] eqn:Hsub;
      [|discriminate]
  end.
  apply submit_inv in Hsub; [|simpl; lia].
  destruct Hsub as [Hsubtrace ->].
  unfold ret in Hrun. injection Hrun as <- <-.
  exists new, checks, (toLocaleString P w3).
  cbn zeta. cbn [title notionPageId blocksCreated imagesProcessed batches].
  repeat split; try assumption.
  rewrite Hsubtrace. unfold emit, push. cbn [trace world].
  rewrite Htrace. cbn [skipn]. rewrite <- app_assoc. reflexivity.
Qed.

Lemma In_submission (page page' : string) (children : list block)
      (bs : list (list block)) :
  In (BlocksAppend page children) (submission page' bs) -> In children bs.
Proof.
  induction bs as [|b [|b' bs] IH]; [contradiction| |].
  - intros [[= _ <-]|[]]. left. reflexivity.
  - change (submission page' (b :: b' :: bs))
      with (BlocksAppend page' b :: Delay 200 :: submission page' (b' :: bs)).
    intros [[= _ <-]|[H|H]]; [left; reflexivity | discriminate |].
    right. apply IH, H.
Qed.

(** Every block that a returning conversion appended and that has a
    [rich_text] array has a run in it. *)
Lemma appended_blocks_have_runs
      (content key parent : string) (title0 : option string) (w : W)
      (r : HtmlToNotionResult) (st : state W)
      (page : string) (children : list block) (b : block)
      (rt : list rich_text) :
  run (markdownToNotion P content key parent title0) w = (Returned r, st) ->
  In (BlocksAppend page children) (trace st) ->
  In b children ->
  block_rich_text b = Some rt ->
  rt <> [].
Proof.
  intros Hrun Hev Hb Hrt.
  apply markdownToNotion_returns in Hrun.
  destruct Hrun as (blocks & checks & locale & Hrun). cbv zeta in Hrun.
  destruct Hrun as (Hbuilt & Hfetch & _ & _ & Htrace & _).
  rewrite Htrace in Hev. apply in_app_or in Hev.
  destruct Hev as [Hev|[Hev|Hev]]; [| discriminate |].
  - rewrite forallb_forall in Hfetch. apply Hfetch in Hev. discriminate.
  - apply In_submission in Hev.
    assert (Hall : In b (concat (chunks
                     (List.length (timestampBlock locale :: dividerBlock :: blocks))
                     (timestampBlock locale :: dividerBlock :: blocks))))
      by (apply in_concat; eauto).
    rewrite concat_chunks in Hall by reflexivity.
    destruct Hall as [<-|[<-|Hall]].
    + injection Hrt as <-. discriminate.
    + discriminate.
    + eapply built_rich_text; eassumption.
Qed.

End Conversion.

(* ------------------------------------------------------------------ *)
(** *** Batches *)

Section Batches.

Lemma ceil_div_step (n : nat) :
  ceil_div (S n) 100 = S (ceil_div (S n - 100) 100).
Proof.
  unfold ceil_div.
  destruct (Nat.le_gt_cases 100 (S n)) as [Hge|Hlt].
  - replace (S n + (100 - 1)) with ((S n - 100 + (100 - 1)) + 1 * 100) by lia.
    rewrite Nat.div_add by discriminate. lia.
  - replace (S n - 100) with 0 by lia.
    change ((0 + (100 - 1)) / 100) with 0.
    symmetry. apply Nat.div_unique with (r := n); lia.
Qed.

Lemma length_sizes (fuel : nat) :
  forall n, n <= fuel -> List.length (sizes fuel n) = ceil_div n 100.
Proof.
  induction fuel as [|fuel IH]; intros [|n] Hn; try reflexivity; [lia|].
  rewrite sizes_S, ceil_div_step. cbn [List.length].
  rewrite IH by lia. reflexivity.
Qed.

Lemma length_chunks (fuel : nat) (xs : list block) :
  List.length xs <= fuel ->
  List.length (chunks fuel xs) = ceil_div (List.length xs) 100.
Proof.
  intros H. rewrite <- (length_map (@List.length block)).
  rewrite chunks_sizes by exact H. apply length_sizes, H.
Qed.

End Batches.

Lemma count_checks (f : event -> bool) (checks : list event) :
  (forall url resp, f (Fetch url resp) = false) ->
  forallb is_fetch checks = true -> count f checks = 0.
Proof.
  intros Hf. induction checks as [|[url resp| | |] checks IH]; simpl;
    try discriminate; [reflexivity|].
  intros H. unfold count in *. simpl. rewrite Hf. apply IH, H.
Qed.

(* ------------------------------------------------------------------ *)
(** *** The escape of code blocks *)

(** The code block of the specification: two lines with a blank line in
    between survive the scanner as one element and come back unchanged. *)
Lemma code_block_with_blank_line :
  let interior := "a" ++ nl ++ nl ++ "b" in
  parseHtmlElements
    ("<pre><code class=" ++ DQ ++ "language-js" ++ DQ ++ ">" ++ interior
     ++ "</code></pre>")
  = [Element "pre" "a\n\nb" (Some (PreAttrs (VStr "javascript")))]
  /\ run (htmlToNotionBlocks (stub all_but_b)
            ("<pre><code class=" ++ DQ ++ "language-js" ++ DQ ++ ">" ++ interior
             ++ "</code></pre>")) tt
     = (Returned [CodeBlock [plain interior] (VStr "javascript")], State tt []).
Proof. split; vm_compute; reflexivity. Qed.

(* ------------------------------------------------------------------ *)
(** *** Headings *)

Section HeadingBlocks.

Context {W : Type} (P : platform W).

Lemma heading_elements (e : element) (st : state W) :
  (tag e = "h1" ->
   elementToNotionBlock P e st
   = (Returned (Some (Heading1 (htmlToRichText (content e)))), st))
  /\ (tag e = "h2" ->
      elementToNotionBlock P e st
      = (Returned (Some (Heading2 (htmlToRichText (content e)))), st))
  /\ (tag e = "h3" ->
      elementToNotionBlock P e st
      = (Returned (Some (Heading3 (htmlToRichText (content e)))), st))
  /\ (In (tag e) ["h4"; "h5"; "h6"] ->
      elementToNotionBlock P e st = (Returned None, st)).
Proof.
  unfold elementToNotionBlock.
  repeat split; intros H.
  1-3: rewrite H; reflexivity.
  simpl in H. destruct H as [<-|[<-|[<-|[]]]]; reflexivity.
Qed.

Lemma heading_block_from (e : element) (st st' : state W) (b : block) :
  elementToNotionBlock P e st = (Returned (Some b), st') ->
  is_heading b = true ->
  (tag e = "h1" /\ b = Heading1 (htmlToRichText (content e)))
  \/ (tag e = "h2" /\ b = Heading2 (htmlToRichText (content e)))
  \/ (tag e = "h3" /\ b = Heading3 (htmlToRichText (content e))).
Proof.
  intros H Hb. builder_cases H; try discriminate;
    injection H as <- <-; try discriminate Hb;
    repeat match goal with
           | E : (tag e =? _)%string = true |- _ => apply String.eqb_eq in E
           end; auto.
Qed.

End HeadingBlocks.

(* ------------------------------------------------------------------ *)
(** *** The matcher: what a success went through *)

Section MatcherFacts.

(** A success of [p*] followed by [k] is a success of [k], at some later
    place, with the captures unchanged. *)
Lemma star_through (p : ascii -> bool) (greedy : bool)
      (k : cursor -> option cursor) (s : string) :
  forall (pv : option ascii) (i : nat) (cs : list (nat * string)) (c : cursor),
    star p greedy k pv i cs s = Some c ->
    exists st', k st' = Some c /\ caps st' = cs.
Proof.
  induction s as [|a s IH]; intros pv i cs c; simpl.
  - destruct greedy.
    + intros H. eauto.
    + destruct (k (Cursor pv i "" cs)) eqn:E; [|discriminate].
      intros [= <-]. eauto.
  - destruct greedy.
    + destruct (p a).
      * destruct (star p true k (Some a) (S i) cs s) eqn:E.
        -- intros [= <-]. eapply IH, E.
        -- intros H. eauto.
      * intros H. eauto.
    + destruct (k (Cursor pv i (String a s) cs)) eqn:E.
      * intros [= <-]. eauto.
      * destruct (p a); [|discriminate]. apply IH.
Qed.

(** A success of [r] followed by [k] is a success of [k] at a place where
    the groups that [r] does not have are as they were. *)
Lemma mt_through (r : re) :
  forall (k : cursor -> option cursor) (st c : cursor),
    mt r k st = Some c ->
    exists st',
      k st' = Some c
      /\ forall n, binds n r = false ->
                   lookup n (caps st') = lookup n (caps st).
Proof.
  induction r as [|a|p|r1 IH1 r2 IH2|r1 IH1 r2 IH2|r1 IH1|p g|m r1 IH1|b|b];
    intros k st c; simpl.
  - eauto.
  - destruct (rest st) as [|a' s']; [discriminate|].
    destruct (Ascii.eqb a a'); [|discriminate]. eauto.
  - destruct (rest st) as [|a' s']; [discriminate|].
    destruct (p a'); [|discriminate]. eauto.
  - intros H. apply IH1 in H. destruct H as (st1 & H & Hc1).
    apply IH2 in H. destruct H as (st2 & H & Hc2).
    exists st2. split; [exact H|].
    intros n Hn. apply orb_false_iff in Hn. destruct Hn as [Hn1 Hn2].
    rewrite Hc2, Hc1 by assumption. reflexivity.
  - destruct (mt r1 k st) eqn:E.
    + intros [= <-]. apply IH1 in E. destruct E as (st1 & H & Hc1).
      exists st1. split; [exact H|].
      intros n Hn. apply orb_false_iff in Hn. apply Hc1, Hn.
    + intros H. apply IH2 in H. destruct H as (st2 & H & Hc2).
      exists st2. split; [exact H|].
      intros n Hn. apply orb_false_iff in Hn. apply Hc2, Hn.
  - destruct (mt r1 k st) eqn:E.
    + intros [= <-]. apply IH1 in E. exact E.
    + eauto.
  - intros H. apply star_through in H. destruct H as (st' & H & Hc).
    exists st'. rewrite Hc. auto.
  - intros H. apply IH1 in H. destruct H as (st1 & H & Hc1).
    exists (capture m st st1). split; [exact H|].
    intros n Hn. apply orb_false_iff in Hn. destruct Hn as [Hm Hn].
    simpl. rewrite Hm. apply Hc1, Hn.
  - destruct (at_bol b st); [eauto | discriminate].
  - destruct (at_eol b st); [eauto | discriminate].
Qed.

(** A match found by a search is a match at some place. *)
Lemma search_match_at (r : re) (s : string) :
  forall (pv : option ascii) (i : nat) (m : rmatch),
    search r pv i s = Some m ->
    exists pv' i' s', match_at r pv' i' s' = Some m.
Proof.
  induction s as [|a s IH]; intros pv i m; simpl;
    destruct (match_at r pv i _) eqn:E; try discriminate.
  - intros [= <-]. eauto.
  - intros [= <-]. eauto.
  - apply IH.
Qed.

Lemma match_at_caps (r : re) (pv : option ascii) (i : nat) (s : string)
      (m : rmatch) :
  match_at r pv i s = Some m ->
  exists c, mt r Some (Cursor pv i s []) = Some c /\ m_caps m = caps c.
Proof.
  unfold match_at. destruct (mt r Some _) as [c|]; [|discriminate].
  intros [= <-]. eauto.
Qed.

Lemma digit_1_6 (a : ascii) :
  between "1" "6" a = true ->
  In (String a "") ["1"; "2"; "3"; "4"; "5"; "6"].
Proof.
  unfold between. rewrite andb_true_iff, !Nat.leb_le.
  change (nat_of_ascii "1") with 49. change (nat_of_ascii "6") with 54.
  intros [Hlo Hhi].
  rewrite <- (ascii_nat_embedding a).
  assert (H : nat_of_ascii a = 49 \/ nat_of_ascii a = 50
              \/ nat_of_ascii a = 51 \/ nat_of_ascii a = 52
              \/ nat_of_ascii a = 53 \/ nat_of_ascii a = 54) by lia.
  simpl.
  destruct H as [-> | [-> | [-> | [-> | [-> | ->]]]]]; auto 10.
Qed.

(** The first group of the heading pattern is a digit from 1 to 6. *)
Lemma heading_level (s : string) (m : rmatch) :
  exec re_heading s = Some m ->
  In (group 1 m) ["1"; "2"; "3"; "4"; "5"; "6"].
Proof.
  unfold exec. intros H.
  apply search_match_at in H. destruct H as (pv & i & s' & H).
  apply match_at_caps in H. destruct H as (c & H & Hcaps).
  unfold group. rewrite Hcaps.
  set (R := seq [Chr ">"; Grp 2 (Star dot false); lit "</h";
                 Cls (between "1" "6"); Chr ">"]).
  change re_heading
    with (Seq (lit "<h") (Seq (Grp 1 (Cls (between "1" "6"))) R)) in H.
  assert (HR : binds 1 R = false) by reflexivity.
  clearbody R. cbn [lit mt rest step] in H.
  destruct s' as [|a1 [|a2 [|a3 s']]]; try discriminate;
    try (destruct (Ascii.eqb "<" a1); discriminate).
  { destruct (Ascii.eqb "<" a1); [|discriminate].
    destruct (Ascii.eqb "h" a2); discriminate. }
  destruct (Ascii.eqb "<" a1); [|discriminate].
  destruct (Ascii.eqb "h" a2); [|discriminate].
  destruct (between "1" "6" a3) eqn:Hd; [|discriminate].
  apply mt_through in H. destruct H as (st' & [= ->] & Hc).
  rewrite Hc by exact HR.
  cbn [capture caps lookup pos rest step Nat.eqb].
  replace (S (S (S i)) - S (S i)) with 1 by lia.
  apply digit_1_6, Hd.
Qed.

End MatcherFacts.

Lemma scan_line_tag (line : string) (e : element) :
  scan_line line = Some e -> In (tag e) scanned_tags.
Proof.
  unfold scan_line.
  destruct (truthy (trim line)); [|discriminate]. cbn [negb].
  destruct (exec re_img _); [intros [= <-]; simpl; auto 20|].
  destruct (exec re_heading _) as [m|] eqn:Eh.
  { intros [= <-]. apply heading_level in Eh. cbn [tag].
    simpl in Eh.
    destruct Eh as [<-|[<-|[<-|[<-|[<-|[<-|[]]]]]]]; simpl; auto 20. }
  repeat match goal with
         | |- context [match ?o with Some _ => _ | None => _ end] =>
             match type of o with option rmatch => destruct o end
         | |- context [if ?b then _ else _] =>
             match type of b with bool => destruct b end
         end;
    try discriminate; intros [= <-]; simpl; auto 20.
Qed.

(* ------------------------------------------------------------------ *)
(** *** The title *)

Section Title.

Lemma drop_span (p : ascii -> bool) (s : string) :
  drop (span p s) s = drop_while p s.
Proof.
  induction s as [|c s IH]; simpl; [reflexivity|].
  destruct (p c); [exact IH | reflexivity].
Qed.

Lemma span_le (p : ascii -> bool) (s : string) : span p s <= String.length s.
Proof.
  induction s as [|c s IH]; simpl; [lia|]. destruct (p c); lia.
Qed.

Lemma trimStart_drop_while (s : string) : trimStart s = drop_while isWhiteSpace s.
Proof. induction s as [|c s IH]; simpl; [|rewrite IH]; reflexivity. Qed.

(** A greedy [p*] before a continuation that never fails takes all the
    characters of the class. *)
Lemma star_greedy_all (p : ascii -> bool) (k : cursor -> option cursor) :
  (forall st, k st <> None) ->
  forall (s : string) (pv : option ascii) (i : nat) (cs : list (nat * string)),
  exists pv',
    star p true k pv i cs s
    = k (Cursor pv' (i + span p s) (drop_while p s) cs).
Proof.
  intros Hk. induction s as [|a s IH]; intros pv i cs; simpl.
  - exists pv. rewrite Nat.add_0_r. reflexivity.
  - destruct (p a).
    + destruct (IH (Some a) (S i) cs) as [pv' E]. exists pv'.
      rewrite E. replace (i + S (span p s)) with (S i + span p s) by lia.
      destruct (k _) eqn:Ek; [reflexivity|]. exfalso. eapply Hk, Ek.
    + exists pv. rewrite Nat.add_0_r. reflexivity.
Qed.

(** Without the flag [m], [^] holds at the start only. *)
Lemma search_anchored (r : re) (s : string) :
  forall (a : ascii) (i : nat), search (Seq (Bol false) r) (Some a) i s = None.
Proof.
  induction s as [|c s IH]; intros a i; simpl; [reflexivity|]. apply IH.
Qed.

Lemma exec_anchored (r : re) (s : string) :
  exec (Seq (Bol false) r) s = match_at (Seq (Bol false) r) None 0 s.
Proof.
  unfold exec. destruct s as [|c s]; simpl;
    destruct (match_at _ None 0 _); try reflexivity.
  apply search_anchored.
Qed.

(** [firstLine.replace(/^#+\s*/, '')]: the marks at the start go, and the
    white space after them. *)
Lemma replace_leading_marks (line : string) :
  replace re_leading_marks (const "") line
  = match line with
    | String "#" _ => drop_while isWhiteSpace (drop_while (one "#") line)
    | _ => line
    end.
Proof.
  unfold replace, re_leading_marks.
  change (seq [Bol false; Plus (one "#") true; Star isWhiteSpace true])
    with (Seq (Bol false) (Seq (Plus (one "#") true) (Star isWhiteSpace true))).
  rewrite exec_anchored. unfold match_at, Plus.
  cbn [mt at_bol prev rest pos caps step].
  destruct line as [|a s]; [reflexivity|].
  unfold one at 1.
  destruct (Ascii.eqb_spec "#"%char a) as [<-|Hne].
  2:{ destruct a as [[|] [|] [|] [|] [|] [|] [|] [|]]; try reflexivity.
      exfalso. apply Hne. reflexivity. }
  set (K := fun st : cursor =>
              star isWhiteSpace true Some (prev st) (pos st) (caps st) (rest st)).
  assert (HK : forall st, K st <> None).
  { intros st. unfold K.
    destruct (star_greedy_all isWhiteSpace Some (fun _ => ltac:(discriminate))
                (rest st) (prev st) (pos st) (caps st)) as [pv' ->].
    discriminate. }
  destruct (star_greedy_all (one "#") K HK s (Some "#"%char) 1 []) as [pv1 ->].
  unfold K. cbn [prev pos caps rest].
  destruct (star_greedy_all isWhiteSpace Some (fun _ => ltac:(discriminate))
              (drop_while (one "#") s) pv1 (1 + span (one "#") s) [])
    as [pv2 ->].
  cbn [m_index m_text pos const].
  rewrite take_0, Nat.sub_0_r. cbn [append Nat.add].
  rewrite length_take.
  set (n1 := span (one "#") s).
  set (n2 := span isWhiteSpace (drop_while (one "#") s)).
  assert (H1 : n1 <= String.length s) by apply span_le.
  assert (H2 : n2 <= String.length s - n1).
  { subst n1 n2. rewrite <- drop_span, <- length_drop. apply span_le. }
  rewrite Nat.min_l by (simpl; lia).
  replace (1 + n1 + n2) with (S (n1 + n2)) by lia.
  cbn [drop]. rewrite <- drop_drop. subst n1 n2.
  rewrite drop_span, drop_span.
  cbn [drop_while one]. rewrite Ascii.eqb_refl. reflexivity.
Qed.

Lemma trim_drop_while_space (s : string) :
  trim (drop_while isWhiteSpace s) = trim s.
Proof.
  unfold trim. rewrite <- trimStart_drop_while, trimStart_trimStart.
  reflexivity.
Qed.

Lemma title_from_first_line (content : string) :
  no_atx_heading content ->
  extractTitleFromContent content
  = if truthy (first_line content)
    then trim (drop_while (one "#") (first_line content))
    else untitled.
Proof.
  intros [H1 H2]. unfold extractTitleFromContent. rewrite H1, H2.
  fold (first_line content).
  destruct (truthy (first_line content)); [|reflexivity].
  rewrite replace_leading_marks.
  destruct (first_line content) as [|a s]; [reflexivity|].
  destruct (Ascii.eqb_spec "#"%char a) as [<-|Hne].
  - apply trim_drop_while_space.
  - assert (E : drop_while (one "#") (String a s) = String a s).
    { cbn [drop_while]. unfold one.
      destruct (Ascii.eqb "#" a) eqn:E'; [|reflexivity].
      apply Ascii.eqb_eq in E'. contradiction. }
    rewrite E.
    destruct a as [[|] [|] [|] [|] [|] [|] [|] [|]]; reflexivity.
Qed.

End Title.

Section TitleFacts.

Lemma search_needs_char (c : ascii) (r1 r2 : re) (b : bool) (s : string) :
  has_char c s = false ->
  forall (pv : option ascii) (i : nat),
    search (Seq (Bol b) (Seq (Seq (Chr c) r1) r2)) pv i s = None.
Proof.
  induction s as [|a s IH]; cbn [has_char search]; intros H pv i.
  - unfold match_at. cbn [mt rest]. destruct (at_bol b _); reflexivity.
  - apply orb_false_iff in H. destruct H as [Ha Hs].
    unfold match_at. cbn [mt rest]. rewrite Ha.
    destruct (at_bol b _); apply IH, Hs.
Qed.

(** A source without the character [#] has no heading. *)
Lemma no_mark_no_heading (content : string) :
  has_char "#" content = false -> no_atx_heading content.
Proof.
  intros H. split; unfold exec.
  - change (re_title "#")
      with (Seq (Bol true)
              (Seq (Seq (Chr "#") Eps)
                 (seq [Plus isWhiteSpace true; Grp 1 (Plus dot true);
                       Eol true]))).
    apply search_needs_char, H.
  - change (re_title "##")
      with (Seq (Bol true)
              (Seq (Seq (Chr "#") (Seq (Chr "#") Eps))
                 (seq [Plus isWhiteSpace true; Grp 1 (Plus dot true);
                       Eol true]))).
    apply search_needs_char, H.
Qed.

End TitleFacts.

(* ------------------------------------------------------------------ *)
(** *** The language normalizer and the words of the specification *)

Section Normalizer.

(** The lookup [languageMap[l]] and what follows it, for a name [l] that
    [Object.prototype] does not have. *)
Lemma lookup_agrees (l : string) :
  mem l Object_prototype = false ->
  match get_property languageMap l with
  | Some v =>
      if js_truthy v then v
      else if mem l supportedLanguages then VStr l else VStr "plain text"
  | None => if mem l supportedLanguages then VStr l else VStr "plain text"
  end
  = VStr (if (l =? "js")%string || (l =? "jsx")%string then "javascript"
          else if (l =? "ts")%string || (l =? "tsx")%string then "typescript"
          else if (l =? "py")%string then "python"
          else if (l =? "rb")%string then "ruby"
          else if (l =? "sh")%string || (l =? "bash")%string
                  || (l =? "zsh")%string then "shell"
          else if (l =? "yml")%string then "yaml"
          else if (l =? "md")%string then "markdown"
          else if mem l supportedLanguages then l
          else "plain text").
Proof.
  intros Hproto. unfold get_property. cbn [assoc languageMap].
  repeat match goal with
         | |- context [(?a =? l)%string] =>
             destruct (String.eqb_spec a l) as [<-|?]; [reflexivity|]
         end.
  rewrite Hproto.
  repeat match goal with
         | |- context [(l =? ?a)%string] =>
             destruct (String.eqb_spec l a) as [->|?]; [congruence|]
         end.
  cbn [orb]. destruct (mem l supportedLanguages); reflexivity.
Qed.

(** Away from the names every object inherits, [normalizeLanguage] is the
    function the specification describes. *)
Lemma normalizeLanguage_agrees (language : string) :
  mem (trim (toLowerCase language)) Object_prototype = false ->
  normalizeLanguage language = VStr (normalize_spec language).
Proof.
  intros Hproto. unfold normalizeLanguage, normalize_spec.
  destruct language as [|c s]; [reflexivity|].
  cbn [truthy negb orb].
  destruct (String.eqb_spec (String c s) "plain text") as [->|_];
    [reflexivity|].
  cbv zeta. apply lookup_agrees, Hproto.
Qed.

(** On those names it returns the inherited member. *)
Lemma normalizeLanguage_inherited (language : string) :
  truthy language = true ->
  language <> "plain text" ->
  assoc (trim (toLowerCase language)) languageMap = None ->
  mem (trim (toLowerCase language)) Object_prototype = true ->
  normalizeLanguage language = VInherited (trim (toLowerCase language)).
Proof.
  intros Ht Hne Hown Hproto. unfold normalizeLanguage.
  rewrite Ht. cbn [negb orb].
  destruct (String.eqb_spec language "plain text") as [->|_];
    [contradiction|].
  cbv zeta. unfold get_property. rewrite Hown, Hproto. reflexivity.
Qed.

End Normalizer.

(* ------------------------------------------------------------------ *)
(** *** Literal patterns, and the escape of code blocks *)

Section Literals.

Lemma startsWith_nil (s : string) : startsWith s "" = true.
Proof. destruct s; reflexivity. Qed.

Lemma startsWith_take (pat s : string) :
  startsWith s pat = true -> take (String.length pat) s = pat.
Proof.
  revert s; induction pat as [|p pat IH]; intros [|c s]; simpl;
    try reflexivity; try discriminate.
  rewrite andb_true_iff. intros [Hc Hs].
  apply Ascii.eqb_eq in Hc. subst. f_equal. apply IH, Hs.
Qed.

(** A literal matches where the input starts with it, and nowhere else. *)
Lemma mt_lit (pat : string) (k : cursor -> option cursor) :
  forall st : cursor,
    if startsWith (rest st) pat
    then exists pv',
        mt (lit pat) k st
        = k (Cursor pv' (pos st + String.length pat)
                    (drop (String.length pat) (rest st)) (caps st))
    else mt (lit pat) k st = None.
Proof.
  induction pat as [|p pat IH]; intros [pv i s cs]; cbn [rest pos caps].
  - destruct s; cbn [startsWith lit mt String.length drop]; exists pv;
      rewrite Nat.add_0_r; reflexivity.
  - destruct s as [|c s]; cbn [startsWith lit mt rest]; [reflexivity|].
    rewrite Ascii.eqb_sym.
    destruct (Ascii.eqb p c); cbn [andb]; [|reflexivity].
    specialize (IH (step c s (Cursor pv i (String c s) cs))).
    cbn [step rest pos caps] in IH.
    destruct (startsWith s pat); [|exact IH].
    destruct IH as [pv' ->]. exists pv'.
    cbn [String.length drop].
    replace (i + S (String.length pat)) with (S i + String.length pat) by lia.
    reflexivity.
Qed.

Lemma match_at_lit (pat : string) (pv : option ascii) (i : nat) (s : string) :
  match_at (lit pat) pv i s
  = if startsWith s pat then Some (Match i pat []) else None.
Proof.
  unfold match_at.
  pose proof (mt_lit pat Some (Cursor pv i s [])) as H.
  cbn [rest pos caps] in H.
  destruct (startsWith s pat) eqn:E.
  - destruct H as [pv' ->]. cbn [pos caps].
    replace (i + String.length pat - i) with (String.length pat) by lia.
    rewrite (startsWith_take pat s E). reflexivity.
  - rewrite H. reflexivity.
Qed.

Lemma replace_all_lit_scan (pat rep : string) (s : string) :
  forall (pv : option ascii) (i skip : nat),
    render (const rep) (scan (lit pat) pv i skip s) = replace_lit pat rep skip s.
Proof.
  induction s as [|c s IH]; intros pv i skip.
  - destruct skip; [|reflexivity].
    cbn [scan replace_lit]. rewrite match_at_lit.
    destruct (startsWith "" pat); reflexivity.
  - destruct skip as [|k]; cbn [scan replace_lit]; [|apply IH].
    rewrite match_at_lit.
    destruct (startsWith (String c s) pat); cbn [render m_text const].
    + f_equal. destruct (String.length pat); cbn [render]; rewrite IH;
        reflexivity.
    + rewrite IH. reflexivity.
Qed.

(** For a literal pattern and a plain replacement, [replace_all] is the
    replacement of the occurrences from left to right. *)
Lemma replace_all_lit (pat rep s : string) :
  replace_all (lit pat) (const rep) s = replace_lit pat rep 0 s.
Proof. apply replace_all_lit_scan. Qed.

(** The pre-pass escape is the one of the specification. *)
Lemma escape_newlines_spec (s : string) : escape_newlines s = escape_spec s.
Proof.
  unfold escape_newlines. rewrite replace_all_lit.
  induction s as [|c s IH]; [reflexivity|].
  cbn [replace_lit startsWith nl escape_spec String.length].
  rewrite startsWith_nil, andb_true_r.
  destruct (Ascii.eqb c LF); cbn [append]; rewrite IH; reflexivity.
Qed.

Lemma unescape_spec_eq (c : ascii) (s : string) :
  unescape_spec (String c s)
  = if Ascii.eqb c "\" && startsWith s "n"
    then String LF (unescape_spec (drop 1 s))
    else String c (unescape_spec s).
Proof.
  destruct s as [|a s]; [rewrite andb_false_r; reflexivity|].
  cbn [startsWith drop]. rewrite startsWith_nil, andb_true_r.
  destruct a as [[|] [|] [|] [|] [|] [|] [|] [|]];
    cbn [unescape_spec Ascii.eqb Bool.eqb andb];
    rewrite ?andb_false_r; try reflexivity.
  destruct (Ascii.eqb c "\"); reflexivity.
Qed.

(** The un-escape of the block builder is the reverse the specification
    describes. *)
Lemma unescape_spec_code (s : string) :
  replace_all (lit "\n") (const nl) s = unescape_spec s.
Proof.
  rewrite replace_all_lit.
  assert (H : forall n t, String.length t <= n ->
                          replace_lit "\n" nl 0 t = unescape_spec t).
  { induction n as [|n IH]; intros [|c t] Hlen; try reflexivity;
      [simpl in Hlen; lia|].
    rewrite unescape_spec_eq.
    cbn [replace_lit startsWith String.length].
    destruct t as [|a t].
    - rewrite andb_false_r. reflexivity.
    - cbn [startsWith drop]. rewrite !startsWith_nil, !andb_true_r.
      destruct (Ascii.eqb c "\" && Ascii.eqb a "n").
      + cbn [replace_lit nl append]. f_equal.
        apply IH. simpl in Hlen. lia.
      + f_equal. apply IH. simpl in *. lia. }
  apply (H (String.length s)). reflexivity.
Qed.

Lemma startsWith_escape_n (s : string) :
  startsWith (escape_spec s) "n" = startsWith s "n".
Proof.
  destruct s as [|c s]; [reflexivity|]. cbn [escape_spec].
  destruct (Ascii.eqb_spec c LF) as [->|_]; [reflexivity|].
  cbn [startsWith]. rewrite !startsWith_nil. reflexivity.
Qed.

(** Without a backslash followed by the letter n in it, a text comes back
    from the escape and its reverse as it was. *)
Lemma unescape_escape (s : string) :
  has_backslash_n s = false -> unescape_spec (escape_spec s) = s.
Proof.
  induction s as [|c s IH]; [reflexivity|].
  cbn [has_backslash_n escape_spec]. rewrite orb_false_iff.
  intros [Hc Hs].
  destruct (Ascii.eqb_spec c LF) as [->|Hne].
  - rewrite unescape_spec_eq. cbn [Ascii.eqb Bool.eqb andb startsWith drop].
    rewrite startsWith_nil, IH by exact Hs. reflexivity.
  - rewrite unescape_spec_eq, startsWith_escape_n, Hc, IH by exact Hs.
    reflexivity.
Qed.

(** The same on the code: the un-escape of the block builder after the
    escape of the pre-pass. *)
Lemma code_escape_round_trip (interior : string) :
  has_backslash_n interior = false ->
  replace_all (lit "\n") (const nl) (escape_newlines interior) = interior.
Proof.
  intros H. rewrite escape_newlines_spec, unescape_spec_code.
  apply unescape_escape, H.
Qed.

End Literals.

(* ------------------------------------------------------------------ *)
(** *** Removing the tags *)

Section Tags.

(** The greedy [[^>]*] before [>]: the match goes to the first [>], and
    there is none without a [>]. *)
Lemma star_to_close (s : string) :
  forall (pv : option ascii) (i : nat) (cs : list (nat * string)),
    if has_char ">" s
    then exists c,
        star (non ">") true (mt (Chr ">") Some) pv i cs s = Some c
        /\ pos c = i + S (span (non ">") s)
        /\ caps c = cs
    else star (non ">") true (mt (Chr ">") Some) pv i cs s = None.
Proof.
  induction s as [|a s IH]; intros pv i cs; [reflexivity|].
  cbn [has_char star span].
  change (non ">" a) with (negb (Ascii.eqb ">" a)).
  destruct (Ascii.eqb ">" a) eqn:Ea; cbn [negb orb].
  - cbn [mt rest]. rewrite Ea. eexists. split; [reflexivity|].
    cbn [step pos caps]. split; [lia | reflexivity].
  - specialize (IH (Some a) (S i) cs).
    destruct (has_char ">" s).
    + destruct IH as (c & -> & Hpos & Hcaps). exists c.
      split; [reflexivity|]. split; [lia | exact Hcaps].
    + rewrite IH. cbn [mt rest]. rewrite Ea. reflexivity.
Qed.

Lemma mt_Seq (r1 r2 : re) (k : cursor -> option cursor) (st : cursor) :
  mt (Seq r1 r2) k st = mt r1 (mt r2 k) st.
Proof. reflexivity. Qed.

Lemma mt_Chr (c : ascii) (k : cursor -> option cursor) (st : cursor) :
  mt (Chr c) k st
  = match rest st with
    | "" => None
    | String c' s' => if Ascii.eqb c c' then k (step c' s' st) else None
    end.
Proof. reflexivity. Qed.

Lemma mt_Star (p : ascii -> bool) (g : bool) (k : cursor -> option cursor)
      (st : cursor) :
  mt (Star p g) k st = star p g k (prev st) (pos st) (caps st) (rest st).
Proof. reflexivity. Qed.

Lemma match_at_tag (pv : option ascii) (i : nat) (s : string) :
  match_at re_tag pv i s
  = match s with
    | "" => None
    | String c s' =>
        if Ascii.eqb c "<" && has_char ">" s'
        then Some (Match i (take (S (S (span (non ">") s'))) s) [])
        else None
    end.
Proof.
  unfold match_at.
  change re_tag with (Seq (Chr "<") (Seq (Star (non ">") true) (Chr ">"))).
  rewrite mt_Seq, mt_Chr. cbn [rest]. destruct s as [|c s']; [reflexivity|].
  rewrite (Ascii.eqb_sym "<" c).
  destruct (Ascii.eqb c "<"); cbn [andb]; [|reflexivity].
  rewrite mt_Seq, mt_Star. cbn [step prev pos caps rest].
  pose proof (star_to_close s' (Some c) (S i) []) as H.
  destruct (has_char ">" s').
  - destruct H as (cur & -> & Hpos & ->). rewrite Hpos.
    replace (S i + S (span (non ">") s') - i)
      with (S (S (span (non ">") s'))) by lia.
    reflexivity.
  - rewrite H. reflexivity.
Qed.

Lemma span_lt_of_has_char (s : string) :
  has_char ">" s = true -> span (non ">") s < String.length s.
Proof.
  induction s as [|a s IH]; [discriminate|].
  cbn [has_char span String.length].
  change (non ">" a) with (negb (Ascii.eqb ">" a)).
  destruct (Ascii.eqb ">" a); cbn [negb orb]; [lia|].
  intros H. apply IH in H. lia.
Qed.

Lemma replace_all_tag_scan (s : string) :
  forall (pv : option ascii) (i skip : nat),
    render (const "") (scan re_tag pv i skip s) = remove_tags skip s.
Proof.
  induction s as [|c s IH]; intros pv i skip.
  - destruct skip; reflexivity.
  - destruct skip as [|k]; cbn [scan remove_tags]; [|apply IH].
    rewrite match_at_tag.
    destruct (Ascii.eqb c "<" && has_char ">" s) eqn:E;
      cbn [render m_text const]; [|rewrite IH; reflexivity].
    apply andb_true_iff in E. destruct E as [_ E].
    apply span_lt_of_has_char in E.
    rewrite length_take, Nat.min_l by (cbn [String.length]; lia).
    cbn [append]. apply IH.
Qed.

(** The first step of [stripHtmlTags] is the removal of the tags. *)
Lemma replace_all_tag (s : string) :
  replace_all re_tag (const "") s = remove_tags 0 s.
Proof. apply replace_all_tag_scan. Qed.

(** [stripHtmlTags], step by step, in the words of the specification. *)
Lemma stripHtmlTags_spec (s : string) :
  stripHtmlTags s = trim (decode_entities (remove_tags 0 s)).
Proof.
  unfold stripHtmlTags, decode_entities.
  rewrite replace_all_tag, !replace_all_lit. reflexivity.
Qed.

Lemma remove_tags_skip (k : nat) :
  forall s, remove_tags k s = remove_tags 0 (drop k s).
Proof.
  induction k as [|k IH]; intros [|c s]; try reflexivity.
  cbn [remove_tags drop]. apply IH.
Qed.

Lemma remove_tags_keeps_none (n : nat) :
  forall s, String.length s <= n ->
            has_char ">" s = false -> has_char ">" (remove_tags 0 s) = false.
Proof.
  induction n as [|n IH]; intros [|c s] Hlen; try reflexivity;
    [simpl in Hlen; lia|].
  cbn [has_char remove_tags]. rewrite orb_false_iff. intros [Hc Hs].
  rewrite Hs, andb_false_r. cbn [has_char]. rewrite Hc.
  apply IH; [simpl in Hlen; lia | exact Hs].
Qed.

(** What the removal leaves has no complete tag. *)
Lemma remove_tags_no_tag (n : nat) :
  forall s, String.length s <= n -> has_tag (remove_tags 0 s) = false.
Proof.
  induction n as [|n IH]; intros [|c s] Hlen; try reflexivity;
    [simpl in Hlen; lia|].
  cbn [remove_tags]. simpl in Hlen.
  destruct (Ascii.eqb c "<" && has_char ">" s) eqn:E.
  - rewrite remove_tags_skip. apply IH. rewrite length_drop. lia.
  - cbn [has_tag]. rewrite (IH s) by lia. rewrite orb_false_r.
    destruct (Ascii.eqb c "<"); [|reflexivity]. cbn [andb] in *.
    apply (remove_tags_keeps_none (String.length s)); [lia | exact E].
Qed.

End Tags.

(* ------------------------------------------------------------------ *)
(** *** The title from a heading line *)

Section HeadingLine.

Lemma mt_Cls (p : ascii -> bool) (k : cursor -> option cursor) (st : cursor) :
  mt (Cls p) k st
  = match rest st with
    | "" => None
    | String c' s' => if p c' then k (step c' s' st) else None
    end.
Proof. reflexivity. Qed.

Lemma mt_Grp (n : nat) (r : re) (k : cursor -> option cursor) (st : cursor) :
  mt (Grp n r) k st = mt r (fun st' => k (capture n st st')) st.
Proof. reflexivity. Qed.

Lemma mt_Bol (b : bool) (k : cursor -> option cursor) (st : cursor) :
  mt (Bol b) k st = if at_bol b st then k st else None.
Proof. reflexivity. Qed.

Lemma mt_Eol (b : bool) (k : cursor -> option cursor) (st : cursor) :
  mt (Eol b) k st = if at_eol b st then k st else None.
Proof. reflexivity. Qed.

(** A greedy [p*] takes all the characters of the class when the
    continuation accepts what follows them. *)
Lemma star_greedy_after (p : ascii -> bool) (k : cursor -> option cursor)
      (s : string) :
  forall (pv : option ascii) (i : nat) (cs : list (nat * string)),
    k (after p pv i cs s) <> None ->
    star p true k pv i cs s = k (after p pv i cs s).
Proof.
  induction s as [|a s IH]; intros pv i cs Hk; cbn [star after] in *;
    [reflexivity|].
  destruct (p a); [|reflexivity].
  rewrite IH by exact Hk.
  destruct (k (after p (Some a) (S i) cs s)); [reflexivity | contradiction].
Qed.

Lemma after_app (p : ascii -> bool) (a b : string) :
  all_chars p a = true -> stops p b = true ->
  forall (pv : option ascii) (i : nat) (cs : list (nat * string)),
    after p pv i cs (a ++ b)
    = Cursor (last_char pv a) (i + String.length a) b cs.
Proof.
  intros Ha Hb. induction a as [|c a IH]; intros pv i cs.
  - cbn [append last_char String.length]. rewrite Nat.add_0_r.
    destruct b as [|c b]; [reflexivity|].
    cbn [after]. cbn [stops] in Hb.
    destruct (p c); [discriminate | reflexivity].
  - cbn [all_chars] in Ha. apply andb_true_iff in Ha. destruct Ha as [Hc Ha].
    cbn [append after last_char String.length]. rewrite Hc.
    rewrite (IH Ha).
    replace (S i + String.length a) with (i + S (String.length a)) by lia.
    reflexivity.
Qed.

Lemma take_app_exact (a b : string) : take (String.length a) (a ++ b) = a.
Proof.
  induction a as [|c a IH]; [apply take_0|].
  cbn [String.length append take]. rewrite IH. reflexivity.
Qed.

Lemma startsWith_app (a b : string) : startsWith (a ++ b) a = true.
Proof.
  induction a as [|c a IH]; [apply startsWith_nil|].
  cbn [append startsWith]. rewrite Ascii.eqb_refl. exact IH.
Qed.

Lemma drop_app_exact (a b : string) : drop (String.length a) (a ++ b) = b.
Proof. induction a as [|c a IH]; [reflexivity | exact IH]. Qed.

(** An attempt at a heading line: the marks, white space, then the text that
    goes to the end of the line. *)
Lemma match_at_title (marks : string) (c0 : ascii) (sp' : string)
      (c : ascii) (t' more : string) (pv : option ascii) (i : nat) :
  at_bol true (Cursor pv i "" []) = true ->
  isWhiteSpace c0 = true -> all_chars isWhiteSpace sp' = true ->
  isWhiteSpace c = false ->
  dot c = true -> all_chars dot t' = true ->
  line_ends more = true ->
  exists m,
    match_at (re_title marks) pv i
             (marks ++ String c0 sp' ++ String c t' ++ more) = Some m
    /\ group 1 m = String c t'.
Proof.
  intros Hbol Hc0 Hsp Hc Hdc Hdt Hrest.
  unfold match_at.
  change (re_title marks)
    with (Seq (Bol true)
            (Seq (lit marks)
               (Seq (Plus isWhiteSpace true)
                  (Seq (Grp 1 (Plus dot true)) (Eol true))))).
  rewrite mt_Seq, mt_Bol.
  replace (at_bol true (Cursor pv i _ [])) with true
    by (symmetry; exact Hbol).
  rewrite mt_Seq.
  pose proof (mt_lit marks
                (mt (Seq (Plus isWhiteSpace true)
                       (Seq (Grp 1 (Plus dot true)) (Eol true))) Some)
                (Cursor pv i (marks ++ String c0 sp' ++ String c t' ++ more) []))
    as Hlit.
  cbn [rest pos caps] in Hlit.
  rewrite startsWith_app in Hlit. destruct Hlit as [pv1 ->].
  rewrite drop_app_exact.
  unfold Plus. rewrite !mt_Seq, mt_Cls. cbn [rest append]. rewrite Hc0.
  rewrite mt_Star. cbn [step prev pos caps rest].
  set (i1 := S (i + String.length marks)).
  assert (Hstop1 : stops isWhiteSpace (String c t' ++ more) = true)
    by (cbn [append stops]; rewrite Hc; reflexivity).
  assert (Hstop2 : stops dot more = true).
  { destruct more as [|a more']; [reflexivity|].
    cbn [stops line_ends] in *. unfold dot. rewrite Hrest. reflexivity. }
  assert (Heol : forall pv' j cs', at_eol true (Cursor pv' j more cs') = true).
  { intros pv' j cs'. unfold at_eol. cbn [rest].
    destruct more as [|a more']; [reflexivity | exact Hrest]. }
  set (K1 := mt (Seq (Grp 1 (Seq (Cls dot) (Star dot true))) (Eol true)) Some).
  assert (HK1 : K1 (after isWhiteSpace (Some c0) i1 [] (sp' ++ String c t' ++ more))
                = Some (capture 1
                          (Cursor (last_char (Some c0) sp')
                                  (i1 + String.length sp')
                                  (String c t' ++ more) [])
                          (Cursor (last_char (Some c) t')
                                  (S (i1 + String.length sp') + String.length t')
                                  more []))).
  { rewrite (after_app isWhiteSpace sp' _ Hsp Hstop1).
    unfold K1. rewrite mt_Seq, mt_Grp, mt_Seq, mt_Cls.
    cbn [rest append]. rewrite Hdc. rewrite mt_Star.
    cbn [step prev pos caps rest].
    rewrite star_greedy_after;
      rewrite (after_app dot t' more Hdt Hstop2);
      rewrite mt_Eol; unfold capture at 1; cbn [rest prev pos caps];
      rewrite Heol; cbn [mt]; [reflexivity | discriminate]. }
  change (String c (t' ++ more)) with (String c t' ++ more).
  rewrite star_greedy_after by (rewrite HK1; discriminate).
  rewrite HK1. eexists. split; [reflexivity|].
  unfold group. cbn [m_caps capture caps lookup Nat.eqb pos rest].
  replace (S (i1 + String.length sp') + String.length t'
           - (i1 + String.length sp'))
    with (String.length (String c t')) by (cbn [String.length]; lia).
  apply (take_app_exact (String c t') more).
Qed.

(** No attempt succeeds in a text without the first mark. *)
Lemma search_skip (c : ascii) (r1 r2 : re) (b : bool) (pre s : string) :
  has_char c pre = false ->
  forall (pv : option ascii) (i : nat),
    search (Seq (Bol b) (Seq (Seq (Chr c) r1) r2)) pv i (pre ++ s)
    = search (Seq (Bol b) (Seq (Seq (Chr c) r1) r2))
             (last_char pv pre) (i + String.length pre) s.
Proof.
  induction pre as [|a pre IH]; intros H pv i.
  - cbn [append last_char String.length]. rewrite Nat.add_0_r. reflexivity.
  - cbn [has_char] in H. apply orb_false_iff in H. destruct H as [Ha Hpre].
    cbn [append search last_char String.length].
    unfold match_at at 1. cbn [mt rest]. rewrite Ha.
    replace (i + S (String.length pre)) with (S i + String.length pre) by lia.
    destruct (at_bol b _); apply IH, Hpre.
Qed.

(** The first heading line of level one gives the title: after a text
    [pre] without [#], at the start of a line, a [#], white space and the
    text [t] up to the end of the line. *)
Lemma title_from_h1_line (pre : string) (c0 : ascii) (sp' : string)
      (c : ascii) (t' more : string) :
  has_char "#" pre = false -> line_starts pre = true ->
  isWhiteSpace c0 = true -> all_chars isWhiteSpace sp' = true ->
  isWhiteSpace c = false ->
  all_chars dot (String c t') = true ->
  line_ends more = true ->
  extractTitleFromContent (pre ++ "#" ++ String c0 sp' ++ String c t' ++ more)
  = trim (String c t').
Proof.
  intros Hpre Hline Hc0 Hsp Hc Hdot Hrest.
  cbn [all_chars] in Hdot. apply andb_true_iff in Hdot.
  destruct Hdot as [Hdc Hdt].
  unfold extractTitleFromContent, exec.
  change (re_title "#")
    with (Seq (Bol true)
            (Seq (Seq (Chr "#") Eps)
               (seq [Plus isWhiteSpace true; Grp 1 (Plus dot true);
                     Eol true]))).
  rewrite (search_skip "#" Eps _ true pre _ Hpre).
  change (Seq (Bol true)
            (Seq (Seq (Chr "#") Eps)
               (seq [Plus isWhiteSpace true; Grp 1 (Plus dot true);
                     Eol true])))
    with (re_title "#").
  assert (Hbol : at_bol true (Cursor (last_char None pre)
                                     (0 + String.length pre) "" []) = true).
  { unfold at_bol. cbn [prev]. unfold line_starts in Hline.
    destruct (last_char None pre); [exact Hline | reflexivity]. }
  destruct (match_at_title "#" c0 sp' c t' more _ _
              Hbol Hc0 Hsp Hc Hdc Hdt Hrest) as (m & Hm & Hg).
  assert (Hs : search (re_title "#") (last_char None pre)
                 (0 + String.length pre)
                 ("#" ++ String c0 sp' ++ String c t' ++ more) = Some m).
  { cbn [append search] in *. rewrite Hm. reflexivity. }
  rewrite Hs, Hg. reflexivity.
Qed.

End HeadingLine.

(* ------------------------------------------------------------------ *)
(** *** Every outcome of a conversion *)

Section NeverThrows.

Context {W : Type} (P : platform W).

(** Only the elements tagged [img] carry parsed attributes. *)
Lemma scan_line_img_attrs (line : string) (e : element)
      (kvs : list (string * string)) :
  scan_line line = Some e -> attrs_of e = Some (ImgAttrs kvs) -> tag e = "img".
Proof.
  unfold scan_line.
  repeat match goal with
         | |- context [match ?o with Some _ => _ | None => _ end] =>
             match type of o with option rmatch => destruct o end
         | |- context [if ?b then _ else _] =>
             match type of b with bool => destruct b end
         end;
    try discriminate; intros [= <-]; simpl; try discriminate.
  reflexivity.
Qed.

(** The builder throws for no element of that kind. *)
Lemma elementToNotionBlock_returns (e : element) (st : state W) :
  (forall kvs, attrs_of e = Some (ImgAttrs kvs) -> tag e = "img") ->
  exists ob st', elementToNotionBlock P e st = (Returned ob, st').
Proof.
  intros Himg.
  destruct (elementToNotionBlock P e st) as [[ob|err] st'] eqn:H; [eauto|].
  exfalso. builder_cases H; try discriminate.
  rewrite (Himg _ eq_refl) in *. discriminate.
Qed.

Lemma build_blocks_returns (es : list element) :
  Forall (fun e => forall kvs, attrs_of e = Some (ImgAttrs kvs) -> tag e = "img")
         es ->
  forall (acc : list block) (st : state W),
  exists bs st', build_blocks P es acc st = (Returned bs, st').
Proof.
  induction 1 as [|e es He _ IH]; intros acc st; simpl.
  - unfold ret. eauto.
  - unfold bind.
    destruct (elementToNotionBlock_returns e st He) as (ob & st1 & ->).
    apply IH.
Qed.

Lemma In_omap_in {A B : Type} (f : A -> option B) (xs : list A) (y : B) :
  In y (omap f xs) -> exists x, f x = Some y.
Proof. intros H. apply In_omap in H. destruct H as (x & _ & H). eauto. Qed.

(** The conversion of the HTML into blocks throws for no input. *)
Lemma htmlToNotionBlocks_returns (html : string) (st : state W) :
  exists bs st', htmlToNotionBlocks P html st = (Returned bs, st').
Proof.
  unfold htmlToNotionBlocks. apply build_blocks_returns.
  apply Forall_forall. intros e Hin kvs Hattrs.
  apply In_omap_in in Hin. destruct Hin as (line & Hline).
  eapply scan_line_img_attrs; eassumption.
Qed.

(** With a client that accepts the appends, the loop returns. *)
Lemma submit_returns (fuel : nat) :
  (forall id children w, exists w', blocks_append P id children w = (None, w')) ->
  forall (allBlocks : list block) (page : string) (i total : nat) (st : state W),
  exists t st', submit P fuel allBlocks page i total st = (Returned t, st').
Proof.
  intros Hacc.
  induction fuel as [|fuel IH]; intros allBlocks page i total st; cbn [submit].
  - unfold ret. eauto.
  - destruct (i <? List.length allBlocks)%nat; [|unfold ret; eauto].
    unfold bind at 1, blocksAppend.
    destruct (Hacc page (slice allBlocks i (i + BATCH_SIZE)) (world st))
      as (w' & ->).
    unfold bind.
    destruct (i + BATCH_SIZE <? List.length allBlocks)%nat;
      unfold delay, ret; apply IH.
Qed.

End NeverThrows.

Section AnyRun.

Context {W : Type} (P : platform W).

(** One element, whatever the outcome: nothing is sent, or one request for
    the source of the image. *)
Lemma elementToNotionBlock_fetches
      (e : element) (st st' : state W) (o : outcome (option block)) :
  elementToNotionBlock P e st = (o, st') ->
  trace st' = trace st
  \/ (exists response,
         trace st' = (trace st ++ [Fetch (attr "src" e) response])%list
         /\ tag e = "img"
         /\ truthy (attr "src" e) = true
         /\ url_parses P (attr "src" e) = true).
Proof.
  intros H.
  builder_cases H; injection H as <- <-; auto;
    right; eexists; unfold emit, push; cbn [trace];
    (split; [reflexivity|]);
    repeat match goal with
           | E : (tag e =? _)%string = true |- _ =>
               apply String.eqb_eq in E
           end; auto.
Qed.

Lemma build_blocks_fetches (es : list element) :
  forall (acc : list block) (st st' : state W) (o : outcome (list block)),
    build_blocks P es acc st = (o, st') ->
    exists evs,
      trace st' = (trace st ++ evs)%list
      /\ Forall (checks_image P es) evs.
Proof.
  induction es as [|e es IH]; intros acc st st' o; simpl.
  - unfold ret. intros [= <- <-]. exists []. rewrite app_nil_r. auto.
  - unfold bind.
    destruct (elementToNotionBlock P e st) as [[ob|err] st1] eqn:He.
    + intros Hrest. apply IH in Hrest. destruct Hrest as (evs & Ht & Hall).
      assert (Hall' : Forall (checks_image P (e :: es)) evs).
      { eapply Forall_impl; [|exact Hall].
        intros ev (e' & resp & ? & ? & ?). exists e', resp.
        repeat split; try tauto. right. tauto. }
      apply elementToNotionBlock_fetches in He.
      destruct He as [He|(resp & He & Htag & Hsrc & Hurl)].
      * exists evs. rewrite Ht, He. auto.
      * exists (Fetch (attr "src" e) resp :: evs).
        rewrite Ht, He, <- app_assoc. split; [reflexivity|].
        constructor; [|exact Hall'].
        exists e, resp. repeat split; auto. left. reflexivity.
    + intros [= <- <-].
      apply elementToNotionBlock_fetches in He.
      destruct He as [He|(resp & He & Htag & Hsrc & Hurl)].
      * exists []. rewrite app_nil_r. auto.
      * exists [Fetch (attr "src" e) resp]. split; [exact He|].
        constructor; [|constructor].
        exists e, resp. repeat split; auto. left. reflexivity.
Qed.

(** The loop of the batches, whatever the outcome: appends to the page and
    pauses, nothing else. *)
Lemma submit_events (fuel : nat) :
  forall (allBlocks : list block) (page : string) (i total : nat)
         (st st' : state W) (o : outcome nat),
    submit P fuel allBlocks page i total st = (o, st') ->
    exists evs,
      trace st' = (trace st ++ evs)%list
      /\ forallb is_append_or_delay evs = true.
Proof.
  induction fuel as [|fuel IH]; intros allBlocks page i total st st' o;
    cbn [submit].
  - unfold ret. intros [= <- <-]. exists []. rewrite app_nil_r. auto.
  - destruct (i <? List.length allBlocks)%nat.
    2:{ unfold ret. intros [= <- <-]. exists []. rewrite app_nil_r. auto. }
    unfold bind at 1, blocksAppend.
    destruct (blocks_append P page _ (world st)) as [[err|] w1].
    { intros [= <- <-]. eexists [_]. unfold emit, push. cbn [trace].
      split; reflexivity. }
    unfold bind.
    destruct (i + BATCH_SIZE <? List.length allBlocks)%nat;
      unfold delay, ret; intros Hrec; apply IH in Hrec;
      destruct Hrec as (evs & Ht & Hall); rewrite Ht;
      unfold emit, push; cbn [trace world]; rewrite <- !app_assoc;
      eexists; (split; [reflexivity|]); simpl; exact Hall.
Qed.

Local Arguments submit : simpl never.

(** A run of the conversion, whatever the outcome.  Without a key or a
    parent page nothing happens.  Otherwise the blocks are built, at the
    price of the requests of the reachability checks; then the creation of
    the page is asked for, under the resolved title; then, if the page was
    created, come the appends and the pauses. *)
Lemma markdownToNotion_run
      (content key parent : string) (title0 : option string) (w : W)
      (o : outcome HtmlToNotionResult) (st : state W) :
  run (markdownToNotion P content key parent title0) w = (o, st) ->
  (truthy key && truthy parent = false /\ st = State w [])
  \/ (exists (blocks : list block) (st1 : state W) (later : list event),
         truthy key && truthy parent = true
         /\ htmlToNotionBlocks P (markdownToHtml (makeHtml P) content)
                               (State w [])
            = (Returned blocks, st1)
         /\ trace st
            = (trace st1
                 ++ PagesCreate parent (resolved_title title0 content)
                 :: later)%list
         /\ forallb is_append_or_delay later = true
         /\ ((exists err w', pages_create P parent
                               (resolved_title title0 content) (world st1)
                             = (inl err, w')) -> later = [])).
Proof.
  unfold run, markdownToNotion, try_catch. cbv beta zeta.
  destruct (bind _ _ _) as [[res|err] st1] eqn:Hrun; intros Hout.
  - injection Hout as <- <-. right.
    unfold bind in Hrun.
    destruct (truthy key); simpl in Hrun; [|discriminate].
    destruct (truthy parent); simpl in Hrun; [|discriminate].
    destruct (htmlToNotionBlocks P _ _) as [[blocks|err] st2] eqn:Hbuild;
      [|discriminate].
    fold (resolved_title title0 content) in Hrun.
    unfold pagesCreate in Hrun.
    destruct (pages_create P parent _ (world st2)) as [[err|page] w3] eqn:Hpage;
      [discriminate|].
    match type of Hrun with
    | context [submit P ?n ?all ?pg 0 0 ?s] =>
        destruct (submit P n all pg 0 0 s) as [[total|err] st4] eqn:Hsub;
        [|discriminate]
    end.
    apply submit_events in Hsub. destruct Hsub as (evs & Ht & Hall).
    unfold ret in Hrun. injection Hrun as <- <-.
    exists blocks, st2, evs. repeat split; auto.
    + rewrite Ht. unfold emit, push. cbn [trace world].
      rewrite <- app_assoc. reflexivity.
    + intros (err & w' & E). congruence.
  - assert (Hst : st = st1)
      by (destruct (is_Error err); unfold throw in Hout;
          injection Hout as <- <-; reflexivity).
    subst st1. clear Hout.
    unfold bind in Hrun.
    destruct (truthy key); simpl in Hrun;
      [|left; unfold throw in Hrun; injection Hrun as <- <-; auto].
    destruct (truthy parent); simpl in Hrun;
      [|left; unfold throw in Hrun; injection Hrun as <- <-; auto].
    right.
    destruct (htmlToNotionBlocks P _ _) as [[blocks|err'] st2] eqn:Hbuild.
    2:{ destruct (htmlToNotionBlocks_returns P
                    (markdownToHtml (makeHtml P) content) (State w []))
          as (bs & st' & E).
        rewrite E in Hbuild. discriminate. }
    fold (resolved_title title0 content) in Hrun.
    unfold pagesCreate in Hrun.
    destruct (pages_create P parent _ (world st2)) as [[err'|page] w3] eqn:Hpage.
    + injection Hrun as <- <-.
      exists blocks, st2, []. repeat split; auto.
    + match type of Hrun with
      | context [submit P ?n ?all ?pg 0 0 ?s] =>
          destruct (submit P n all pg 0 0 s) as [[total|err'] st4] eqn:Hsub;
          [discriminate|]
      end.
      apply submit_events in Hsub. destruct Hsub as (evs & Ht & Hall).
      injection Hrun as <- <-.
      exists blocks, st2, evs. repeat split; auto.
      * rewrite Ht. unfold emit, push. cbn [trace world].
        rewrite <- app_assoc. reflexivity.
      * intros (err0 & w' & E). congruence.
Qed.

End AnyRun.

Section ResultFields.

Context {W : Type} (P : platform W).

Local Arguments submit : simpl never.

(** The fields of a returned result that do not depend on the blocks. *)
Lemma markdownToNotion_result
      (content key parent : string) (title0 : option string) (w : W)
      (r : HtmlToNotionResult) (st : state W) :
  run (markdownToNotion P content key parent title0) w = (Returned r, st) ->
  success r = true
  /\ title r = resolved_title title0 content
  /\ timestamp r = toISOString P w.
Proof.
  unfold run, markdownToNotion, try_catch. cbv beta zeta.
  destruct (bind _ _ _) as [[res|err] st1] eqn:Hrun.
  2:{ destruct (is_Error err); unfold throw; discriminate. }
  intros [= -> ->].
  unfold bind in Hrun.
  destruct (truthy key); simpl in Hrun; [|discriminate].
  destruct (truthy parent); simpl in Hrun; [|discriminate].
  destruct (htmlToNotionBlocks P _ _) as [[blocks|err] st2]; [|discriminate].
  fold (resolved_title title0 content) in Hrun.
  destruct (pagesCreate P parent _ st2) as [[page|err] st3]; [|discriminate].
  match type of Hrun with
  | context [submit P ?n ?all ?pg 0 0 ?s] =>
      destruct (submit P n all pg 0 0 s) as [[total|err] st4];
      [|discriminate]
  end.
  unfold ret in Hrun. injection Hrun as <- <-. auto.
Qed.

Lemma ceil_div_pos (n : nat) : 1 <= ceil_div (n + 2) BATCH_SIZE.
Proof.
  unfold ceil_div, BATCH_SIZE.
  apply Nat.div_le_lower_bound; lia.
Qed.

End ResultFields.

(** What a conversion throws. *)
Lemma markdownToNotion_throws
      {W : Type} (P : platform W) (content key parent : string)
      (title0 : option string) (w : W) (e : thrown) (st : state W) :
  run (markdownToNotion P content key parent title0) w = (Threw e, st) ->
  statusCode e = Some 500
  /\ (message e = "创建子页面过程中发生未知错误"
      \/ exists cause, message e = "创建子页面失败: " ++ cause).
Proof.
  unfold run, markdownToNotion, try_catch. cbv beta zeta.
  destruct (bind _ _ _) as [[res|err] st1]; [discriminate|].
  destruct (is_Error err); unfold throw; intros [= <- <-];
    (split; [reflexivity|]).
  - right. eexists. reflexivity.
  - left. reflexivity.
Qed.

Section Causes.

Context {W : Type} (P : platform W).

(** The submission throws what a call that appends a batch throws. *)
Lemma submit_cause (fuel : nat) :
  forall (allBlocks : list block) (page : string) (i total : nat)
         (st st' : state W) (err : thrown),
    submit P fuel allBlocks page i total st = (Threw err, st') ->
    exists batch w, fst (blocks_append P page batch w) = Some err.
Proof.
  induction fuel as [|fuel IH]; intros allBlocks page i total st st' err;
    cbn [submit]; [unfold ret; discriminate|].
  destruct (i <? List.length allBlocks)%nat; [|unfold ret; discriminate].
  unfold bind at 1, blocksAppend.
  destruct (blocks_append P page _ (world st)) as [[err'|] w1] eqn:Happ.
  - intros [= <- <-]. eexists _, (world st). rewrite Happ. reflexivity.
  - unfold bind.
    destruct (i + BATCH_SIZE <? List.length allBlocks)%nat;
      unfold delay, ret; intros Hrec; apply IH in Hrec; exact Hrec.
Qed.

Local Arguments submit : simpl never.

(** What a conversion throws, and for which cause: the error of status
    500 that holds the message of the cause after the prefix, or the fixed
    text when the cause is no [Error]. *)
Lemma markdownToNotion_cause
      (content key parent : string) (title0 : option string) (w : W)
      (e : thrown) (st : state W) :
  run (markdownToNotion P content key parent title0) w = (Threw e, st) ->
  exists cause,
    failure_cause P content key parent title0 cause
    /\ statusCode e = Some 500
    /\ message e
       = (if is_Error cause then "创建子页面失败: " ++ message cause
          else "创建子页面过程中发生未知错误").
Proof.
  unfold run, markdownToNotion, try_catch. cbv beta zeta.
  destruct (bind _ _ _) as [[res|err] st1] eqn:Hrun; [discriminate|].
  intros Hout. exists err.
  split.
  - clear Hout. unfold failure_cause. unfold bind in Hrun.
    destruct (truthy key); simpl in Hrun;
      [|left; unfold throw in Hrun; injection Hrun as <- <-; auto].
    destruct (truthy parent); simpl in Hrun;
      [|right; left; unfold throw in Hrun; injection Hrun as <- <-; auto].
    right. right.
    destruct (htmlToNotionBlocks P _ _) as [[blocks|err'] st2] eqn:Hbuild.
    2:{ destruct (htmlToNotionBlocks_returns P
                    (markdownToHtml (makeHtml P) content) (State w []))
          as (bs & st' & E).
        rewrite E in Hbuild. discriminate. }
    fold (resolved_title title0 content) in Hrun.
    unfold pagesCreate in Hrun.
    destruct (pages_create P parent _ (world st2)) as [[err'|page] w3]
      eqn:Hpage.
    + injection Hrun as <- <-. left. repeat split.
      exists (world st2). rewrite Hpage. reflexivity.
    + match type of Hrun with
      | context [submit P ?n ?all ?pg 0 0 ?s] =>
          destruct (submit P n all pg 0 0 s) as [[total|err'] st4] eqn:Hsub;
          [discriminate|]
      end.
      injection Hrun as <- <-. right. repeat split.
      exists page. eapply submit_cause, Hsub.
  - destruct (is_Error err); unfold throw in Hout;
      injection Hout as <- <-; split; reflexivity.
Qed.

End Causes.

(* ------------------------------------------------------------------ *)
(** *** File names: suffixes and the first occurrence of a text *)

Section FileNames.

Lemma take_drop (n : nat) (s : string) : take n s ++ drop n s = s.
Proof.
  revert s. induction n as [|n IH]; intros [|c s]; simpl; try reflexivity.
  rewrite IH. reflexivity.
Qed.

Lemma length_append (a b : string) :
  String.length (a ++ b) = String.length a + String.length b.
Proof.
  induction a as [|c a IH]; simpl; [reflexivity|]. rewrite IH. reflexivity.
Qed.

Lemma append_assoc (a b c : string) : (a ++ b) ++ c = a ++ b ++ c.
Proof.
  induction a as [|x a IH]; simpl; [reflexivity|]. rewrite IH. reflexivity.
Qed.

Lemma append_nil_r (a : string) : a ++ "" = a.
Proof.
  induction a as [|x a IH]; simpl; [reflexivity|]. rewrite IH. reflexivity.
Qed.

(** [s.endsWith(pat)]: [s] is some text followed by [pat]. *)
Lemma endsWith_iff (s pat : string) :
  endsWith s pat = true <-> exists a, s = a ++ pat.
Proof.
  unfold endsWith. rewrite andb_true_iff, Nat.leb_le, String.eqb_eq. split.
  - intros [_ H].
    exists (take (String.length s - String.length pat) s).
    transitivity (take (String.length s - String.length pat) s
                  ++ drop (String.length s - String.length pat) s);
      [symmetry; apply take_drop | f_equal; exact H].
  - intros [a ->]. rewrite length_append. split; [lia|].
    replace (String.length a + String.length pat - String.length pat)
      with (String.length a) by lia.
    apply drop_app_exact.
Qed.

(** The first match of a literal pattern is its first occurrence. *)
Lemma search_lit (pat : string) (s : string) :
  forall (pv : option ascii) (i : nat),
    search (lit pat) pv i s
    = option_map (fun k => Match (i + k) pat []) (find pat s).
Proof.
  induction s as [|c s IH]; intros pv i; cbn [search find];
    rewrite match_at_lit.
  - destruct (startsWith "" pat); [|reflexivity].
    cbn [option_map]. rewrite Nat.add_0_r. reflexivity.
  - destruct (startsWith (String c s) pat).
    + cbn [option_map]. rewrite Nat.add_0_r. reflexivity.
    + rewrite IH. destruct (find pat s) as [k|]; [|reflexivity].
      cbn [option_map]. rewrite Nat.add_succ_r. reflexivity.
Qed.

(** [s.replace(pat, rep)] for strings: the first occurrence is replaced. *)
Lemma replace_first (pat rep a b : string) :
  find pat (a ++ pat ++ b) = Some (String.length a) ->
  replace (lit pat) (const rep) (a ++ pat ++ b) = a ++ rep ++ b.
Proof.
  intros H. unfold replace, exec. rewrite search_lit, H.
  cbn [option_map m_index m_text const Nat.add].
  rewrite take_app_exact.
  rewrite <- (length_append a pat), <- (append_assoc a pat b), drop_app_exact.
  reflexivity.
Qed.

Lemma includes_find (s pat : string) :
  includes s pat = false -> find pat s = None.
Proof.
  unfold includes, indexOf. cbn [Nat.min drop].
  destruct (find pat s); [discriminate|reflexivity].
Qed.

(** A name with no [.md] in [base]: the first [.md] of [base.md...] is the
    one after [base]. *)
Lemma find_md (base more : string) :
  find ".md" base = None ->
  find ".md" (base ++ ".md" ++ more) = Some (String.length base).
Proof.
  induction base as [|c base IH]; intros H;
    [cbn; rewrite startsWith_nil; reflexivity|].
  cbn [find] in H.
  destruct (startsWith (String c base) ".md") eqn:Hs; [discriminate|].
  destruct (find ".md" base) eqn:Hf; [discriminate|].
  change (String c base ++ ".md" ++ more)
    with (String c (base ++ ".md" ++ more)).
  cbn [find].
  assert (Hs' : startsWith (String c (base ++ ".md" ++ more)) ".md" = false).
  { revert Hs. clear. cbn [startsWith].
    destruct (Ascii.eqb c "."); [|reflexivity]. cbn [andb].
    destruct base as [|c1 base]; [reflexivity|]. cbn [append startsWith].
    destruct (Ascii.eqb c1 "m"); [|reflexivity]. cbn [andb].
    destruct base as [|c2 base]; [reflexivity|]. cbn [append startsWith].
    destruct (Ascii.eqb c2 "d"); [|reflexivity].
    rewrite startsWith_nil. discriminate. }
  rewrite Hs', IH by reflexivity. reflexivity.
Qed.

End FileNames.

(* ------------------------------------------------------------------ *)
(** *** The inline tokenizer, read from left to right *)

Section TokenizerEquations.

Lemma drop_app_plus (pre s : string) (j : nat) :
  drop (String.length pre + j) (pre ++ s) = drop j s.
Proof. induction pre as [|c pre IH]; simpl; [reflexivity | exact IH]. Qed.

Lemma ltb_add (n j m : nat) : (n + j <? n + m)%nat = (j <? m)%nat.
Proof.
  destruct (j <? m)%nat eqn:E.
  - apply Nat.ltb_lt in E. apply Nat.ltb_lt. lia.
  - apply Nat.ltb_ge in E. apply Nat.ltb_ge. lia.
Qed.

Lemma char_string_shift (pre s : string) (j : nat) :
  char_string (pre ++ s) (String.length pre + j) = char_string s j.
Proof. unfold char_string, charAt. rewrite drop_app_plus. reflexivity. Qed.

Lemma indexOf_shift (pre s pat : string) (j : nat) :
  indexOf (pre ++ s) pat (String.length pre + j)
  = option_map (Nat.add (String.length pre)) (indexOf s pat j).
Proof.
  unfold indexOf. rewrite length_append, Nat.add_min_distr_l, drop_app_plus.
  destruct (find pat _); [|reflexivity].
  cbn [option_map]. f_equal. lia.
Qed.

Lemma substring_shift (pre s : string) (a b : nat) :
  substring (pre ++ s) (String.length pre + a) (String.length pre + b)
  = substring s a b.
Proof.
  unfold substring.
  rewrite Nat.add_min_distr_l, Nat.add_max_distr_l, drop_app_plus.
  f_equal. lia.
Qed.

(** What the loop does from an index on depends on the text from that
    index on only. *)
Lemma tokenize_shift (fuel : nat) :
  forall (pre s : string) (j : nat) (cur : string) (rt : list rich_text),
    tokenize fuel (pre ++ s) (String.length pre + j) cur rt
    = tokenize fuel s j cur rt.
Proof.
  induction fuel as [|fuel IH]; intros pre s j cur rt; [reflexivity|].
  cbn [tokenize].
  rewrite length_append, ltb_add, char_string_shift.
  destruct (j <? String.length s)%nat; [|reflexivity].
  destruct (char_string s j =? "<")%string.
  2:{ rewrite <- Nat.add_assoc. apply IH. }
  rewrite indexOf_shift.
  destruct (indexOf s ">" j) as [tagEnd|]; [|reflexivity].
  cbn [option_map].
  rewrite <- !Nat.add_assoc, substring_shift, !indexOf_shift.
  unfold span_branch.
  repeat match goal with
         | |- context [if ?b then _ else _] =>
             match type of b with bool => destruct b end
         end;
    repeat match goal with
           | |- context [indexOf s ?pat (tagEnd + 1)] =>
               destruct (indexOf s pat (tagEnd + 1))
           end;
    cbn [option_map];
    rewrite <- ?Nat.add_assoc, ?substring_shift; apply IH.
Qed.

Lemma tokenize_from (fuel : nat) (s : string) (k : nat) (cur : string)
      (rt : list rich_text) :
  tokenize fuel s k cur rt = tokenize fuel (drop k s) 0 cur rt.
Proof.
  destruct (Nat.le_gt_cases k (String.length s)) as [Hle|Hgt].
  - pose proof (tokenize_shift fuel (take k s) (drop k s) 0 cur rt) as H.
    rewrite take_drop, length_take, Nat.add_0_r, Nat.min_l in H by lia.
    exact H.
  - assert (Hd : drop k s = "").
    { pose proof (length_drop k s) as L.
      destruct (drop k s); [reflexivity|simpl in L; lia]. }
    rewrite Hd. destruct fuel as [|fuel]; [reflexivity|].
    cbn [tokenize].
    replace (k <? String.length s)%nat with false
      by (symmetry; apply Nat.ltb_ge; lia).
    reflexivity.
Qed.

(** Fuel beyond the characters left changes nothing. *)
Lemma tokenize_fuel (fuel1 : nat) :
  forall (fuel2 : nat) (html : string) (i : nat) (cur : string)
         (rt : list rich_text),
    String.length html - i < fuel1 ->
    String.length html - i < fuel2 ->
    tokenize fuel1 html i cur rt = tokenize fuel2 html i cur rt.
Proof.
  induction fuel1 as [|fuel1 IH]; intros [|fuel2] html i cur rt H1 H2;
    try lia.
  cbn [tokenize].
  destruct (i <? String.length html)%nat eqn:Hi; [|reflexivity].
  apply Nat.ltb_lt in Hi.
  destruct (char_string html i =? "<")%string; [|apply IH; lia].
  destruct (indexOf html ">" i) as [tagEnd|] eqn:Ht; [|reflexivity].
  apply indexOf_ge in Ht.
  assert (Hclose : forall pat k,
             indexOf html pat (tagEnd + 1) = Some k -> i < k)
    by (intros pat k; apply close_after; assumption).
  unfold span_branch.
  repeat match goal with
         | |- context [if ?b then _ else _] =>
             match type of b with bool => destruct b end
         end;
    repeat match goal with
           | |- context [indexOf html ?pat (tagEnd + 1)] =>
               let E := fresh "E" in
               destruct (indexOf html pat (tagEnd + 1)) eqn:E;
               [apply Hclose in E|]
           end;
    apply IH; lia.
Qed.

(** The loop on what is left of a string. *)
Lemma tokenize_tok (fuel : nat) (s : string) (k : nat) (cur : string)
      (rt : list rich_text) :
  String.length s - k < fuel ->
  tokenize fuel s k cur rt = tok (drop k s) cur rt.
Proof.
  intros H. rewrite tokenize_from. unfold tok.
  apply tokenize_fuel; rewrite length_drop; lia.
Qed.

(** One turn of the loop. *)
Lemma tokenize_S (fuel : nat) (html : string) (i : nat) (currentText : string)
      (richText : list rich_text) :
  tokenize (S fuel) html i currentText richText
  = if (i <? String.length html)%nat then
      if (char_string html i =? "<")%string then
        let richText := flush currentText richText in
        match indexOf html ">" i with
        | None => Some ("", richText)
        | Some tagEnd =>
            let tag := substring html i (tagEnd + 1) in
            let i := tagEnd + 1 in
            let loop := fun i richText => tokenize fuel html i "" richText in
            if startsWith tag "<strong>" then
              span_branch loop html i (indexOf html "</strong>" i) 9
                          ann_bold richText
            else if startsWith tag "<em>" then
              span_branch loop html i (indexOf html "</em>" i) 5
                          ann_italic richText
            else if startsWith tag "<code>" then
              span_branch loop html i (indexOf html "</code>" i) 7
                          ann_code richText
            else if startsWith tag "<del>" || startsWith tag "<s>" then
              span_branch loop html i
                (match indexOf html "</del>" i with
                 | Some k => Some k
                 | None => indexOf html "</s>" i
                 end)
                (match indexOf html "</del>" i with
                 | Some _ => 6
                 | None => 4
                 end)
                ann_strikethrough richText
            else loop i richText
        end
      else
        tokenize fuel html (i + 1) (currentText ++ char_string html i)
                 richText
    else Some (currentText, richText).
Proof. reflexivity. Qed.

Lemma tok_nil (cur : string) (rt : list rich_text) :
  tok "" cur rt = Some (cur, rt).
Proof. reflexivity. Qed.

(** A character that opens no tag joins the text read so far. *)
Lemma tok_text (c : ascii) (s cur : string) (rt : list rich_text) :
  Ascii.eqb c "<" = false ->
  tok (String c s) cur rt = tok s (cur ++ String c "") rt.
Proof.
  intros Hc. unfold tok at 1. rewrite tokenize_S.
  change (0 <? String.length (String c s))%nat with true. cbv iota.
  change (char_string (String c s) 0) with (String c "").
  replace (String c "" =? "<")%string with false
    by (cbn [String.eqb]; rewrite Hc; reflexivity).
  apply tokenize_tok. simpl. lia.
Qed.

Lemma tok_segment (a : string) :
  forall (s cur : string) (rt : list rich_text),
    has_char "<" a = false ->
    tok (a ++ s) cur rt = tok s (cur ++ a) rt.
Proof.
  induction a as [|c a IH]; intros s cur rt H; simpl.
  - rewrite append_nil_r. reflexivity.
  - simpl in H. apply orb_false_iff in H. destruct H as [Hc Ha].
    rewrite tok_text by (rewrite Ascii.eqb_sym; exact Hc).
    rewrite IH by exact Ha. rewrite append_assoc. reflexivity.
Qed.

End TokenizerEquations.

Section TokenizerTags.

Lemma find_char (c : ascii) (g left : string) :
  has_char c g = false ->
  find (String c "") (g ++ String c left) = Some (String.length g).
Proof.
  induction g as [|x g IH]; intros H; cbn [append find startsWith].
  - rewrite Ascii.eqb_refl, startsWith_nil. reflexivity.
  - simpl in H. apply orb_false_iff in H. destruct H as [Hx Hg].
    rewrite Ascii.eqb_sym, Hx. cbn [andb].
    rewrite IH by exact Hg. reflexivity.
Qed.

Lemma find_no_char (c : ascii) (pat s : string) :
  has_char c s = false -> find (String c pat) s = None.
Proof.
  induction s as [|x s IH]; intros H; cbn [find startsWith]; [reflexivity|].
  simpl in H. apply orb_false_iff in H. destruct H as [Hx Hs].
  rewrite Ascii.eqb_sym, Hx. cbn [andb].
  rewrite IH by exact Hs. reflexivity.
Qed.

Lemma indexOf_0 (s pat : string) : indexOf s pat 0 = find pat s.
Proof.
  unfold indexOf. cbn [Nat.min drop].
  destruct (find pat s); reflexivity.
Qed.

Lemma indexOf_after (tag left pat : string) :
  indexOf (tag ++ left) pat (String.length tag)
  = option_map (Nat.add (String.length tag)) (find pat left).
Proof.
  rewrite <- (Nat.add_0_r (String.length tag)) at 1.
  rewrite indexOf_shift, indexOf_0. reflexivity.
Qed.

Lemma substring_after (tag left : string) (k : nat) :
  substring (tag ++ left) (String.length tag) (String.length tag + k)
  = take k left.
Proof.
  rewrite <- (Nat.add_0_r (String.length tag)) at 1.
  rewrite substring_shift. unfold substring.
  cbn [Nat.min Nat.max drop]. rewrite Nat.sub_0_r. reflexivity.
Qed.

(** A [<] with no [>] after it ends the loop: what follows is dropped. *)
Lemma tok_unclosed (s cur : string) (rt : list rich_text) :
  has_char ">" s = false ->
  tok (String "<" s) cur rt = Some ("", flush cur rt).
Proof.
  intros H. unfold tok. rewrite tokenize_S.
  change (0 <? String.length (String "<" s))%nat with true. cbv iota.
  change (char_string (String "<" s) 0 =? "<")%string with true. cbv iota zeta.
  rewrite indexOf_0, find_no_char; [reflexivity|].
  simpl. exact H.
Qed.

(** One branch of a styled span, in terms of what is left after the
    opening tag. *)
Lemma span_branch_after (fuel : nat) (tag left : string)
      (close : option nat) (skip : nat) (style : annotations)
      (rt : list rich_text) :
  tag <> "" ->
  String.length (tag ++ left) <= fuel ->
  span_branch (fun i richText => tokenize fuel (tag ++ left) i "" richText)
              (tag ++ left) (String.length tag)
              (option_map (Nat.add (String.length tag)) close) skip style rt
  = close_span close skip style left rt.
Proof.
  intros Htag Hfuel.
  assert (Hpos : 0 < String.length tag)
    by (destruct tag; [congruence | simpl; lia]).
  rewrite length_append in Hfuel.
  unfold span_branch, close_span.
  destruct close as [k|]; cbn [option_map].
  - rewrite substring_after, <- Nat.add_assoc.
    rewrite tokenize_tok by (rewrite length_append; lia).
    rewrite drop_app_plus. reflexivity.
  - rewrite tokenize_tok by (rewrite length_append; lia).
    rewrite drop_app_exact. reflexivity.
Qed.

(** A tag: the text read so far becomes a run; the tag of a styled span
    that is closed later gives a run of what it holds, passed through
    [stripHtmlTags]; any other tag is passed over. *)
Lemma tok_tag (g left cur : string) (rt : list rich_text) :
  has_char ">" g = false ->
  tok ("<" ++ g ++ ">" ++ left) cur rt
  = let tag := "<" ++ g ++ ">" in
    let richText := flush cur rt in
    if startsWith tag "<strong>" then
      close_span (find "</strong>" left) 9 ann_bold left richText
    else if startsWith tag "<em>" then
      close_span (find "</em>" left) 5 ann_italic left richText
    else if startsWith tag "<code>" then
      close_span (find "</code>" left) 7 ann_code left richText
    else if startsWith tag "<del>" || startsWith tag "<s>" then
      close_span (match find "</del>" left with
                  | Some k => Some k
                  | None => find "</s>" left
                  end)
                 (match find "</del>" left with
                  | Some _ => 6
                  | None => 4
                  end)
                 ann_strikethrough left richText
    else tok left "" richText.
Proof.
  intros Hg. cbv zeta.
  set (tag := "<" ++ g ++ ">").
  assert (Hhtml : "<" ++ g ++ ">" ++ left = tag ++ left).
  { subst tag. cbn [append]. f_equal. rewrite append_assoc. reflexivity. }
  assert (Hlen : String.length tag = S (String.length g) + 1).
  { subst tag. cbn [append String.length]. rewrite length_append. simpl. lia. }
  assert (Hne : tag <> "") by (subst tag; discriminate).
  rewrite Hhtml. unfold tok. rewrite tokenize_S.
  replace (0 <? String.length (tag ++ left))%nat with true
    by (subst tag; reflexivity).
  cbv iota.
  replace (char_string (tag ++ left) 0 =? "<")%string with true
    by (subst tag; reflexivity).
  cbv iota zeta.
  assert (Hend : indexOf (tag ++ left) ">" 0 = Some (S (String.length g))).
  { rewrite indexOf_0, <- Hhtml.
    cbn [append find startsWith Ascii.eqb Bool.eqb andb].
    change (">" ++ left) with (String ">" left).
    rewrite find_char by exact Hg. reflexivity. }
  rewrite Hend, <- Hlen.
  replace (substring (tag ++ left) 0 (String.length tag)) with tag.
  2:{ unfold substring. cbn [Nat.min Nat.max drop]. rewrite Nat.sub_0_r.
      symmetry. apply take_app_exact. }
  rewrite !indexOf_after.
  repeat match goal with
         | |- context [span_branch ?l ?h ?i (option_map ?f ?c) ?k ?a ?r] =>
             rewrite (span_branch_after _ tag left c k a r Hne (le_n _))
         end.
  destruct (startsWith tag "<strong>"); [reflexivity|].
  destruct (startsWith tag "<em>"); [reflexivity|].
  destruct (startsWith tag "<code>"); [reflexivity|].
  destruct (startsWith tag "<del>" || startsWith tag "<s>").
  - destruct (find "</del>" left) as [k|]; cbn [option_map].
    + rewrite (span_branch_after _ tag left (Some k) 6 _ _ Hne (le_n _)).
      reflexivity.
    + rewrite (span_branch_after _ tag left _ 4 _ _ Hne (le_n _)).
      reflexivity.
  - rewrite tokenize_tok
      by (rewrite length_append; destruct tag; [congruence | simpl; lia]).
    rewrite drop_app_exact. reflexivity.
Qed.

End TokenizerTags.

Section TokenizerResults.

Lemma htmlToRichText_tok (html cur : string) (rt : list rich_text) :
  tok html "" [] = Some (cur, rt) ->
  htmlToRichText html = runs_or_whole html (flush cur rt).
Proof.
  unfold tok, htmlToRichText, flush. intros ->.
  destruct (if truthy cur then push rt (plain cur) else rt); reflexivity.
Qed.

(** A text that opens no tag is read to its end. *)
Lemma tok_plain (s cur : string) (rt : list rich_text) :
  has_char "<" s = false -> tok s cur rt = Some (cur ++ s, rt).
Proof.
  intros H. rewrite <- (append_nil_r s) at 1.
  rewrite tok_segment by exact H. apply tok_nil.
Qed.

Lemma flush_nil (s : string) : flush s [] = opt_plain s.
Proof. unfold flush, opt_plain, push. destruct (truthy s); reflexivity. Qed.

Lemma flush_push (s : string) (rt : list rich_text) :
  flush s rt = (rt ++ opt_plain s)%list.
Proof.
  unfold flush, opt_plain, push. destruct (truthy s);
    [reflexivity | rewrite app_nil_r; reflexivity].
Qed.

(** In front of a text that starts with the character [c], a pattern that
    holds [c] at its start only matches where it matches without that
    text. *)
Lemma startsWith_straddle (c : ascii) (q : string) :
  has_char c q = false ->
  forall (u r : string),
    startsWith (u ++ String c r) q = true -> startsWith u q = true.
Proof.
  induction q as [|y q IH]; intros Hq u r H; [apply startsWith_nil|].
  simpl in Hq. apply orb_false_iff in Hq. destruct Hq as [Hy Hq].
  destruct u as [|x u]; cbn [append startsWith] in *.
  - rewrite Hy in H. discriminate.
  - apply andb_true_iff in H. destruct H as [Hx H].
    rewrite Hx. cbn [andb]. eapply IH; eassumption.
Qed.

Lemma find_none_app (c : ascii) (pat' t w : string) :
  has_char c pat' = false ->
  find (String c pat') t = None ->
  find (String c pat') (String c w) = None ->
  find (String c pat') (t ++ String c w) = None.
Proof.
  intros Hpat Ht Hw.
  induction t as [|x t IH]; [exact Hw|].
  cbn [find] in Ht.
  destruct (startsWith (String x t) (String c pat')) eqn:Hs; [discriminate|].
  destruct (find (String c pat') t) eqn:Hf; [discriminate|].
  change (String x t ++ String c w) with (String x (t ++ String c w)).
  cbn [find].
  destruct (startsWith (String x (t ++ String c w)) (String c pat')) eqn:Hs'.
  - cbn [startsWith] in Hs, Hs'.
    apply andb_true_iff in Hs'. destruct Hs' as [Hx Hs'].
    apply (startsWith_straddle c pat' Hpat) in Hs'.
    rewrite Hx, Hs' in Hs. discriminate.
  - rewrite IH by reflexivity. reflexivity.
Qed.

(** The first occurrence of a pattern that holds its first character
    once, after a text without the pattern. *)
Lemma find_first (c : ascii) (pat' t b : string) :
  has_char c pat' = false ->
  find (String c pat') t = None ->
  find (String c pat') (t ++ String c pat' ++ b) = Some (String.length t).
Proof.
  intros Hpat Ht.
  induction t as [|x t IH].
  - cbn [append find]. change (String c (pat' ++ b)) with (String c pat' ++ b).
    rewrite startsWith_app. reflexivity.
  - cbn [find] in Ht.
    destruct (startsWith (String x t) (String c pat')) eqn:Hs; [discriminate|].
    destruct (find (String c pat') t) eqn:Hf; [discriminate|].
    change (String x t ++ String c pat' ++ b)
      with (String x (t ++ String c (pat' ++ b))).
    cbn [find].
    destruct (startsWith (String x (t ++ String c (pat' ++ b))) (String c pat'))
      eqn:Hs'.
    + cbn [startsWith] in Hs, Hs'.
      apply andb_true_iff in Hs'. destruct Hs' as [Hx Hs'].
      apply (startsWith_straddle c pat' Hpat) in Hs'.
      rewrite Hx, Hs' in Hs. discriminate.
    + change (String c (pat' ++ b)) with (String c pat' ++ b).
      rewrite IH by reflexivity. reflexivity.
Qed.

End TokenizerResults.

(* ------------------------------------------------------------------ *)
(** *** The language normalizer: what it returns *)

Section NormalizerRange.

Lemma assoc_values (key v : string) (kvs : list (string * string)) :
  assoc key kvs = Some v -> In v (map snd kvs).
Proof.
  induction kvs as [|[k v'] kvs IH]; simpl; [discriminate|].
  destruct (k =? key)%string; [intros [= ->]; auto | auto].
Qed.

Lemma isWhiteSpace_toLowerChar (c : ascii) :
  isWhiteSpace (toLowerChar c) = isWhiteSpace c.
Proof. destruct c as [[] [] [] [] [] [] [] []]; reflexivity. Qed.

Lemma toLowerChar_idem (c : ascii) :
  toLowerChar (toLowerChar c) = toLowerChar c.
Proof. destruct c as [[] [] [] [] [] [] [] []]; reflexivity. Qed.

Lemma toLowerCase_idem (s : string) :
  toLowerCase (toLowerCase s) = toLowerCase s.
Proof.
  induction s as [|c s IH]; simpl; [reflexivity|].
  rewrite toLowerChar_idem, IH. reflexivity.
Qed.

Lemma toLowerCase_trimStart (s : string) :
  toLowerCase (trimStart s) = trimStart (toLowerCase s).
Proof.
  induction s as [|c s IH]; simpl; [reflexivity|].
  rewrite isWhiteSpace_toLowerChar.
  destruct (isWhiteSpace c); [exact IH | reflexivity].
Qed.

Lemma toLowerCase_trimEnd (s : string) :
  toLowerCase (trimEnd s) = trimEnd (toLowerCase s).
Proof.
  induction s as [|c s IH]; simpl; [reflexivity|].
  rewrite <- IH, isWhiteSpace_toLowerChar.
  destruct (trimEnd s); simpl; [destruct (isWhiteSpace c)|]; reflexivity.
Qed.

(** Lower-casing and trimming twice is lower-casing and trimming once. *)
Lemma canonical_idem (s : string) :
  trim (toLowerCase (trim (toLowerCase s))) = trim (toLowerCase s).
Proof.
  unfold trim at 2.
  rewrite <- toLowerCase_trimStart, <- toLowerCase_trimEnd, toLowerCase_idem.
  rewrite toLowerCase_trimEnd, toLowerCase_trimStart.
  fold (trim (toLowerCase s)). apply trim_idem.
Qed.

End NormalizerRange.

(* ------------------------------------------------------------------ *)
(** *** Entities: decoding what was escaped *)

Section Entities.

Lemma replace_lit_0 (pat rep : string) (c : ascii) (s : string) :
  startsWith (String c s) pat = false ->
  replace_lit pat rep 0 (String c s) = String c (replace_lit pat rep 0 s).
Proof. intros H. cbn [replace_lit]. rewrite H. reflexivity. Qed.

Lemma replace_lit_skip (pat rep : string) (a : string) :
  forall s, replace_lit pat rep (String.length a) (a ++ s)
            = replace_lit pat rep 0 s.
Proof.
  induction a as [|c a IH]; intros s; [reflexivity|].
  cbn [String.length append replace_lit]. apply IH.
Qed.

(** At an occurrence of the pattern. *)
Lemma replace_lit_hit (c : ascii) (pat' rep s : string) :
  replace_lit (String c pat') rep 0 (String c pat' ++ s)
  = rep ++ replace_lit (String c pat') rep 0 s.
Proof.
  change (String c pat' ++ s) with (String c (pat' ++ s)).
  cbn [replace_lit].
  change (String c (pat' ++ s)) with (String c pat' ++ s).
  rewrite startsWith_app. cbn [String.length].
  rewrite replace_lit_skip. reflexivity.
Qed.

(** A step of the decoding that turns the entity [pat] of the character
    [x] back, on a text where [x] is written as an entity: where the
    text holds an ampersand of its own, the text must not hold [pat]
    itself. *)
Lemma startsWith_escape (p : ascii -> bool) (q : string) :
  all_chars (fun c => match entity_of c with None => true | Some _ => false end)
            q = true ->
  forall s, startsWith (escape_with p s) q = startsWith s q.
Proof.
  induction q as [|y q IH]; intros Hq s; [rewrite !startsWith_nil; reflexivity|].
  simpl in Hq. apply andb_true_iff in Hq. destruct Hq as [Hy Hq].
  destruct s as [|c s]; [reflexivity|].
  cbn [escape_with].
  destruct (p c); [|cbn [startsWith]; rewrite IH by exact Hq; reflexivity].
  unfold entity_of in *.
  destruct (Ascii.eqb_spec c "&") as [->|_];
    [cbn [append startsWith];
     destruct (Ascii.eqb_spec "&" y) as [<-|_]; [discriminate|reflexivity]|].
  destruct (Ascii.eqb_spec c "<") as [->|_];
    [cbn [append startsWith];
     destruct (Ascii.eqb_spec "&" y) as [<-|_]; [discriminate|];
     destruct (Ascii.eqb_spec "<" y) as [<-|_]; [discriminate|reflexivity]|].
  destruct (Ascii.eqb_spec c ">") as [->|_];
    [cbn [append startsWith];
     destruct (Ascii.eqb_spec "&" y) as [<-|_]; [discriminate|];
     destruct (Ascii.eqb_spec ">" y) as [<-|_]; [discriminate|reflexivity]|].
  destruct (Ascii.eqb_spec c dq) as [->|_];
    [cbn [append startsWith];
     destruct (Ascii.eqb_spec "&" y) as [<-|_]; [discriminate|];
     destruct (Ascii.eqb_spec dq y) as [<-|_]; [discriminate|reflexivity]|].
  destruct (Ascii.eqb_spec c "'") as [->|_];
    [cbn [append startsWith];
     destruct (Ascii.eqb_spec "&" y) as [<-|_]; [discriminate|];
     destruct (Ascii.eqb_spec "'" y) as [<-|_]; [discriminate|reflexivity]|].
  cbn [startsWith]. rewrite IH by exact Hq. reflexivity.
Qed.

End Entities.

Section Decoding.

Lemma find_tail (pat : string) (c : ascii) (s : string) :
  find pat (String c s) = None ->
  startsWith (String c s) pat = false /\ find pat s = None.
Proof.
  cbn [find]. destruct (startsWith (String c s) pat); [discriminate|].
  destruct (find pat s); [discriminate|auto].
Qed.

(** One step of the decoding, on a text whose characters of the class [p]
    are written as entities: the entity [pat] of the character [x] is
    turned back.  When the ampersands of the text are not written as
    entities, the text must not hold [pat] itself. *)
Lemma decode_step (x : ascii) (pat : string) (p p' : ascii -> bool) :
  entity_of x = Some pat ->
  p x = true ->
  (forall c, p' c = p c && negb (Ascii.eqb c x)) ->
  forall s,
    p "&"%char = true \/ find pat s = None ->
    replace_lit pat (String x "") 0 (escape_with p s) = escape_with p' s.
Proof.
  intros Hx Hpx Hp'. unfold entity_of in Hx.
  repeat match type of Hx with
         | (if Ascii.eqb x ?a then _ else _) = _ =>
             destruct (Ascii.eqb_spec x a) as [->|?]
         end;
    try discriminate; injection Hx as <-;
    (induction s as [|c s IH]; intros Hs; [reflexivity|];
     assert (Hs' : p "&"%char = true
                   \/ find _ s = None)
       by (destruct Hs as [Hs|Hs];
           [left; exact Hs | right; apply find_tail in Hs; apply Hs]);
     specialize (IH Hs');
     cbn [escape_with]; rewrite Hp';
     match goal with
     | |- context [replace_lit ?pat (String ?X "") 0 _] =>
         destruct (Ascii.eqb_spec c X) as [->|Hne];
         [ rewrite Hpx; cbn [andb negb];
           match goal with
           | |- context [entity_of X] =>
               let e := eval vm_compute in (entity_of X) in
               change (entity_of X) with e
           end;
           cbv iota; rewrite replace_lit_hit, IH; reflexivity
         | rewrite andb_true_r ]
     end).
  all: destruct (p c) eqn:Hpc.
  all: unfold entity_of.
  all: repeat match goal with
         | |- context [if Ascii.eqb ?y ?a then _ else _] =>
             destruct (Ascii.eqb_spec y a) as [->|?]
         end;
    try congruence.
  all: try (cbn [append replace_lit startsWith Ascii.eqb Bool.eqb andb
                 String.length];
            rewrite IH; reflexivity).
  all: try (rewrite replace_lit_0, IH;
            [reflexivity
            |cbn [startsWith];
             match goal with
             | H : ?y <> "&"%char |- _ =>
                 apply Ascii.eqb_neq in H; rewrite H; reflexivity
             end]).
  all: rewrite replace_lit_0, IH; [reflexivity|].
  all: destruct (Ascii.eqb_spec c "&") as [->|Hc];
    [|cbn [startsWith]; apply Ascii.eqb_neq in Hc; rewrite Hc; reflexivity].
  all: destruct Hs as [Hs|Hs]; [congruence|].
  all: apply find_tail in Hs; destruct Hs as [Hs _].
  all: cbn [startsWith Ascii.eqb Bool.eqb andb] in *.
  all: rewrite startsWith_escape by reflexivity; exact Hs.
Qed.

End Decoding.

Section RoundTrip.

Lemma escape_with_none (p : ascii -> bool) (s : string) :
  (forall c, p c = true -> entity_of c = None) -> escape_with p s = s.
Proof.
  intros Hp. induction s as [|c s IH]; [reflexivity|].
  cbn [escape_with]. rewrite IH.
  destruct (p c) eqn:Hc; [rewrite (Hp c Hc)|]; reflexivity.
Qed.

Lemma has_char_append (c : ascii) (a b : string) :
  has_char c (a ++ b) = has_char c a || has_char c b.
Proof.
  induction a as [|x a IH]; [reflexivity|].
  cbn [append has_char]. rewrite IH, orb_assoc. reflexivity.
Qed.

(** An escaped text holds no [<]. *)
Lemma escape_entities_no_lt (s : string) :
  has_char "<" (escape_entities s) = false.
Proof.
  unfold escape_entities.
  induction s as [|c s IH]; [reflexivity|].
  cbn [escape_with]. unfold entity_of.
  repeat match goal with
         | |- context [if Ascii.eqb ?y ?a then _ else _] =>
             destruct (Ascii.eqb_spec y a) as [->|?]
         end;
    try (rewrite has_char_append, IH; reflexivity).
  cbn [has_char]. rewrite IH.
  match goal with
  | H : ?y <> "<"%char |- _ =>
      apply Ascii.eqb_neq in H; rewrite Ascii.eqb_sym, H; reflexivity
  end.
Qed.

Lemma remove_tags_no_lt (s : string) :
  has_char "<" s = false -> remove_tags 0 s = s.
Proof.
  induction s as [|c s IH]; [reflexivity|].
  cbn [has_char remove_tags]. intros H.
  apply orb_false_iff in H. destruct H as [Hc Hs].
  rewrite Ascii.eqb_sym, Hc. cbn [andb]. rewrite IH by exact Hs. reflexivity.
Qed.

(** The decoding turns an escaped text back into the text. *)
Lemma decode_escape (t : string) :
  includes t "&quot;" = false -> includes t "&#39;" = false ->
  decode_entities (escape_entities t) = t.
Proof.
  intros Hq Ha. apply includes_find in Hq, Ha.
  unfold decode_entities, escape_entities.
  rewrite (decode_step "<" "&lt;" (fun _ => true) after_lt);
    [|reflexivity..|left; reflexivity].
  rewrite (decode_step ">" "&gt;" after_lt after_gt);
    [|reflexivity..|left; reflexivity].
  rewrite (decode_step "&" "&amp;" after_gt after_amp);
    [|reflexivity..|left; reflexivity].
  change DQ with (String dq "").
  rewrite (decode_step dq "&quot;" after_amp after_quot);
    [|reflexivity..|right; exact Hq].
  rewrite (decode_step "'" "&#39;" after_quot
             (fun c => after_quot c && negb (Ascii.eqb c "'")));
    [|reflexivity..|right; exact Ha].
  apply escape_with_none.
  intros c. unfold after_quot, after_amp, after_gt, after_lt, entity_of.
  repeat match goal with
         | |- context [if Ascii.eqb ?y ?a then _ else _] =>
             destruct (Ascii.eqb_spec y a) as [->|?]
         end;
    try reflexivity; try discriminate.
  all: repeat match goal with
              | H : ?y <> _ |- _ => apply Ascii.eqb_neq in H; rewrite H; clear H
              end; reflexivity.
Qed.

End RoundTrip.

(* ------------------------------------------------------------------ *)
(** *** What a replacement is made of *)

Section Within.

Variable q : ascii -> bool.

Lemma all_chars_append (a b : string) :
  all_chars q (a ++ b) = all_chars q a && all_chars q b.
Proof.
  induction a as [|c a IH]; [reflexivity|].
  cbn [append all_chars]. rewrite IH, andb_assoc. reflexivity.
Qed.

Lemma all_chars_take (n : nat) :
  forall s, all_chars q s = true -> all_chars q (take n s) = true.
Proof.
  induction n as [|n IH]; intros [|c s] H; try reflexivity.
  cbn [take all_chars] in *. apply andb_true_iff in H. destruct H as [Hc Hs].
  rewrite Hc, IH by exact Hs. reflexivity.
Qed.

Lemma lookup_within (n : nat) (cs : list (nat * string)) :
  Forall (fun kv => all_chars q (snd kv) = true) cs ->
  all_chars q (lookup n cs) = true.
Proof.
  induction 1 as [|[k v] cs Hv _ IH]; [reflexivity|].
  cbn [lookup]. destruct (k =? n)%nat; [exact Hv | exact IH].
Qed.

Lemma star_within (p : ascii -> bool) (greedy : bool)
      (k : cursor -> option cursor) (s : string) :
  forall (pv : option ascii) (i : nat) (cs : list (nat * string)) (c : cursor),
    star p greedy k pv i cs s = Some c ->
    within q (Cursor pv i s cs) ->
    exists st', within q st' /\ k st' = Some c.
Proof.
  induction s as [|a s IH]; intros pv i cs c; simpl.
  - destruct greedy.
    + intros H Hw. eauto.
    + destruct (k (Cursor pv i "" cs)) eqn:E; [|discriminate].
      intros [= <-] Hw. eauto.
  - assert (Hnext : within q (Cursor pv i (String a s) cs) ->
                    within q (Cursor (Some a) (S i) s cs)).
    { intros [Hr Hc]. split; [|exact Hc]. cbn [rest all_chars] in *.
      apply andb_true_iff in Hr. apply Hr. }
    destruct greedy.
    + destruct (p a).
      * destruct (star p true k (Some a) (S i) cs s) eqn:E.
        -- intros [= <-] Hw. eapply IH; [exact E | apply Hnext, Hw].
        -- intros H Hw. eauto.
      * intros H Hw. eauto.
    + destruct (k (Cursor pv i (String a s) cs)) eqn:E.
      * intros [= <-] Hw. eauto.
      * destruct (p a); [|discriminate].
        intros H Hw. eapply IH; [exact H | apply Hnext, Hw].
Qed.

(** A success of [r] followed by [k] is a success of [k] at a place
    within the class, when [r] started at one. *)
Lemma mt_within (r : re) :
  forall (k : cursor -> option cursor) (st c : cursor),
    mt r k st = Some c ->
    within q st ->
    exists st', within q st' /\ k st' = Some c.
Proof.
  assert (Hstep : forall a s st,
             rest st = String a s -> within q st -> within q (step a s st)).
  { intros a s st Hr [Hrest Hc]. split; [|exact Hc].
    rewrite Hr in Hrest. cbn [step rest all_chars] in *.
    apply andb_true_iff in Hrest. apply Hrest. }
  induction r as [|a|p|r1 IH1 r2 IH2|r1 IH1 r2 IH2|r1 IH1|p g|m r1 IH1|b|b];
    intros k st c; simpl.
  - eauto.
  - destruct (rest st) as [|a' s'] eqn:Hr; [discriminate|].
    destruct (Ascii.eqb a a'); [|discriminate]. eauto.
  - destruct (rest st) as [|a' s'] eqn:Hr; [discriminate|].
    destruct (p a'); [|discriminate]. eauto.
  - intros H Hw. apply IH1 in H; [|exact Hw]. destruct H as (st1 & Hw1 & H).
    apply IH2 in H; [|exact Hw1]. exact H.
  - destruct (mt r1 k st) eqn:E.
    + intros [= <-] Hw. eapply IH1; eassumption.
    + intros H Hw. eapply IH2; eassumption.
  - destruct (mt r1 k st) eqn:E.
    + intros [= <-] Hw. eapply IH1; eassumption.
    + eauto.
  - intros H Hw. apply star_within in H; [exact H|].
    destruct st; exact Hw.
  - intros H Hw. apply IH1 in H; [|exact Hw]. destruct H as (st1 & Hw1 & H).
    exists (capture m st st1). split; [|exact H].
    destruct Hw as [Hr Hc]. destruct Hw1 as [Hr1 Hc1].
    split; [exact Hr1|]. cbn [capture caps].
    constructor; [|exact Hc1]. cbn [snd]. apply all_chars_take, Hr.
  - destruct (at_bol b st); [eauto | discriminate].
  - destruct (at_eol b st); [eauto | discriminate].
Qed.

(** The text and the groups of a match in a text of the class are of the
    class. *)
Lemma match_at_within (r : re) (pv : option ascii) (i : nat) (s : string)
      (m : rmatch) :
  match_at r pv i s = Some m ->
  all_chars q s = true ->
  all_chars q (m_text m) = true
  /\ forall n, all_chars q (group n m) = true.
Proof.
  unfold match_at. destruct (mt r Some _) as [c|] eqn:E; [|discriminate].
  intros [= <-] Hs. cbn [m_text group m_caps].
  split; [apply all_chars_take, Hs|].
  apply mt_within in E; [|split; [exact Hs|constructor]].
  destruct E as (st' & [_ Hc] & [= ->]).
  intros n. apply lookup_within, Hc.
Qed.

(** A global replacement in a text of the class, by texts of the class,
    gives a text of the class. *)
Lemma scan_within (r : re) (f : rmatch -> string) :
  (forall m, all_chars q (m_text m) = true ->
             (forall n, all_chars q (group n m) = true) ->
             all_chars q (f m) = true) ->
  forall (s : string) (pv : option ascii) (i skip : nat),
    all_chars q s = true ->
    all_chars q (render f (scan r pv i skip s)) = true.
Proof.
  intros Hf. induction s as [|c s IH]; intros pv i skip Hs.
  - destruct skip; [|reflexivity]. cbn [scan].
    destruct (match_at r pv i "") as [m|] eqn:E; [|reflexivity].
    cbn [render]. rewrite all_chars_append, andb_true_r.
    apply match_at_within in E; [|exact Hs]. apply Hf; apply E.
  - cbn [all_chars] in Hs. apply andb_true_iff in Hs. destruct Hs as [Hc Hs].
    destruct skip as [|k]; cbn [scan]; [|apply IH, Hs].
    destruct (match_at r pv i (String c s)) as [m|] eqn:E.
    + apply match_at_within in E;
        [|cbn [all_chars]; rewrite Hc, Hs; reflexivity].
      cbn [render]. rewrite all_chars_append.
      rewrite (Hf m) by apply E. cbn [andb].
      destruct (String.length (m_text m)); [|apply IH, Hs].
      cbn [render all_chars]. rewrite Hc. apply IH, Hs.
    + cbn [render all_chars]. rewrite Hc. apply IH, Hs.
Qed.

Lemma replace_all_within (r : re) (f : rmatch -> string) (s : string) :
  (forall m, all_chars q (m_text m) = true ->
             (forall n, all_chars q (group n m) = true) ->
             all_chars q (f m) = true) ->
  all_chars q s = true ->
  all_chars q (replace_all r f s) = true.
Proof. intros Hf Hs. apply scan_within; assumption. Qed.

End Within.

Section OneLine.

(** After [replace(/\n/g, rep)] no line feed is left. *)
Lemma replace_lit_nl (rep : string) (s : string) :
  all_chars not_LF rep = true ->
  all_chars not_LF (replace_lit nl rep 0 s) = true.
Proof.
  intros Hrep. induction s as [|c s IH]; [reflexivity|].
  cbn [replace_lit nl startsWith String.length].
  rewrite startsWith_nil, andb_true_r.
  destruct (Ascii.eqb c LF) eqn:Hc.
  - rewrite all_chars_append, Hrep, IH. reflexivity.
  - cbn [all_chars]. unfold not_LF at 1. rewrite Hc, IH. reflexivity.
Qed.

(** A text without line feed is one line. *)
Lemma split_one_line (s : string) :
  all_chars not_LF s = true -> split LF s = [s].
Proof.
  induction s as [|c s IH]; [reflexivity|].
  cbn [all_chars split]. intros H. apply andb_true_iff in H.
  destruct H as [Hc Hs]. unfold not_LF in Hc. apply negb_true_iff in Hc.
  rewrite Hc, IH by exact Hs. reflexivity.
Qed.

Lemma fallbackMarkdownToHtml_one_line (markdown : string) :
  all_chars not_LF (fallbackMarkdownToHtml markdown) = true.
Proof.
  unfold fallbackMarkdownToHtml. cbv zeta.
  apply replace_all_within; [reflexivity|].
  apply replace_all_within; [reflexivity|].
  rewrite !all_chars_append.
  rewrite replace_all_lit, replace_lit_nl by reflexivity. reflexivity.
Qed.

Lemma preprocessCodeBlocks_one_line (html : string) :
  all_chars not_LF html = true ->
  all_chars not_LF (preprocessCodeBlocks html) = true.
Proof.
  intros H. unfold preprocessCodeBlocks.
  apply replace_all_within; [|exact H].
  intros m _ Hg. cbv zeta.
  rewrite !all_chars_append, (Hg 1).
  unfold escape_newlines. rewrite replace_all_lit, replace_lit_nl by reflexivity.
  reflexivity.
Qed.

Lemma length_omap {A B : Type} (f : A -> option B) (xs : list A) :
  List.length (omap f xs) <= List.length xs.
Proof.
  induction xs as [|x xs IH]; simpl; [lia|].
  destruct (f x); simpl; lia.
Qed.

(** The scanner finds one element at most in a text without line feed. *)
Lemma parseHtmlElements_one_line (html : string) :
  all_chars not_LF html = true ->
  List.length (parseHtmlElements html) <= 1.
Proof.
  intros H. unfold parseHtmlElements. cbv zeta.
  rewrite split_one_line by (apply preprocessCodeBlocks_one_line, H).
  etransitivity; [apply length_omap|].
  cbn [filter]. destruct (truthy _); simpl; lia.
Qed.

Lemma built_length {W : Type} (P : platform W) (es : list element)
      (bs : list block) :
  built P es bs -> List.length bs <= List.length es.
Proof.
  induction 1 as [|e ob st st' es bs _ _ IH]; [simpl; lia|].
  rewrite length_app. destruct ob; simpl; lia.
Qed.

End OneLine.

(* ------------------------------------------------------------------ *)
(** *** The scanner on a line that holds one element *)

Section ScannerLines.

(** A pattern that starts with a literal matches nowhere in a text that
    does not hold the literal. *)
Lemma match_at_lit_none (L : string) (R : re) (pv : option ascii) (i : nat)
      (s : string) :
  startsWith s L = false -> match_at (Seq (lit L) R) pv i s = None.
Proof.
  intros H. unfold match_at. rewrite mt_Seq.
  pose proof (mt_lit L (mt R Some) (Cursor pv i s [])) as Hlit.
  cbn [rest] in Hlit. rewrite H in Hlit. rewrite Hlit. reflexivity.
Qed.

Lemma search_lit_none (L : string) (R : re) (s : string) :
  find L s = None ->
  forall (pv : option ascii) (i : nat), search (Seq (lit L) R) pv i s = None.
Proof.
  induction s as [|c s IH]; intros H pv i; cbn [search].
  - rewrite match_at_lit_none; [reflexivity|].
    cbn [find] in H. destruct (startsWith "" L); [discriminate|reflexivity].
  - apply find_tail in H. destruct H as [Hs Hf].
    rewrite match_at_lit_none by exact Hs. apply IH, Hf.
Qed.

Lemma exec_lit_none (L : string) (R : re) (s : string) :
  find L s = None -> exec (Seq (lit L) R) s = None.
Proof. intros H. apply search_lit_none, H. Qed.

Lemma replace_all_lit_none (L : string) (R : re) (f : rmatch -> string)
      (s : string) :
  find L s = None -> replace_all (Seq (lit L) R) f s = s.
Proof.
  unfold replace_all.
  assert (Hscan : forall s (pv : option ascii) (i : nat),
             find L s = None ->
             render f (scan (Seq (lit L) R) pv i 0 s) = s);
    [|intros H; apply Hscan, H].
  clear s. induction s as [|c s IH]; intros pv i H; cbn [scan].
  - rewrite match_at_lit_none; [reflexivity|].
    cbn [find] in H. destruct (startsWith "" L); [discriminate|reflexivity].
  - apply find_tail in H. destruct H as [Hs Hf].
    rewrite match_at_lit_none by exact Hs.
    cbn [render]. rewrite IH by exact Hf. reflexivity.
Qed.

(** A pattern that starts with [<] occurs nowhere in a text without [<],
    and is not found through such a text. *)
Lemma find_none_skip (pat' t b : string) :
  has_char "<" t = false ->
  find (String "<" pat') b = None ->
  find (String "<" pat') (t ++ b) = None.
Proof.
  intros Ht Hb. induction t as [|c t IH]; [exact Hb|].
  cbn [has_char] in Ht. apply orb_false_iff in Ht. destruct Ht as [Hc Ht].
  cbn [append find startsWith]. rewrite Ascii.eqb_sym, Hc. cbn [andb].
  rewrite IH by exact Ht. reflexivity.
Qed.

(** The table tags of the scanner need a [<t] or a [</t]. *)
Lemma match_at_table_structure (pv : option ascii) (i : nat) (s : string) :
  startsWith s "<t" = false -> startsWith s "</t" = false ->
  match_at re_table_structure pv i s = None.
Proof.
  intros H1 H2. unfold match_at, re_table_structure.
  destruct s as [|c1 [|c2 [|c3 s]]];
    cbn [mt seq lit rest step startsWith] in *;
    repeat match goal with
           | |- context [Ascii.eqb ?a ?c] =>
               is_var c; destruct (Ascii.eqb_spec a c) as [<-|?]
           end;
    try reflexivity;
    rewrite ?startsWith_nil in *;
    cbn [Ascii.eqb Bool.eqb andb] in *; discriminate.
Qed.

Lemma test_table_structure (s : string) :
  find "<t" s = None -> find "</t" s = None ->
  test re_table_structure s = false.
Proof.
  unfold test, exec.
  assert (Hsearch : forall s (pv : option ascii) (i : nat),
             find "<t" s = None -> find "</t" s = None ->
             search re_table_structure pv i s = None);
    [|intros H1 H2; rewrite Hsearch by assumption; reflexivity].
  clear s. induction s as [|c s IH]; intros pv i H1 H2; cbn [search].
  - reflexivity.
  - apply find_tail in H1, H2. destruct H1 as [Hs1 Hf1], H2 as [Hs2 Hf2].
    rewrite match_at_table_structure by assumption.
    apply IH; assumption.
Qed.

End ScannerLines.

Section LazyContent.

(** The lazy [p*?] passes over a text of the class in which the pattern
    that follows cannot start. *)
Lemma star_lazy_skip (p : ascii -> bool) (k : cursor -> option cursor)
      (c0 : ascii) :
  (forall st, startsWith (rest st) (String c0 "") = false -> k st = None) ->
  forall (t b : string) (pv : option ascii) (i : nat) (cs : list (nat * string)),
    all_chars p t = true -> has_char c0 t = false ->
    star p false k pv i cs (t ++ b)
    = star p false k (last_char pv t) (i + String.length t) cs b.
Proof.
  intros Hk. induction t as [|c t IH]; intros b pv i cs Hp Hc.
  - cbn [append last_char String.length]. rewrite Nat.add_0_r. reflexivity.
  - cbn [all_chars has_char] in Hp, Hc.
    apply andb_true_iff in Hp. destruct Hp as [Hpc Hp].
    apply orb_false_iff in Hc. destruct Hc as [Hcc Hc].
    cbn [append star].
    rewrite Hk
      by (cbn [rest startsWith]; rewrite Ascii.eqb_sym, Hcc; reflexivity).
    rewrite Hpc. rewrite IH by assumption.
    cbn [last_char String.length]. rewrite Nat.add_succ_r. reflexivity.
Qed.

Lemma star_lazy_now (p : ascii -> bool) (k : cursor -> option cursor)
      (s : string) (pv : option ascii) (i : nat) (cs : list (nat * string))
      (c : cursor) :
  k (Cursor pv i s cs) = Some c -> star p false k pv i cs s = Some c.
Proof. intros H. destruct s; cbn [star]; rewrite H; reflexivity. Qed.

Lemma startsWith_refl (s : string) : startsWith s s = true.
Proof.
  induction s as [|c s IH]; [reflexivity|].
  cbn [startsWith]. rewrite Ascii.eqb_refl, IH. reflexivity.
Qed.

Lemma drop_all (s : string) : drop (String.length s) s = "".
Proof. induction s as [|c s IH]; [reflexivity | exact IH]. Qed.

Lemma search_now (r : re) (pv : option ascii) (i : nat) (s : string)
      (m : rmatch) :
  match_at r pv i s = Some m -> search r pv i s = Some m.
Proof. intros H. destruct s; cbn [search]; rewrite H; reflexivity. Qed.

(** A pattern that is an opening text, a lazy group and a closing text
    that starts with [<], on a line made of the opening text, a content
    without [<] and the closing text: the group is the content. *)
Lemma exec_lazy_group (n : nat) (open close' t : string) :
  has_char "<" t = false -> all_chars dot t = true ->
  exists m,
    exec (seq [lit open; Grp n (Star dot false); lit (String "<" close')])
         (open ++ t ++ String "<" close')
    = Some m
    /\ group n m = t.
Proof.
  intros Ht Hdot.
  assert (Hm : exists m,
             match_at (seq [lit open; Grp n (Star dot false);
                            lit (String "<" close')])
                      None 0 (open ++ t ++ String "<" close')
             = Some m
             /\ group n m = t).
  { unfold match_at. cbn [seq]. rewrite mt_Seq.
    pose proof (mt_lit open
                  (mt (Seq (Grp n (Star dot false)) (lit (String "<" close')))
                      Some)
                  (Cursor None 0 (open ++ t ++ String "<" close') []))
      as Hlit.
    cbn [rest pos caps] in Hlit.
    rewrite startsWith_app in Hlit. destruct Hlit as [pv1 ->].
    rewrite drop_app_exact, mt_Seq, mt_Grp, mt_Star.
    cbn [prev pos caps rest Nat.add].
    rewrite (star_lazy_skip dot _ "<");
      [| |exact Hdot|exact Ht].
    2:{ intros st Hst.
        pose proof (mt_lit (String "<" close') Some
                      (capture n
                         (Cursor pv1 (String.length open)
                                 (t ++ String "<" close') []) st)) as H.
        cbn [capture rest] in H.
        replace (startsWith (rest st) (String "<" close')) with false in H;
          [exact H|].
        symmetry. revert Hst. clear. destruct (rest st) as [|c s];
          [reflexivity|].
        cbn [startsWith]. rewrite startsWith_nil, andb_true_r.
        intros ->. reflexivity. }
    pose proof (mt_lit (String "<" close') Some
                  (capture n
                     (Cursor pv1 (String.length open)
                             (t ++ String "<" close') [])
                     (Cursor (last_char pv1 t)
                             (String.length open + String.length t)
                             (String "<" close') [])))
      as Hclose.
    cbn [capture rest pos caps prev] in Hclose.
    rewrite startsWith_refl in Hclose.
    destruct Hclose as [pv2 Hclose].
    erewrite star_lazy_now by exact Hclose.
    eexists. split; [reflexivity|].
    unfold group. cbn [m_caps caps lookup]. rewrite Nat.eqb_refl.
    replace (String.length open + String.length t - String.length open)
      with (String.length t) by lia.
    apply take_app_exact. }
  destruct Hm as (m & Hm & Hg). exists m. split; [|exact Hg].
  unfold exec. apply search_now, Hm.
Qed.

(** The heading pattern on a heading line whose content holds no [<]. *)
Lemma exec_heading (d d' : ascii) (t : string) :
  between "1" "6" d = true -> between "1" "6" d' = true ->
  has_char "<" t = false -> all_chars dot t = true ->
  exists m,
    exec re_heading
         ("<h" ++ String d (">" ++ t ++ "</h" ++ String d' ">"))
    = Some m
    /\ group 1 m = String d ""
    /\ group 2 m = t.
Proof.
  intros Hd Hd' Ht Hdot.
  set (digit := between "1" "6").
  set (tail := Seq (lit "</h") (Seq (Cls digit) (Chr ">"))).
  assert (Hm : exists m,
             match_at re_heading None 0
               ("<h" ++ String d (">" ++ t ++ "</h" ++ String d' ">"))
             = Some m
             /\ group 1 m = String d ""
             /\ group 2 m = t).
  { unfold match_at.
    change re_heading
      with (Seq (lit "<h")
              (Seq (Grp 1 (Cls digit))
                 (Seq (Chr ">") (Seq (Grp 2 (Star dot false)) tail)))).
    rewrite mt_Seq.
    pose proof (mt_lit "<h"
                  (mt (Seq (Grp 1 (Cls digit))
                         (Seq (Chr ">") (Seq (Grp 2 (Star dot false)) tail)))
                      Some)
                  (Cursor None 0
                     ("<h" ++ String d (">" ++ t ++ "</h" ++ String d' ">"))
                     []))
      as Hlit.
    cbn [rest pos caps] in Hlit.
    rewrite startsWith_app in Hlit. destruct Hlit as [pv1 ->].
    rewrite drop_app_exact.
    rewrite mt_Seq, mt_Grp, mt_Cls. cbn [rest]. fold digit in Hd. rewrite Hd.
    rewrite mt_Seq, mt_Chr. cbn [capture step rest append].
    rewrite Ascii.eqb_refl.
    rewrite mt_Seq, mt_Grp, mt_Star.
    cbn [step prev pos caps rest capture String.length Nat.add].
    rewrite (star_lazy_skip dot _ "<"); [| |exact Hdot|exact Ht].
    2:{ intros st Hst. unfold tail. rewrite mt_Seq.
        match goal with
        | |- mt (lit "</h") ?k ?c = None =>
            pose proof (mt_lit "</h" k c) as H
        end.
        cbn [capture rest] in H.
        replace (startsWith (rest st) "</h") with false in H; [exact H|].
        symmetry. revert Hst. clear. destruct (rest st) as [|c s];
          [reflexivity|].
        cbn [startsWith]. rewrite startsWith_nil, andb_true_r.
        intros ->. reflexivity. }
    match goal with
    | |- context [star dot false ?k ?pv ?i ?cs ?s] =>
        assert (Hclose : exists c,
                   k (Cursor pv i s cs) = Some c
                   /\ lookup 1 (caps c) = String d ""
                   /\ lookup 2 (caps c) = t)
    end.
    { unfold tail. rewrite mt_Seq.
      match goal with
      | |- exists c, mt (lit "</h") ?k ?c0 = Some c /\ _ =>
          pose proof (mt_lit "</h" k c0) as H
      end.
      cbn [capture rest pos caps prev] in H.
      change ("</h" ++ String d' ">")
        with (String "<" (String "/" (String "h" (String d' ">")))) in H.
      cbn [startsWith Ascii.eqb Bool.eqb andb] in H.
      destruct H as [pv2 ->].
      cbn [drop String.length].
      rewrite mt_Seq, mt_Cls. cbn [rest]. fold digit in Hd'. rewrite Hd'.
      rewrite mt_Chr. cbn [step rest]. rewrite Ascii.eqb_refl.
      eexists. split; [reflexivity|].
      cbn [step caps lookup Nat.eqb pos rest].
      split; [reflexivity|].
      cbn [capture step pos].
      replace (4 + String.length t - 4) with (String.length t) by lia.
      apply take_app_exact. }
    destruct Hclose as (c & Hc & H1 & H2).
    erewrite star_lazy_now by exact Hc.
    eexists. split; [reflexivity|].
    unfold group. cbn [m_caps]. split; assumption. }
  destruct Hm as (m & Hm & Hg). exists m. split; [|exact Hg].
  unfold exec. apply search_now, Hm.
Qed.

End LazyContent.

Section OneElement.

Lemma trimEnd_app (a b : string) :
  trimEnd b = b -> b <> "" -> trimEnd (a ++ b) = a ++ b.
Proof.
  intros Hb Hne. induction a as [|c a IH]; [exact Hb|].
  cbn [append trimEnd]. rewrite IH.
  destruct (a ++ b) eqn:E; [|reflexivity].
  destruct a; [contradiction | discriminate].
Qed.

Lemma dot_not_LF (t : string) :
  all_chars dot t = true -> all_chars not_LF t = true.
Proof.
  induction t as [|c t IH]; [reflexivity|].
  cbn [all_chars]. intros H. apply andb_true_iff in H. destruct H as [Hc Ht].
  rewrite IH by exact Ht. rewrite andb_true_r.
  unfold not_LF. destruct (Ascii.eqb_spec c LF) as [->|_];
    [discriminate | reflexivity].
Qed.

(** A line with no code block: the scanner gives what the line gives. *)
Lemma parse_one_line (line : string) :
  all_chars not_LF line = true ->
  find "<pre><code" line = None ->
  parseHtmlElements line = opt_list (scan_line line).
Proof.
  intros Hlf Hpre. unfold parseHtmlElements. cbv zeta.
  unfold preprocessCodeBlocks, re_pre_span. cbn [seq].
  rewrite replace_all_lit_none by exact Hpre.
  rewrite split_one_line by exact Hlf.
  cbn [filter].
  destruct (truthy (trim line)) eqn:Ht.
  - cbn [omap]. destruct (scan_line line); reflexivity.
  - unfold scan_line. rewrite Ht. reflexivity.
Qed.

End OneElement.

Section ElementLines.

Variable t : string.
Hypothesis Ht : has_char "<" t = false.
Hypothesis Hdot : all_chars dot t = true.

Lemma trim_element_line (name : string) :
  trim (element_line name t) = element_line name t.
Proof.
  unfold trim, element_line.
  rewrite trimStart_of_clean by reflexivity.
  change ("<" ++ name ++ ">" ++ t ++ "</" ++ name ++ ">")
    with (String "<" (name ++ ">" ++ t ++ "</" ++ name ++ ">")).
  change (String "<" (name ++ ">" ++ t ++ "</" ++ name ++ ">"))
    with ("<" ++ name ++ ">" ++ t ++ "</" ++ name ++ ">").
  repeat rewrite <- append_assoc.
  apply trimEnd_app; [reflexivity | discriminate].
Qed.

Lemma element_line_not_LF (name : string) :
  all_chars not_LF name = true ->
  all_chars not_LF (element_line name t) = true.
Proof.
  intros Hn. unfold element_line.
  rewrite !all_chars_append, Hn, (dot_not_LF t Hdot). reflexivity.
Qed.

Lemma scan_line_heading_line (d : ascii) :
  between "1" "6" d = true ->
  scan_line (element_line (String "h" (String d "")) t)
  = Some (Element (String "h" (String d "")) t None).
Proof.
  intros Hd. unfold scan_line. rewrite trim_element_line.
  destruct (exec_heading d d t Hd Hd Ht Hdot) as (m & Hm & H1 & H2).
  change (exec re_heading ("<h" ++ String d (">" ++ t ++ "</h" ++ String d ">")))
    with (exec re_heading (element_line (String "h" (String d "")) t)) in Hm.
  apply digit_1_6 in Hd. simpl in Hd.
  destruct Hd as [[= <-]|[[= <-]|[[= <-]|[[= <-]|[[= <-]|[[= <-]|[]]]]]]];
    unfold element_line in *; cbn [truthy negb append];
    regex_fails exec_lit_none find_none_skip re_img "<img" Ht;
    cbn [append] in Hm; rewrite Hm, H1, H2; reflexivity.
Qed.

Lemma scan_line_blockquote_line :
  scan_line (element_line "blockquote" t) = Some (Element "blockquote" t None).
Proof.
  unfold scan_line. rewrite trim_element_line.
  destruct (exec_lazy_group 1 "<blockquote>" "/blockquote>" t Ht Hdot)
    as (m & Hm & Hg).
  unfold element_line. cbn [truthy negb append].
  regex_fails exec_lit_none find_none_skip re_img "<img" Ht.
  regex_fails exec_lit_none find_none_skip re_heading "<h" Ht.
  regex_fails exec_lit_none find_none_skip re_code_block "<pre><code" Ht.
  cbn [append] in Hm.
  replace (exec (re_element "blockquote") _) with (Some m)
    by (symmetry; exact Hm).
  rewrite Hg. reflexivity.
Qed.

Lemma scan_line_li_line :
  scan_line (element_line "li" t) = Some (Element "li" t None).
Proof.
  unfold scan_line. rewrite trim_element_line.
  destruct (exec_lazy_group 1 "<li>" "/li>" t Ht Hdot) as (m & Hm & Hg).
  unfold element_line. cbn [truthy negb append].
  regex_fails exec_lit_none find_none_skip re_img "<img" Ht.
  regex_fails exec_lit_none find_none_skip re_heading "<h" Ht.
  regex_fails exec_lit_none find_none_skip re_code_block "<pre><code" Ht.
  regex_fails exec_lit_none find_none_skip (re_element "blockquote")
              "<blockquote>" Ht.
  cbn [append] in Hm.
  replace (exec (re_element "li") _) with (Some m) by (symmetry; exact Hm).
  rewrite Hg. reflexivity.
Qed.

Lemma scan_line_p_line :
  scan_line (element_line "p" t)
  = if truthy (trim t) then Some (Element "p" t None) else None.
Proof.
  unfold scan_line. rewrite trim_element_line.
  destruct (exec_lazy_group 1 "<p>" "/p>" t Ht Hdot) as (m & Hm & Hg).
  unfold element_line. cbn [truthy negb append].
  regex_fails exec_lit_none find_none_skip re_img "<img" Ht.
  regex_fails exec_lit_none find_none_skip re_heading "<h" Ht.
  regex_fails exec_lit_none find_none_skip re_code_block "<pre><code" Ht.
  regex_fails exec_lit_none find_none_skip (re_element "blockquote")
              "<blockquote>" Ht.
  regex_fails exec_lit_none find_none_skip (re_element "li") "<li>" Ht.
  regex_fails exec_lit_none find_none_skip (re_element "tr") "<tr>" Ht.
  rewrite test_table_structure by no_match find_none_skip Ht.
  cbn [append] in Hm.
  replace (exec (re_element "p") _) with (Some m) by (symmetry; exact Hm).
  rewrite Hg. reflexivity.
Qed.

End ElementLines.

(** The scanner on the line of an element whose content holds no [<] and
    no line terminator. *)
Lemma scan_line_element_line (name t : string) :
  In name line_tags ->
  has_char "<" t = false -> all_chars dot t = true ->
  scan_line (element_line name t)
  = if (name =? "p")%string && negb (truthy (trim t)) then None
    else Some (Element name t None).
Proof.
  intros Hin Ht Hdot. simpl in Hin.
  destruct Hin as [<-|[<-|[<-|[<-|[<-|[<-|[<-|[<-|[<-|[]]]]]]]]]];
    cbn [String.eqb Ascii.eqb Bool.eqb andb];
    try (apply scan_line_heading_line; [assumption..|reflexivity]).
  - apply scan_line_blockquote_line; assumption.
  - apply scan_line_li_line; assumption.
  - rewrite scan_line_p_line by assumption.
    destruct (truthy (trim t)); reflexivity.
Qed.

Lemma htmlToRichText_plain (s : string) :
  has_char "<" s = false -> htmlToRichText s = [plain s].
Proof.
  intros H.
  rewrite (htmlToRichText_tok s s []) by (apply tok_plain, H).
  rewrite flush_nil. unfold opt_plain, runs_or_whole.
  destruct s; reflexivity.
Qed.

(* ------------------------------------------------------------------ *)
(** *** Attributes and images *)

Section Attributes.

(** After a match, the scan goes on where the match ends. *)
Lemma scan_skip (r : re) (a : string) :
  forall (b : string) (pv : option ascii) (i : nat),
    scan r pv i (String.length a) (a ++ b)
    = scan r (last_char pv a) (i + String.length a) 0 b.
Proof.
  induction a as [|c a IH]; intros b pv i.
  - cbn [String.length append last_char]. rewrite Nat.add_0_r. reflexivity.
  - cbn [String.length append scan last_char]. rewrite IH.
    rewrite Nat.add_succ_r. reflexivity.
Qed.

Lemma scan_hit (r : re) (c : ascii) (a b : string) (pv : option ascii)
      (i : nat) (m : rmatch) :
  match_at r pv i (String c a ++ b) = Some m ->
  m_text m = String c a ->
  scan r pv i 0 (String c a ++ b)
  = Hit m :: scan r (last_char (Some c) a) (S i + String.length a) 0 b.
Proof.
  intros Hm Htext. cbn [append scan] in *. rewrite Hm, Htext.
  cbn [String.length]. rewrite scan_skip. reflexivity.
Qed.

Lemma scan_keep (r : re) (c : ascii) (s : string) (pv : option ascii)
      (i : nat) :
  match_at r pv i (String c s) = None ->
  scan r pv i 0 (String c s) = Keep c :: scan r (Some c) (S i) 0 s.
Proof. intros H. cbn [scan]. rewrite H. reflexivity. Qed.

(** The attribute pattern needs a word character to start. *)
Lemma match_at_attr_none (pv : option ascii) (i : nat) (s : string) :
  match s with
  | "" => True
  | String c _ => isWordChar c = false
  end ->
  match_at re_attr pv i s = None.
Proof.
  intros H. unfold match_at, re_attr, Plus. cbn [seq].
  rewrite mt_Seq, mt_Grp, (mt_Seq (Cls isWordChar)), mt_Cls. cbn [rest].
  destruct s as [|c s]; [reflexivity|]. rewrite H. reflexivity.
Qed.

(** The attribute pattern on a name, an equal sign and a quoted value. *)
Lemma match_at_attr (k v more : string) (pv : option ascii) (i : nat) :
  attr_ok (k, v) ->
  exists m,
    match_at re_attr pv i (k ++ "=" ++ DQ ++ v ++ DQ ++ more) = Some m
    /\ m_text m = k ++ "=" ++ DQ ++ v ++ DQ
    /\ group 1 m = k
    /\ group 2 m = v.
Proof.
  intros (Hne & Hk & Hv). cbn [fst snd] in *.
  destruct k as [|c k]; [contradiction|].
  cbn [all_chars] in Hk. apply andb_true_iff in Hk. destruct Hk as [Hc Hk].
  set (notq := fun c => negb (quote_char c)) in *.
  change (String c k ++ "=" ++ DQ ++ v ++ DQ ++ more)
    with (String c (k ++ String "=" (String dq (v ++ String dq more)))).
  set (line := String c (k ++ String "=" (String dq (v ++ String dq more)))).
  assert (Hval : forall pv1,
             mt (Seq (Chr "=")
                   (Seq (Cls quote_char)
                      (Seq (Grp 2 (Star notq true)) (Cls quote_char))))
                Some
                (capture 1 (Cursor pv i line [])
                   (Cursor pv1 (S (i + String.length k))
                           (String "=" (String dq (v ++ String dq more))) []))
             = Some (Cursor (Some dq)
                            (S (S (S (S (i + String.length k))))
                             + String.length v)
                            more
                            [(2, v); (1, String c k)])).
  { intros pv1.
    rewrite mt_Seq, mt_Chr. cbn [capture rest]. rewrite Ascii.eqb_refl.
    rewrite mt_Seq, mt_Cls. cbn [step rest]. change (quote_char dq) with true.
    cbv iota. rewrite mt_Seq, mt_Grp, mt_Star.
    cbn [step prev pos caps rest].
    assert (Hstop : stops notq (String dq more) = true) by reflexivity.
    rewrite star_greedy_after;
      rewrite (after_app notq v (String dq more) Hv Hstop);
      rewrite mt_Cls; cbn [capture rest];
      change (quote_char dq) with true; cbv iota; [|discriminate].
    unfold step, capture. cbn [pos caps prev rest].
    replace (S (S (S (i + String.length k))) + String.length v
             - S (S (S (i + String.length k))))
      with (String.length v) by lia.
    replace (S (i + String.length k) - i)
      with (String.length (String c k)) by (cbn [String.length]; lia).
    rewrite take_app_exact.
    change line
      with (String c k ++ String "=" (String dq (v ++ String dq more))).
    rewrite (take_app_exact (String c k)). reflexivity. }
  assert (Hstop : stops isWordChar
                    (String "=" (String dq (v ++ String dq more))) = true)
    by reflexivity.
  unfold match_at, re_attr, Plus. cbn [seq]. fold notq.
  rewrite mt_Seq, mt_Grp, (mt_Seq (Cls isWordChar)), mt_Cls.
  cbn [rest]. unfold line at 1. rewrite Hc.
  rewrite mt_Star. cbn [step prev pos caps rest].
  rewrite star_greedy_after;
    rewrite (after_app isWordChar k _ Hk Hstop);
    rewrite Hval; [|discriminate].
  eexists. split; [reflexivity|].
  cbn [m_text group m_caps lookup Nat.eqb pos].
  split; [|split; reflexivity].
  replace (S (S (S (S (i + String.length k)))) + String.length v - i)
    with (String.length (String c k ++ "=" ++ DQ ++ v ++ DQ))
    by (unfold DQ; cbn [String.length append]; rewrite !length_append;
        cbn [String.length]; rewrite ?length_append; cbn [String.length];
        lia).
  replace line with ((String c k ++ "=" ++ DQ ++ v ++ DQ) ++ more).
  - apply take_app_exact.
  - subst line. cbn [append DQ]. f_equal.
    rewrite !append_assoc. cbn [append]. f_equal. f_equal.
    rewrite append_assoc. reflexivity.
Qed.

Lemma scan_attr_tail (tail : string) :
  all_chars (fun c => negb (isWordChar c)) tail = true ->
  forall (pv : option ascii) (i : nat), hits (scan re_attr pv i 0 tail) = [].
Proof.
  induction tail as [|c tail IH]; intros H pv i.
  - cbn [scan]. rewrite match_at_attr_none by exact I. reflexivity.
  - cbn [all_chars] in H. apply andb_true_iff in H. destruct H as [Hc H].
    apply negb_true_iff in Hc.
    rewrite scan_keep by (apply match_at_attr_none; exact Hc).
    cbn [hits]. apply IH, H.
Qed.

(** The matches of the attribute pattern in written attributes, followed
    by a text without word characters: one per attribute, in order. *)
Lemma scan_attrs (kvs : list (string * string)) (tail : string) :
  Forall attr_ok kvs ->
  all_chars (fun c => negb (isWordChar c)) tail = true ->
  forall (pv : option ascii) (i : nat),
    map attr_of_match (hits (scan re_attr pv i 0 (render_attrs kvs ++ tail)))
    = kvs.
Proof.
  intros Hok Htail. induction Hok as [|[k v] kvs Hkv Hok IH]; intros pv i.
  - cbn [render_attrs append]. rewrite scan_attr_tail by exact Htail.
    reflexivity.
  - cbn [render_attrs].
    set (more := match kvs with
                 | [] => ""
                 | _ => " " ++ render_attrs kvs
                 end ++ tail).
    replace ((k ++ "=" ++ DQ ++ v ++ DQ
              ++ match kvs with
                 | [] => ""
                 | _ => " " ++ render_attrs kvs
                 end) ++ tail)
      with ((k ++ "=" ++ DQ ++ v ++ DQ) ++ more)
      by (subst more; rewrite !append_assoc; reflexivity).
    destruct (match_at_attr k v more pv i Hkv) as (m & Hm & Htext & H1 & H2).
    replace (k ++ "=" ++ DQ ++ v ++ DQ ++ more)
      with ((k ++ "=" ++ DQ ++ v ++ DQ) ++ more) in Hm
      by (rewrite !append_assoc; reflexivity).
    destruct Hkv as (Hne & _). cbn [fst] in Hne.
    destruct k as [|c k]; [contradiction|].
    change ((String c k ++ "=" ++ DQ ++ v ++ DQ))
      with (String c (k ++ "=" ++ DQ ++ v ++ DQ)) in *.
    rewrite (scan_hit re_attr c _ more pv i m Hm Htext).
    cbn [hits map]. unfold attr_of_match at 1. rewrite H1, H2. f_equal.
    subst more. destruct kvs as [|kv kvs].
    + cbn [append]. rewrite scan_attr_tail by exact Htail. reflexivity.
    + change ((" " ++ render_attrs (kv :: kvs)) ++ tail)
        with (String " " (render_attrs (kv :: kvs) ++ tail)).
      rewrite scan_keep by (apply match_at_attr_none; reflexivity).
      cbn [hits]. apply IH.
Qed.

Lemma fold_left_unless {A B : Type} (p : A -> bool) (f : A -> B)
      (xs : list A) (acc : list B) :
  fold_left (fun acc x => if p x then acc else f x :: acc) xs acc
  = (rev (map f (filter (fun x => negb (p x)) xs)) ++ acc)%list.
Proof.
  revert acc. induction xs as [|x xs IH]; intros acc; [reflexivity|].
  cbn [fold_left filter]. rewrite IH.
  destruct (p x); cbn [negb map rev]; [reflexivity|].
  rewrite <- app_assoc. reflexivity.
Qed.

Lemma filter_map_fst {A B : Type} (q : B -> bool) (f : A -> B) (xs : list A) :
  map f (filter (fun x => q (f x)) xs) = filter q (map f xs).
Proof.
  induction xs as [|x xs IH]; [reflexivity|].
  cbn [filter map]. destruct (q (f x)); cbn [map]; rewrite IH; reflexivity.
Qed.

(** The attributes as they are written: the object holds them all, but
    those named [__proto__]. *)
Lemma parseAttributes_rendered (kvs : list (string * string)) (tail : string) :
  Forall attr_ok kvs ->
  all_chars (fun c => negb (isWordChar c)) tail = true ->
  parseAttributes (render_attrs kvs ++ tail) = rev (own_attrs kvs).
Proof.
  intros Hok Htail. unfold parseAttributes, exec_all.
  rewrite (fold_left_unless
             (fun m => (group 1 m =? "__proto__")%string) attr_of_match),
    app_nil_r.
  rewrite (filter_map_fst
             (fun kv => negb (fst kv =? "__proto__")%string) attr_of_match).
  rewrite scan_attrs by assumption. reflexivity.
Qed.

Lemma assoc_absent (key : string) (kvs : list (string * string)) :
  (forall kv, In kv kvs -> fst kv <> key) -> assoc key kvs = None.
Proof.
  induction kvs as [|[k v] kvs IH]; intros H; [reflexivity|].
  cbn [assoc]. destruct (String.eqb_spec k key) as [E|_].
  - exfalso. apply (H (k, v)); [left; reflexivity | exact E].
  - apply IH. intros kv Hin. apply H. right. exact Hin.
Qed.

Lemma assoc_last (key v : string) (kvs : list (string * string)) :
  assoc key (rev (kvs ++ [(key, v)])) = Some v.
Proof.
  rewrite rev_app_distr. cbn [rev app assoc]. rewrite String.eqb_refl.
  reflexivity.
Qed.

End Attributes.

Section ImageTag.

Lemma search_step (r : re) (pv : option ascii) (i : nat) (c : ascii)
      (s : string) :
  match_at r pv i (String c s) = None ->
  search r pv i (String c s) = search r (Some c) (S i) s.
Proof. intros H. cbn [search]. rewrite H. reflexivity. Qed.

(** The image pattern on an image tag whose attributes hold no [>]. *)
Lemma match_at_img (c0 : ascii) (body' post : string) (pv : option ascii)
      (i : nat) :
  isWhiteSpace c0 = false ->
  all_chars (non ">") (String c0 body') = true ->
  exists m,
    match_at re_img pv i ("<img" ++ " " ++ String c0 body' ++ ">" ++ post)
    = Some m
    /\ group 1 m = String c0 body'.
Proof.
  intros Hc0 Hbody.
  set (body := String c0 body') in *.
  unfold match_at, re_img, Plus. cbn [seq].
  rewrite mt_Seq.
  match goal with
  | |- context [mt (lit "<img") ?k ?st] =>
      pose proof (mt_lit "<img" k st) as Hlit
  end.
  cbn [rest pos caps] in Hlit.
  rewrite startsWith_app in Hlit. destruct Hlit as [pv1 ->].
  rewrite drop_app_exact.
  rewrite mt_Seq, (mt_Seq (Cls isWhiteSpace)), mt_Cls.
  cbn [rest append]. change (isWhiteSpace " ") with true. cbv iota.
  rewrite mt_Star. cbn [step prev pos caps rest String.length].
  assert (Hws : stops isWhiteSpace (body ++ String ">" post) = true)
    by (subst body; cbn [append stops]; rewrite Hc0; reflexivity).
  assert (Hgt : stops (non ">") (String ">" post) = true) by reflexivity.
  assert (Hws2 : stops isWhiteSpace (String ">" post) = true) by reflexivity.
  assert (Htail : forall pv2 i2 cs,
             mt (Seq (Star isWhiteSpace true) (Seq (Opt (Chr "/")) (Chr ">")))
                Some (Cursor pv2 i2 (String ">" post) cs)
             = Some (Cursor (Some ">"%char) (S i2) post cs)).
  { intros pv2 i2 cs. rewrite mt_Seq, mt_Star. cbn [prev pos caps rest].
    assert (Hk : mt (Seq (Opt (Chr "/")) (Chr ">")) Some
                    (Cursor pv2 i2 (String ">" post) cs)
                 = Some (Cursor (Some ">"%char) (S i2) post cs))
      by reflexivity.
    rewrite star_greedy_after;
      rewrite (after_app isWhiteSpace "" (String ">" post) eq_refl Hws2);
      cbn [last_char String.length]; rewrite Nat.add_0_r, Hk;
      [reflexivity | discriminate]. }
  assert (Hgroup : forall pv2 i2,
             mt (Seq (Grp 1 (Star (non ">") true))
                   (Seq (Star isWhiteSpace true)
                      (Seq (Opt (Chr "/")) (Chr ">"))))
                Some (Cursor pv2 i2 (body ++ String ">" post) [])
             = Some (Cursor (Some ">"%char) (S (i2 + String.length body)) post
                            [(1, body)])).
  { intros pv2 i2. rewrite mt_Seq, mt_Grp, mt_Star.
    cbn [prev pos caps rest].
    rewrite star_greedy_after;
      rewrite (after_app (non ">") body (String ">" post) Hbody Hgt);
      unfold capture; cbn [prev pos caps rest];
      rewrite Htail; [|discriminate].
    replace (i2 + String.length body - i2) with (String.length body) by lia.
    rewrite take_app_exact. reflexivity. }
  change (" " ++ body ++ ">" ++ post)
    with (String " " (body ++ String ">" post)).
  cbn [rest].
  rewrite star_greedy_after;
    rewrite (after_app isWhiteSpace "" (body ++ String ">" post) eq_refl Hws);
    cbn [last_char String.length]; rewrite Nat.add_0_r, Hgroup;
    [|discriminate].
  eexists. split; [reflexivity|]. reflexivity.
Qed.

End ImageTag.

Section ImageLine.

Lemma value_chars (s : string) :
  all_chars value_char s = true ->
  all_chars (fun c => negb (quote_char c)) s = true
  /\ has_char "<" s = false
  /\ all_chars (non ">") s = true
  /\ all_chars not_LF s = true.
Proof.
  induction s as [|c s IH]; [repeat split|].
  cbn [all_chars has_char]. intros H. apply andb_true_iff in H.
  destruct H as [Hc Hs]. destruct (IH Hs) as (H1 & H2 & H3 & H4).
  unfold value_char in Hc.
  repeat (apply andb_true_iff in Hc; destruct Hc as [Hc ?]).
  rewrite H1, H2, H3, H4.
  repeat split.
  - rewrite Hc. reflexivity.
  - rewrite orb_false_r.
    match goal with
    | H : negb (Ascii.eqb c "<") = true |- _ =>
        apply negb_true_iff in H; rewrite Ascii.eqb_sym; exact H
    end.
  - unfold non. rewrite Ascii.eqb_sym.
    match goal with
    | H : negb (Ascii.eqb c ">") = true |- _ => rewrite H; reflexivity
    end.
  - match goal with
    | H : not_LF c = true |- _ => rewrite H; reflexivity
    end.
Qed.

Variables src alt : string.
Hypothesis Hsrc : all_chars value_char src = true.
Hypothesis Halt : all_chars value_char alt = true.

(** The attributes of the image tag of [img_line], as they are written. *)
Lemma img_line_body :
  img_line src alt
  = "<p>" ++ "<img" ++ " "
    ++ (render_attrs [("src", src); ("alt", alt)] ++ " /") ++ ">" ++ "</p>".
Proof.
  unfold img_line. cbn [render_attrs]. unfold DQ.
  rewrite ?append_assoc. cbn [append]. rewrite ?append_assoc.
  cbn [append]. reflexivity.
Qed.

Lemma img_attrs_ok : Forall attr_ok [("src", src); ("alt", alt)].
Proof.
  destruct (value_chars src Hsrc) as (Hs & _).
  destruct (value_chars alt Halt) as (Ha & _).
  repeat constructor; try discriminate; assumption.
Qed.

Lemma scan_line_img_line :
  scan_line (img_line src alt)
  = Some (Element "img" "" (Some (ImgAttrs [("alt", alt); ("src", src)]))).
Proof.
  destruct (value_chars src Hsrc) as (_ & _ & Hs & _).
  destruct (value_chars alt Halt) as (_ & _ & Ha & _).
  assert (Htrim : trim (img_line src alt) = img_line src alt).
  { unfold trim, img_line.
    rewrite trimStart_of_clean by reflexivity.
    repeat rewrite <- append_assoc.
    replace (" /></p>") with (" /></p" ++ ">") by reflexivity.
    repeat rewrite <- append_assoc.
    apply trimEnd_app; [reflexivity | discriminate]. }
  unfold scan_line. rewrite Htrim.
  replace (negb (truthy (img_line src alt))) with false by reflexivity.
  cbv iota.
  set (body := render_attrs [("src", src); ("alt", alt)] ++ " /").
  assert (Hbody : all_chars (non ">") body = true).
  { subst body. cbn [render_attrs]. unfold DQ.
    rewrite !all_chars_append, Hs, Ha. reflexivity. }
  assert (Hm : exists m,
             exec re_img (img_line src alt) = Some m /\ group 1 m = body).
  { rewrite img_line_body. fold body. unfold exec.
    cbn [append].
    rewrite !search_step by (apply match_at_lit_none; reflexivity).
    assert (Hshape : exists body', body = String "s" body')
      by (subst body; cbn [render_attrs append]; eexists; reflexivity).
    destruct Hshape as [body' Hshape]. rewrite Hshape in *.
    destruct (match_at_img "s" body' "</p>" (Some ">"%char) 3 eq_refl Hbody)
      as (m & Hm & Hg).
    exists m. split; [|exact Hg].
    apply search_now. exact Hm. }
  destruct Hm as (m & -> & ->). subst body.
  rewrite parseAttributes_rendered by (exact img_attrs_ok || reflexivity).
  reflexivity.
Qed.

Lemma parseHtmlElements_img_line :
  parseHtmlElements (img_line src alt)
  = [Element "img" "" (Some (ImgAttrs [("alt", alt); ("src", src)]))].
Proof.
  destruct (value_chars src Hsrc) as (_ & Hs1 & _ & Hs2).
  destruct (value_chars alt Halt) as (_ & Ha1 & _ & Ha2).
  rewrite parse_one_line.
  - rewrite scan_line_img_line. reflexivity.
  - unfold img_line, DQ. rewrite !all_chars_append, Hs2, Ha2. reflexivity.
  - unfold img_line, DQ.
    cbn [append find startsWith Ascii.eqb Bool.eqb andb].
    rewrite find_none_skip; [reflexivity | exact Hs1 |].
    cbn [append find startsWith Ascii.eqb Bool.eqb andb].
    rewrite find_none_skip; [reflexivity | exact Ha1 | reflexivity].
Qed.

End ImageLine.

(* ------------------------------------------------------------------ *)
(** *** The conversion, line by line *)

Section LineByLine.

Lemma startsWith_prefix (a x pat : string) :
  startsWith a pat = true -> startsWith (a ++ x) pat = true.
Proof.
  revert a. induction pat as [|p pat IH]; intros a H;
    [apply startsWith_nil|].
  destruct a as [|c a]; [discriminate|].
  cbn [append startsWith] in *. apply andb_true_iff in H.
  destruct H as [Hc H]. rewrite Hc, IH by exact H. reflexivity.
Qed.

Lemma find_app_none_l (pat a b : string) :
  find pat (a ++ b) = None -> find pat a = None.
Proof.
  induction a as [|c a IH]; intros H.
  - cbn [find]. destruct (startsWith "" pat) eqn:E; [|reflexivity].
    apply (startsWith_prefix "" b) in E. cbn [append] in *.
    destruct b; cbn [find] in H; rewrite E in H; discriminate.
  - change (String c a ++ b) with (String c (a ++ b)) in H.
    apply find_tail in H. destruct H as [Hs Hf].
    cbn [find]. rewrite IH by exact Hf.
    destruct (startsWith (String c a) pat) eqn:E; [|reflexivity].
    apply (startsWith_prefix _ b) in E.
    change (String c a ++ b) with (String c (a ++ b)) in E.
    rewrite E in Hs. discriminate.
Qed.

Lemma find_app_none_r (pat a b : string) :
  find pat (a ++ b) = None -> find pat b = None.
Proof.
  induction a as [|c a IH]; intros H; [exact H|].
  change (String c a ++ b) with (String c (a ++ b)) in H.
  apply find_tail in H. apply IH, H.
Qed.

Lemma split_not_nil (sep : ascii) (s : string) : split sep s <> [].
Proof.
  induction s as [|c s IH]; cbn [split]; [discriminate|].
  destruct (Ascii.eqb c sep); [discriminate|].
  destruct (split sep s); [contradiction | discriminate].
Qed.

(** The lines of two texts joined by a line feed are the lines of the
    first, then the lines of the second. *)
Lemma split_app_sep (sep : ascii) (a b : string) :
  split sep (a ++ String sep b) = (split sep a ++ split sep b)%list.
Proof.
  induction a as [|c a IH].
  - cbn [append split]. rewrite Ascii.eqb_refl. reflexivity.
  - cbn [append split]. rewrite IH.
    destruct (Ascii.eqb c sep); [reflexivity|].
    pose proof (split_not_nil sep a) as Hne.
    destruct (split sep a); [contradiction | reflexivity].
Qed.

Lemma omap_app {A B : Type} (f : A -> option B) (xs ys : list A) :
  omap f (xs ++ ys)%list = (omap f xs ++ omap f ys)%list.
Proof.
  induction xs as [|x xs IH]; [reflexivity|].
  cbn [app omap]. rewrite IH. destruct (f x); reflexivity.
Qed.

(** Without a code block the scanner reads the lines of the HTML. *)
Lemma parseHtmlElements_lines (html : string) :
  find "<pre><code" html = None ->
  parseHtmlElements html
  = omap scan_line (filter (fun line => truthy (trim line)) (split LF html)).
Proof.
  intros H. unfold parseHtmlElements. cbv zeta.
  unfold preprocessCodeBlocks, re_pre_span. cbn [seq].
  rewrite replace_all_lit_none by exact H. reflexivity.
Qed.

(** The elements of two pieces joined by a line feed. *)
Lemma parseHtmlElements_app (a b : string) :
  find "<pre><code" (a ++ nl ++ b) = None ->
  parseHtmlElements (a ++ nl ++ b)
  = (parseHtmlElements a ++ parseHtmlElements b)%list.
Proof.
  intros H.
  pose proof (find_app_none_l _ _ _ H) as Ha.
  pose proof (find_app_none_r _ _ _ (find_app_none_r _ _ _ H)) as Hb.
  rewrite !parseHtmlElements_lines by assumption.
  change (a ++ nl ++ b) with (a ++ String LF b).
  rewrite split_app_sep, filter_app, omap_app. reflexivity.
Qed.

(** A pattern without the separator occurs in neither of two pieces: it
    does not occur in the pieces joined by the separator. *)
Lemma find_none_sep (c : ascii) (pat x y : string) :
  has_char c pat = false ->
  find pat x = None -> find pat y = None ->
  find pat (x ++ String c y) = None.
Proof.
  intros Hc Hx Hy. induction x as [|e x IH].
  - cbn [append find].
    destruct pat as [|d pat]; [destruct y; discriminate|].
    cbn [has_char] in Hc. apply orb_false_iff in Hc. destruct Hc as [Hd _].
    cbn [startsWith]. rewrite Ascii.eqb_sym in Hd. rewrite Ascii.eqb_sym, Hd.
    rewrite Ascii.eqb_sym in Hd.
    cbn [andb]. rewrite Hy. reflexivity.
  - apply find_tail in Hx. destruct Hx as [Hs Hx].
    change (String e x ++ String c y) with (String e (x ++ String c y)).
    cbn [find]. rewrite (IH Hx).
    destruct (startsWith (String e (x ++ String c y)) pat) eqn:E;
      [|reflexivity].
    change (String e (x ++ String c y)) with (String e x ++ String c y) in E.
    apply (startsWith_straddle c pat Hc) in E. rewrite E in Hs. discriminate.
Qed.

Context {W : Type} (P : platform W).

(** The blocks built so far play no part in what the builder does next. *)
Lemma build_blocks_acc (es : list element) :
  forall (acc : list block) (st : state W),
    build_blocks P es acc st
    = match build_blocks P es [] st with
      | (Returned bs, st') => (Returned (acc ++ bs)%list, st')
      | (Threw e, st') => (Threw e, st')
      end.
Proof.
  induction es as [|e es IH]; intros acc st; cbn [build_blocks].
  - unfold ret. rewrite app_nil_r. reflexivity.
  - unfold bind.
    destruct (elementToNotionBlock P e st) as [[ob|err] st1]; [|reflexivity].
    rewrite IH. rewrite (IH (match ob with
                             | Some b => push [] b
                             | None => []
                             end)).
    destruct (build_blocks P es [] st1) as [[bs|err] st2]; [|reflexivity].
    destruct ob; unfold push; cbn [app]; rewrite <- ?app_assoc; reflexivity.
Qed.

Lemma build_blocks_app (es1 es2 : list element) :
  forall (acc : list block) (st : state W),
    build_blocks P (es1 ++ es2) acc st
    = match build_blocks P es1 acc st with
      | (Returned bs, st') => build_blocks P es2 bs st'
      | (Threw e, st') => (Threw e, st')
      end.
Proof.
  induction es1 as [|e es1 IH]; intros acc st; cbn [app build_blocks].
  - reflexivity.
  - unfold bind.
    destruct (elementToNotionBlock P e st) as [[ob|err] st1]; [|reflexivity].
    apply IH.
Qed.

End LineByLine.

(* ------------------------------------------------------------------ *)
(** *** Lines of text, and paragraphs over several lines *)

Section TextLines.

Lemma has_char_trimStart (c : ascii) (s : string) :
  has_char c s = false -> has_char c (trimStart s) = false.
Proof.
  induction s as [|a s IH]; [reflexivity|].
  cbn [has_char trimStart]. intros H.
  destruct (isWhiteSpace a); [|exact H].
  apply orb_false_iff in H. apply IH, H.
Qed.

Lemma has_char_trimEnd (c : ascii) (s : string) :
  has_char c s = false -> has_char c (trimEnd s) = false.
Proof.
  induction s as [|a s IH]; [reflexivity|].
  cbn [has_char trimEnd]. intros H.
  apply orb_false_iff in H. destruct H as [Ha Hs]. specialize (IH Hs).
  destruct (trimEnd s) as [|b t].
  - destruct (isWhiteSpace a); [reflexivity|].
    cbn [has_char]. rewrite Ha. reflexivity.
  - cbn [has_char] in *. rewrite Ha. exact IH.
Qed.

Lemma has_char_trim (c : ascii) (s : string) :
  has_char c s = false -> has_char c (trim s) = false.
Proof.
  intros H. unfold trim. apply has_char_trimEnd, has_char_trimStart, H.
Qed.

Lemma startsWith_no_char (c : ascii) (pat s : string) :
  has_char c s = false -> startsWith s (String c pat) = false.
Proof.
  destruct s as [|a s]; [reflexivity|].
  cbn [has_char startsWith]. intros H. apply orb_false_iff in H.
  destruct H as [H _]. rewrite Ascii.eqb_sym, H. reflexivity.
Qed.

(** A line without [<]: no pattern of the scanner matches it, and it is a
    paragraph unless it ends with [>]. *)
Lemma scan_line_text (t : string) :
  has_char "<" t = false ->
  scan_line t
  = if truthy (trim t) && negb (endsWith (trim t) ">")
    then Some (Element "p" (trim t) None)
    else None.
Proof.
  intros Ht. apply (has_char_trim "<") in Ht.
  unfold scan_line. cbv zeta.
  destruct (truthy (trim t)) eqn:E; cbn [negb andb]; [|reflexivity].
  regex_absent exec_lit_none find_no_char re_img "<img" Ht.
  regex_absent exec_lit_none find_no_char re_heading "<h" Ht.
  regex_absent exec_lit_none find_no_char re_code_block "<pre><code" Ht.
  regex_absent exec_lit_none find_no_char (re_element "blockquote")
               "<blockquote>" Ht.
  regex_absent exec_lit_none find_no_char (re_element "li") "<li>" Ht.
  regex_absent exec_lit_none find_no_char (re_element "tr") "<tr>" Ht.
  rewrite test_table_structure by (apply find_no_char; exact Ht).
  regex_absent exec_lit_none find_no_char (re_element "p") "<p>" Ht.
  rewrite (startsWith_no_char "<" "" _ Ht). reflexivity.
Qed.

(** A pattern that ends with a literal text matches nowhere in an input
    that does not hold the text. *)
Lemma star_close_none (C : string) (p : ascii -> bool) (g : bool)
      (k : cursor -> option cursor) :
  (forall st, find C (rest st) = None -> k st = None) ->
  forall (s : string) (pv : option ascii) (i : nat) (cs : list (nat * string)),
    find C s = None -> star p g k pv i cs s = None.
Proof.
  intros Hk. induction s as [|c s IH]; intros pv i cs H.
  - cbn [star]. rewrite (Hk (Cursor pv i "" cs) H). destruct g; reflexivity.
  - pose proof (find_tail _ _ _ H) as [_ Hs].
    cbn [star]. rewrite (Hk (Cursor pv i (String c s) cs) H).
    rewrite (IH (Some c) (S i) cs Hs).
    destruct g, (p c); reflexivity.
Qed.

Lemma find_none_startsWith (pat s : string) :
  find pat s = None -> startsWith s pat = false.
Proof.
  destruct s as [|c s]; intros H.
  - cbn [find] in H. destruct (startsWith "" pat); [discriminate | reflexivity].
  - apply find_tail in H. apply H.
Qed.

Lemma find_none_drop (pat : string) (n : nat) :
  forall s, find pat s = None -> find pat (drop n s) = None.
Proof.
  induction n as [|n IH]; intros [|c s] H; try exact H.
  cbn [drop]. apply IH. apply find_tail in H. apply H.
Qed.

Lemma match_at_close_none (L C : string) (n : nat) (p : ascii -> bool)
      (g : bool) (pv : option ascii) (i : nat) (s : string) :
  find C s = None ->
  match_at (Seq (lit L) (Seq (Grp n (Star p g)) (lit C))) pv i s = None.
Proof.
  intros H. unfold match_at. rewrite mt_Seq.
  pose proof (mt_lit L (mt (Seq (Grp n (Star p g)) (lit C)) Some)
                (Cursor pv i s [])) as HL.
  cbn [rest pos caps] in HL.
  destruct (startsWith s L); [|rewrite HL; reflexivity].
  destruct HL as [pv' ->].
  cbn [mt prev pos caps rest].
  rewrite (star_close_none C); [reflexivity| |apply find_none_drop, H].
  intros st Hst.
  pose proof (mt_lit C Some
                (capture n (Cursor pv' (i + String.length L)
                              (drop (String.length L) s) []) st)) as HC.
  unfold capture in HC. cbn [rest] in HC.
  rewrite (find_none_startsWith _ _ Hst) in HC. exact HC.
Qed.

Lemma exec_close_none (L C : string) (n : nat) (p : ascii -> bool)
      (g : bool) (s : string) :
  find C s = None ->
  exec (Seq (lit L) (Seq (Grp n (Star p g)) (lit C))) s = None.
Proof.
  unfold exec. generalize (@None ascii) 0.
  induction s as [|c s IH]; intros pv i H; cbn [search];
    rewrite match_at_close_none by exact H; [reflexivity|].
  apply IH. apply find_tail in H. apply H.
Qed.

Lemma trimEnd_keeps (x a : string) :
  trimEnd x = x -> trimEnd (x ++ a) = x ++ trimEnd a.
Proof.
  intros Hx. induction x as [|c x IH]; [reflexivity|].
  cbn [trimEnd] in Hx. cbn [append trimEnd].
  destruct (trimEnd x) as [|d t] eqn:E.
  - destruct (isWhiteSpace c); [discriminate|].
    injection Hx as <-. cbn [append].
    destruct (trimEnd a); reflexivity.
  - injection Hx as Hx. rewrite IH by exact Hx.
    rewrite <- Hx. reflexivity.
Qed.

Lemma trimStart_app (c b : string) :
  starts_clean b -> b <> "" -> trimStart (c ++ b) = trimStart c ++ b.
Proof.
  intros Hb Hne. induction c as [|x c IH].
  - cbn [append trimStart]. apply trimStart_of_clean, Hb.
  - cbn [append trimStart]. destruct (isWhiteSpace x); [exact IH | reflexivity].
Qed.

Variables a c : string.
Hypothesis Ha : has_char "<" a = false.
Hypothesis Hc : has_char "<" c = false.

(** The line that opens a paragraph and does not close it. *)
Lemma scan_line_open : scan_line ("<p>" ++ a) = None.
Proof.
  unfold scan_line. cbv zeta. unfold trim.
  rewrite trimStart_of_clean by reflexivity.
  rewrite trimEnd_keeps by reflexivity.
  pose proof (has_char_trimEnd "<" a Ha) as Ht.
  set (a' := trimEnd a) in *.
  cbn [truthy negb append].
  regex_fails exec_lit_none (find_no_char "<"%char) re_img "<img" Ht.
  regex_fails exec_lit_none (find_no_char "<"%char) re_heading "<h" Ht.
  regex_fails exec_lit_none (find_no_char "<"%char) re_code_block
              "<pre><code" Ht.
  regex_fails exec_lit_none (find_no_char "<"%char) (re_element "blockquote")
              "<blockquote>" Ht.
  regex_fails exec_lit_none (find_no_char "<"%char) (re_element "li")
              "<li>" Ht.
  regex_fails exec_lit_none (find_no_char "<"%char) (re_element "tr")
              "<tr>" Ht.
  rewrite test_table_structure by no_match (find_no_char "<"%char) Ht.
  replace (exec (re_element "p") _) with (@None rmatch)
    by (symmetry; apply (exec_close_none "<p>" "</p>");
        no_match (find_no_char "<"%char) Ht).
  reflexivity.
Qed.

(** The line that closes a paragraph it did not open. *)
Lemma scan_line_close : scan_line (c ++ "</p>") = None.
Proof.
  unfold scan_line. cbv zeta. unfold trim.
  rewrite trimStart_app by (try discriminate; reflexivity).
  rewrite trimEnd_app by (try discriminate; reflexivity).
  pose proof (has_char_trimStart "<" c Hc) as Ht.
  set (c' := trimStart c) in *.
  destruct (truthy (c' ++ "</p>")) eqn:E; cbn [negb]; [|reflexivity].
  regex_fails exec_lit_none find_none_skip re_img "<img" Ht.
  regex_fails exec_lit_none find_none_skip re_heading "<h" Ht.
  regex_fails exec_lit_none find_none_skip re_code_block "<pre><code" Ht.
  regex_fails exec_lit_none find_none_skip (re_element "blockquote")
              "<blockquote>" Ht.
  regex_fails exec_lit_none find_none_skip (re_element "li") "<li>" Ht.
  regex_fails exec_lit_none find_none_skip (re_element "tr") "<tr>" Ht.
  rewrite test_table_structure by no_match find_none_skip Ht.
  regex_fails exec_lit_none find_none_skip (re_element "p") "<p>" Ht.
  replace (endsWith (c' ++ "</p>") ">") with true; [|symmetry].
  - rewrite andb_false_r. reflexivity.
  - apply endsWith_iff. exists (c' ++ "</p").
    rewrite append_assoc. reflexivity.
Qed.

End TextLines.

(* ------------------------------------------------------------------ *)
(** *** The matcher: a greedy star that gives back *)

Section GreedyBack.

Variables (p : ascii -> bool) (k : cursor -> option cursor).

(** A greedy [p*] whose continuation fails everywhere further on succeeds
    where it stands, or not at all. *)
Lemma star_greedy_here (cs : list (nat * string)) (v : string) :
  forall (pv : option ascii) (i : nat),
    (forall pv' j, 0 < j -> k (Cursor pv' (i + j) (drop j v) cs) = None) ->
    star p true k pv i cs v = k (Cursor pv i v cs).
Proof.
  induction v as [|c v IH]; intros pv i Hk; cbn [star]; [reflexivity|].
  assert (Hin : star p true k (Some c) (S i) cs v = None).
  { rewrite IH.
    - specialize (Hk (Some c) 1 Nat.lt_0_1).
      rewrite Nat.add_1_r in Hk. exact Hk.
    - intros pv' j Hj. specialize (Hk pv' (S j) (Nat.lt_0_succ j)).
      rewrite Nat.add_succ_r in Hk. exact Hk. }
  rewrite Hin. destruct (p c); reflexivity.
Qed.

(** A greedy [p*] that succeeds after a text of the class succeeds before
    it with the same result. *)
Lemma star_greedy_app (u v : string) (r : cursor) :
  forall (pv : option ascii) (i : nat) (cs : list (nat * string)),
    all_chars p u = true ->
    star p true k (last_char pv u) (i + String.length u) cs v = Some r ->
    star p true k pv i cs (u ++ v) = Some r.
Proof.
  induction u as [|c u IH]; intros pv i cs Hu H.
  - cbn [last_char String.length append] in *.
    rewrite Nat.add_0_r in H. exact H.
  - cbn [all_chars] in Hu. apply andb_true_iff in Hu. destruct Hu as [Hc Hu].
    cbn [append star]. rewrite Hc.
    rewrite (IH (Some c) (S i) cs Hu); [reflexivity|].
    cbn [last_char String.length] in H.
    rewrite Nat.add_succ_r in H. exact H.
Qed.

End GreedyBack.

(* ------------------------------------------------------------------ *)
(** *** The language of a class *)

Section LanguageClass.

Variables pre l : string.
Hypothesis Hpre : all_chars dot pre = true.
Hypothesis Hl : all_chars (fun c => negb (isWhiteSpace c)) l = true.
Hypothesis Hne : l <> "".
Hypothesis Hfree : find "language-" l = None.

(** The marker does not start again inside itself, nor in the name. *)
Lemma marker_once (j : nat) :
  0 < j -> startsWith (drop j ("language-" ++ l)) "language-" = false.
Proof.
  intros Hj.
  do 9 (destruct j as [|j]; [try lia; reflexivity|]).
  clear Hj. cbn [append drop].
  apply find_none_startsWith, find_none_drop, Hfree.
Qed.

(** The language pattern at the start of the classes: the whole text is
    matched, and the group is the name after the last marker. *)
Lemma match_at_language :
  match_at re_language None 0 (pre ++ "language-" ++ l)
  = Some (Match 0 (pre ++ "language-" ++ l) [(1, l)]).
Proof.
  set (ns := fun c => negb (isWhiteSpace c)) in *.
  set (K := mt (Seq (lit "language-")
                  (Seq (Grp 1 (Plus ns true)) (Star dot true))) Some).
  assert (Hback : forall i pv' j,
             0 < j ->
             K (Cursor pv' (i + j) (drop j ("language-" ++ l)) []) = None).
  { intros i pv' j Hj. unfold K. rewrite mt_Seq.
    match goal with
    | |- mt (lit "language-") ?k ?st = None =>
        pose proof (mt_lit "language-" k st) as H
    end.
    cbn [rest] in H. rewrite (marker_once j Hj) in H. exact H. }
  assert (Hhere : forall pv' i,
             K (Cursor pv' i ("language-" ++ l) [])
             = Some (Cursor (last_char (Some "-"%char) l)
                            (i + 9 + String.length l) "" [(1, l)])).
  { intros pv' i. unfold K. rewrite mt_Seq.
    match goal with
    | |- mt (lit "language-") ?k ?st = _ =>
        pose proof (mt_lit "language-" k st) as H
    end.
    cbn [rest pos caps] in H. rewrite startsWith_app in H.
    destruct H as [pv1 ->]. rewrite drop_app_exact.
    change (String.length "language-") with 9.
    destruct l as [|c0 l'] eqn:El; [contradiction|].
    cbn [all_chars] in Hl. apply andb_true_iff in Hl.
    destruct Hl as [Hc0 Hl'].
    unfold Plus. rewrite mt_Seq, mt_Grp, mt_Seq, mt_Cls.
    cbn [rest]. rewrite Hc0. rewrite mt_Star.
    cbn [step prev pos caps rest].
    rewrite <- (append_nil_r l') at 1.
    rewrite star_greedy_after;
      rewrite (after_app ns l' "" Hl' eq_refl);
      unfold capture; cbn [prev pos caps rest];
      rewrite mt_Star; cbn [prev pos caps rest star]; [|discriminate].
    cbn [last_char String.length].
    replace (S (i + 9) + String.length l' - (i + 9))
      with (S (String.length l')) by lia.
    rewrite (take_all (S (String.length l')) (String c0 l'))
      by (cbn [String.length]; lia).
    replace (S (i + 9) + String.length l')
      with (i + 9 + S (String.length l')) by lia.
    reflexivity. }
  unfold match_at.
  change re_language
    with (Seq (Star dot true)
            (Seq (lit "language-")
               (Seq (Grp 1 (Plus ns true)) (Star dot true)))).
  rewrite mt_Seq, mt_Star. fold K. cbn [prev pos caps rest].
  rewrite (star_greedy_app dot K pre ("language-" ++ l)
             (Cursor (last_char (Some "-"%char) l)
                     (0 + String.length pre + 9 + String.length l) ""
                     [(1, l)]));
    [| exact Hpre |].
  - cbn [pos caps]. rewrite Nat.sub_0_r.
    rewrite take_all; [reflexivity|].
    rewrite !length_append. cbn [String.length Nat.add]. lia.
  - rewrite star_greedy_here by (apply Hback). apply Hhere.
Qed.

(** [language.replace(/.*language-([^\s]+).*/, '$1')] on such classes is
    the name. *)
Lemma replace_language :
  replace re_language (fun m => group 1 m) (pre ++ "language-" ++ l) = l.
Proof.
  unfold replace, exec. rewrite (search_now _ _ _ _ _ match_at_language).
  cbn [m_index m_text take Nat.add append].
  rewrite drop_all, append_nil_r. unfold group. cbn [m_caps lookup Nat.eqb].
  reflexivity.
Qed.

End LanguageClass.

(* ------------------------------------------------------------------ *)
(** *** The scanner: code blocks *)

Section CodeLines.

Variable interior : string.
Hypothesis Hint : has_char "<" interior = false.

(** The end of the two code patterns: [>], the lazy group that takes the
    interior, and the closing tags. *)
Lemma mt_code_tail (more : string) (pv : option ascii) (i : nat)
      (cs : list (nat * string)) :
  exists pv',
    mt (Seq (Chr ">") (Seq (Grp 2 (Star any false)) (lit "</code></pre>")))
       Some
       (Cursor pv i (">" ++ interior ++ "</code></pre>" ++ more) cs)
    = Some (Cursor pv' (S i + String.length interior + 13) more
                   ((2, interior) :: cs)).
Proof.
  change (">" ++ interior ++ "</code></pre>" ++ more)
    with (String ">" (interior ++ "</code></pre>" ++ more)).
  rewrite mt_Seq, mt_Chr. cbn [rest]. rewrite Ascii.eqb_refl.
  rewrite mt_Seq, mt_Grp, mt_Star. cbn [step prev pos caps rest].
  rewrite (star_lazy_skip any _ "<");
    [| |clear; induction interior; auto|exact Hint].
  2:{ intros st Hst.
      match goal with
      | |- mt (lit ?L) ?k ?c = None => pose proof (mt_lit L k c) as H
      end.
      cbn [capture rest] in H.
      replace (startsWith (rest st) "</code></pre>") with false in H;
        [exact H|].
      symmetry. revert Hst. clear. destruct (rest st) as [|c s];
        [reflexivity|].
      cbn [startsWith]. rewrite startsWith_nil, andb_true_r.
      intros ->. reflexivity. }
  match goal with
  | |- context [star any false ?k ?pv0 ?i0 ?cs0 ?s0] =>
      pose proof (mt_lit "</code></pre>" Some
                    (capture 2
                       (Cursor (Some ">"%char) (S i)
                               (interior ++ "</code></pre>" ++ more) cs)
                       (Cursor pv0 i0 s0 cs0))) as Hclose
  end.
  cbn [capture rest pos caps prev] in Hclose.
  rewrite startsWith_app in Hclose. destruct Hclose as [pv2 Hclose].
  erewrite star_lazy_now by exact Hclose.
  exists pv2. rewrite drop_app_exact.
  replace (S i + String.length interior - S i)
    with (String.length interior) by lia.
  rewrite take_app_exact. reflexivity.
Qed.

(** The pattern of the pre-pass on a code block whose opening tag holds
    the text [attrs]. *)
Lemma match_at_pre_span (attrs more : string) (pv : option ascii) (i : nat) :
  all_chars (non ">") attrs = true ->
  exists m,
    match_at re_pre_span pv i
      ("<pre><code" ++ attrs ++ ">" ++ interior ++ "</code></pre>" ++ more)
    = Some m
    /\ m_text m = "<pre><code" ++ attrs ++ ">" ++ interior ++ "</code></pre>"
    /\ group 1 m = attrs
    /\ group 2 m = interior.
Proof.
  intros Hattrs.
  set (tail := Seq (Chr ">")
                 (Seq (Grp 2 (Star any false)) (lit "</code></pre>"))).
  set (rest1 := ">" ++ interior ++ "</code></pre>" ++ more).
  unfold match_at.
  change re_pre_span
    with (Seq (lit "<pre><code") (Seq (Grp 1 (Star (non ">") true)) tail)).
  rewrite mt_Seq.
  match goal with
  | |- context [mt (lit "<pre><code") ?k ?st] =>
      pose proof (mt_lit "<pre><code" k st) as Hlit
  end.
  cbn [rest pos caps] in Hlit.
  rewrite startsWith_app in Hlit. destruct Hlit as [pv1 ->].
  rewrite drop_app_exact. fold rest1.
  change (String.length "<pre><code") with 10.
  rewrite mt_Seq, mt_Grp, mt_Star. cbn [prev pos caps rest].
  destruct (mt_code_tail more (last_char pv1 attrs)
              (i + 10 + String.length attrs) [(1, attrs)]) as [pv2 Htail].
  fold tail rest1 in Htail.
  rewrite star_greedy_after;
    rewrite (after_app (non ">") attrs rest1 Hattrs eq_refl);
    unfold capture; cbn [prev pos caps rest];
    replace (i + 10 + String.length attrs - (i + 10))
      with (String.length attrs) by lia;
    rewrite take_app_exact, Htail; [|discriminate].
  eexists. split; [reflexivity|]. cbn [m_text pos caps].
  split; [|split; reflexivity].
  replace (S (i + 10 + String.length attrs) + String.length interior + 13 - i)
    with (String.length ("<pre><code" ++ attrs ++ ">" ++ interior
                         ++ "</code></pre>")).
  - subst rest1.
    replace ("<pre><code" ++ attrs ++ ">" ++ interior ++ "</code></pre>"
             ++ more)
      with (("<pre><code" ++ attrs ++ ">" ++ interior ++ "</code></pre>")
            ++ more)
      by (rewrite !append_assoc; reflexivity).
    apply take_app_exact.
  - rewrite !length_append. cbn [String.length]. lia.
Qed.

End CodeLines.

Section CodeElements.

Lemma mt_Opt (r : re) (k : cursor -> option cursor) (st : cursor) :
  mt (Opt r) k st
  = match mt r k st with
    | Some x => Some x
    | None => k st
    end.
Proof. reflexivity. Qed.

Lemma all_chars_non (c : ascii) (s : string) :
  all_chars (non c) s = negb (has_char c s).
Proof.
  induction s as [|a s IH]; [reflexivity|].
  cbn [all_chars has_char]. rewrite IH, negb_orb. reflexivity.
Qed.

Lemma trim_code_line (x : string) :
  trim ("<pre><code" ++ x ++ "</code></pre>")
  = "<pre><code" ++ x ++ "</code></pre>".
Proof.
  unfold trim. rewrite trimStart_of_clean by reflexivity.
  rewrite <- append_assoc.
  apply trimEnd_app; [reflexivity | discriminate].
Qed.

Lemma escape_newlines_not_LF (s : string) :
  all_chars not_LF (escape_newlines s) = true.
Proof.
  unfold escape_newlines. rewrite replace_all_lit.
  apply replace_lit_nl. reflexivity.
Qed.

Lemma escape_newlines_no_lt (s : string) :
  has_char "<" s = false -> has_char "<" (escape_newlines s) = false.
Proof.
  intros H. apply negb_true_iff. rewrite <- all_chars_non.
  apply replace_all_within.
  - intros. reflexivity.
  - rewrite all_chars_non, H. reflexivity.
Qed.

Variables attrs interior : string.
Hypothesis Hgt : all_chars (non ">") attrs = true.
Hypothesis Hlt : has_char "<" attrs = false.
Hypothesis Hlf : all_chars not_LF attrs = true.
Hypothesis Hint : has_char "<" interior = false.

(** The pre-pass on the line of a code block: the line feeds of the
    interior are escaped, and nothing else changes. *)
Lemma preprocessCodeBlocks_code_line :
  preprocessCodeBlocks
    ("<pre><code" ++ attrs ++ ">" ++ interior ++ "</code></pre>")
  = "<pre><code" ++ attrs ++ ">" ++ escape_newlines interior
    ++ "</code></pre>".
Proof.
  destruct (match_at_pre_span interior Hint attrs "" None 0 Hgt)
    as (m & Hm & Htext & H1 & H2).
  change ("</code></pre>" ++ "") with "</code></pre>" in Hm.
  unfold preprocessCodeBlocks, replace_all.
  set (a0 := "pre><code" ++ attrs ++ ">" ++ interior ++ "</code></pre>").
  change ("<pre><code" ++ attrs ++ ">" ++ interior ++ "</code></pre>")
    with (String "<" a0) in *.
  rewrite <- (append_nil_r (String "<" a0)) in Hm |- * at 1.
  rewrite (scan_hit _ _ _ _ _ _ _ Hm Htext).
  cbn [scan]. unfold re_pre_span at 1. cbn [seq].
  rewrite match_at_lit_none by reflexivity.
  cbn [render]. rewrite H1, H2, append_nil_r. reflexivity.
Qed.

(** The lines of the pre-processed code block: one. *)
Lemma parseHtmlElements_code_line :
  parseHtmlElements
    ("<pre><code" ++ attrs ++ ">" ++ interior ++ "</code></pre>")
  = opt_list
      (scan_line ("<pre><code" ++ attrs ++ ">" ++ escape_newlines interior
                  ++ "</code></pre>")).
Proof.
  unfold parseHtmlElements. cbv zeta.
  rewrite preprocessCodeBlocks_code_line.
  rewrite split_one_line.
  - cbn [filter].
    replace (attrs ++ ">" ++ escape_newlines interior ++ "</code></pre>")
      with ((attrs ++ ">" ++ escape_newlines interior) ++ "</code></pre>")
      by (rewrite !append_assoc; reflexivity).
    rewrite trim_code_line. cbn [append truthy omap].
    match goal with
    | |- context [scan_line ?s] => destruct (scan_line s); reflexivity
    end.
  - rewrite !all_chars_append, Hlf, escape_newlines_not_LF. reflexivity.
Qed.

End CodeElements.

Section CodeBlockPattern.

Variable content : string.
Hypothesis Hcontent : has_char "<" content = false.

(** The code pattern on a code block without class. *)
Lemma exec_code_block_plain :
  exists m,
    exec re_code_block ("<pre><code" ++ ">" ++ content ++ "</code></pre>")
    = Some m
    /\ group 1 m = ""
    /\ group 2 m = content.
Proof.
  set (tail := Seq (Chr ">")
                 (Seq (Grp 2 (Star any false)) (lit "</code></pre>"))).
  set (cls := seq [Plus isWhiteSpace true; lit "class="; Chr dq;
                   Grp 1 (Star (non dq) true); Chr dq]).
  assert (Hm : exists m,
             match_at re_code_block None 0
               ("<pre><code" ++ ">" ++ content ++ "</code></pre>")
             = Some m
             /\ group 1 m = ""
             /\ group 2 m = content).
  { unfold match_at.
    change re_code_block with (Seq (lit "<pre><code") (Seq (Opt cls) tail)).
    rewrite mt_Seq.
    match goal with
    | |- context [mt (lit "<pre><code") ?k ?st] =>
        pose proof (mt_lit "<pre><code" k st) as Hlit
    end.
    cbn [rest pos caps] in Hlit.
    rewrite startsWith_app in Hlit. destruct Hlit as [pv1 ->].
    rewrite drop_app_exact.
    rewrite mt_Seq, mt_Opt.
    replace (mt cls (mt tail Some) _) with (@None cursor) by reflexivity.
    destruct (mt_code_tail content Hcontent "" pv1
                (0 + String.length "<pre><code") []) as [pv2 Htail].
    change ("</code></pre>" ++ "") with "</code></pre>" in Htail.
    fold tail in Htail. rewrite Htail.
    eexists. split; [reflexivity|]. split; reflexivity. }
  destruct Hm as (m & Hm & Hg). exists m. split; [|exact Hg].
  unfold exec. apply search_now, Hm.
Qed.

(** The code pattern on a code block with classes. *)
Lemma exec_code_block_class (classes : string) :
  all_chars (non dq) classes = true ->
  exists m,
    exec re_code_block
         ("<pre><code" ++ (" class=" ++ DQ ++ classes ++ DQ) ++ ">" ++ content
          ++ "</code></pre>")
    = Some m
    /\ group 1 m = classes
    /\ group 2 m = content.
Proof.
  intros Hq.
  set (tail := Seq (Chr ">")
                 (Seq (Grp 2 (Star any false)) (lit "</code></pre>"))).
  set (rest1 := ">" ++ content ++ "</code></pre>").
  assert (Hm : exists m,
             match_at re_code_block None 0
               ("<pre><code" ++ (" class=" ++ DQ ++ classes ++ DQ) ++ rest1)
             = Some m
             /\ group 1 m = classes
             /\ group 2 m = content).
  { unfold match_at.
    change re_code_block
      with (Seq (lit "<pre><code")
              (Seq (Opt (Seq (Seq (Cls isWhiteSpace) (Star isWhiteSpace true))
                           (Seq (lit "class=")
                              (Seq (Chr dq)
                                 (Seq (Grp 1 (Star (non dq) true))
                                      (Chr dq))))))
                   tail)).
    rewrite mt_Seq.
    match goal with
    | |- context [mt (lit "<pre><code") ?k ?st] =>
        pose proof (mt_lit "<pre><code" k st) as Hlit
    end.
    cbn [rest pos caps] in Hlit.
    rewrite startsWith_app in Hlit. destruct Hlit as [pv1 ->].
    rewrite drop_app_exact. change (0 + String.length "<pre><code") with 10.
    rewrite mt_Seq, mt_Opt.
    assert (Hin : exists pv2,
               mt (Seq (Seq (Cls isWhiteSpace) (Star isWhiteSpace true))
                     (Seq (lit "class=")
                        (Seq (Chr dq)
                           (Seq (Grp 1 (Star (non dq) true)) (Chr dq)))))
                  (mt tail Some)
                  (Cursor pv1 10
                     ((" class=" ++ DQ ++ classes ++ DQ) ++ rest1) [])
               = Some (Cursor pv2
                         (S (19 + String.length classes)
                          + String.length content + 13)
                         "" [(2, content); (1, classes)])).
    { replace ((" class=" ++ DQ ++ classes ++ DQ) ++ rest1)
        with (String " " ("class=" ++ String dq (classes ++ String dq rest1)))
        by (unfold DQ; cbn [append]; rewrite !append_assoc; reflexivity).
      destruct (mt_code_tail content Hcontent "" (Some dq)
                  (19 + String.length classes) [(1, classes)])
        as [pv2 Htail].
      change ("</code></pre>" ++ "") with "</code></pre>" in Htail.
      fold tail rest1 in Htail.
      exists pv2.
      assert (Hgroup : forall pv3,
                 mt (Seq (Chr dq) (Seq (Grp 1 (Star (non dq) true)) (Chr dq)))
                    (mt tail Some)
                    (Cursor pv3 17
                       (String dq (classes ++ String dq rest1)) [])
                 = Some (Cursor pv2
                           (S (19 + String.length classes)
                            + String.length content + 13)
                           "" [(2, content); (1, classes)])).
      { intros pv3. rewrite mt_Seq, mt_Chr. cbn [rest].
        rewrite Ascii.eqb_refl.
        rewrite mt_Seq, mt_Grp, mt_Star. cbn [step prev pos caps rest].
        rewrite star_greedy_after;
          rewrite (after_app (non dq) classes (String dq rest1) Hq eq_refl);
          unfold capture; cbn [prev pos caps rest];
          rewrite mt_Chr; cbn [rest]; rewrite Ascii.eqb_refl;
          unfold step; cbn [prev pos caps rest];
          replace (18 + String.length classes - 18)
            with (String.length classes) by lia;
          rewrite take_app_exact;
          change (S (18 + String.length classes))
            with (19 + String.length classes);
          rewrite Htail; [reflexivity | discriminate]. }
      rewrite mt_Seq, mt_Seq, mt_Cls. cbn [rest].
      change (isWhiteSpace " ") with true. cbv iota.
      rewrite mt_Star. cbn [step prev pos caps rest].
      assert (Hlit2 : forall pv3,
                 mt (Seq (lit "class=")
                       (Seq (Chr dq)
                          (Seq (Grp 1 (Star (non dq) true)) (Chr dq))))
                    (mt tail Some)
                    (Cursor pv3 11
                       ("class=" ++ String dq (classes ++ String dq rest1))
                       [])
                 = Some (Cursor pv2
                           (S (19 + String.length classes)
                            + String.length content + 13)
                           "" [(2, content); (1, classes)])).
      { intros pv3. rewrite mt_Seq.
        match goal with
        | |- context [mt (lit "class=") ?k ?st] =>
            pose proof (mt_lit "class=" k st) as Hlit
        end.
        cbn [rest pos caps] in Hlit.
        rewrite startsWith_app in Hlit. destruct Hlit as [pv4 ->].
        rewrite drop_app_exact. apply Hgroup. }
      rewrite star_greedy_after;
        rewrite (after_app isWhiteSpace ""
                   ("class=" ++ String dq (classes ++ String dq rest1))
                   eq_refl eq_refl);
        cbn [last_char String.length]; rewrite Nat.add_0_r, Hlit2;
        [reflexivity | discriminate]. }
    destruct Hin as [pv2 ->].
    eexists. split; [reflexivity|]. split; reflexivity. }
  destruct Hm as (m & Hm & Hg). exists m. split; [|exact Hg].
  unfold exec. apply search_now, Hm.
Qed.

End CodeBlockPattern.

Section CodeScan.

Variables attrs content : string.
Hypothesis Hlt : has_char "<" attrs = false.
Hypothesis Hcontent : has_char "<" content = false.

(** Neither an image nor a heading is found in the line of a code block
    whose text holds no [<]. *)
Lemma find_code_line (pat : string) :
  pat = "<img" \/ pat = "<h" ->
  find pat ("<pre><code" ++ attrs ++ ">" ++ content ++ "</code></pre>")
  = None.
Proof.
  intros Hpat.
  assert (Hrest : find pat (attrs ++ ">" ++ content ++ "</code></pre>")
                  = None).
  { destruct Hpat as [-> | ->];
      (apply find_none_skip; [exact Hlt|]);
      change (">" ++ content ++ "</code></pre>")
        with (String ">" (content ++ "</code></pre>"));
      cbn [find startsWith Ascii.eqb Bool.eqb andb];
      rewrite find_none_skip by (try exact Hcontent; reflexivity);
      reflexivity. }
  set (tl := attrs ++ ">" ++ content ++ "</code></pre>") in *.
  destruct Hpat as [-> | ->];
    cbn [append find startsWith Ascii.eqb Bool.eqb andb];
    rewrite Hrest; reflexivity.
Qed.

Lemma trim_code (x y : string) :
  trim ("<pre><code" ++ x ++ ">" ++ y ++ "</code></pre>")
  = "<pre><code" ++ x ++ ">" ++ y ++ "</code></pre>".
Proof.
  replace (x ++ ">" ++ y ++ "</code></pre>")
    with ((x ++ ">" ++ y) ++ "</code></pre>")
    by (rewrite !append_assoc; reflexivity).
  apply trim_code_line.
Qed.

(** The scanner on the line of a code block: when the code pattern gives
    the classes [classes], which are empty when there are none, the
    element holds the content and the language the classes give. *)
Lemma scan_line_code (classes : string) (m : rmatch) :
  exec re_code_block
       ("<pre><code" ++ attrs ++ ">" ++ content ++ "</code></pre>")
  = Some m ->
  group 1 m = classes -> group 2 m = content ->
  scan_line ("<pre><code" ++ attrs ++ ">" ++ content ++ "</code></pre>")
  = Some (Element "pre" content
            (Some (PreAttrs
                     (normalizeLanguage
                        (let language :=
                           if truthy classes then classes else "plain text" in
                         if includes language "language-"
                         then replace re_language (fun m => group 1 m) language
                         else language))))).
Proof.
  intros Hm H1 H2. unfold scan_line. cbv zeta. rewrite trim_code.
  set (line := "<pre><code" ++ attrs ++ ">" ++ content ++ "</code></pre>")
    in *.
  change (truthy line) with true. cbn [negb].
  replace (exec re_img line) with (@None rmatch)
    by (symmetry; apply (exec_lit_none "<img"), find_code_line; auto).
  replace (exec re_heading line) with (@None rmatch)
    by (symmetry; apply (exec_lit_none "<h"), find_code_line; auto).
  rewrite Hm, H1, H2. reflexivity.
Qed.

End CodeScan.

Section CodeBlocks.

Context {W : Type} (P : platform W).

Lemma normalizeLanguage_truthy (language : string) :
  js_truthy (normalizeLanguage language) = true.
Proof.
  assert (Hmem : forall s, mem s supportedLanguages = true -> truthy s = true)
    by (intros [|c s]; [discriminate | reflexivity]).
  unfold normalizeLanguage.
  destruct (negb (truthy language) || (language =? "plain text")%string);
    [reflexivity|].
  cbv zeta.
  destruct (get_property languageMap (trim (toLowerCase language)))
    as [v|] eqn:E.
  - destruct (js_truthy v) eqn:Ev; [exact Ev|].
    destruct (mem _ supportedLanguages) eqn:Em; [|reflexivity].
    cbn [js_truthy]. apply Hmem, Em.
  - destruct (mem _ supportedLanguages) eqn:Em; [|reflexivity].
    cbn [js_truthy]. apply Hmem, Em.
Qed.

(** The builder on a code element whose language went through
    [normalizeLanguage]. *)
Lemma elementToNotionBlock_pre (text language : string) (st : state W) :
  elementToNotionBlock P
    (Element "pre" text (Some (PreAttrs (normalizeLanguage language)))) st
  = (Returned
       (Some (CodeBlock [plain (replace_all (lit "\n") (const nl) text)]
                        (normalizeLanguage language))),
     st).
Proof.
  unfold elementToNotionBlock, language_of.
  cbn [tag content attrs_of String.eqb Ascii.eqb Bool.eqb andb].
  rewrite normalizeLanguage_truthy. reflexivity.
Qed.

End CodeBlocks.

Section CodeLanguage.

Lemma all_chars_imp (p q : ascii -> bool) (s : string) :
  (forall c, p c = true -> q c = true) ->
  all_chars p s = true -> all_chars q s = true.
Proof.
  intros Hpq. induction s as [|c s IH]; [reflexivity|].
  cbn [all_chars]. intros H. apply andb_true_iff in H. destruct H as [Hc Hs].
  rewrite (Hpq c Hc), (IH Hs). reflexivity.
Qed.

Lemma find_app_some (pat a b : string) :
  exists k, find pat (a ++ pat ++ b) = Some k.
Proof.
  induction a as [|c a [k IH]].
  - exists 0. cbn [append]. destruct (pat ++ b) eqn:E; cbn [find];
      rewrite <- E, startsWith_app; reflexivity.
  - cbn [append find]. rewrite IH.
    destruct (startsWith _ pat); eexists; reflexivity.
Qed.

Variables classes interior : string.
Hypothesis Hclasses : all_chars value_char classes = true.
Hypothesis Hint : has_char "<" interior = false.

(** The elements of the line of a code block with classes. *)
Lemma parseHtmlElements_code_line_with :
  parseHtmlElements (code_line_with classes interior)
  = [Element "pre" (escape_newlines interior)
       (Some (PreAttrs
                (normalizeLanguage
                   (let language :=
                      if truthy classes then classes else "plain text" in
                    if includes language "language-"
                    then replace re_language (fun m => group 1 m) language
                    else language))))].
Proof.
  destruct (value_chars classes Hclasses) as (Hq & Hlt & Hgt & Hlf).
  assert (Hdq : all_chars (non dq) classes = true).
  { revert Hq. apply all_chars_imp. intros c Hc. unfold non, quote_char in *.
    rewrite Ascii.eqb_sym. apply negb_true_iff in Hc.
    apply orb_false_iff in Hc. destruct Hc as [-> _]. reflexivity. }
  set (attrs := " class=" ++ DQ ++ classes ++ DQ).
  assert (Eline : code_line_with classes interior
                  = "<pre><code" ++ attrs ++ ">" ++ interior
                    ++ "</code></pre>").
  { unfold code_line_with, attrs, DQ. cbn [append].
    rewrite !append_assoc. reflexivity. }
  assert (Hagt : all_chars (non ">") attrs = true)
    by (unfold attrs, DQ; cbn [append all_chars];
        rewrite all_chars_append, Hgt; reflexivity).
  assert (Halt : has_char "<" attrs = false)
    by (unfold attrs, DQ; cbn [append has_char];
        rewrite has_char_append, Hlt; reflexivity).
  assert (Half : all_chars not_LF attrs = true)
    by (unfold attrs, DQ; cbn [append all_chars];
        rewrite all_chars_append, Hlf; reflexivity).
  rewrite Eline.
  rewrite (parseHtmlElements_code_line attrs interior Hagt Half Hint).
  pose proof (escape_newlines_no_lt interior Hint) as Hesc.
  destruct (exec_code_block_class (escape_newlines interior) Hesc classes Hdq)
    as (m & Hm & H1 & H2).
  fold attrs in Hm.
  rewrite (scan_line_code attrs (escape_newlines interior) Halt Hesc
             classes m Hm H1 H2).
  reflexivity.
Qed.

End CodeLanguage.

(* ------------------------------------------------------------------ *)
(** *** The scanner: table rows *)

Section TableRows.

(** The lazy [p*?] passes over a text of the class up to the first place
    where the text that must follow is found. *)
Lemma star_lazy_to (p : ascii -> bool) (k : cursor -> option cursor)
      (C : string) :
  (forall st, startsWith (rest st) C = false -> k st = None) ->
  forall (t b : string) (pv : option ascii) (i : nat) (cs : list (nat * string)),
    all_chars p t = true ->
    find C (t ++ b) = Some (String.length t) ->
    star p false k pv i cs (t ++ b)
    = star p false k (last_char pv t) (i + String.length t) cs b.
Proof.
  intros Hk. induction t as [|c t IH]; intros b pv i cs Hp Hf.
  - cbn [append last_char String.length]. rewrite Nat.add_0_r. reflexivity.
  - cbn [all_chars] in Hp. apply andb_true_iff in Hp. destruct Hp as [Hpc Hp].
    change (String c t ++ b) with (String c (t ++ b)) in *.
    cbn [find String.length] in Hf.
    destruct (startsWith (String c (t ++ b)) C) eqn:Es; [discriminate|].
    destruct (find C (t ++ b)) as [n|] eqn:Ef; [|discriminate].
    injection Hf as ->.
    cbn [star]. rewrite Hk by exact Es. rewrite Hpc.
    rewrite IH by (try assumption; reflexivity).
    cbn [last_char String.length]. rewrite Nat.add_succ_r. reflexivity.
Qed.

Lemma trim_tagged (o x z : string) :
  starts_clean o -> o <> "" -> trimEnd z = z -> z <> "" ->
  trim (o ++ x ++ z) = o ++ x ++ z.
Proof.
  intros Ho Hne Hz Hnz. unfold trim.
  rewrite trimStart_of_clean by (destruct o; [contradiction | exact Ho]).
  rewrite <- append_assoc. apply trimEnd_app; assumption.
Qed.

Lemma kind_cases (kind : ascii) :
  h_or_d kind = true -> kind = "h"%char \/ kind = "d"%char.
Proof.
  unfold h_or_d. intros H. apply orb_true_iff in H.
  destruct H as [H|H]; apply Ascii.eqb_eq in H; auto.
Qed.

Variable kind : ascii.
Hypothesis Hkind : h_or_d kind = true.

Lemma cells_dot (texts : list string) :
  Forall cell_ok texts -> all_chars dot (cells_text kind texts) = true.
Proof.
  induction 1 as [|text texts [_ Hd] _ IH]; [reflexivity|].
  cbn [cells_text]. unfold cell_text.
  destruct (kind_cases kind Hkind) as [-> | ->];
    cbn [append all_chars]; rewrite !all_chars_append, Hd;
    cbn [append all_chars]; rewrite IH; reflexivity.
Qed.

(** None of the patterns the scanner tries before the row, nor the end of
    the row, is found inside the cells. *)
Lemma find_cells (pat tl : string) (texts : list string) :
  In pat ["<img"; "<h"; "<pre><code"; "<blockquote>"; "<li>"; "</tr>"] ->
  Forall cell_ok texts ->
  find pat tl = None ->
  find pat (cells_text kind texts ++ tl) = None.
Proof.
  intros Hpat Hok Htl.
  induction Hok as [|text texts [Hlt _] _ IH]; [exact Htl|].
  cbn [cells_text]. unfold cell_text. rewrite append_assoc.
  set (more := cells_text kind texts ++ tl) in *.
  assert (Hclose : find pat ("</t" ++ String kind ">" ++ more) = None).
  { simpl in Hpat.
    destruct (kind_cases kind Hkind) as [-> | ->];
      repeat (destruct Hpat as [<-|Hpat]; [
        cbn [append find startsWith Ascii.eqb Bool.eqb andb];
        rewrite IH; reflexivity |]);
      contradiction. }
  assert (Hinner : find pat (text ++ "</t" ++ String kind ">" ++ more) = None).
  { simpl in Hpat.
    repeat (destruct Hpat as [<-|Hpat];
            [apply find_none_skip; assumption|]).
    contradiction. }
  replace (("<t" ++ String kind (">" ++ text ++ "</t" ++ String kind ">"))
           ++ more)
    with ("<t" ++ String kind (">" ++ text ++ "</t" ++ String kind ">" ++ more)).
  2:{ cbn [append]. rewrite !append_assoc. reflexivity. }
  set (inner := text ++ "</t" ++ String kind ">" ++ more) in *.
  simpl in Hpat.
  destruct (kind_cases kind Hkind) as [-> | ->];
    repeat (destruct Hpat as [<-|Hpat]; [
      change (">" ++ text ++ "</t" ++ String "h" ">" ++ more)
        with (String ">" inner);
      change (">" ++ text ++ "</t" ++ String "d" ">" ++ more)
        with (String ">" inner);
      cbn [append find startsWith Ascii.eqb Bool.eqb andb];
      rewrite Hinner; reflexivity |]);
    contradiction.
Qed.

End TableRows.

Section TableCells.

Variable kind : ascii.
Hypothesis Hkind : h_or_d kind = true.

(** The cell pattern at the start of a cell: the match is the cell, the
    group its text. *)
Lemma match_at_cell (text more : string) (pv : option ascii) (i : nat) :
  cell_ok text ->
  exists m,
    match_at re_cell pv i (cell_text kind text ++ more) = Some m
    /\ m_text m = cell_text kind text
    /\ group 1 m = text.
Proof.
  intros [Hlt Hdot].
  set (tail := Seq (lit "</t") (Seq (Cls h_or_d) (Chr ">"))).
  set (close := "</t" ++ String kind ">" ++ more).
  assert (Eline : cell_text kind text ++ more
                  = "<t" ++ String kind (String ">" (text ++ close))).
  { unfold cell_text, close. cbn [append]. rewrite !append_assoc.
    reflexivity. }
  unfold match_at. rewrite Eline.
  change re_cell
    with (Seq (lit "<t")
            (Seq (Cls h_or_d)
               (Seq (Chr ">") (Seq (Grp 1 (Star dot false)) tail)))).
  rewrite mt_Seq.
  match goal with
  | |- context [mt (lit "<t") ?k ?st] =>
      pose proof (mt_lit "<t" k st) as Hlit
  end.
  cbn [rest pos caps] in Hlit.
  rewrite startsWith_app in Hlit. destruct Hlit as [pv1 ->].
  rewrite drop_app_exact. change (String.length "<t") with 2.
  rewrite mt_Seq, mt_Cls. cbn [rest]. rewrite Hkind.
  rewrite mt_Seq, mt_Chr. unfold step at 1 2. cbn [rest prev pos caps].
  rewrite Ascii.eqb_refl.
  rewrite mt_Seq, mt_Grp, mt_Star. unfold step. cbn [prev pos caps rest].
  rewrite (star_lazy_skip dot _ "<"); [| |exact Hdot|exact Hlt].
  2:{ intros st Hst. unfold tail. rewrite mt_Seq.
      match goal with
      | |- mt (lit "</t") ?k ?c = None =>
          pose proof (mt_lit "</t" k c) as H
      end.
      cbn [capture rest] in H.
      replace (startsWith (rest st) "</t") with false in H; [exact H|].
      symmetry. revert Hst. clear. destruct (rest st) as [|c s];
        [reflexivity|].
      cbn [startsWith]. rewrite startsWith_nil, andb_true_r.
      intros ->. reflexivity. }
  match goal with
  | |- context [star dot false ?k ?pv0 ?i0 ?cs0 ?s0] =>
      assert (Hclose : k (Cursor pv0 i0 s0 cs0)
                       = Some (Cursor (Some ">"%char)
                                 (i + 4 + String.length text + 5) more
                                 [(1, text)]))
  end.
  { unfold tail. rewrite mt_Seq.
    match goal with
    | |- mt (lit "</t") ?k ?c0 = _ =>
        pose proof (mt_lit "</t" k c0) as H
    end.
    cbn [capture rest pos caps prev] in H.
    unfold close in H at 1. rewrite startsWith_app in H.
    destruct H as [pv2 ->]. unfold close. rewrite drop_app_exact.
    rewrite mt_Seq, mt_Cls. cbn [rest append]. rewrite Hkind.
    rewrite mt_Chr. unfold step. cbn [rest prev pos caps].
    rewrite Ascii.eqb_refl.
    replace (S (S (i + 2)) + String.length text - S (S (i + 2)))
      with (String.length text) by lia.
    rewrite take_app_exact. f_equal. f_equal.
    cbn [String.length]. lia. }
  erewrite star_lazy_now by exact Hclose.
  eexists. split; [reflexivity|]. cbn [m_text pos caps].
  split; [|reflexivity].
  rewrite <- Eline.
  replace (i + 4 + String.length text + 5 - i)
    with (String.length (cell_text kind text)).
  - apply take_app_exact.
  - unfold cell_text. rewrite !length_append. cbn [String.length].
    rewrite !length_append. cbn [String.length]. lia.
Qed.

(** The cells of a row, found one after the other. *)
Lemma scan_cells (texts : list string) :
  Forall cell_ok texts ->
  forall (pv : option ascii) (i : nat),
    map (fun m => group 1 m) (hits (scan re_cell pv i 0 (cells_text kind texts)))
    = texts.
Proof.
  induction 1 as [|text texts Hok _ IH]; intros pv i.
  - cbn [cells_text scan]. unfold re_cell at 1. cbn [seq].
    rewrite match_at_lit_none by reflexivity. reflexivity.
  - cbn [cells_text].
    destruct (match_at_cell text (cells_text kind texts) pv i Hok)
      as (m & Hm & Htext & Hg).
    unfold cell_text in Hm, Htext |- *.
    change ("<t" ++ String kind (">" ++ text ++ "</t" ++ String kind ">"))
      with (String "<" (String "t" (String kind
              (">" ++ text ++ "</t" ++ String kind ">")))) in *.
    rewrite (scan_hit re_cell _ _ _ pv i m Hm Htext).
    cbn [hits map]. rewrite Hg, IH. reflexivity.
Qed.

Lemma exec_all_cells (texts : list string) :
  Forall cell_ok texts ->
  map (fun m => stripHtmlTags (group 1 m))
      (exec_all re_cell (cells_text kind texts))
  = map stripHtmlTags texts.
Proof.
  intros Hok. unfold exec_all.
  rewrite <- (scan_cells texts Hok None 0) at 2.
  rewrite map_map. reflexivity.
Qed.

(** The row pattern on a row written on one line: the group is the
    cells. *)
Lemma exec_row (texts : list string) :
  Forall cell_ok texts ->
  exists m,
    exec (re_element "tr") (row_line kind texts) = Some m
    /\ group 1 m = cells_text kind texts.
Proof.
  intros Hok.
  set (inner := cells_text kind texts).
  assert (Hfind : find "</tr>" (inner ++ "</tr>")
                  = Some (String.length inner)).
  { rewrite <- (append_nil_r "</tr>") at 2.
    apply (find_first "<" "/tr>" inner ""); [reflexivity|].
    rewrite <- (append_nil_r inner).
    apply (find_cells kind Hkind "</tr>" "" texts);
      [simpl; auto 10 | exact Hok | reflexivity]. }
  assert (Hm : exists m,
             match_at (re_element "tr") None 0 (row_line kind texts) = Some m
             /\ group 1 m = inner).
  { unfold match_at, row_line. fold inner.
    change (re_element "tr")
      with (Seq (lit "<tr>") (Seq (Grp 1 (Star dot false)) (lit "</tr>"))).
    rewrite mt_Seq.
    match goal with
    | |- context [mt (lit "<tr>") ?k ?st] =>
        pose proof (mt_lit "<tr>" k st) as Hlit
    end.
    cbn [rest pos caps] in Hlit.
    rewrite startsWith_app in Hlit. destruct Hlit as [pv1 ->].
    rewrite drop_app_exact, mt_Seq, mt_Grp, mt_Star.
    cbn [prev pos caps rest Nat.add].
    rewrite (star_lazy_to dot _ "</tr>");
      [| |apply cells_dot; assumption|exact Hfind].
    2:{ intros st Hst.
        match goal with
        | |- mt (lit ?L) ?k ?c = None => pose proof (mt_lit L k c) as H
        end.
        cbn [capture rest] in H. rewrite Hst in H. exact H. }
    match goal with
    | |- context [star dot false ?k ?pv0 ?i0 ?cs0 ?s0] =>
        pose proof (mt_lit "</tr>" Some
                      (capture 1
                         (Cursor pv1 (String.length "<tr>")
                                 (inner ++ "</tr>") [])
                         (Cursor pv0 i0 s0 cs0))) as Hclose
    end.
    cbn [capture rest pos caps prev] in Hclose.
    rewrite startsWith_refl in Hclose. destruct Hclose as [pv2 Hclose].
    erewrite star_lazy_now by exact Hclose.
    eexists. split; [reflexivity|].
    unfold group. cbn [m_caps caps lookup Nat.eqb].
    replace (String.length "<tr>" + String.length inner
             - String.length "<tr>")
      with (String.length inner) by lia.
    apply take_app_exact. }
  destruct Hm as (m & Hm & Hg). exists m. split; [|exact Hg].
  unfold exec. apply search_now, Hm.
Qed.

(** The scanner on a row written on one line. *)
Lemma scan_line_row (texts : list string) :
  Forall cell_ok texts ->
  scan_line (row_line kind texts)
  = match texts with
    | [] => None
    | _ => Some (Element "table-row" ""
                   (Some (RowAttrs (map stripHtmlTags texts))))
    end.
Proof.
  intros Hok. unfold scan_line. cbv zeta.
  unfold row_line.
  rewrite trim_tagged by (try discriminate; reflexivity).
  fold (row_line kind texts).
  destruct (exec_row texts Hok) as (m & Hm & Hg).
  assert (Hnone : forall pat,
             In pat ["<img"; "<h"; "<pre><code"; "<blockquote>"; "<li>"] ->
             find pat (row_line kind texts) = None).
  { intros pat Hpat. unfold row_line.
    assert (Hin : find pat (cells_text kind texts ++ "</tr>") = None).
    { apply (find_cells kind Hkind).
      - simpl in Hpat |- *. intuition.
      - exact Hok.
      - simpl in Hpat.
        repeat (destruct Hpat as [<-|Hpat]; [reflexivity|]). contradiction. }
    simpl in Hpat.
    repeat (destruct Hpat as [<-|Hpat]; [
      cbn [append find startsWith Ascii.eqb Bool.eqb andb];
      rewrite Hin; reflexivity |]).
    contradiction. }
  change (truthy (row_line kind texts)) with true. cbn [negb].
  replace (exec re_img _) with (@None rmatch)
    by (symmetry; apply (exec_lit_none "<img"), Hnone; simpl; auto).
  replace (exec re_heading _) with (@None rmatch)
    by (symmetry; apply (exec_lit_none "<h"), Hnone; simpl; auto).
  replace (exec re_code_block _) with (@None rmatch)
    by (symmetry; apply (exec_lit_none "<pre><code"), Hnone; simpl; auto).
  replace (exec (re_element "blockquote") _) with (@None rmatch)
    by (symmetry; apply (exec_lit_none "<blockquote>"), Hnone; simpl; auto 10).
  replace (exec (re_element "li") _) with (@None rmatch)
    by (symmetry; apply (exec_lit_none "<li>"), Hnone; simpl; auto 10).
  rewrite Hm, Hg, (exec_all_cells texts Hok).
  destruct texts; reflexivity.
Qed.

End TableCells.

Section TableStructure.

Lemma mt_Alt (r1 r2 : re) (k : cursor -> option cursor) (st : cursor) :
  mt (Alt r1 r2) k st
  = match mt r1 k st with
    | Some x => Some x
    | None => mt r2 k st
    end.
Proof. reflexivity. Qed.

(** One alternative of the pattern of the table structure: an opening or
    a closing tag. *)
Lemma mt_structure_tag (L : string) (st : cursor) :
  startsWith (rest st) (String "<" L) = false ->
  startsWith (rest st) (String "<" (String "/" L)) = false ->
  mt (Seq (Chr "<") (Seq (Opt (Chr "/")) (lit L))) Some st = None.
Proof.
  destruct st as [pv i s cs]. cbn [rest]. intros H1 H2.
  rewrite mt_Seq, mt_Chr. cbn [rest].
  destruct s as [|c s1]; [reflexivity|].
  destruct (Ascii.eqb_spec "<" c) as [<-|_]; [|reflexivity].
  cbn [startsWith] in H1, H2. rewrite Ascii.eqb_refl in H1, H2.
  cbn [andb] in H1, H2.
  assert (Hk : forall pv' i',
             mt (lit L) Some (Cursor pv' i' s1 cs) = None).
  { intros pv' i'. pose proof (mt_lit L Some (Cursor pv' i' s1 cs)) as H.
    cbn [rest] in H. rewrite H1 in H. exact H. }
  rewrite mt_Seq, mt_Opt, mt_Chr. unfold step. cbn [rest prev pos caps].
  destruct s1 as [|c2 s2]; [apply Hk|].
  destruct (Ascii.eqb_spec "/" c2) as [<-|_]; [|apply Hk].
  cbn [startsWith] in H2. rewrite Ascii.eqb_refl in H2. cbn [andb] in H2.
  pose proof (mt_lit L Some
                (Cursor (Some "/"%char) (S (S i)) s2 cs)) as H.
  cbn [rest] in H. rewrite H2 in H. rewrite H. apply Hk.
Qed.

Lemma match_at_structure_none (pv : option ascii) (i : nat) (s : string) :
  (forall L, In L structure_tags -> startsWith s L = false) ->
  match_at re_table_structure pv i s = None.
Proof.
  intros H. unfold match_at, re_table_structure. cbn [seq].
  rewrite mt_Alt, (mt_structure_tag "table>"), mt_Alt,
    (mt_structure_tag "thead>"), (mt_structure_tag "tbody>");
    try reflexivity; cbn [rest]; apply H; simpl; auto 10.
Qed.

Lemma test_structure_none (s : string) :
  (forall L, In L structure_tags -> find L s = None) ->
  test re_table_structure s = false.
Proof.
  unfold test, exec.
  assert (Hsearch : forall s (pv : option ascii) (i : nat),
             (forall L, In L structure_tags -> find L s = None) ->
             search re_table_structure pv i s = None);
    [|intros H; rewrite Hsearch by assumption; reflexivity].
  clear s. induction s as [|c s IH]; intros pv i H; cbn [search].
  - rewrite match_at_structure_none; [reflexivity|].
    intros L HL. apply find_none_startsWith, H, HL.
  - rewrite match_at_structure_none.
    + apply IH. intros L HL. apply (find_tail L c s), H, HL.
    + intros L HL. apply find_none_startsWith, H, HL.
Qed.

Variable kind : ascii.
Hypothesis Hkind : h_or_d kind = true.

(** A cell on a line of its own is no element. *)
Lemma scan_line_cell (text : string) :
  has_char "<" text = false -> scan_line (cell_text kind text) = None.
Proof.
  intros Ht. unfold scan_line. cbv zeta.
  destruct (kind_cases kind Hkind) as [-> | ->].
  - change (cell_text "h" text) with ("<th>" ++ text ++ "</th>").
    rewrite trim_tagged by (try discriminate; reflexivity).
    cbn [truthy negb append].
    regex_fails exec_lit_none find_none_skip re_img "<img" Ht.
    regex_fails exec_lit_none find_none_skip re_heading "<h" Ht.
    regex_fails exec_lit_none find_none_skip re_code_block "<pre><code" Ht.
    regex_fails exec_lit_none find_none_skip (re_element "blockquote")
                "<blockquote>" Ht.
    regex_fails exec_lit_none find_none_skip (re_element "li") "<li>" Ht.
    regex_fails exec_lit_none find_none_skip (re_element "tr") "<tr>" Ht.
    rewrite test_structure_none.
    2:{ intros L HL. simpl in HL.
        repeat (destruct HL as [<-|HL]; [no_match find_none_skip Ht|]).
        contradiction. }
    regex_fails exec_lit_none find_none_skip (re_element "p") "<p>" Ht.
    reflexivity.
  - change (cell_text "d" text) with ("<td>" ++ text ++ "</td>").
    rewrite trim_tagged by (try discriminate; reflexivity).
    cbn [truthy negb append].
    regex_fails exec_lit_none find_none_skip re_img "<img" Ht.
    regex_fails exec_lit_none find_none_skip re_heading "<h" Ht.
    regex_fails exec_lit_none find_none_skip re_code_block "<pre><code" Ht.
    regex_fails exec_lit_none find_none_skip (re_element "blockquote")
                "<blockquote>" Ht.
    regex_fails exec_lit_none find_none_skip (re_element "li") "<li>" Ht.
    regex_fails exec_lit_none find_none_skip (re_element "tr") "<tr>" Ht.
    rewrite test_structure_none.
    2:{ intros L HL. simpl in HL.
        repeat (destruct HL as [<-|HL]; [no_match find_none_skip Ht|]).
        contradiction. }
    regex_fails exec_lit_none find_none_skip (re_element "p") "<p>" Ht.
    reflexivity.
Qed.

End TableStructure.

(* ------------------------------------------------------------------ *)
(** *** Cleaning the HTML: blank lines *)

Section BlankLines.

Lemma match_at_blank_none (pv : option ascii) (i : nat) (s : string) :
  startsWith s nl = false -> match_at re_blank_lines pv i s = None.
Proof.
  intros H. unfold match_at, re_blank_lines. cbn [seq].
  rewrite mt_Seq, mt_Chr. cbn [rest].
  destruct s as [|c s]; [reflexivity|].
  cbn [startsWith nl] in H. rewrite startsWith_nil, andb_true_r in H.
  rewrite Ascii.eqb_sym, H. reflexivity.
Qed.

Lemma startsWith_not_LF (s : string) :
  all_chars not_LF s = true -> startsWith s nl = false.
Proof.
  destruct s as [|c s]; [reflexivity|].
  cbn [all_chars startsWith nl]. intros H. apply andb_true_iff in H.
  destruct H as [H _]. unfold not_LF in H. apply negb_true_iff in H.
  rewrite H. reflexivity.
Qed.

(** The characters of a text without line feed are kept. *)
Lemma scan_blank_keep (f : rmatch -> string) (a : string) :
  all_chars not_LF a = true ->
  forall (s : string) (pv : option ascii) (i : nat),
    render f (scan re_blank_lines pv i 0 (a ++ s))
    = a ++ render f (scan re_blank_lines (last_char pv a)
                          (i + String.length a) 0 s).
Proof.
  induction a as [|c a IH]; intros Ha s pv i.
  - cbn [append last_char String.length]. rewrite Nat.add_0_r. reflexivity.
  - pose proof (startsWith_not_LF _ Ha) as Hs.
    cbn [all_chars] in Ha. apply andb_true_iff in Ha. destruct Ha as [_ Ha].
    change (String c a ++ s) with (String c (a ++ s)).
    rewrite scan_keep.
    + cbn [render append last_char String.length]. rewrite IH by exact Ha.
      rewrite Nat.add_succ_r. reflexivity.
    + apply match_at_blank_none. cbn [startsWith nl] in *.
      rewrite startsWith_nil in *. exact Hs.
Qed.

Lemma scan_blank_end (f : rmatch -> string) (pv : option ascii) (i : nat) :
  render f (scan re_blank_lines pv i 0 "") = "".
Proof.
  cbn [scan]. rewrite match_at_blank_none by reflexivity. reflexivity.
Qed.

(** In a text without line feed, the white space that follows a line feed
    is followed by no line feed. *)
Lemma star_blank_none (b : string) :
  all_chars not_LF b = true ->
  forall (pv : option ascii) (i : nat) (cs : list (nat * string)),
    star isWhiteSpace true (mt (Chr LF) Some) pv i cs b = None.
Proof.
  induction b as [|c b IH]; intros Hb pv i cs; [reflexivity|].
  pose proof Hb as Hb'.
  cbn [all_chars] in Hb. apply andb_true_iff in Hb. destruct Hb as [Hc Hb].
  cbn [star]. rewrite IH by exact Hb.
  rewrite mt_Chr. cbn [rest].
  unfold not_LF in Hc. apply negb_true_iff in Hc.
  rewrite Ascii.eqb_sym, Hc. destruct (isWhiteSpace c); reflexivity.
Qed.

Variables a ws b : string.
Hypothesis Ha : all_chars not_LF a = true.
Hypothesis Hb : all_chars not_LF b = true.
Hypothesis Hws : all_chars isWhiteSpace ws = true.

(** Lines of white space between two line feeds: the match goes from the
    first line feed to the last. *)
Lemma match_at_blank (pv : option ascii) (i : nat) :
  match_at re_blank_lines pv i (String LF (ws ++ nl) ++ b)
  = Some (Match i (String LF (ws ++ nl)) []).
Proof.
  unfold match_at, re_blank_lines. cbn [seq].
  change (String LF (ws ++ nl) ++ b) with (String LF ((ws ++ nl) ++ b)).
  rewrite mt_Seq, mt_Chr. cbn [rest]. rewrite Ascii.eqb_refl.
  rewrite mt_Seq, mt_Star. unfold step. cbn [prev pos caps rest].
  rewrite append_assoc.
  rewrite (star_greedy_app isWhiteSpace _ ws (nl ++ b)
             (Cursor (Some LF) (S (S i + String.length ws)) b []));
    [|exact Hws|].
  - cbn [pos caps]. f_equal. f_equal.
    replace (S (S i + String.length ws) - i)
      with (String.length (String LF (ws ++ nl)))
      by (cbn [String.length]; rewrite length_append;
          cbn [String.length nl]; lia).
    rewrite <- append_assoc.
    apply (take_app_exact (String LF (ws ++ nl)) b).
  - change (nl ++ b) with (String LF b). cbn [star].
    change (isWhiteSpace LF) with true. cbv iota.
    rewrite star_blank_none by exact Hb.
    reflexivity.
Qed.

Lemma blank_lines_removed :
  replace_all re_blank_lines (const nl) (a ++ nl ++ ws ++ nl ++ b)
  = a ++ nl ++ b.
Proof.
  unfold replace_all. rewrite scan_blank_keep by exact Ha.
  replace (nl ++ ws ++ nl ++ b) with (String LF (ws ++ nl) ++ b)
    by (cbn [append nl]; rewrite !append_assoc; reflexivity).
  rewrite (scan_hit _ _ _ _ _ _ _ (match_at_blank _ _) eq_refl).
  cbn [render const].
  rewrite <- (append_nil_r b) at 1.
  rewrite scan_blank_keep by exact Hb.
  rewrite scan_blank_end, append_nil_r. reflexivity.
Qed.

Lemma single_line_feed_kept :
  replace_all re_blank_lines (const nl) (a ++ nl ++ b) = a ++ nl ++ b.
Proof.
  unfold replace_all. rewrite scan_blank_keep by exact Ha.
  change (nl ++ b) with (String LF b).
  rewrite scan_keep.
  - cbn [render]. rewrite <- (append_nil_r b) at 1.
    rewrite scan_blank_keep by exact Hb.
    rewrite scan_blank_end, append_nil_r. reflexivity.
  - unfold match_at, re_blank_lines. cbn [seq].
    rewrite mt_Seq, mt_Chr. cbn [rest]. rewrite Ascii.eqb_refl.
    rewrite mt_Seq, mt_Star. unfold step. cbn [prev pos caps rest].
    rewrite star_blank_none by exact Hb. reflexivity.
Qed.

End BlankLines.

(* ------------------------------------------------------------------ *)
(** *** The scanner: opening tags with attributes *)

Section TagsWithAttributes.

Variables attrs content : string.
Hypothesis Ha : has_char "<" attrs = false.
Hypothesis Hc : has_char "<" content = false.

(** The heading pattern wants [>] right after the level. *)
Lemma exec_heading_with (d : ascii) :
  In d ["1"; "2"; "3"; "4"; "5"; "6"]%char ->
  exec re_heading
       (element_line_with (String "h" (String d "")) attrs content)
  = None.
Proof.
  intros Hd. unfold exec, element_line_with. simpl in Hd.
  repeat (destruct Hd as [<-|Hd]; [
    cbn [append];
    rewrite search_step by reflexivity;
    apply (search_lit_none "<h");
    find_skips find_none_skip Ha Hc |]).
  contradiction.
Qed.

(** No pattern of the scanner matches a line whose opening tag holds
    attributes. *)
Lemma scan_line_with (name : string) :
  In name line_tags ->
  scan_line (element_line_with name attrs content) = None.
Proof.
  intros Hname.
  assert (Htrim : trim (element_line_with name attrs content)
                  = element_line_with name attrs content).
  { unfold element_line_with.
    replace (name ++ " " ++ attrs ++ ">" ++ content ++ "</" ++ name ++ ">")
      with ((name ++ " " ++ attrs ++ ">" ++ content ++ "</" ++ name) ++ ">")
      by (rewrite !append_assoc; reflexivity).
    apply trim_tagged; (reflexivity || discriminate). }
  unfold scan_line. cbv zeta. rewrite Htrim.
  change (truthy (element_line_with name attrs content)) with true.
  cbn [negb].
  assert (Hhead : exec re_heading (element_line_with name attrs content)
                  = None).
  { simpl in Hname.
    destruct Hname as [<-|[<-|[<-|[<-|[<-|[<-|Hname]]]]]];
      try (apply exec_heading_with; simpl; auto 10).
    unfold element_line_with.
    repeat (destruct Hname as [<-|Hname]; [
      apply (exec_lit_none "<h"); find_skips find_none_skip Ha Hc |]).
    contradiction. }
  rewrite Hhead.
  assert (Hnone : forall pat,
             In pat (["<img"; "<pre><code"; "<blockquote>"; "<li>"; "<tr>";
                      "<p>"] ++ structure_tags)%list ->
             find pat (element_line_with name attrs content) = None).
  { intros pat Hpat. unfold element_line_with. simpl in Hname, Hpat.
    repeat (destruct Hname as [<-|Hname]; [
      repeat (destruct Hpat as [<-|Hpat];
              [find_skips find_none_skip Ha Hc|]);
      contradiction |]).
    contradiction. }
  replace (exec re_img _) with (@None rmatch)
    by (symmetry; apply (exec_lit_none "<img"), Hnone; simpl; auto).
  replace (exec re_code_block _) with (@None rmatch)
    by (symmetry; apply (exec_lit_none "<pre><code"), Hnone; simpl; auto).
  replace (exec (re_element "blockquote") _) with (@None rmatch)
    by (symmetry; apply (exec_lit_none "<blockquote>"), Hnone; simpl; auto 10).
  replace (exec (re_element "li") _) with (@None rmatch)
    by (symmetry; apply (exec_lit_none "<li>"), Hnone; simpl; auto 10).
  replace (exec (re_element "tr") _) with (@None rmatch)
    by (symmetry; apply (exec_lit_none "<tr>"), Hnone; simpl; auto 10).
  rewrite test_structure_none
    by (intros L HL; apply Hnone; simpl in HL |- *; intuition).
  replace (exec (re_element "p") _) with (@None rmatch)
    by (symmetry; apply (exec_lit_none "<p>"), Hnone; simpl; auto 10).
  replace (startsWith (element_line_with name attrs content) "<") with true
    by (unfold element_line_with; cbn [append startsWith];
        rewrite startsWith_nil; reflexivity).
  reflexivity.
Qed.

End TagsWithAttributes.

(* ------------------------------------------------------------------ *)
(** *** Cleaning the HTML: image tags *)

Section CleanImage.

Lemma scan_lit_none (L : string) (R : re) (f : rmatch -> string) (s : string) :
  find L s = None ->
  forall (pv : option ascii) (i : nat),
    render f (scan (Seq (lit L) R) pv i 0 s) = s.
Proof.
  induction s as [|c s IH]; intros H pv i; cbn [scan].
  - rewrite match_at_lit_none by (apply find_none_startsWith, H).
    reflexivity.
  - pose proof (find_none_startsWith _ _ H) as Hs.
    apply find_tail in H. destruct H as [_ Hf].
    rewrite match_at_lit_none by exact Hs.
    cbn [render]. rewrite IH by exact Hf. reflexivity.
Qed.

Lemma blank_lines_none (f : rmatch -> string) (s : string) :
  all_chars not_LF s = true -> replace_all re_blank_lines f s = s.
Proof.
  intros H. unfold replace_all. rewrite <- (append_nil_r s) at 1.
  rewrite scan_blank_keep by exact H.
  rewrite scan_blank_end. apply append_nil_r.
Qed.

(** The pattern that closes the image tags, at an image tag: the group
    is what stands between [<img] and the first [>]. *)
Lemma match_at_img_close (body post : string) (pv : option ascii) (i : nat) :
  has_char ">" body = false ->
  exists m,
    match_at re_img_close pv i (("<img" ++ body ++ ">") ++ post) = Some m
    /\ m_text m = "<img" ++ body ++ ">"
    /\ group 1 m = body.
Proof.
  intros Hbody.
  assert (Hnon : all_chars (non ">") body = true)
    by (rewrite all_chars_non, Hbody; reflexivity).
  unfold match_at, re_img_close. cbn [seq].
  replace (("<img" ++ body ++ ">") ++ post)
    with ("<img" ++ body ++ String ">" post)
    by (rewrite !append_assoc; reflexivity).
  rewrite mt_Seq.
  match goal with
  | |- context [mt (lit "<img") ?k ?st] =>
      pose proof (mt_lit "<img" k st) as Hlit
  end.
  cbn [rest pos caps] in Hlit.
  rewrite startsWith_app in Hlit. destruct Hlit as [pv1 ->].
  rewrite drop_app_exact. change (String.length "<img") with 4.
  rewrite mt_Seq, mt_Grp, mt_Star. cbn [prev pos caps rest].
  rewrite (star_lazy_skip (non ">") _ ">"); [| |exact Hnon|exact Hbody].
  2:{ intros st Hst. rewrite mt_Chr. cbn [capture rest].
      destruct (rest st) as [|c s]; [reflexivity|].
      cbn [startsWith] in Hst. rewrite startsWith_nil, andb_true_r in Hst.
      rewrite Ascii.eqb_sym, Hst. reflexivity. }
  erewrite star_lazy_now
    by (rewrite mt_Chr; cbn [capture rest]; rewrite Ascii.eqb_refl;
        reflexivity).
  eexists. split; [reflexivity|].
  unfold step, capture. cbn [m_text pos caps prev rest group m_caps lookup].
  cbn [Nat.eqb].
  replace (i + 4 + String.length body - (i + 4))
    with (String.length body) by lia.
  rewrite take_app_exact. split; [|reflexivity].
  replace (S (i + 4 + String.length body) - i)
    with (String.length ("<img" ++ body ++ ">"))
    by (rewrite !length_append; cbn [String.length]; lia).
  replace ("<img" ++ body ++ String ">" post)
    with (("<img" ++ body ++ ">") ++ post)
    by (rewrite !append_assoc; reflexivity).
  apply take_app_exact.
Qed.

Variables src alt : string.
Hypothesis Hsrc : all_chars value_char src = true.
Hypothesis Halt : all_chars value_char alt = true.

(** What is written between [<img] and [>] in the line of an image. *)
Lemma img_line_tag :
  img_line src alt
  = "<p>" ++ ("<img" ++ (" " ++ render_attrs [("src", src); ("alt", alt)]
                         ++ " /") ++ ">") ++ "</p>".
Proof.
  unfold img_line. cbn [render_attrs]. unfold DQ.
  rewrite ?append_assoc. cbn [append]. rewrite ?append_assoc.
  cbn [append]. reflexivity.
Qed.

Lemma img_line_cleaned_tag :
  img_line_cleaned src alt
  = "<p>" ++ "<img" ++ " "
    ++ (render_attrs [("src", src); ("alt", alt)] ++ " / /") ++ ">" ++ "</p>".
Proof.
  unfold img_line_cleaned. cbn [render_attrs]. unfold DQ.
  rewrite ?append_assoc. cbn [append]. rewrite ?append_assoc.
  cbn [append]. reflexivity.
Qed.

Lemma cleanupHtml_img_line :
  cleanupHtml (img_line src alt) = img_line_cleaned src alt.
Proof.
  destruct (value_chars src Hsrc) as (_ & Hs1 & Hs2 & Hs3).
  destruct (value_chars alt Halt) as (_ & Ha1 & Ha2 & Ha3).
  unfold cleanupHtml. cbv zeta.
  rewrite blank_lines_none
    by (unfold img_line, DQ; rewrite !all_chars_append, Hs3, Ha3;
        reflexivity).
  assert (Hp : replace_all re_empty_p (const "") (img_line src alt)
               = img_line src alt).
  { unfold replace_all, img_line, re_empty_p. cbn [seq].
    change ("<p><img src=" ++ DQ ++ src ++ DQ ++ " alt=" ++ DQ ++ alt ++ DQ
            ++ " /></p>")
      with (String "<" ("p><img src=" ++ DQ ++ src ++ DQ ++ " alt=" ++ DQ
                        ++ alt ++ DQ ++ " /></p>")).
    rewrite scan_keep by reflexivity.
    cbn [render]. f_equal. apply scan_lit_none.
    unfold DQ. find_skips find_none_skip Hs1 Ha1. }
  rewrite Hp.
  set (body := " " ++ render_attrs [("src", src); ("alt", alt)] ++ " /").
  assert (Hbody : has_char ">" body = false).
  { subst body. cbn [render_attrs]. unfold DQ.
    rewrite !has_char_append.
    rewrite all_chars_non in Hs2, Ha2. apply negb_true_iff in Hs2, Ha2.
    rewrite Hs2, Ha2. reflexivity. }
  assert (Himg : replace_all re_img_close
                   (fun m => "<img" ++ group 1 m ++ " />") (img_line src alt)
                 = "<p>" ++ ("<img" ++ body ++ " />") ++ "</p>").
  { rewrite img_line_tag. fold body. unfold replace_all.
    destruct (match_at_img_close body "</p>" (Some ">"%char) 3 Hbody)
      as (m & Hm & Htext & Hg).
    change ("<p>" ++ ("<img" ++ body ++ ">") ++ "</p>")
      with (String "<" (String "p" (String ">"
              (("<img" ++ body ++ ">") ++ "</p>")))).
    unfold re_img_close in Hm |- *. cbn [seq] in Hm |- *.
    rewrite !scan_keep by (apply match_at_lit_none; reflexivity).
    change ("<img" ++ body ++ ">") with (String "<" ("img" ++ body ++ ">"))
      in Hm, Htext |- *.
    rewrite (scan_hit _ _ _ _ _ _ _ Hm Htext).
    cbn [render]. rewrite Hg.
    rewrite scan_lit_none by reflexivity.
    cbn [append]. rewrite !append_assoc. reflexivity. }
  rewrite Himg. subst body.
  replace ("<p>" ++ ("<img" ++ (" " ++ render_attrs [("src", src); ("alt", alt)]
                                ++ " /") ++ " />") ++ "</p>")
    with (img_line_cleaned src alt).
  - unfold img_line_cleaned.
    replace (DQ ++ src ++ DQ ++ " alt=" ++ DQ ++ alt ++ DQ ++ " / /></p>")
      with ((DQ ++ src ++ DQ ++ " alt=" ++ DQ ++ alt ++ DQ ++ " / />")
            ++ "</p>")
      by (rewrite !append_assoc; reflexivity).
    rewrite (trim_tagged "<p><img src=");
      (reflexivity || discriminate).
  - rewrite img_line_cleaned_tag. cbn [append]. rewrite !append_assoc.
    reflexivity.
Qed.

(** The scanner on the line of an image whose tag is closed twice. *)
Lemma scan_line_img_cleaned :
  scan_line (img_line_cleaned src alt)
  = Some (Element "img" "" (Some (ImgAttrs [("alt", alt); ("src", src)]))).
Proof.
  destruct (value_chars src Hsrc) as (_ & _ & Hs & _).
  destruct (value_chars alt Halt) as (_ & _ & Ha & _).
  assert (Htrim : trim (img_line_cleaned src alt) = img_line_cleaned src alt).
  { unfold img_line_cleaned.
    replace (DQ ++ src ++ DQ ++ " alt=" ++ DQ ++ alt ++ DQ ++ " / /></p>")
      with ((DQ ++ src ++ DQ ++ " alt=" ++ DQ ++ alt ++ DQ ++ " / />")
            ++ "</p>")
      by (rewrite !append_assoc; reflexivity).
    apply (trim_tagged "<p><img src="); (reflexivity || discriminate). }
  unfold scan_line. rewrite Htrim.
  replace (negb (truthy (img_line_cleaned src alt))) with false
    by reflexivity.
  cbv iota.
  set (body := render_attrs [("src", src); ("alt", alt)] ++ " / /").
  assert (Hbody : all_chars (non ">") body = true).
  { subst body. cbn [render_attrs]. unfold DQ.
    rewrite !all_chars_append, Hs, Ha. reflexivity. }
  assert (Hm : exists m,
             exec re_img (img_line_cleaned src alt) = Some m
             /\ group 1 m = body).
  { rewrite img_line_cleaned_tag. fold body. unfold exec.
    cbn [append].
    rewrite !search_step by (apply match_at_lit_none; reflexivity).
    assert (Hshape : exists body', body = String "s" body')
      by (subst body; cbn [render_attrs append]; eexists; reflexivity).
    destruct Hshape as [body' Hshape]. rewrite Hshape in *.
    destruct (match_at_img "s" body' "</p>" (Some ">"%char) 3 eq_refl Hbody)
      as (m & Hm & Hg).
    exists m. split; [|exact Hg].
    apply search_now. exact Hm. }
  destruct Hm as (m & -> & ->). subst body.
  rewrite parseAttributes_rendered
    by (exact (img_attrs_ok src alt Hsrc Halt) || reflexivity).
  reflexivity.
Qed.

End CleanImage.

(* ------------------------------------------------------------------ *)
(** *** The scanner: heading lines *)

Section HeadingLines.

(** A pattern that starts in a text and goes on in the text that follows
    ends in the first one, when no end of the pattern starts the second
    one. *)
Lemma startsWith_straddle_gen (w : string) :
  forall q : string,
    (forall k, k < String.length q -> startsWith w (drop k q) = false) ->
    forall u, startsWith (u ++ w) q = true -> startsWith u q = true.
Proof.
  induction q as [|p q IH]; intros Hw u H; [apply startsWith_nil|].
  destruct u as [|c u].
  - cbn [append] in H.
    assert (H0 : startsWith w (String p q) = false)
      by (apply (Hw 0); cbn [String.length]; lia).
    rewrite H0 in H. discriminate.
  - cbn [append startsWith] in *. apply andb_true_iff in H.
    destruct H as [Hc H]. rewrite Hc. cbn [andb].
    apply IH; [|exact H].
    intros k Hk. apply (Hw (S k)). cbn [String.length]. lia.
Qed.

Lemma find_none_app_gen (pat t w : string) :
  (forall k, k < String.length pat -> startsWith w (drop k pat) = false) ->
  find pat t = None -> find pat w = None ->
  find pat (t ++ w) = None.
Proof.
  intros Hw Ht Hfw. induction t as [|c t IH]; [exact Hfw|].
  apply find_tail in Ht. destruct Ht as [Hs Ht].
  change (String c t ++ w) with (String c (t ++ w)).
  cbn [find]. rewrite (IH Ht).
  destruct (startsWith (String c (t ++ w)) pat) eqn:E; [|reflexivity].
  change (String c (t ++ w)) with (String c t ++ w) in E.
  apply (startsWith_straddle_gen w pat Hw) in E.
  rewrite E in Hs. discriminate.
Qed.

Variables (d d' : ascii) (t : string).
Hypothesis Hd : In d heading_digits.
Hypothesis Hd' : In d' heading_digits.
Hypothesis Ht : heading_content t.

Lemma heading_digit_between (c : ascii) :
  In c heading_digits -> between "1" "6" c = true.
Proof.
  intros H. simpl in H.
  repeat (destruct H as [<-|H]; [reflexivity|]). contradiction.
Qed.

(** The heading pattern on a heading line: the level is the one of the
    opening tag, the content goes up to the closing tag. *)
Lemma exec_heading_line :
  exists m,
    exec re_heading (heading_line d d' t) = Some m
    /\ group 1 m = String d ""
    /\ group 2 m = t.
Proof.
  destruct Ht as (Hdot & _ & _ & Hclose0).
  pose proof (heading_digit_between d Hd) as Hb.
  pose proof (heading_digit_between d' Hd') as Hb'.
  set (digit := between "1" "6") in *.
  set (tail := Seq (lit "</h") (Seq (Cls digit) (Chr ">"))).
  assert (Hm : exists m,
             match_at re_heading None 0 (heading_line d d' t) = Some m
             /\ group 1 m = String d ""
             /\ group 2 m = t).
  { unfold match_at, heading_line.
    change re_heading
      with (Seq (lit "<h")
              (Seq (Grp 1 (Cls digit))
                 (Seq (Chr ">") (Seq (Grp 2 (Star dot false)) tail)))).
    rewrite mt_Seq.
    match goal with
    | |- context [mt (lit "<h") ?k ?st] =>
        pose proof (mt_lit "<h" k st) as Hlit
    end.
    cbn [rest pos caps] in Hlit.
    rewrite startsWith_app in Hlit. destruct Hlit as [pv1 ->].
    rewrite drop_app_exact.
    rewrite mt_Seq, mt_Grp, mt_Cls. cbn [rest]. rewrite Hb.
    rewrite mt_Seq, mt_Chr. cbn [capture step rest append].
    rewrite Ascii.eqb_refl.
    rewrite mt_Seq, mt_Grp, mt_Star.
    cbn [step prev pos caps rest capture String.length Nat.add].
    rewrite (star_lazy_to dot _ "</h"); [| |exact Hdot|].
    2:{ intros st Hst. unfold tail. rewrite mt_Seq.
        match goal with
        | |- mt (lit "</h") ?k ?c = None =>
            pose proof (mt_lit "</h" k c) as H
        end.
        cbn [capture rest] in H. rewrite Hst in H. exact H. }
    2:{ apply (find_first "<" "/h" t (String d' ">")); [reflexivity|].
        exact Hclose0. }
    match goal with
    | |- context [star dot false ?k ?pv ?i ?cs ?s] =>
        assert (Hclose : exists c,
                   k (Cursor pv i s cs) = Some c
                   /\ lookup 1 (caps c) = String d ""
                   /\ lookup 2 (caps c) = t)
    end.
    { unfold tail. rewrite mt_Seq.
      match goal with
      | |- exists c, mt (lit "</h") ?k ?c0 = Some c /\ _ =>
          pose proof (mt_lit "</h" k c0) as H
      end.
      cbn [capture rest pos caps prev] in H.
      change ("</h" ++ String d' ">")
        with (String "<" (String "/" (String "h" (String d' ">")))) in H.
      cbn [startsWith Ascii.eqb Bool.eqb andb] in H.
      destruct H as [pv2 ->].
      cbn [drop String.length].
      rewrite mt_Seq, mt_Cls. cbn [rest]. rewrite Hb'.
      rewrite mt_Chr. cbn [step rest]. rewrite Ascii.eqb_refl.
      eexists. split; [reflexivity|].
      cbn [step caps lookup Nat.eqb pos rest].
      split; [reflexivity|].
      cbn [capture step pos].
      replace (4 + String.length t - 4) with (String.length t) by lia.
      apply take_app_exact. }
    destruct Hclose as (c & Hc & H1 & H2).
    erewrite star_lazy_now by exact Hc.
    eexists. split; [reflexivity|].
    unfold group. cbn [m_caps]. split; assumption. }
  destruct Hm as (m & Hm & Hg). exists m. split; [|exact Hg].
  unfold exec. apply search_now, Hm.
Qed.

(** A pattern that is found neither in the content nor in the tags of a
    heading line, and that cannot start in the content and end in the
    closing tag, is not found in the line. *)
Lemma find_heading_line (pat : string) :
  pat = "<img" \/ pat = "<pre><code" ->
  find pat (heading_line d d' t) = None.
Proof.
  intros Hpat. destruct Ht as (_ & Himg & Hpre & _).
  assert (Hrest : find pat (t ++ "</h" ++ String d' ">") = None).
  { apply find_none_app_gen.
    - intros k Hk. destruct Hpat as [-> | ->];
        cbn [String.length] in Hk;
        do 10 (destruct k as [|k]; [first [reflexivity | lia]|]); lia.
    - destruct Hpat as [-> | ->]; assumption.
    - pose proof Hd' as Hx. simpl in Hx.
      destruct Hpat as [-> | ->];
        repeat (destruct Hx as [E|Hx]; [rewrite <- E; reflexivity|]);
        contradiction. }
  unfold heading_line.
  set (tl := t ++ "</h" ++ String d' ">") in *.
  pose proof Hd as Hx. simpl in Hx.
  destruct Hpat as [-> | ->];
    repeat (destruct Hx as [E|Hx]; [
      rewrite <- E;
      change (">" ++ tl) with (String ">" tl);
      cbn [append find startsWith Ascii.eqb Bool.eqb andb];
      rewrite Hrest; reflexivity |]);
    contradiction.
Qed.

Lemma trim_heading_line :
  trim (heading_line d d' t) = heading_line d d' t.
Proof.
  unfold heading_line.
  replace (String d (">" ++ t ++ "</h" ++ String d' ">"))
    with (String d (">" ++ t ++ "</h" ++ String d' "") ++ ">")
    by (cbn [append]; rewrite !append_assoc; reflexivity).
  apply trim_tagged; (reflexivity || discriminate).
Qed.

Lemma scan_line_heading :
  scan_line (heading_line d d' t)
  = Some (Element (String "h" (String d "")) t None).
Proof.
  unfold scan_line. cbv zeta. rewrite trim_heading_line.
  change (truthy (heading_line d d' t)) with true. cbn [negb].
  replace (exec re_img (heading_line d d' t)) with (@None rmatch)
    by (symmetry; apply (exec_lit_none "<img"), find_heading_line; auto).
  destruct exec_heading_line as (m & -> & -> & ->).
  reflexivity.
Qed.

Lemma parseHtmlElements_heading :
  parseHtmlElements (heading_line d d' t)
  = [Element (String "h" (String d "")) t None].
Proof.
  rewrite parse_one_line.
  - rewrite scan_line_heading. reflexivity.
  - destruct Ht as (Hdot & _). unfold heading_line.
    pose proof Hd as Hx. pose proof Hd' as Hx'. simpl in Hx, Hx'.
    apply dot_not_LF in Hdot.
    repeat (destruct Hx as [E|Hx]; [
      rewrite <- E;
      repeat (destruct Hx' as [E'|Hx']; [
        rewrite <- E';
        cbn [append all_chars]; rewrite all_chars_append, Hdot;
        reflexivity |]);
      contradiction |]).
    contradiction.
  - apply find_heading_line. auto.
Qed.

End HeadingLines.

(** An element tagged as a heading comes from the heading pattern: its
    level is the digit the pattern read, its content the second group. *)
Lemma scan_line_heading_from (line : string) (e : element) :
  scan_line line = Some e ->
  In (tag e) ["h1"; "h2"; "h3"; "h4"; "h5"; "h6"] ->
  exists m,
    exec re_heading (trim line) = Some m
    /\ tag e = "h" ++ group 1 m
    /\ content e = group 2 m.
Proof.
  unfold scan_line.
  destruct (truthy (trim line)); [|discriminate]. cbn [negb].
  destruct (exec re_img _);
    [intros [= <-] Hin; simpl in Hin; intuition discriminate|].
  destruct (exec re_heading _) as [m|] eqn:Eh.
  { intros [= <-] _. exists m. repeat split. }
  repeat match goal with
         | |- context [match ?o with Some _ => _ | None => _ end] =>
             match type of o with option rmatch => destruct o end
         | |- context [if ?b then _ else _] =>
             match type of b with bool => destruct b end
         end;
    try discriminate; intros [= <-] Hin; simpl in Hin;
    intuition discriminate.
Qed.

(* ================================================================== *)
(** ** The statements of the specification *)
(* ================================================================== *)

(** C1 (as stated, refuted): three scanned images, the check of exactly one
    of them fails, and [imagesProcessed] is 2, not 3. *)
Lemma imagesProcessed_not_scanned_images :
  exists r st,
    run (markdownToNotion (stub all_but_b) three_images "secret" "parent" None)
        tt
    = (Returned r, st)
    /\ count (fun e => (tag e =? "img")%string)
             (parseHtmlElements
                (markdownToHtml (makeHtml (stub all_but_b)) three_images)) = 3
    /\ count fetch_failed (trace st) = 1
    /\ imagesProcessed r = 2
    /\ imagesProcessed r <> 3.
Proof.
  eexists. eexists. split; [vm_compute; reflexivity|].
  repeat split; try (vm_compute; reflexivity).
  vm_compute. discriminate.
Qed.

(** C1 (amended): [imagesProcessed] counts the image blocks that were
    built, which are as many as the reachability checks that succeeded; a
    scanned image with a source gives an image block or a callout block, and
    the callout blocks are not counted.  With three such images and one
    callout, [imagesProcessed] is 2. *)
Theorem imagesProcessed_counts_image_blocks :
  forall (W : Type) (P : platform W) (content key parent : string)
         (title0 : option string) (w : W)
         (r : HtmlToNotionResult) (st : state W),
    run (markdownToNotion P content key parent title0) w = (Returned r, st) ->
    let elements := parseHtmlElements (markdownToHtml (makeHtml P) content) in
    imagesProcessed r = count fetch_ok (trace st)
    /\ exists blocks,
        built P elements blocks
        /\ imagesProcessed r = count is_image blocks
        /\ imagesProcessed r + count is_callout blocks
           = count img_with_src elements
        /\ (count img_with_src elements = 3 ->
            count is_callout blocks = 1 ->
            imagesProcessed r = 2).
Proof.
  intros W P content key parent title0 w r st Hrun elements.
  apply markdownToNotion_returns in Hrun.
  destruct Hrun as (blocks & checks & locale & Hrun). cbv zeta in Hrun.
  destruct Hrun as (Hbuilt & Hfetch & Hok & Himg & Htrace & _ & Hcount & _).
  split.
  - rewrite Htrace, count_app.
    change (PagesCreate parent (title r) :: ?l)
      with ([PagesCreate parent (title r)] ++ l)%list.
    rewrite count_app.
    destruct (submission_delays (notionPageId r)
                (chunks (List.length (timestampBlock locale :: dividerBlock :: blocks))
                        (timestampBlock locale :: dividerBlock :: blocks)))
      as (_ & _ & ->).
    change (count fetch_ok [PagesCreate parent (title r)]) with 0.
    lia.
  - exists blocks. fold elements in Hbuilt, Himg.
    repeat split; try assumption; lia.
Qed.

Lemma imagesProcessed_counts_image_blocks_witness :
  exists r st,
    run (markdownToNotion (stub all_but_b) three_images "secret" "parent" None)
        tt
    = (Returned r, st)
    /\ imagesProcessed r = count fetch_ok (trace st)
    /\ imagesProcessed r = 2.
Proof.
  destruct (run (markdownToNotion (stub all_but_b) three_images "secret"
                   "parent" None) tt) as [[r|e] st] eqn:E;
    [|vm_compute in E; discriminate].
  exists r, st. split; [reflexivity|].
  destruct (imagesProcessed_counts_image_blocks unit (stub all_but_b)
              three_images "secret" "parent" None tt r st E)
    as (Hok & blocks & _ & _ & Hsum & H3).
  split; [exact Hok|].
  assert (Hcount : count img_with_src
                     (parseHtmlElements
                        (markdownToHtml (makeHtml (stub all_but_b))
                           three_images)) = 3)
    by (vm_compute; reflexivity).
  assert (Hr : imagesProcessed r = 2)
    by (vm_compute in E; injection E as <- <-; reflexivity).
  apply (H3 Hcount). rewrite Hcount in Hsum. lia.
Defined.

(** C2 (the code at the failing input): called without an API key,
    [markdownToNotion] sends nothing, but what it throws is the error of the
    [catch] clause, with status 500: the error with status 400 is thrown
    inside the [try] block and caught there. *)
Theorem markdownToNotion_missing_key_is_500 :
  forall (W : Type) (P : platform W) (w : W) (content parentPageId : string)
         (title : option string),
  exists e,
    run (markdownToNotion P content "" parentPageId title) w
    = (Threw e, State w [])
    /\ statusCode e = Some 500
    /\ statusCode e <> Some 400.
Proof.
  intros W P w content parentPageId title.
  unfold run, markdownToNotion, try_catch, bind, throw. simpl.
  destruct (createError_is_Error P);
    (eexists; split; [reflexivity | split; [reflexivity | discriminate]]).
Qed.

(** C3 (as stated, refuted): a source with no heading whose first line is
    empty and whose second line, the first one that is not empty, is
    [hello].  The title is not [hello]. *)
Lemma title_is_not_first_nonempty_line :
  ~ (forall content line : string,
        no_atx_heading content ->
        first_line content = "" ->
        first_nonempty_line content = Some line ->
        extractTitleFromContent content = trim (drop_while (one "#") line)).
Proof.
  intros H.
  specialize (H (nl ++ "hello") "hello").
  assert (E : extractTitleFromContent (nl ++ "hello") = untitled)
    by (vm_compute; reflexivity).
  rewrite E in H.
  assert (Hno : no_atx_heading (nl ++ "hello"))
    by (split; vm_compute; reflexivity).
  specialize (H Hno eq_refl eq_refl).
  vm_compute in H. discriminate.
Qed.

(** C3 (amended): without an explicit title, the title is the trimmed text
    of the first match of the H1 pattern (so, after a text without [#], the
    text of the first line made of a [#], white space and a text), else
    that of the H2 pattern, else the first line of the source (the text
    before the first line feed) with its leading [#] marks stripped and
    trimmed when that line is not empty, else the placeholder.  So a source
    with no heading and an empty first line gets the placeholder, whatever
    its later lines are. *)
Theorem title_resolution :
  (forall (pre : string) (c0 : ascii) (sp' : string) (c : ascii)
          (t' more : string),
      has_char "#" pre = false -> line_starts pre = true ->
      isWhiteSpace c0 = true -> all_chars isWhiteSpace sp' = true ->
      isWhiteSpace c = false -> all_chars dot (String c t') = true ->
      line_ends more = true ->
      extractTitleFromContent
        (pre ++ "#" ++ String c0 sp' ++ String c t' ++ more)
      = trim (String c t'))
  /\ (forall content : string,
         (forall m, exec (re_title "#") content = Some m ->
                    extractTitleFromContent content = trim (group 1 m))
         /\ (exec (re_title "#") content = None ->
             forall m, exec (re_title "##") content = Some m ->
                       extractTitleFromContent content = trim (group 1 m))
         /\ (no_atx_heading content ->
             extractTitleFromContent content
             = if truthy (first_line content)
               then trim (drop_while (one "#") (first_line content))
               else untitled)
         /\ (no_atx_heading content -> first_line content = "" ->
             extractTitleFromContent content = untitled)
         /\ (has_char "#" content = false -> no_atx_heading content)).
Proof.
  split; [exact title_from_h1_line|].
  intros content. repeat split.
  - intros m H. unfold extractTitleFromContent. rewrite H. reflexivity.
  - intros H1 m H2. unfold extractTitleFromContent. rewrite H1, H2. reflexivity.
  - apply title_from_first_line.
  - intros Hno Hfirst. rewrite title_from_first_line by exact Hno.
    rewrite Hfirst. reflexivity.
  - apply (no_mark_no_heading content H).
  - apply (no_mark_no_heading content H).
Qed.

Lemma title_resolution_witness :
  extractTitleFromContent
    ("intro" ++ nl ++ "#" ++ "  " ++ "First  " ++ nl ++ "# Second") = "First"
  /\ extractTitleFromContent ("## Later" ++ nl ++ "# First  " ++ nl ++ "text")
     = "First"
  /\ extractTitleFromContent ("text" ++ nl ++ "## Second") = "Second"
  /\ extractTitleFromContent ("##draft  " ++ nl ++ "text") = "draft"
  /\ extractTitleFromContent (nl ++ "hello") = untitled.
Proof.
  split; [|split; [|split; [|split]]].
  - apply (proj1 title_resolution ("intro" ++ nl) " "%char " " "F"%char
             "irst  " (nl ++ "# Second"));
      reflexivity.
  - destruct (exec (re_title "#") ("## Later" ++ nl ++ "# First  " ++ nl ++ "text"))
      as [m|] eqn:E; [|vm_compute in E; discriminate].
    rewrite (proj1 (proj2 title_resolution _) m E).
    vm_compute in E. injection E as <-. vm_compute. reflexivity.
  - destruct (exec (re_title "##") ("text" ++ nl ++ "## Second"))
      as [m|] eqn:E; [|vm_compute in E; discriminate].
    assert (E1 : exec (re_title "#") ("text" ++ nl ++ "## Second") = None)
      by (vm_compute; reflexivity).
    rewrite (proj1 (proj2 (proj2 title_resolution _)) E1 m E).
    vm_compute in E. injection E as <-. vm_compute. reflexivity.
  - rewrite (proj1 (proj2 (proj2 (proj2 title_resolution _)))).
    + vm_compute. reflexivity.
    + split; vm_compute; reflexivity.
  - apply (proj1 (proj2 (proj2 (proj2 (proj2 title_resolution (nl ++ "hello")))))).
    + split; vm_compute; reflexivity.
    + reflexivity.
Defined.

(** C4: when the conversion returns, what was submitted is the timestamp
    paragraph, the divider and then the built blocks, in the order their
    elements were scanned; these [n + 2] blocks went out in consecutive
    batches of at most 100 (all of 100 but the last), one call per batch in
    order, with a pause of 200 ms after each batch but the last.  For 250
    built blocks: three calls, of 100, 100 and 52 blocks, and two pauses. *)
Theorem blocks_submitted_in_batches :
  forall (W : Type) (P : platform W) (content key parent : string)
         (title0 : option string) (w : W)
         (r : HtmlToNotionResult) (st : state W),
    run (markdownToNotion P content key parent title0) w = (Returned r, st) ->
    submitted_in_batches P content parent r st.
Proof.
  intros W P content key parent title0 w r st Hrun.
  apply markdownToNotion_returns in Hrun.
  destruct Hrun as (blocks & checks & locale & Hrun). cbv zeta in Hrun.
  destruct Hrun as (Hbuilt & Hfetch & _ & _ & Htrace & Hcreated & _ & Hbatches).
  set (allBlocks := timestampBlock locale :: dividerBlock :: blocks) in *.
  set (bs := chunks (List.length allBlocks) allBlocks) in *.
  destruct (submission_delays (notionPageId r) bs) as (Hdelays & Happends & _).
  assert (Happ : count is_append (trace st) = List.length bs).
  { rewrite Htrace, count_app, (count_checks is_append) by auto.
    exact Happends. }
  assert (Hdel : count is_delay (trace st) = List.length bs - 1).
  { rewrite Htrace, count_app, (count_checks is_delay) by auto.
    exact Hdelays. }
  assert (Hsizes : map (@List.length block) bs
                   = sizes (List.length allBlocks) (List.length allBlocks))
    by (apply chunks_sizes; reflexivity).
  exists blocks, checks, locale, bs.
  repeat match goal with |- _ /\ _ => split end;
    try assumption.
  - apply concat_chunks. reflexivity.
  - apply chunks_bounded.
  - apply chunks_full_but_last. reflexivity.
  - rewrite Hcreated. subst allBlocks. cbn [List.length]. lia.
  - rewrite Hbatches. symmetry. apply length_chunks. reflexivity.
  - intros H250.
    assert (Hlen : List.length allBlocks = 252)
      by (subst allBlocks; cbn [List.length]; lia).
    rewrite Hlen in Hsizes.
    assert (H3 : List.length bs = 3)
      by (rewrite <- (length_map (@List.length block)), Hsizes;
          vm_compute; reflexivity).
    rewrite Happ, Hdel, H3. repeat split. rewrite Hsizes.
    vm_compute. reflexivity.
Qed.

Lemma blocks_submitted_in_batches_witness :
  exists r st,
    run (markdownToNotion (stub all_but_b) (paragraphs 250) "secret" "parent"
           None) tt
    = (Returned r, st)
    /\ submitted_in_batches (stub all_but_b) (paragraphs 250) "parent" r st
    /\ blocksCreated r = 252
    /\ batches r = 3
    /\ count is_append (trace st) = 3
    /\ count is_delay (trace st) = 2.
Proof.
  destruct (run (markdownToNotion (stub all_but_b) (paragraphs 250) "secret"
                   "parent" None) tt) as [[r|e] st] eqn:E;
    [|vm_compute in E; discriminate].
  exists r, st. split; [reflexivity|].
  pose proof (blocks_submitted_in_batches unit (stub all_but_b)
                (paragraphs 250) "secret" "parent" None tt r st E) as H.
  split; [exact H|].
  destruct H as (blocks & checks & locale & bs & _ & _ & _ & _ & _ & _ & _ & _
                 & Hcreated & Hbatches & H250).
  assert (Hr : blocksCreated r = 252 /\ batches r = 3)
    by (vm_compute in E; injection E as <- <-; split; reflexivity).
  destruct Hr as [Hr1 Hr2].
  destruct (H250 ltac:(lia)) as (_ & Happ & Hdel).
  repeat split; assumption.
Defined.

(** C5 (the code at the failing input): a code block of two lines whose
    first line holds a backslash followed by the letter n, as in
    [printf('a\nb');].  The pre-pass leaves these two characters as they
    are, the un-escape turns them into a line feed, and the content of the
    code block is not the interior text any more. *)
Theorem code_block_escape_loses_backslash_n :
  let interior := "printf('a\nb');" ++ nl ++ "return;" in
  parseHtmlElements (code_line interior)
  = [Element "pre" "printf('a\nb');\nreturn;" (Some (PreAttrs (VStr "plain text")))]
  /\ run (htmlToNotionBlocks (stub all_but_b) (code_line interior)) tt
     = (Returned
          [CodeBlock [plain ("printf('a" ++ nl ++ "b');" ++ nl ++ "return;")]
                     (VStr "plain text")],
        State tt [])
  /\ "printf('a" ++ nl ++ "b');" ++ nl ++ "return;" <> interior.
Proof.
  repeat split; try (vm_compute; reflexivity).
  vm_compute. discriminate.
Qed.

(** C6 (the code at the failing input): ["constructor"] is no alias and no
    supported language, yet [normalizeLanguage] does not answer
    ["plain text"]: [languageMap[language]] finds the member every object
    inherits and the function returns it, a value that is not a string. *)
Theorem normalizeLanguage_constructor :
  assoc "constructor" languageMap = None
  /\ mem "constructor" supportedLanguages = false
  /\ normalizeLanguage "constructor" = VInherited "constructor"
  /\ normalizeLanguage "constructor" <> VStr "plain text".
Proof.
  repeat split; try (vm_compute; reflexivity).
  vm_compute. discriminate.
Qed.

(** C7: ["plain <strong>bold</strong> text"] gives exactly three runs, in
    this order: the unstyled run ["plain "], the bold run ["bold"] and the
    unstyled run [" text"]. *)
Theorem htmlToRichText_plain_bold_text :
  htmlToRichText "plain <strong>bold</strong> text"
  = [plain "plain "; styled ann_bold "bold"; plain " text"].
Proof. vm_compute. reflexivity. Qed.




(** C9: for every input the tokenizer loop ends by itself within
    [S (length html)] turns and [htmlToRichText] returns at least one run;
    the empty string gives the single run with the empty text, and a string
    of unrecognised or unmatched tags gives one run as well; hence every
    block built with a [rich_text] array has a run in it, and so has every
    such block that a conversion appends to the page. *)
Theorem htmlToRichText_terminates_nonempty :
  (forall html : string,
      (exists cur rt,
          tokenize (S (String.length html)) html 0 "" [] = Some (cur, rt))
      /\ htmlToRichText html <> [])
  /\ htmlToRichText "" = [plain ""]
  /\ htmlToRichText "<br><span></u>" = [plain "<br><span></u>"]
  /\ htmlToRichText "<strong><em" = [plain "<strong><em"]
  /\ (forall (W : Type) (P : platform W) (e : element) (st st' : state W)
             (b : block) (r : list rich_text),
         elementToNotionBlock P e st = (Returned (Some b), st') ->
         block_rich_text b = Some r ->
         r <> [])
  /\ (forall (W : Type) (P : platform W) (content key parent : string)
             (title0 : option string) (w : W)
             (r : HtmlToNotionResult) (st : state W)
             (page : string) (children : list block) (b : block)
             (rt : list rich_text),
         run (markdownToNotion P content key parent title0) w
         = (Returned r, st) ->
         In (BlocksAppend page children) (trace st) ->
         In b children ->
         block_rich_text b = Some rt ->
         rt <> []).
Proof.
  split; [|split; [|split; [|split; [|split]]]].
  - intros html. split;
      [apply tokenize_terminates | apply htmlToRichText_not_nil].
  - vm_compute. reflexivity.
  - vm_compute. reflexivity.
  - vm_compute. reflexivity.
  - intros W P. apply elementToNotionBlock_rich_text.
  - intros W P. apply appended_blocks_have_runs.
Qed.

Lemma htmlToRichText_terminates_nonempty_witness :
  [plain ""] <> []
  /\ [styled ann_italic_gray "创建时间: 2024/1/1 00:00:00"] <> [].
Proof.
  split.
  - apply (proj1 (proj2 (proj2 (proj2 (proj2 htmlToRichText_terminates_nonempty))))
             unit (stub all_but_b) (Element "li" "" None)
             (State tt []) (State tt []) (BulletedListItem [plain ""])
             [plain ""]);
      reflexivity.
  - eapply (proj2 (proj2 (proj2 (proj2 (proj2 htmlToRichText_terminates_nonempty))))
              unit (stub all_but_b) three_images "secret" "parent" None tt).
    + vm_compute. reflexivity.
    + cbn [trace]. do 4 right. left. reflexivity.
    + left. reflexivity.
    + reflexivity.
Defined.

(** C10: a styled run of the tokenizer holds a piece of the fragment passed
    through [stripHtmlTags], and so does every cell of a scanned table row;
    [stripHtmlTags] removes the tags (what is left has no [<] with a [>]
    after it), then decodes the five entities, then trims, so its result
    has no white space at either end ([<strong> bold </strong>] gives the
    bold run ["bold"]); an unstyled run holds a piece of the fragment as it
    stands, white space included. *)
Theorem styled_runs_and_cells_are_stripped :
  (forall (html : string) (r : rich_text),
      In r (htmlToRichText html) ->
      match text_annotations r with
      | Some style =>
          In style [ann_bold; ann_italic; ann_code; ann_strikethrough]
          /\ exists a b, text_content r = stripHtmlTags (substring html a b)
      | None => exists a b, text_content r = substring html a b
      end)
  /\ (forall (html : string) (e : element) (cells : list string),
         In e (parseHtmlElements html) ->
         attrs_of e = Some (RowAttrs cells) ->
         exists inner, cells = map stripHtmlTags inner)
  /\ (forall s : string,
         stripHtmlTags s = trim (decode_entities (remove_tags 0 s))
         /\ has_tag (remove_tags 0 s) = false
         /\ trim (stripHtmlTags s) = stripHtmlTags s)
  /\ stripHtmlTags " <a href='x'>1 &lt; 2 &amp;&amp; 3 &gt; 2</a> &quot;q&quot; &#39;s&#39; <br/> "
     = "1 < 2 && 3 > 2 " ++ DQ ++ "q" ++ DQ ++ " 's'"
  /\ htmlToRichText "<strong> bold </strong>" = [styled ann_bold "bold"]
  /\ htmlToRichText " a <em> <i>b</i> </em> c  <code> d </code>"
     = [plain " a "; styled ann_italic "b"; plain " c  "; styled ann_code "d"]
  /\ parseHtmlElements "<tr><th> <b>x</b> </th><td> 1 &lt; 2 </td></tr>"
     = [Element "table-row" "" (Some (RowAttrs ["x"; "1 < 2"]))].
Proof.
  split; [|split; [|split; [|repeat split; vm_compute; reflexivity]]].
  - intros html r Hin.
    pose proof (htmlToRichText_runs html) as Hall.
    rewrite Forall_forall in Hall. exact (Hall r Hin).
  - exact parseHtmlElements_cells.
  - intros s. split; [apply stripHtmlTags_spec|].
    split; [apply (remove_tags_no_tag (String.length s)); reflexivity|].
    unfold stripHtmlTags. apply trim_idem.
Qed.

Lemma styled_runs_and_cells_are_stripped_witness :
  (In ann_bold [ann_bold; ann_italic; ann_code; ann_strikethrough]
   /\ exists a b, "bold" = stripHtmlTags (substring "<strong> bold </strong>" a b))
  /\ exists inner, ["x"; "1 < 2"] = map stripHtmlTags inner.
Proof.
  split.
  - apply (proj1 styled_runs_and_cells_are_stripped
             "<strong> bold </strong>" (styled ann_bold "bold")).
    vm_compute. left. reflexivity.
  - apply (proj1 (proj2 styled_runs_and_cells_are_stripped)
             "<tr><th> <b>x</b> </th><td> 1 &lt; 2 </td></tr>"
             (Element "table-row" "" (Some (RowAttrs ["x"; "1 < 2"])))).
    + vm_compute. left. reflexivity.
    + reflexivity.
Defined.

(* ================================================================== *)
(** ** Further properties of the service *)
(* ================================================================== *)

(* ------------------------------------------------------------------ *)
(** *** Conversions: failures and requests *)

(** X1: a conversion that fails throws an error of status 500 made from
    its cause.  The cause is the error of the guard of the key or of the
    page identifier, the error with which the client refused to create
    the page, or the error with which it refused to append a batch; the
    message of what is thrown is the message of that cause after a fixed
    prefix, or the fixed text of the unknown error when the cause is no
    [Error]. *)
Theorem failures_are_reported_as_500 :
  forall (W : Type) (P : platform W) (content key parent : string)
         (title0 : option string) (w : W) (e : thrown) (st : state W),
    run (markdownToNotion P content key parent title0) w = (Threw e, st) ->
    statusCode e = Some 500
    /\ exists cause,
        failure_cause P content key parent title0 cause
        /\ message e
           = (if is_Error cause then "创建子页面失败: " ++ message cause
              else "创建子页面过程中发生未知错误").
Proof.
  intros W P content key parent title0 w e st Hrun.
  destruct (markdownToNotion_cause P content key parent title0 w e st Hrun)
    as (cause & Hcause & Hstatus & Hmessage).
  split; [exact Hstatus|].
  exists cause. split; assumption.
Qed.

Lemma failures_are_reported_as_500_witness :
  exists e st,
    run (markdownToNotion (refusing unauthorized) "# T" "secret" "parent" None)
        tt
    = (Threw e, st)
    /\ statusCode e = Some 500
    /\ message e = "创建子页面失败: API token is invalid.".
Proof.
  destruct (run (markdownToNotion (refusing unauthorized) "# T" "secret"
                   "parent" None) tt) as [[r|e] st] eqn:E;
    [vm_compute in E; discriminate|].
  exists e, st. split; [reflexivity|].
  destruct (failures_are_reported_as_500 unit (refusing unauthorized)
              "# T" "secret" "parent" None tt e st E)
    as (Hstatus & cause & Hcause & Hmessage).
  split; [exact Hstatus|].
  destruct Hcause
    as [(Hk & _)|[(_ & Hp & _)|[(_ & _ & w & Hc)|(_ & _ & pg & b & w & Hc)]]];
    try discriminate.
  injection Hc as <-. exact Hmessage.
Defined.

(** X2: when the client refuses to create the page, the conversion throws
    the error of status 500 with the client's message after the prefix (the
    status of the client's error is lost), and what was sent is the requests
    of the reachability checks and then the one call that asked for the
    page under the resolved title: no block is appended. *)
Theorem rejected_page_creation_appends_nothing :
  forall (W : Type) (P : platform W) (content key parent : string)
         (title0 : option string) (w : W) (err : thrown),
    truthy key = true -> truthy parent = true ->
    (forall t w1, fst (pages_create P parent t w1) = inl err) ->
    exists e st checks,
      run (markdownToNotion P content key parent title0) w = (Threw e, st)
      /\ statusCode e = Some 500
      /\ message e
         = (if is_Error err then "创建子页面失败: " ++ message err
            else "创建子页面过程中发生未知错误")
      /\ trace st
         = (checks ++ [PagesCreate parent (resolved_title title0 content)])%list
      /\ forallb is_fetch checks = true
      /\ count is_append (trace st) = 0.
Proof.
  intros W P content key parent title0 w err Hkey Hparent Hrej.
  unfold run, markdownToNotion, try_catch, bind. cbv beta zeta.
  rewrite Hkey, Hparent. cbn [negb]. unfold ret at 1 2.
  unfold htmlToNotionBlocks.
  destruct (build_blocks P _ [] (State w [])) as [[blocks|err'] st1] eqn:Hb.
  2:{ destruct (htmlToNotionBlocks_returns P
                  (markdownToHtml (makeHtml P) content) (State w []))
        as (bs & st' & E).
      unfold htmlToNotionBlocks in E. rewrite E in Hb. discriminate. }
  apply build_blocks_inv in Hb.
  destruct Hb as (new & checks & _ & Ht & Hfetch & _).
  fold (resolved_title title0 content). unfold pagesCreate.
  specialize (Hrej (resolved_title title0 content) (world st1)).
  destruct (pages_create P parent _ (world st1)) as [[err'|page] w2];
    simpl in Hrej; [injection Hrej as ->|discriminate].
  exists (if is_Error err
          then createError P ("创建子页面失败: " ++ message err) 500
          else createError P "创建子页面过程中发生未知错误" 500),
         (emit (PagesCreate parent (resolved_title title0 content))
               (State w2 (trace st1))),
         checks.
  split; [destruct (is_Error err); reflexivity|].
  split; [destruct (is_Error err); reflexivity|].
  split; [destruct (is_Error err); reflexivity|].
  unfold emit, push. cbn [trace]. rewrite Ht. cbn [trace app].
  split; [reflexivity|]. split; [exact Hfetch|].
  rewrite count_app, (count_checks is_append) by auto. reflexivity.
Qed.

Lemma rejected_page_creation_appends_nothing_witness :
  exists e st,
    run (markdownToNotion (refusing unauthorized) three_images "secret"
           "parent" (Some "T")) tt
    = (Threw e, st)
    /\ message e = "创建子页面失败: API token is invalid."
    /\ count is_append (trace st) = 0.
Proof.
  destruct (rejected_page_creation_appends_nothing unit (refusing unauthorized)
              three_images "secret" "parent" (Some "T") tt unauthorized
              eq_refl eq_refl (fun _ _ => eq_refl))
    as (e & st & checks & Hrun & _ & Hmsg & _ & _ & Happ).
  exists e, st. repeat split; assumption.
Defined.

(** X3: whatever the outcome of a conversion, the only HEAD requests it
    sends are reachability checks of scanned images: each goes to the source
    of an image element of the scanned HTML, a source that is not empty and
    that parses as a URL; and they are all sent before the page is asked
    for: no request follows the first call to the Notion client. *)
Theorem requests_are_image_checks :
  forall (W : Type) (P : platform W) (content key parent : string)
         (title0 : option string) (w : W)
         (o : outcome HtmlToNotionResult) (st : state W),
    run (markdownToNotion P content key parent title0) w = (o, st) ->
    exists checks later,
      trace st = (checks ++ later)%list
      /\ Forall (checks_image P (parseHtmlElements
                                   (markdownToHtml (makeHtml P) content)))
                checks
      /\ forallb (fun ev => negb (is_fetch ev)) later = true.
Proof.
  intros W P content key parent title0 w o st Hrun.
  apply markdownToNotion_run in Hrun.
  destruct Hrun as [[_ ->]|(blocks & st1 & later & _ & Hb & Ht & Hall & _)].
  - exists [], []. repeat split. constructor.
  - unfold htmlToNotionBlocks in Hb. apply build_blocks_fetches in Hb.
    destruct Hb as (evs & Hevs & Hchecks). simpl in Hevs.
    exists evs, (PagesCreate parent (resolved_title title0 content) :: later).
    rewrite Ht, Hevs. repeat split; [exact Hchecks|].
    cbn [forallb is_fetch negb andb].
    rewrite forallb_forall in *. intros ev Hin. apply Hall in Hin.
    destruct ev; try discriminate; reflexivity.
Qed.

Lemma requests_are_image_checks_witness :
  exists o st checks later,
    run (markdownToNotion (stub all_but_b) three_images "secret" "parent" None)
        tt
    = (o, st)
    /\ trace st = (checks ++ later)%list
    /\ Forall (checks_image (stub all_but_b)
                 (parseHtmlElements
                    (markdownToHtml (makeHtml (stub all_but_b)) three_images)))
              checks
    /\ forallb (fun ev => negb (is_fetch ev)) later = true.
Proof.
  destruct (run (markdownToNotion (stub all_but_b) three_images "secret"
                   "parent" None) tt) as [o st] eqn:E.
  destruct (requests_are_image_checks unit (stub all_but_b) three_images
              "secret" "parent" None tt o st E)
    as (checks & later & Ht & Hchecks & Hlater).
  exists o, st, checks, later. repeat split; assumption.
Defined.

(** X4: the conversion itself fails for no source text: with a key and a
    parent page, and a client that accepts every call, [markdownToNotion]
    returns a result for every content, whatever the converter and the
    network do.  The result has [success] set, the title of the caller
    when it is not empty and else the extracted one, the time stamp taken
    when the call started, at least the two synthetic blocks and at least
    one batch. *)
Theorem conversion_succeeds_when_client_accepts :
  forall (W : Type) (P : platform W) (content key parent : string)
         (title0 : option string) (w : W),
    client_accepts P -> truthy key = true -> truthy parent = true ->
    exists r st,
      run (markdownToNotion P content key parent title0) w = (Returned r, st)
      /\ success r = true
      /\ title r = resolved_title title0 content
      /\ timestamp r = toISOString P w
      /\ 2 <= blocksCreated r
      /\ 1 <= batches r.
Proof.
  intros W P content key parent title0 w [Hpage Happend] Hkey Hparent.
  assert (Hrun : exists r st,
             run (markdownToNotion P content key parent title0) w
             = (Returned r, st)).
  { unfold run, markdownToNotion, try_catch, bind. cbv beta zeta.
    rewrite Hkey, Hparent. cbn [negb]. unfold ret at 1 2.
    destruct (htmlToNotionBlocks_returns P
                (markdownToHtml (makeHtml P) content) (State w []))
      as (blocks & st1 & ->).
    unfold pagesCreate.
    match goal with
    | |- context [pages_create P parent ?t (world st1)] =>
        destruct (Hpage parent t (world st1)) as (id & w2 & ->)
    end.
    unfold localeNow.
    match goal with
    | |- context [submit P ?n ?all ?pg 0 0 ?s] =>
        destruct (submit_returns P n Happend all pg 0 0 s)
          as (total & st3 & ->)
    end.
    unfold ret. eauto. }
  destruct Hrun as (r & st & Hrun). exists r, st.
  split; [exact Hrun|].
  destruct (markdownToNotion_result P _ _ _ _ _ _ _ Hrun) as (Hs & Ht & Hts).
  apply markdownToNotion_returns in Hrun.
  destruct Hrun as (blocks & checks & locale & Hrun). cbv zeta in Hrun.
  destruct Hrun as (_ & _ & _ & _ & _ & Hcreated & _ & Hbatches).
  cbn [List.length] in Hcreated, Hbatches.
  repeat split; try assumption; [lia|].
  rewrite Hbatches.
  replace (S (S (List.length blocks))) with (List.length blocks + 2) by lia.
  apply ceil_div_pos.
Qed.

Lemma conversion_succeeds_when_client_accepts_witness :
  exists r st,
    run (markdownToNotion (stub all_but_b) "" "secret" "parent" (Some "")) tt
    = (Returned r, st)
    /\ title r = untitled
    /\ 2 <= blocksCreated r.
Proof.
  assert (Hacc : client_accepts (stub all_but_b))
    by (split; intros; eexists; try eexists; reflexivity).
  destruct (conversion_succeeds_when_client_accepts unit (stub all_but_b)
              "" "secret" "parent" (Some "") tt Hacc eq_refl eq_refl)
    as (r & st & Hrun & _ & Ht & _ & Hblocks & _).
  exists r, st. repeat split; assumption.
Defined.

(* ------------------------------------------------------------------ *)
(** *** The routes *)

(** X5: the handler of [POST /sync] never throws.  When the content, the
    key or the page identifier is missing or empty, it hands [next] an
    error of status 400 that names the first missing field, and the service
    is not called: nothing is sent.  Otherwise it calls the service with
    the fields of the body and answers with its result, or hands [next]
    the error the service threw, whose status is 500: the guards of the
    service itself never fire behind this route. *)
Theorem sync_answers :
  forall (W : Type) (P : platform W) (req : Routes.Request) (w : W),
    let b := Routes.body req in
    exists resp st',
      run (Routes.sync P req) w = (Returned resp, st')
      /\ if Routes.present (Routes.content b)
            && Routes.present (Routes.notion_api_key b)
            && Routes.present (Routes.notion_page_id b)
         then
           let call :=
             run (markdownToNotion P (Routes.value (Routes.content b))
                    (Routes.value (Routes.notion_api_key b))
                    (Routes.value (Routes.notion_page_id b))
                    (Routes.title b)) w in
           (exists r,
               call = (Returned r, st')
               /\ resp = Routes.Json true "notion 页面创建成功" r
               /\ success r = true)
           \/ (exists e,
                  call = (Threw e, st')
                  /\ resp = Routes.Next e
                  /\ statusCode e = Some 500)
         else
           st' = State w []
           /\ exists e,
               resp = Routes.Next e
               /\ statusCode e = Some 400
               /\ message e
                  = (if negb (Routes.present (Routes.content b))
                     then "缺少markdown内容"
                     else if negb (Routes.present (Routes.notion_api_key b))
                          then "缺少notion_api_key参数"
                          else "缺少notion_page_id参数").
Proof.
  intros W P req w b.
  unfold run at 1. unfold Routes.sync, try_catch, bind. fold b.
  destruct (Routes.present (Routes.content b));
    [|cbn; eexists; eexists; split; [reflexivity|];
      split; [reflexivity|]; eexists; repeat split].
  destruct (Routes.present (Routes.notion_api_key b));
    [|cbn; eexists; eexists; split; [reflexivity|];
      split; [reflexivity|]; eexists; repeat split].
  destruct (Routes.present (Routes.notion_page_id b));
    [|cbn; eexists; eexists; split; [reflexivity|];
      split; [reflexivity|]; eexists; repeat split].
  cbn [negb andb]. unfold ret at 1 2 3. cbv zeta. unfold run.
  destruct (markdownToNotion P _ _ _ _ (State w [])) as [[r|e] st1] eqn:Hcall.
  - exists (Routes.Json true "notion 页面创建成功" r), st1.
    split; [reflexivity|]. left. exists r. repeat split.
    apply (markdownToNotion_result P _ _ _ _ _ _ _ Hcall).
  - exists (Routes.Next e), st1.
    split; [reflexivity|]. right. exists e. repeat split.
    apply (markdownToNotion_throws P _ _ _ _ _ _ _ Hcall).
Qed.

(** X6: the handler of [POST /upload] never throws.  Without a file it
    hands [next] an error of status 400, and so it does without a key or a
    page identifier, the service not being called.  Otherwise it calls the
    service with the text of the file, which may be empty, and a title: the
    title of the body when it is not empty, else the name of the file with
    its first [.md] taken out; it answers with the result, whose title is
    that one when it is not empty and else the one extracted from the text,
    or hands [next] the error of the service, whose status is 500. *)
Theorem upload_answers :
  forall (W : Type) (P : platform W) (req : Routes.Request) (w : W),
    let b := Routes.body req in
    exists resp st',
      run (Routes.upload P req) w = (Returned resp, st')
      /\ match Routes.file req with
         | None =>
             st' = State w []
             /\ exists e,
                 resp = Routes.Next e
                 /\ statusCode e = Some 400
                 /\ message e = "未找到上传的文件"
         | Some f =>
             if Routes.present (Routes.notion_api_key b)
                && Routes.present (Routes.notion_page_id b)
             then
               let name :=
                 if Routes.present (Routes.title b)
                 then Routes.value (Routes.title b)
                 else replace (lit ".md") (const "") (Routes.originalname f) in
               let call :=
                 run (markdownToNotion P (Routes.buffer f)
                        (Routes.value (Routes.notion_api_key b))
                        (Routes.value (Routes.notion_page_id b))
                        (Some name)) w in
               (exists r,
                   call = (Returned r, st')
                   /\ resp = Routes.Json true "文件上传并创建子页面成功" r
                   /\ title r
                      = (if truthy name then name
                         else extractTitleFromContent (Routes.buffer f)))
               \/ (exists e,
                      call = (Threw e, st')
                      /\ resp = Routes.Next e
                      /\ statusCode e = Some 500)
             else
               st' = State w []
               /\ exists e,
                   resp = Routes.Next e
                   /\ statusCode e = Some 400
                   /\ message e
                      = (if negb (Routes.present (Routes.notion_api_key b))
                         then "缺少notion_api_key参数"
                         else "缺少notion_page_id参数")
         end.
Proof.
  intros W P req w b.
  unfold run at 1. unfold Routes.upload, try_catch, bind. fold b.
  destruct (Routes.file req) as [f|];
    [|cbn; eexists; eexists; split; [reflexivity|];
      split; [reflexivity|]; eexists; repeat split].
  destruct (Routes.present (Routes.notion_api_key b));
    [|cbn; eexists; eexists; split; [reflexivity|];
      split; [reflexivity|]; eexists; repeat split].
  destruct (Routes.present (Routes.notion_page_id b));
    [|cbn; eexists; eexists; split; [reflexivity|];
      split; [reflexivity|]; eexists; repeat split].
  cbn [negb andb]. unfold ret at 1 2. cbv zeta. unfold run.
  destruct (markdownToNotion P _ _ _ _ (State w [])) as [[r|e] st1] eqn:Hcall.
  - exists (Routes.Json true "文件上传并创建子页面成功" r), st1.
    split; [reflexivity|]. left. exists r. repeat split.
    apply (markdownToNotion_result P _ _ _ _ _ _ _ Hcall).
  - exists (Routes.Next e), st1.
    split; [reflexivity|]. right. exists e. repeat split.
    apply (markdownToNotion_throws P _ _ _ _ _ _ _ Hcall).
Qed.

(** X7: a file uploaded without a title field under the name
    [base.md...], where [base] holds no [.md]: the page of a successful
    answer is titled with the name without that first [.md] (so [notes.md]
    gives [notes], and [a.md.md] gives [a.md]); when nothing is left of the
    name, as for a file called [.md], the title is extracted from the text
    of the file. *)
Theorem upload_title_from_file_name :
  forall (W : Type) (P : platform W) (req : Routes.Request) (w : W)
         (f : Routes.MulterFile) (base more : string)
         (ok : bool) (msg : string) (r : HtmlToNotionResult) (st' : state W),
    Routes.file req = Some f ->
    Routes.originalname f = base ++ ".md" ++ more ->
    includes base ".md" = false ->
    Routes.present (Routes.title (Routes.body req)) = false ->
    run (Routes.upload P req) w = (Returned (Routes.Json ok msg r), st') ->
    title r = (if truthy (base ++ more) then base ++ more
               else extractTitleFromContent (Routes.buffer f)).
Proof.
  intros W P req w f base more ok msg r st' Hfile Hname Hbase Htitle Hrun.
  unfold run, Routes.upload, try_catch, bind in Hrun.
  rewrite Hfile, Htitle in Hrun.
  destruct (Routes.present (Routes.notion_api_key (Routes.body req)));
    [|discriminate].
  destruct (Routes.present (Routes.notion_page_id (Routes.body req)));
    [|discriminate].
  cbn [negb] in Hrun. unfold ret at 1 2 in Hrun. cbv zeta in Hrun.
  destruct (markdownToNotion P _ _ _ _ (State w [])) as [[r'|e] st1] eqn:Hcall;
    [|discriminate].
  injection Hrun as _ _ <- _.
  destruct (markdownToNotion_result P _ _ _ _ _ _ _ Hcall) as (_ & Ht & _).
  rewrite Ht, Hname, replace_first by (apply find_md, includes_find, Hbase).
  reflexivity.
Qed.

Lemma upload_title_from_file_name_witness :
  exists ok msg r st',
    run (Routes.upload (stub all_but_b) notes_upload) tt
    = (Returned (Routes.Json ok msg r), st')
    /\ title r = "notes".
Proof.
  destruct (run (Routes.upload (stub all_but_b) notes_upload) tt)
    as [[[ok msg r|e]|e] st'] eqn:E; try (vm_compute in E; discriminate).
  exists ok, msg, r, st'. split; [reflexivity|].
  apply (upload_title_from_file_name unit (stub all_but_b) notes_upload tt
           (Routes.File "notes.md" "application/octet-stream" "Some text.")
           "notes" "" ok msg r st' eq_refl eq_refl eq_refl eq_refl E).
Defined.

(* ------------------------------------------------------------------ *)
(** *** The inline tokenizer *)

(** X8: a fragment without [<] gives one unstyled run that holds it
    unchanged, the empty fragment included; so the entities in the text
    of an unstyled run ([&lt;], [&amp;], ...) stay as they are written,
    whereas a styled run is passed through [stripHtmlTags]. *)
Theorem htmlToRichText_text :
  forall s : string,
    has_char "<" s = false -> htmlToRichText s = [plain s].
Proof.
  intros s H.
  rewrite (htmlToRichText_tok s s []) by (apply tok_plain, H).
  rewrite flush_nil. unfold opt_plain, runs_or_whole.
  destruct s; reflexivity.
Qed.

Lemma htmlToRichText_text_witness :
  htmlToRichText "1 &lt; 2 &amp;&amp; x" = [plain "1 &lt; 2 &amp;&amp; x"].
Proof. apply htmlToRichText_text. reflexivity. Defined.

(** X9: a styled span between two texts.  For each pair of an opening
    and a closing tag of the table [span_tags], a fragment made of a text
    [a] without [<], the opening tag, an interior [t] that does not hold
    the closing tag, the closing tag and a text [b] without [<] gives: the
    unstyled run [a] when [a] is not empty, the run of the style with
    [stripHtmlTags t], and the unstyled run [b] when [b] is not empty.
    A span opened by [<s>] or [<del>] is closed by [</s>] only when
    [</del>] does not come first: with [</del>] it runs up to there. *)
Theorem htmlToRichText_styled_span :
  forall (name close : string) (style : annotations) (a t b : string),
    In (name, close, style) span_tags ->
    has_char "<" a = false -> has_char "<" b = false ->
    includes t close = false ->
    (close = "</s>" -> includes t "</del>" = false) ->
    htmlToRichText (a ++ "<" ++ name ++ ">" ++ t ++ close ++ b)
    = (opt_plain a ++ [styled style (stripHtmlTags t)] ++ opt_plain b)%list.
Proof.
  intros name close style a t b Hin Ha Hb Ht Hdel.
  apply includes_find in Ht.
  assert (Hrest : forall skip rt,
             drop (String.length t + skip) (t ++ close ++ b) = b ->
             close_span (Some (String.length t)) skip style
                        (t ++ close ++ b) rt
             = Some (b, push rt (styled style (stripHtmlTags t)))).
  { intros skip rt Hdrop. unfold close_span.
    rewrite Hdrop, take_app_exact. apply (tok_plain b "" _ Hb). }
  transitivity
    (runs_or_whole (a ++ "<" ++ name ++ ">" ++ t ++ close ++ b)
       (flush b (push (flush a []) (styled style (stripHtmlTags t))))).
  2:{ rewrite flush_push, flush_nil. unfold push.
      rewrite <- app_assoc.
      destruct (opt_plain a); reflexivity. }
  apply htmlToRichText_tok.
  rewrite tok_segment by exact Ha. change ("" ++ a) with a.
  assert (Hname : has_char ">" name = false).
  { simpl in Hin.
    repeat destruct Hin as [[= <- <- <-]|Hin]; try reflexivity.
    contradiction. }
  rewrite (tok_tag name (t ++ close ++ b) a [] Hname). cbv zeta.
  simpl in Hin.
  destruct Hin as [[= <- <- <-]|[[= <- <- <-]|[[= <- <- <-]|[[= <- <- <-]
                  |[[= <- <- <-]|[[= <- <- <-]|[[= <- <- <-]|[]]]]]]]];
    match goal with
    | |- context [startsWith ("<" ++ ?n ++ ">") _] =>
        let tag := eval cbn in ("<" ++ n ++ ">") in
        change ("<" ++ n ++ ">") with tag
    end;
    cbn [startsWith Ascii.eqb Bool.eqb andb orb].
  - rewrite (find_first "<" "/strong>") by (reflexivity || exact Ht).
    apply Hrest. rewrite drop_app_plus. reflexivity.
  - rewrite (find_first "<" "/em>") by (reflexivity || exact Ht).
    apply Hrest. rewrite drop_app_plus. reflexivity.
  - rewrite (find_first "<" "/code>") by (reflexivity || exact Ht).
    apply Hrest. rewrite drop_app_plus. reflexivity.
  - rewrite (find_first "<" "/del>") by (reflexivity || exact Ht).
    apply Hrest. rewrite drop_app_plus. reflexivity.
  - rewrite (find_first "<" "/del>") by (reflexivity || exact Ht).
    apply Hrest. rewrite drop_app_plus. reflexivity.
  - replace (find "</del>" (t ++ "</s>" ++ b)) with (@None nat).
    + rewrite (find_first "<" "/s>") by (reflexivity || exact Ht).
      apply Hrest. rewrite drop_app_plus. reflexivity.
    + symmetry. apply (find_none_app "<" "/del>" t ("/s>" ++ b));
        [reflexivity | apply includes_find, Hdel; reflexivity |].
      cbn [find startsWith append Ascii.eqb Bool.eqb andb].
      rewrite (find_no_char "<" "/del>" b Hb). reflexivity.
  - replace (find "</del>" (t ++ "</s>" ++ b)) with (@None nat).
    + rewrite (find_first "<" "/s>") by (reflexivity || exact Ht).
      apply Hrest. rewrite drop_app_plus. reflexivity.
    + symmetry. apply (find_none_app "<" "/del>" t ("/s>" ++ b));
        [reflexivity | apply includes_find, Hdel; reflexivity |].
      cbn [find startsWith append Ascii.eqb Bool.eqb andb].
      rewrite (find_no_char "<" "/del>" b Hb). reflexivity.
Qed.

Lemma htmlToRichText_styled_span_witness :
  htmlToRichText "see <s>this</s> and <b>more</del> "
  = [plain "see "; styled ann_strikethrough "this and more"; plain " "].
Proof.
  apply (htmlToRichText_styled_span "s" "</del>" ann_strikethrough
           "see " "this</s> and <b>more" " ");
    try reflexivity.
  simpl. auto 10.
Defined.

(** X10: a tag that opens no styled span is passed over, and so is a
    closing tag: of a fragment made of a text [a], a tag, a text [t],
    another tag and a text [b], the texts being without [<] and the tags
    without [>] inside, what is left is the unstyled runs of the texts
    that are not empty, in order; when all three are empty, the single
    run of the whole fragment, tags included.  So a link keeps its text and
    loses its target. *)
Theorem htmlToRichText_other_tags :
  forall (a g t g' b : string),
    has_char "<" a = false -> has_char "<" t = false ->
    has_char "<" b = false ->
    has_char ">" g = false -> has_char ">" g' = false ->
    opens_span ("<" ++ g ++ ">") = false ->
    opens_span ("<" ++ g' ++ ">") = false ->
    htmlToRichText (a ++ "<" ++ g ++ ">" ++ t ++ "<" ++ g' ++ ">" ++ b)
    = runs_or_whole (a ++ "<" ++ g ++ ">" ++ t ++ "<" ++ g' ++ ">" ++ b)
        (opt_plain a ++ opt_plain t ++ opt_plain b)%list.
Proof.
  intros a g t g' b Ha Ht Hb Hg Hg' Hopen Hopen'.
  assert (Hother : forall g left cur rt,
             has_char ">" g = false ->
             opens_span ("<" ++ g ++ ">") = false ->
             tok ("<" ++ g ++ ">" ++ left) cur rt = tok left "" (flush cur rt)).
  { clear. intros g left cur rt Hg Hopen. rewrite tok_tag by exact Hg.
    cbv zeta. unfold opens_span in Hopen.
    repeat (apply orb_false_iff in Hopen; destruct Hopen as [Hopen ?]).
    repeat match goal with
           | E : startsWith _ _ = false |- _ => rewrite E; clear E
           end.
    reflexivity. }
  rewrite (htmlToRichText_tok _ b (flush t (flush a []))).
  - rewrite !flush_push. cbn [app]. rewrite <- app_assoc. reflexivity.
  - rewrite tok_segment by exact Ha. change ("" ++ a) with a.
    rewrite Hother by assumption.
    rewrite tok_segment by exact Ht. change ("" ++ t) with t.
    rewrite Hother by assumption.
    apply tok_plain, Hb.
Qed.

Lemma htmlToRichText_other_tags_witness :
  htmlToRichText ("see <a href=" ++ DQ ++ "https://example.org/?a=1" ++ DQ
                  ++ ">the page</a>.")
  = [plain "see "; plain "the page"; plain "."].
Proof.
  apply (htmlToRichText_other_tags "see "
           ("a href=" ++ DQ ++ "https://example.org/?a=1" ++ DQ)
           "the page" "/a" ".");
    reflexivity.
Defined.

(** X11: a [<] with no [>] anywhere after it ends the tokenizer: after a
    text [a] without [<] that is not empty, the fragment [a<b] gives the
    single run [a], and what follows the [<] is lost; when [a] is empty,
    the whole fragment is the single run. *)
Theorem htmlToRichText_unclosed_tag :
  forall (a b : string),
    has_char "<" a = false -> has_char ">" b = false ->
    htmlToRichText (a ++ "<" ++ b)
    = runs_or_whole (a ++ "<" ++ b) (opt_plain a).
Proof.
  intros a b Ha Hb.
  rewrite (htmlToRichText_tok _ "" (flush a [])).
  - rewrite flush_nil. unfold flush. reflexivity.
  - rewrite tok_segment by exact Ha. change ("" ++ a) with a.
    apply tok_unclosed, Hb.
Qed.

Lemma htmlToRichText_unclosed_tag_witness :
  htmlToRichText "if a < b then" = [plain "if a "].
Proof.
  apply (htmlToRichText_unclosed_tag "if a " " b then"); reflexivity.
Defined.

(* ------------------------------------------------------------------ *)
(** *** Languages and entities *)

(** X12: [normalizeLanguage] returns a language of the supported list
    other than [bash] (which the alias table turns into [shell]), or, for
    a name that every object inherits, the inherited member; and so does
    the language of every code element that the scanner produces. *)
Theorem normalizeLanguage_range :
  (forall language : string, normalized (normalizeLanguage language))
  /\ (forall (html : string) (e : element) (v : jsval),
         In e (parseHtmlElements html) ->
         attrs_of e = Some (PreAttrs v) ->
         normalized v).
Proof.
  assert (Hrange : forall language, normalized (normalizeLanguage language)).
  { intros language. unfold normalizeLanguage.
    destruct (negb (truthy language) || (language =? "plain text")%string);
      [split; [reflexivity|discriminate]|].
    cbv zeta. set (l := trim (toLowerCase language)).
    assert (Hsup : normalized (if mem l supportedLanguages then VStr l
                               else VStr "plain text")
                   \/ l = "bash").
    { destruct (String.eqb_spec l "bash") as [E|E]; [right; exact E|left].
      destruct (mem l supportedLanguages) eqn:Hm;
        [split; assumption | split; [reflexivity|discriminate]]. }
    unfold get_property.
    destruct (assoc l languageMap) as [v|] eqn:Hv.
    - cbn [js_truthy].
      destruct (truthy v) eqn:Htv.
      + apply assoc_values in Hv. simpl in Hv.
        repeat destruct Hv as [<-|Hv];
          try (split; [reflexivity|discriminate]).
        contradiction.
      + destruct Hsup as [H| ->]; [exact H|].
        vm_compute in Hv. injection Hv as <-. discriminate.
    - destruct (mem l Object_prototype) eqn:Hp; [exact Hp|].
      destruct Hsup as [H|E]; [exact H|].
      rewrite E in Hv. discriminate. }
  split; [exact Hrange|].
  intros html e v Hin Hattrs.
  apply In_omap_in in Hin. destruct Hin as (line & Hline).
  revert Hline Hattrs. unfold scan_line.
  repeat match goal with
         | |- context [match ?o with Some _ => _ | None => _ end] =>
             match type of o with option rmatch => destruct o end
         | |- context [if ?b then _ else _] =>
             match type of b with bool => destruct b end
         end;
    try discriminate; intros [= <-]; simpl; try discriminate;
    intros [= <-]; apply Hrange.
Qed.

Lemma normalizeLanguage_range_witness :
  normalized (normalizeLanguage "Bash")
  /\ normalized (VStr "javascript").
Proof.
  split; [apply (proj1 normalizeLanguage_range)|].
  apply (proj2 normalizeLanguage_range
           ("<pre><code class=" ++ DQ ++ "language-js" ++ DQ
            ++ ">x</code></pre>")
           (Element "pre" "x" (Some (PreAttrs (VStr "javascript"))))
           (VStr "javascript")).
  - vm_compute. left. reflexivity.
  - reflexivity.
Defined.

(** X13: [normalizeLanguage] does not tell a name from its lower-cased,
    trimmed form: the case of the letters and the white space around the
    name play no part. *)
Theorem normalizeLanguage_canonical :
  forall language : string,
    normalizeLanguage (trim (toLowerCase language))
    = normalizeLanguage language.
Proof.
  intros language.
  set (l := trim (toLowerCase language)).
  assert (Hrest : forall s,
             (negb (truthy s) || (s =? "plain text")%string) = false ->
             normalizeLanguage s
             = match get_property languageMap (trim (toLowerCase s)) with
               | Some v =>
                   if js_truthy v then v
                   else if mem (trim (toLowerCase s)) supportedLanguages
                        then VStr (trim (toLowerCase s))
                        else VStr "plain text"
               | None =>
                   if mem (trim (toLowerCase s)) supportedLanguages
                   then VStr (trim (toLowerCase s))
                   else VStr "plain text"
               end).
  { intros s Hs. unfold normalizeLanguage. rewrite Hs. reflexivity. }
  assert (Hguard : forall s,
             (negb (truthy s) || (s =? "plain text")%string) = true ->
             normalizeLanguage s = VStr "plain text").
  { intros s Hs. unfold normalizeLanguage. rewrite Hs. reflexivity. }
  destruct (negb (truthy language) || (language =? "plain text")%string)
    eqn:Hlang.
  - rewrite (Hguard language Hlang).
    apply orb_true_iff in Hlang. destruct Hlang as [Hlang|Hlang].
    + destruct language; [reflexivity|discriminate].
    + apply String.eqb_eq in Hlang. subst language. reflexivity.
  - rewrite (Hrest language Hlang). fold l.
    destruct (negb (truthy l) || (l =? "plain text")%string) eqn:Hl.
    + rewrite (Hguard l Hl).
      apply orb_true_iff in Hl. destruct Hl as [Hl|Hl].
      * destruct l; [reflexivity|discriminate].
      * apply String.eqb_eq in Hl. rewrite Hl. reflexivity.
    + rewrite (Hrest l Hl). subst l. rewrite canonical_idem. reflexivity.
Qed.

(** X14: [stripHtmlTags] turns an escaped text back into the text, up to
    the white space at its ends: for a text that holds neither [&quot;]
    nor [&#39;], the text with its five characters [&], [<], [>], the
    double quote and the apostrophe written as entities goes back to the
    text, trimmed.  The entity of the ampersand is decoded after those of
    [<] and [>], so [&amp;lt;] gives [&lt;]; it is decoded before those of
    the two quotes, so [&amp;quot;] gives a double quote: for such a text
    the text does not come back. *)
Theorem stripHtmlTags_decodes_escaped_text :
  (forall t : string,
      includes t "&quot;" = false -> includes t "&#39;" = false ->
      stripHtmlTags (escape_entities t) = trim t)
  /\ stripHtmlTags (escape_entities "&lt;") = "&lt;"
  /\ stripHtmlTags (escape_entities "&quot;") = DQ.
Proof.
  split; [|split; reflexivity].
  intros t Hq Ha.
  rewrite stripHtmlTags_spec.
  rewrite remove_tags_no_lt by apply escape_entities_no_lt.
  rewrite decode_escape by assumption. reflexivity.
Qed.

Lemma stripHtmlTags_decodes_escaped_text_witness :
  stripHtmlTags
    (escape_entities
       (" if (a < b && c > 'x') { s = " ++ DQ ++ "R&D" ++ DQ ++ "; } "))
  = "if (a < b && c > 'x') { s = " ++ DQ ++ "R&D" ++ DQ ++ "; }".
Proof.
  apply (proj1 stripHtmlTags_decodes_escaped_text
           (" if (a < b && c > 'x') { s = " ++ DQ ++ "R&D" ++ DQ ++ "; } "));
    reflexivity.
Defined.

(* ------------------------------------------------------------------ *)
(** *** The fallback conversion *)

(** X15: when the converter throws, the fallback conversion gives HTML
    without any line feed, the line feeds of the source having become
    [</p><p>] and [<br />]; the scanner, which works line by line and takes
    one element per line at most, finds one element at most in it.  So a
    conversion that returns after the converter threw created three blocks
    at most, the time stamp and the divider included, in one batch,
    however long the source is. *)
Theorem fallback_gives_one_element :
  (forall markdown : string,
      has_char LF (fallbackMarkdownToHtml markdown) = false
      /\ List.length (parseHtmlElements (fallbackMarkdownToHtml markdown)) <= 1)
  /\ (forall (W : Type) (P : platform W) (content key parent : string)
             (title0 : option string) (w : W)
             (r : HtmlToNotionResult) (st : state W),
         makeHtml P content = None ->
         run (markdownToNotion P content key parent title0) w
         = (Returned r, st) ->
         blocksCreated r <= 3 /\ batches r = 1).
Proof.
  split.
  - intros markdown.
    pose proof (fallbackMarkdownToHtml_one_line markdown) as H.
    split; [|apply parseHtmlElements_one_line, H].
    induction (fallbackMarkdownToHtml markdown) as [|c s IH]; [reflexivity|].
    cbn [all_chars has_char] in *. apply andb_true_iff in H.
    destruct H as [Hc Hs]. unfold not_LF in Hc. apply negb_true_iff in Hc.
    rewrite Ascii.eqb_sym, Hc. apply IH, Hs.
  - intros W P content key parent title0 w r st Hconv Hrun.
    apply markdownToNotion_returns in Hrun.
    destruct Hrun as (blocks & checks & locale & Hrun). cbv zeta in Hrun.
    destruct Hrun as (Hbuilt & _ & _ & _ & _ & Hcreated & _ & Hbatches).
    apply built_length in Hbuilt.
    unfold markdownToHtml in Hbuilt. rewrite Hconv in Hbuilt.
    pose proof (parseHtmlElements_one_line _
                  (fallbackMarkdownToHtml_one_line content)) as Hone.
    cbn [List.length] in Hcreated, Hbatches.
    split; [lia|]. rewrite Hbatches.
    assert (Hn : List.length blocks = 0 \/ List.length blocks = 1) by lia.
    destruct Hn as [-> | ->]; reflexivity.
Qed.

Lemma fallback_gives_one_element_witness :
  exists r st,
    run (markdownToNotion no_converter
           ("# Title" ++ nl ++ nl ++ "One." ++ nl ++ nl ++ "Two." ++ nl ++ nl
            ++ "Three.")
           "secret" "parent" None) tt
    = (Returned r, st)
    /\ blocksCreated r <= 3
    /\ batches r = 1.
Proof.
  destruct (run (markdownToNotion no_converter
                   ("# Title" ++ nl ++ nl ++ "One." ++ nl ++ nl ++ "Two."
                    ++ nl ++ nl ++ "Three.")
                   "secret" "parent" None) tt) as [[r|e] st] eqn:E;
    [|vm_compute in E; discriminate].
  exists r, st. split; [reflexivity|].
  apply (proj2 fallback_gives_one_element unit no_converter _ "secret"
           "parent" None tt r st eq_refl E).
Defined.

(* ------------------------------------------------------------------ *)
(** *** Lines and their elements *)

(** X16: a line [<name>content</name>] whose content holds no [<] and no
    line terminator, for the names h1 to h6, blockquote, li and p: the
    scanner gives the one element of that tag with that content, and the
    builder the block of the tag with the content as its single unstyled
    run: a heading of level 1, 2 or 3, a quote, a bulleted list item or a
    paragraph; nothing is sent.  The headings of level 4 to 6 give no
    block, and a paragraph with a blank content gives no element. *)
Theorem element_lines_become_blocks :
  forall (W : Type) (P : platform W) (w : W) (name t : string),
    In name line_tags ->
    has_char "<" t = false -> all_chars dot t = true ->
    let blank := (name =? "p")%string && negb (truthy (trim t)) in
    parseHtmlElements (element_line name t)
    = (if blank then [] else [Element name t None])
    /\ run (htmlToNotionBlocks P (element_line name t)) w
       = (Returned (if blank then []
                    else opt_list (block_of_tag name [plain t])),
          State w []).
Proof.
  intros W P w name t Hin Ht Hdot blank.
  assert (Hparse : parseHtmlElements (element_line name t)
                   = if blank then [] else [Element name t None]).
  { rewrite parse_one_line.
    - rewrite scan_line_element_line by assumption. fold blank.
      destruct blank; reflexivity.
    - apply element_line_not_LF; [exact Hdot|].
      simpl in Hin.
      repeat destruct Hin as [<-|Hin]; try reflexivity. contradiction.
    - simpl in Hin. unfold element_line.
      repeat destruct Hin as [<-|Hin]; try no_match find_none_skip Ht.
      contradiction. }
  split; [exact Hparse|].
  unfold run, htmlToNotionBlocks. rewrite Hparse.
  destruct blank eqn:Hblank; [reflexivity|].
  cbn [build_blocks]. unfold bind, elementToNotionBlock.
  cbn [tag content].
  simpl in Hin. subst blank.
  destruct Hin as [<-|[<-|[<-|[<-|[<-|[<-|[<-|[<-|[<-|[]]]]]]]]]];
    cbn [String.eqb Ascii.eqb Bool.eqb andb] in *;
    rewrite ?htmlToRichText_plain by exact Ht;
    try reflexivity.
  apply negb_false_iff in Hblank. rewrite Hblank. reflexivity.
Qed.

Lemma element_lines_become_blocks_witness :
  parseHtmlElements "<li>milk &amp; honey</li>"
  = [Element "li" "milk &amp; honey" None]
  /\ run (htmlToNotionBlocks (stub all_but_b) "<li>milk &amp; honey</li>") tt
     = (Returned [BulletedListItem [plain "milk &amp; honey"]], State tt []).
Proof.
  apply (element_lines_become_blocks unit (stub all_but_b) tt
           "li" "milk &amp; honey");
    [simpl; auto 10 | reflexivity | reflexivity].
Defined.

(** X17: the attributes of a tag are read back as they were written, but
    for the name [__proto__].  For names made of word characters and
    values without quotes, written as [name=Qvalue Q] (Q the double quote)
    with a space between two of them and followed by a text without word
    characters, such as the [ /] that ends a tag, [parseAttributes] gives
    the names with their values, the latest first, without those named
    [__proto__]: that assignment goes to the setter every object inherits,
    which does nothing with a string.  So a name other than [__proto__]
    that is written last reads as the value written there, also when it
    was written before, and [__proto__] is never read back. *)
Theorem parseAttributes_reads_back :
  forall (kvs : list (string * string)) (tail : string),
    Forall attr_ok kvs ->
    all_chars (fun c => negb (isWordChar c)) tail = true ->
    parseAttributes (render_attrs kvs ++ tail) = rev (own_attrs kvs)
    /\ (forall key v kvs',
           kvs = (kvs' ++ [(key, v)])%list ->
           key <> "__proto__" ->
           assoc key (parseAttributes (render_attrs kvs ++ tail)) = Some v)
    /\ assoc "__proto__" (parseAttributes (render_attrs kvs ++ tail)) = None.
Proof.
  intros kvs tail Hok Htail.
  pose proof (parseAttributes_rendered kvs tail Hok Htail) as H.
  split; [exact H|]. rewrite H. split.
  - intros key v kvs' -> Hkey. unfold own_attrs.
    rewrite filter_app. cbn [filter fst].
    destruct (String.eqb_spec key "__proto__") as [E|_]; [contradiction|].
    cbn [negb]. apply assoc_last.
  - apply assoc_absent. intros kv Hin. apply in_rev in Hin.
    unfold own_attrs in Hin. apply filter_In in Hin. destruct Hin as [_ Hne].
    apply negb_true_iff in Hne. apply String.eqb_neq. exact Hne.
Qed.

Lemma parseAttributes_reads_back_witness :
  parseAttributes ("src=" ++ DQ ++ "a.png" ++ DQ ++ " alt=" ++ DQ ++ "first"
                   ++ DQ ++ " __proto__=" ++ DQ ++ "x" ++ DQ
                   ++ " alt=" ++ DQ ++ "second" ++ DQ ++ " /")
  = [("alt", "second"); ("alt", "first"); ("src", "a.png")]
  /\ assoc "alt"
       (parseAttributes ("src=" ++ DQ ++ "a.png" ++ DQ ++ " alt=" ++ DQ
                         ++ "first" ++ DQ ++ " __proto__=" ++ DQ ++ "x" ++ DQ
                         ++ " alt=" ++ DQ ++ "second" ++ DQ ++ " /"))
     = Some "second".
Proof.
  assert (Hok : Forall attr_ok
                  [("src", "a.png"); ("alt", "first"); ("__proto__", "x");
                   ("alt", "second")])
    by (repeat constructor; try discriminate).
  destruct (parseAttributes_reads_back
              [("src", "a.png"); ("alt", "first"); ("__proto__", "x");
               ("alt", "second")] " /"
              Hok eq_refl) as (H1 & H2 & _).
  split; [exact H1|].
  apply (H2 "alt" "second"
           [("src", "a.png"); ("alt", "first"); ("__proto__", "x")] eq_refl).
  discriminate.
Defined.

(** X18: the line of an image, [<p><img src=Qsrc Q alt=Qalt Q /></p>] (Q
    the double quote), for a source and an alternative text without
    quotes, angle brackets and line feeds.  The scanner gives one image
    element with these two attributes.  Without a source there is no
    block, and nothing is sent.  With a source that does not parse as a
    URL, nothing is sent and the block is the callout that names the
    alternative text and the source.  Otherwise one HEAD request is sent
    to the source: when it is answered with a success status, the block is
    the image block of that URL, captioned with the alternative text when
    there is one; when it is not, or when the request fails, the block is
    the callout. *)
Theorem image_line_becomes_image_or_callout :
  forall (W : Type) (P : platform W) (w : W) (src alt : string),
    all_chars value_char src = true ->
    all_chars value_char alt = true ->
    parseHtmlElements (img_line src alt)
    = [Element "img" "" (Some (ImgAttrs [("alt", alt); ("src", src)]))]
    /\ run (htmlToNotionBlocks P (img_line src alt)) w
       = if truthy src then
           if url_parses P src then
             (Returned [image_block src alt (fst (fetch_head P src w))],
              State (snd (fetch_head P src w))
                    [Fetch src (fst (fetch_head P src w))])
           else (Returned [image_block src alt None], State w [])
         else (Returned [], State w []).
Proof.
  intros W P w src alt Hsrc Halt.
  pose proof (parseHtmlElements_img_line src alt Hsrc Halt) as Hparse.
  split; [exact Hparse|].
  unfold run, htmlToNotionBlocks. rewrite Hparse.
  cbn [build_blocks]. unfold bind, elementToNotionBlock.
  cbn [tag String.eqb Ascii.eqb Bool.eqb].
  unfold attr. cbn [attrs_of assoc String.eqb Ascii.eqb Bool.eqb].
  destruct (truthy src); [|reflexivity].
  unfold bind, verifyImageUrl.
  destruct (url_parses P src); [|reflexivity].
  cbn [world trace].
  destruct (fetch_head P src w) as [[[|]|] w']; reflexivity.
Qed.

Lemma image_line_becomes_image_or_callout_witness :
  run (htmlToNotionBlocks (stub all_but_b)
         (img_line "http://h/b.png" "the b")) tt
  = (Returned [Callout [plain (unreachable_text "the b" "http://h/b.png")]
                       "📷" "yellow_background"],
     State tt [Fetch "http://h/b.png" (Some false)]).
Proof.
  apply (proj2 (image_line_becomes_image_or_callout unit (stub all_but_b) tt
                  "http://h/b.png" "the b" eq_refl eq_refl)).
Defined.

(** X19: the conversion works line by line.  For two pieces of HTML
    joined by a line feed, with no code block in them, the elements the
    scanner finds are those of the first piece, then those of the second;
    and so are the blocks: the builder builds those of the first piece,
    then, from the world these requests left, those of the second. *)
Theorem conversion_is_line_by_line :
  forall (W : Type) (P : platform W) (a b : string) (st : state W),
    find "<pre><code" (a ++ nl ++ b) = None ->
    parseHtmlElements (a ++ nl ++ b)
    = (parseHtmlElements a ++ parseHtmlElements b)%list
    /\ exists bs1 st1 bs2 st2,
        htmlToNotionBlocks P a st = (Returned bs1, st1)
        /\ htmlToNotionBlocks P b st1 = (Returned bs2, st2)
        /\ htmlToNotionBlocks P (a ++ nl ++ b) st
           = (Returned (bs1 ++ bs2)%list, st2).
Proof.
  intros W P a b st H.
  pose proof (parseHtmlElements_app a b H) as Hparse.
  split; [exact Hparse|].
  destruct (htmlToNotionBlocks_returns P a st) as (bs1 & st1 & H1).
  destruct (htmlToNotionBlocks_returns P b st1) as (bs2 & st2 & H2).
  exists bs1, st1, bs2, st2. repeat split; try assumption.
  unfold htmlToNotionBlocks in *. rewrite Hparse, build_blocks_app, H1.
  rewrite build_blocks_acc, H2. reflexivity.
Qed.

Lemma conversion_is_line_by_line_witness :
  parseHtmlElements ("<h1>T</h1>" ++ nl ++ "<p>one</p>" ++ nl ++ "<p>two</p>")
  = (parseHtmlElements "<h1>T</h1>"
       ++ parseHtmlElements ("<p>one</p>" ++ nl ++ "<p>two</p>"))%list.
Proof.
  apply (conversion_is_line_by_line unit (stub all_but_b) "<h1>T</h1>"
           ("<p>one</p>" ++ nl ++ "<p>two</p>") (State tt []) eq_refl).
Defined.

(** X20: a line of text outside any tag.  A line without [<] and without
    line feed matches no pattern of the scanner; trimmed, it becomes a
    paragraph with the trimmed text as its single unstyled run, unless it is
    blank or ends with [>]: a line of text that ends with [>] gives
    nothing.  Nothing is sent. *)
Theorem text_line_becomes_paragraph :
  forall (W : Type) (P : platform W) (w : W) (t : string),
    has_char "<" t = false -> all_chars not_LF t = true ->
    let kept := truthy (trim t) && negb (endsWith (trim t) ">") in
    parseHtmlElements t
    = (if kept then [Element "p" (trim t) None] else [])
    /\ run (htmlToNotionBlocks P t) w
       = (Returned (if kept then [Paragraph [plain (trim t)]] else []),
          State w []).
Proof.
  intros W P w t Ht Hlf kept.
  assert (Hparse : parseHtmlElements t
                   = if kept then [Element "p" (trim t) None] else []).
  { rewrite parse_one_line by (try apply find_no_char; assumption).
    rewrite scan_line_text by exact Ht. fold kept.
    destruct kept; reflexivity. }
  split; [exact Hparse|].
  unfold run, htmlToNotionBlocks. rewrite Hparse.
  destruct kept eqn:Hkept; [|reflexivity].
  subst kept. apply andb_true_iff in Hkept. destruct Hkept as [Htr _].
  cbn [build_blocks]. unfold bind, elementToNotionBlock.
  cbn [tag content String.eqb Ascii.eqb Bool.eqb andb].
  rewrite trim_idem, Htr.
  rewrite htmlToRichText_plain by (apply has_char_trim, Ht).
  reflexivity.
Qed.

Lemma text_line_becomes_paragraph_witness :
  run (htmlToNotionBlocks (stub all_but_b) "  see a -> b  ") tt
  = (Returned [Paragraph [plain "see a -> b"]], State tt [])
  /\ parseHtmlElements "see a ->" = [].
Proof.
  split.
  - apply (text_line_becomes_paragraph unit (stub all_but_b) tt
             "  see a -> b  " eq_refl eq_refl).
  - apply (text_line_becomes_paragraph unit (stub all_but_b) tt
             "see a ->" eq_refl eq_refl).
Defined.

(** X21: a paragraph written over several lines loses its first and its
    last line.  The line that opens the paragraph starts with [<] and
    matches no pattern, the one that closes it ends with [>] and matches
    none: for texts without [<], a paragraph of two lines gives no element
    at all, and a longer one gives what its lines in between give, each on
    its own. *)
Theorem paragraph_over_lines_loses_first_and_last :
  forall (a mid c : string),
    has_char "<" a = false -> all_chars not_LF a = true ->
    has_char "<" c = false -> all_chars not_LF c = true ->
    has_char "<" mid = false ->
    parseHtmlElements ("<p>" ++ a ++ nl ++ c ++ "</p>") = []
    /\ parseHtmlElements ("<p>" ++ a ++ nl ++ mid ++ nl ++ c ++ "</p>")
       = parseHtmlElements mid.
Proof.
  intros a mid c Ha Hla Hc Hlc Hmid.
  assert (Hfa : find "<pre><code" ("<p>" ++ a) = None)
    by no_match (find_no_char "<"%char) Ha.
  assert (Hfc : find "<pre><code" (c ++ "</p>") = None)
    by no_match find_none_skip Hc.
  assert (Hfm : find "<pre><code" mid = None)
    by (apply find_no_char, Hmid).
  assert (Hopen : parseHtmlElements ("<p>" ++ a) = []).
  { rewrite parse_one_line, scan_line_open; try assumption; reflexivity. }
  assert (Hclose : parseHtmlElements (c ++ "</p>") = []).
  { rewrite parse_one_line, scan_line_close; try assumption;
      [reflexivity|].
    rewrite all_chars_append, Hlc. reflexivity. }
  split.
  - rewrite <- (append_assoc "<p>" a).
    rewrite parseHtmlElements_app, Hopen, Hclose; [reflexivity|].
    apply find_none_sep; [reflexivity | assumption..].
  - rewrite <- (append_assoc "<p>" a).
    rewrite parseHtmlElements_app.
    + rewrite Hopen, parseHtmlElements_app, Hclose;
        [apply app_nil_r|].
      apply find_none_sep; [reflexivity | assumption..].
    + apply find_none_sep; [reflexivity | assumption |].
      apply find_none_sep; [reflexivity | assumption..].
Qed.

Lemma paragraph_over_lines_loses_first_and_last_witness :
  parseHtmlElements ("<p>one" ++ nl ++ "two" ++ nl ++ "three</p>")
  = parseHtmlElements "two".
Proof.
  apply (paragraph_over_lines_loses_first_and_last "one" "two" "three"
           eq_refl eq_refl eq_refl eq_refl eq_refl).
Defined.

(* ------------------------------------------------------------------ *)
(** *** Code blocks and table rows *)

(** X22: a code block without class.  For an interior without [<] (the
    converter writes the [<] of the code as an entity), the line
    [<pre><code>interior</code></pre>], whose interior may hold line
    feeds, gives one element: its content is the interior with the line
    feeds escaped, its language [plain text].  The builder gives one code
    block, whose text is the content with the escape undone: the interior
    itself when it holds no backslash followed by the letter n.  Nothing
    is sent. *)
Theorem code_block_without_class :
  forall (W : Type) (P : platform W) (w : W) (interior : string),
    has_char "<" interior = false ->
    parseHtmlElements (code_line interior)
    = [Element "pre" (escape_newlines interior)
         (Some (PreAttrs (VStr "plain text")))]
    /\ run (htmlToNotionBlocks P (code_line interior)) w
       = (Returned [CodeBlock [plain (code_text interior)]
                              (VStr "plain text")],
          State w [])
    /\ (has_backslash_n interior = false -> code_text interior = interior).
Proof.
  intros W P w interior Hint.
  assert (Hparse : parseHtmlElements (code_line interior)
                   = [Element "pre" (escape_newlines interior)
                        (Some (PreAttrs (VStr "plain text")))]).
  { change (code_line interior)
      with ("<pre><code" ++ "" ++ ">" ++ interior ++ "</code></pre>").
    rewrite (parseHtmlElements_code_line "" interior eq_refl eq_refl Hint).
    pose proof (escape_newlines_no_lt interior Hint) as Hesc.
    destruct (exec_code_block_plain (escape_newlines interior) Hesc)
      as (m & Hm & H1 & H2).
    rewrite (scan_line_code "" (escape_newlines interior) eq_refl Hesc
               "" m Hm H1 H2).
    reflexivity. }
  split; [exact Hparse|]. split.
  - unfold run, htmlToNotionBlocks. rewrite Hparse.
    cbn [build_blocks]. unfold bind.
    change (VStr "plain text") with (normalizeLanguage "plain text").
    rewrite elementToNotionBlock_pre. reflexivity.
  - apply code_escape_round_trip.
Qed.

Lemma code_block_without_class_witness :
  run (htmlToNotionBlocks (stub all_but_b)
         (code_line ("if (a &lt; b) {" ++ nl ++ "  return;" ++ nl ++ "}")))
      tt
  = (Returned
       [CodeBlock [plain ("if (a &lt; b) {" ++ nl ++ "  return;" ++ nl ++ "}")]
                  (VStr "plain text")],
     State tt []).
Proof.
  destruct (code_block_without_class unit (stub all_but_b) tt
              ("if (a &lt; b) {" ++ nl ++ "  return;" ++ nl ++ "}") eq_refl)
    as (_ & Hrun & Hsame).
  rewrite Hrun, (Hsame eq_refl). reflexivity.
Defined.

(** X23: a code block with classes, [<pre><code class=Qclasses Q>interior
    </code></pre>] (Q the double quote), for classes without quotes, angle
    brackets and line feeds and an interior without [<].  The line gives
    one code element and the builder one code block, with the text as for
    a block without class.  When the classes end with [language-] and a
    name (no white space in it, and no second [language-]), whatever comes
    before on the line of the classes, the language is
    [normalizeLanguage] of the name; when the classes do not hold
    [language-] at all, it is [normalizeLanguage] of the classes as a
    whole. *)
Theorem code_block_with_language :
  forall (W : Type) (P : platform W) (w : W) (interior : string),
    has_char "<" interior = false ->
    (forall pre l : string,
        all_chars class_char pre = true ->
        all_chars name_char l = true -> l <> "" ->
        includes l "language-" = false ->
        parseHtmlElements (code_line_with (pre ++ "language-" ++ l) interior)
        = [Element "pre" (escape_newlines interior)
             (Some (PreAttrs (normalizeLanguage l)))]
        /\ run (htmlToNotionBlocks P
                  (code_line_with (pre ++ "language-" ++ l) interior)) w
           = (Returned [CodeBlock [plain (code_text interior)]
                                  (normalizeLanguage l)],
              State w []))
    /\ (forall classes : string,
           all_chars value_char classes = true -> classes <> "" ->
           includes classes "language-" = false ->
           parseHtmlElements (code_line_with classes interior)
           = [Element "pre" (escape_newlines interior)
                (Some (PreAttrs (normalizeLanguage classes)))]
           /\ run (htmlToNotionBlocks P (code_line_with classes interior)) w
              = (Returned [CodeBlock [plain (code_text interior)]
                                     (normalizeLanguage classes)],
                 State w [])).
Proof.
  intros W P w interior Hint.
  assert (Hblock : forall line language,
             parseHtmlElements line
             = [Element "pre" (escape_newlines interior)
                  (Some (PreAttrs (normalizeLanguage language)))] ->
             run (htmlToNotionBlocks P line) w
             = (Returned [CodeBlock [plain (code_text interior)]
                                    (normalizeLanguage language)],
                State w [])).
  { intros line language Hparse.
    unfold run, htmlToNotionBlocks. rewrite Hparse.
    cbn [build_blocks]. unfold bind.
    rewrite elementToNotionBlock_pre. reflexivity. }
  split.
  - intros pre l Hpre Hl Hne Hfree.
    assert (Hv : all_chars value_char (pre ++ "language-" ++ l) = true).
    { rewrite !all_chars_append.
      rewrite (all_chars_imp class_char value_char pre), 
              (all_chars_imp name_char value_char l); try assumption;
        try reflexivity;
        intros c Hc; apply andb_true_iff in Hc; apply Hc. }
    assert (Hparse :
              parseHtmlElements
                (code_line_with (pre ++ "language-" ++ l) interior)
              = [Element "pre" (escape_newlines interior)
                   (Some (PreAttrs (normalizeLanguage l)))]).
    { rewrite (parseHtmlElements_code_line_with _ interior Hv Hint).
      cbv zeta.
      replace (truthy (pre ++ "language-" ++ l)) with true
        by (destruct pre; reflexivity).
      replace (includes (pre ++ "language-" ++ l) "language-") with true.
      2:{ unfold includes. rewrite indexOf_0.
          destruct (find_app_some "language-" pre l) as [k ->].
          reflexivity. }
      rewrite replace_language; try assumption; try reflexivity.
      - revert Hpre. apply all_chars_imp.
        intros c Hc. apply andb_true_iff in Hc. apply Hc.
      - revert Hl. apply all_chars_imp.
        intros c Hc. apply andb_true_iff in Hc. apply Hc.
      - apply includes_find, Hfree. }
    split; [exact Hparse | apply Hblock, Hparse].
  - intros classes Hv Hne Hfree.
    assert (Hparse :
              parseHtmlElements (code_line_with classes interior)
              = [Element "pre" (escape_newlines interior)
                   (Some (PreAttrs (normalizeLanguage classes)))]).
    { rewrite (parseHtmlElements_code_line_with _ interior Hv Hint).
      cbv zeta.
      replace (truthy classes) with true
        by (destruct classes; [contradiction | reflexivity]).
      rewrite Hfree. reflexivity. }
    split; [exact Hparse | apply Hblock, Hparse].
Qed.

Lemma code_block_with_language_witness :
  run (htmlToNotionBlocks (stub all_but_b)
         (code_line_with "js language-js" ("let a = 1;" ++ nl ++ "a++;")))
      tt
  = (Returned [CodeBlock [plain (code_text ("let a = 1;" ++ nl ++ "a++;"))]
                         (VStr "javascript")],
     State tt []).
Proof.
  apply (proj1 (code_block_with_language unit (stub all_but_b) tt
                  ("let a = 1;" ++ nl ++ "a++;") eq_refl)
           "js " "js" eq_refl eq_refl ltac:(discriminate) eq_refl).
Defined.

(** X24: a table row.  A row written on one line, [<tr>] then cells
    [<td>text</td>] (or [<th>text</th>]) then [</tr>], whose texts hold no
    [<] and no line terminator, gives one [table-row] element with the
    texts passed through [stripHtmlTags], and the builder turns it into
    one paragraph in code style, the texts joined by [ | ] between [| ]
    and [ |]; a row without cells gives nothing.  A cell on a line of its
    own, as in a table written over several lines, gives no element.
    Nothing is sent. *)
Theorem table_row_becomes_code_paragraph :
  forall (W : Type) (P : platform W) (w : W) (kind : ascii),
    h_or_d kind = true ->
    (forall texts : list string,
        Forall cell_ok texts ->
        parseHtmlElements (row_line kind texts)
        = match texts with
          | [] => []
          | _ => [Element "table-row" ""
                    (Some (RowAttrs (map stripHtmlTags texts)))]
          end
        /\ run (htmlToNotionBlocks P (row_line kind texts)) w
           = (Returned match texts with
                       | [] => []
                       | _ => [row_block (map stripHtmlTags texts)]
                       end,
              State w []))
    /\ (forall text : string,
           cell_ok text -> parseHtmlElements (cell_text kind text) = []).
Proof.
  intros W P w kind Hkind. split.
  - intros texts Hok.
    assert (Hparse : parseHtmlElements (row_line kind texts)
                     = match texts with
                       | [] => []
                       | _ => [Element "table-row" ""
                                 (Some (RowAttrs (map stripHtmlTags texts)))]
                       end).
    { rewrite parse_one_line.
      - rewrite (scan_line_row kind Hkind texts Hok).
        destruct texts; reflexivity.
      - unfold row_line. rewrite !all_chars_append.
        rewrite (dot_not_LF _ (cells_dot kind Hkind texts Hok)). reflexivity.
      - unfold row_line.
        cbn [append find startsWith Ascii.eqb Bool.eqb andb].
        rewrite (find_cells kind Hkind "<pre><code" "</tr>" texts);
          [reflexivity | simpl; auto 10 | exact Hok | reflexivity]. }
    split; [exact Hparse|].
    unfold run, htmlToNotionBlocks. rewrite Hparse.
    destruct texts as [|text texts]; reflexivity.
  - intros text [Hlt Hdot].
    rewrite parse_one_line.
    + rewrite (scan_line_cell kind Hkind text Hlt). reflexivity.
    + unfold cell_text. cbn [append all_chars].
      destruct (kind_cases kind Hkind) as [-> | ->];
        cbn [not_LF Ascii.eqb Bool.eqb negb andb];
        rewrite !all_chars_append, (dot_not_LF _ Hdot); reflexivity.
    + destruct (kind_cases kind Hkind) as [-> | ->]; unfold cell_text;
        no_match find_none_skip Hlt.
Qed.

Lemma table_row_becomes_code_paragraph_witness :
  run (htmlToNotionBlocks (stub all_but_b)
         (row_line "d" ["milk"; " 2 &lt; 3 "; ""])) tt
  = (Returned [Paragraph [styled ann_code "| milk | 2 < 3 |  |"]],
     State tt []).
Proof.
  apply (proj1 (table_row_becomes_code_paragraph unit (stub all_but_b) tt "d"
                  eq_refl)
           ["milk"; " 2 &lt; 3 "; ""]).
  repeat constructor.
Defined.

(* ------------------------------------------------------------------ *)
(** *** Cleaning, and what the scanner passes over *)

(** X25: [cleanupHtml] takes the blank lines out wherever they are, also
    inside a code block.  Between two texts without line feed, lines of
    white space between two line feeds count as one line feed: the HTML
    is cleaned as if the texts were on two lines that follow each other.
    And two such lines with no [<p>] and no [<img] in them are left as
    they are, up to the white space at both ends. *)
Theorem cleanupHtml_removes_blank_lines :
  forall a ws b : string,
    all_chars not_LF a = true -> all_chars not_LF b = true ->
    all_chars isWhiteSpace ws = true ->
    cleanupHtml (a ++ nl ++ ws ++ nl ++ b) = cleanupHtml (a ++ nl ++ b)
    /\ (find "<p>" (a ++ nl ++ b) = None ->
        find "<img" (a ++ nl ++ b) = None ->
        cleanupHtml (a ++ nl ++ b) = trim (a ++ nl ++ b)).
Proof.
  intros a ws b Ha Hb Hws. split.
  - unfold cleanupHtml. cbv zeta.
    rewrite blank_lines_removed, single_line_feed_kept by assumption.
    reflexivity.
  - intros Hp Himg. unfold cleanupHtml. cbv zeta.
    rewrite single_line_feed_kept by assumption.
    unfold re_empty_p, re_img_close. cbn [seq].
    rewrite (replace_all_lit_none "<p>") by exact Hp.
    rewrite (replace_all_lit_none "<img") by exact Himg. reflexivity.
Qed.

Lemma cleanupHtml_removes_blank_lines_witness :
  cleanupHtml (code_line ("first();" ++ nl ++ "  " ++ nl ++ "second();"))
  = code_line ("first();" ++ nl ++ "second();").
Proof.
  destruct (cleanupHtml_removes_blank_lines
              "<pre><code>first();" "  " "second();</code></pre>"
              eq_refl eq_refl eq_refl) as [Hblank Hsame].
  change (code_line ("first();" ++ nl ++ "  " ++ nl ++ "second();"))
    with ("<pre><code>first();" ++ nl ++ "  " ++ nl
          ++ "second();</code></pre>").
  rewrite Hblank, (Hsame eq_refl eq_refl). reflexivity.
Defined.

(** X26: the scanner reads the opening tags without attributes only.  A
    line [<name attributes>content</name>], for the names h1 to h6,
    blockquote, li and p, with attributes and a content without [<] and
    line feed, matches no pattern and, as it starts with [<], is no text
    either: it gives no element and no block, whereas the same line
    without the attributes gives the element with that content. *)
Theorem tags_with_attributes_are_dropped :
  forall (W : Type) (P : platform W) (w : W) (name attrs content : string),
    In name line_tags ->
    has_char "<" attrs = false -> all_chars not_LF attrs = true ->
    has_char "<" content = false -> all_chars not_LF content = true ->
    parseHtmlElements (element_line_with name attrs content) = []
    /\ run (htmlToNotionBlocks P (element_line_with name attrs content)) w
       = (Returned [], State w []).
Proof.
  intros W P w name attrs content Hname Ha Hla Hc Hlc.
  assert (Hparse : parseHtmlElements (element_line_with name attrs content)
                   = []).
  { rewrite parse_one_line.
    - rewrite scan_line_with by assumption. reflexivity.
    - unfold element_line_with. simpl in Hname.
      repeat (destruct Hname as [<-|Hname]; [
        rewrite !all_chars_append, Hla, Hlc; reflexivity |]).
      contradiction.
    - unfold element_line_with. simpl in Hname.
      repeat (destruct Hname as [<-|Hname];
              [find_skips find_none_skip Ha Hc|]).
      contradiction. }
  split; [exact Hparse|].
  unfold run, htmlToNotionBlocks. rewrite Hparse. reflexivity.
Qed.

Lemma tags_with_attributes_are_dropped_witness :
  parseHtmlElements
    (element_line_with "h1" ("id=" ++ DQ ++ "title" ++ DQ) "Title")
  = [].
Proof.
  apply (tags_with_attributes_are_dropped unit (stub all_but_b) tt
           "h1" ("id=" ++ DQ ++ "title" ++ DQ) "Title");
    [simpl; auto | reflexivity..].
Defined.

(** X27: [cleanupHtml] closes every image tag once more, also one that
    is closed already, and the scanner reads the same image from it.  For
    a source and an alternative text without quotes, angle brackets and
    line feeds, the line [<p><img src=Qsrc Q alt=Qalt Q /></p>] (Q the
    double quote) is cleaned into the same line with [ / />] at the end
    of the tag, and the cleaned line is scanned into the one image
    element with the two attributes, as the line itself is. *)
Theorem cleanupHtml_keeps_the_image :
  forall src alt : string,
    all_chars value_char src = true ->
    all_chars value_char alt = true ->
    cleanupHtml (img_line src alt) = img_line_cleaned src alt
    /\ parseHtmlElements (cleanupHtml (img_line src alt))
       = [Element "img" "" (Some (ImgAttrs [("alt", alt); ("src", src)]))].
Proof.
  intros src alt Hsrc Halt.
  pose proof (cleanupHtml_img_line src alt Hsrc Halt) as Hclean.
  split; [exact Hclean|]. rewrite Hclean.
  destruct (value_chars src Hsrc) as (_ & Hs1 & _ & Hs2).
  destruct (value_chars alt Halt) as (_ & Ha1 & _ & Ha2).
  rewrite parse_one_line.
  - rewrite scan_line_img_cleaned by assumption. reflexivity.
  - unfold img_line_cleaned, DQ.
    rewrite !all_chars_append, Hs2, Ha2. reflexivity.
  - unfold img_line_cleaned, DQ. find_skips find_none_skip Hs1 Ha1.
Qed.

Lemma cleanupHtml_keeps_the_image_witness :
  cleanupHtml (img_line "http://h/a.png" "a")
  = img_line_cleaned "http://h/a.png" "a".
Proof.
  apply (cleanupHtml_keeps_the_image "http://h/a.png" "a" eq_refl eq_refl).
Defined.
